(** * Control plane of the multi-tenant dashboard: a shallow embedding

    The JavaScript sources are embedded function by function.

    Conventions used throughout.
    - A JavaScript string is a Rocq [string] that holds its UTF-8 bytes (the
      strings are well formed): [Buffer.from(s,"utf8")] is the list of the
      bytes of [s], and [s.length], which counts UTF-16 code units, is
      [js_length s].
    - A JavaScript number is the rational [Q] it holds; [NaN] is an absent
      number ([None]).  Where the sources compute with fractions (the
      average check of the daily document), the operations are those of
      IEEE-754 binary64 ([Float64]): the exact result, rounded to the
      nearest double.  Clocks, windows and counts are integers far below
      [2^53], on which the arithmetic of doubles is exact; they are in [Z].
    - A promise is the pair of the instant at which it settles and of the
      way it settles; [await] inside [try]/[catch] is a case analysis.
    - A value thrown by the code is a [thrown]; functions that may throw
      return a [completion].
    - The realtime database is external.  Its [transaction(fn)] primitive
      is taken with the contract the sources rely on (bootstrap-owner.js,
      lines 64-65): [fn] is applied to the current value, the result is
      committed unless [fn] returned [undefined], and the attempt is redone
      on fresh data when another writer got in between. *)

From Stdlib Require Import ZArith QArith Qround Qabs Qpower Lqa String Ascii List Bool Lia.
From stdpp Require Import gmap strings list fin_maps.

Set Warnings "-register-all".
Local Open Scope string_scope.
Local Open Scope Z_scope.

(* ===================================================================== *)
(** ** JavaScript values, strings and promises *)
(* ===================================================================== *)

Module Js.

(** What [JSON.parse] and a database snapshot can hold, plus [undefined]. *)
Inductive value : Type :=
| VUndef
| VNull
| VBool (b : bool)
| VNum (q : Q)
| VStr (s : string)
| VArr (xs : list value)
| VObj (fields : list (string * value)).

(** Values that the code throws: [new Error(msg)] and the builtin errors
    (with their [name]), [{status, msg}] and [{source, reason}]. *)
Inductive thrown : Type :=
| Err (name msg : string)
| StatusMsg (status : Z) (msg : string)
| SourceReason (source reason : string).

Inductive completion (A : Type) : Type :=
| Return (a : A)
| Throw (e : thrown).
Arguments Return {A} a.
Arguments Throw {A} e.

(** [x ? .. : ..], [!x], [x || y]. *)
Definition truthy (v : value) : bool :=
  match v with
  | VUndef | VNull => false
  | VBool b => b
  | VNum q => negb (Qeq_bool q 0)
  | VStr s => negb (String.eqb s "")
  | VArr _ | VObj _ => true
  end.

(** [v === true]. *)
Definition is_true_value (v : value) : bool :=
  match v with VBool true => true | _ => false end.

(** [v === "literal"]. *)
Definition is_string (lit : string) (v : value) : bool :=
  match v with VStr s => String.eqb s lit | _ => false end.

(** [v === null]. *)
Definition is_null (v : value) : bool :=
  match v with VNull => true | _ => false end.

(** [x ?? y]. *)
Definition nullish (v : value) : bool :=
  match v with VUndef | VNull => true | _ => false end.

Definition coalesce (v w : value) : value := if nullish v then w else v.

Definition chars (s : string) : list ascii := list_ascii_of_string s.

(** The UTF-16 code units that a byte of UTF-8 stands for: one for the
    first byte of a character of one, two or three bytes, two (a surrogate
    pair) for the first byte of a character of four bytes, none for a
    continuation byte. *)
Definition utf16_units (c : ascii) : nat :=
  let n := nat_of_ascii c in
  if (n <? 128)%nat then 1%nat
  else if (n <? 192)%nat then 0%nat
  else if (n <? 240)%nat then 1%nat
  else 2%nat.

(** [s.length]. *)
Definition js_length (s : string) : nat :=
  fold_right (fun c n => (utf16_units c + n)%nat) 0%nat (chars s).

(** A sample beyond ASCII: [n] times the Hebrew letter alef, U+05D0, of two
    bytes and one code unit each. *)
Fixpoint alefs (n : nat) : string :=
  match n with
  | O => EmptyString
  | S k => String (ascii_of_nat 215) (String (ascii_of_nat 144) (alefs k))
  end.

Definition is_digit (c : ascii) : bool :=
  let n := nat_of_ascii c in (48 <=? n)%nat && (n <=? 57)%nat.

(** [/[.#$\[\]\/]/.test(s)]. *)
Definition forbidden_char (c : ascii) : bool :=
  match c with
  | "."%char | "#"%char | "$"%char | "["%char | "]"%char | "/"%char => true
  | _ => false
  end.

Definition RTDB_FORBIDDEN (s : string) : bool := existsb forbidden_char (chars s).

(** [/^\d{4}-\d{2}-\d{2}$/.test(s)]. *)
Definition date_regex (s : string) : bool :=
  match chars s with
  | [y1; y2; y3; y4; d1; m1; m2; d2; a1; a2] =>
      is_digit y1 && is_digit y2 && is_digit y3 && is_digit y4 &&
      Ascii.eqb d1 "-" && is_digit m1 && is_digit m2 &&
      Ascii.eqb d2 "-" && is_digit a1 && is_digit a2
  | _ => false
  end.

(** The array index that a property key denotes, if any: a decimal numeral
    without a leading zero. *)
Definition digit_nat (c : ascii) : nat := nat_of_ascii c - 48.

Definition canonical_index (key : string) : option nat :=
  match chars key with
  | [] => None
  | [c] => if is_digit c then Some (digit_nat c) else None
  | c :: rest =>
      if is_digit c && negb (Ascii.eqb c "0") && forallb is_digit rest
      then Some (fold_left (fun acc x => (10 * acc + digit_nat x)%nat) (c :: rest) O)
      else None
  end.

Fixpoint assoc (key : string) (fields : list (string * value)) : value :=
  match fields with
  | [] => VUndef
  | (k, v) :: rest => if String.eqb k key then v else assoc key rest
  end.

(** [v[key]] where [v] is not [null] or [undefined]: the own properties of
    parsed JSON, that is the fields of an object, the elements of an array
    and the characters of a string (one byte each: the sources index a
    string only where a provider sends one in the place of an object, and
    nothing below depends on what such an index finds).  A parsed object
    keeps one binding per key; the first one of the list is the binding.
    Inherited properties ([length], methods) are not among the keys that
    the sources read. *)
Definition get_prop (v : value) (key : string) : value :=
  match v with
  | VObj fields => assoc key fields
  | VArr xs =>
      match canonical_index key with
      | Some i => nth i xs VUndef
      | None => VUndef
      end
  | VStr s =>
      match canonical_index key with
      | Some i => match String.get i s with Some c => VStr (String c "") | None => VUndef end
      | None => VUndef
      end
  | _ => VUndef
  end.

(** [v?.[key]]. *)
Definition opt_prop (v : value) (key : string) : value :=
  if nullish v then VUndef else get_prop v key.

(** What a handler sends: [res.status(s).json(j)]. *)
Record response : Type := Response {
  status : Z;
  json : value;
}.

Definition error_response (s : Z) (msg : string) : response :=
  Response s (VObj [("error", VStr msg)]).

(** [e.status || dflt] and [e.msg || dflt] for a caught [e]. *)
Definition status_or (e : thrown) (dflt : Z) : Z :=
  match e with
  | StatusMsg s _ => if s =? 0 then dflt else s
  | _ => dflt
  end.

Definition msg_or (e : thrown) (dflt : string) : string :=
  match e with
  | StatusMsg _ m => if String.eqb m "" then dflt else m
  | _ => dflt
  end.

(** A pending promise: when it settles (milliseconds after it was created,
    [None] when it never does) and how. *)
Record promise (A : Type) : Type := Promise {
  settles_after : option Z;
  outcome : completion A;
}.
Arguments Promise {A} _ _.
Arguments settles_after {A} _.
Arguments outcome {A} _.

(** helpers.js, [withTimeout(promise, ms, msg)]: the promise raced against a
    timer that rejects with [new Error(msg)].  The promise exists before
    the timer is armed (the read is issued in the argument of the call), so
    a promise that settles no later than the instant at which the timer is
    due is served first: it wins the race, the tie included. *)
Definition withTimeout {A} (p : promise A) (ms : Z) (msg : string) : completion A :=
  match settles_after p with
  | Some t => if t <=? ms then outcome p else Throw (Err "Error" msg)
  | None => Throw (Err "Error" msg)
  end.

End Js.

Import Js.

(* ===================================================================== *)
(** ** Numbers: the arithmetic of IEEE-754 binary64 *)
(* ===================================================================== *)

Module Float64.

Local Open Scope Q_scope.

(** A value of binary64 other than [NaN]: a finite double, as the rational
    it holds (the two zeros are one), or an infinity. *)
Inductive number : Type :=
| Finite (q : Q)
| Infinite (negative : bool).

Definition pow2 (e : Z) : Q := 2 ^ e.

(** The integer [k] with [2^k <= a < 2^(k+1)], for a positive [a]. *)
Definition ilog2 (a : Q) : Z :=
  let k := (Z.log2 (Qnum a) - Z.log2 (Zpos (Qden a)))%Z in
  if Qle_bool (pow2 k) a then k else (k - 1)%Z.

(** The integer nearest to [x], the even one at a tie. *)
Definition nearest_even (x : Q) : Z :=
  let f := Qfloor x in
  match Qcompare (x - inject_Z f) (1 # 2) with
  | Lt => f
  | Gt => (f + 1)%Z
  | Eq => if Z.even f then f else (f + 1)%Z
  end.

(** The rounding of every operation: to the nearest double, the one with
    the even significand at a tie.  The finite doubles are the [m * 2^e]
    with [|m| < 2^53] and [-1074 <= e <= 971]; a result that rounds to
    [2^1024] or beyond is an infinity.  The rational is kept in lowest
    terms. *)
Definition round (x : Q) : number :=
  if Qeq_bool x 0 then Finite 0
  else
    let a := Qabs x in
    let e := Z.max (ilog2 a - 52) (-1074) in
    let r := inject_Z (nearest_even (a / pow2 e)) * pow2 e in
    if Qle_bool (pow2 1024) r then Infinite (negb (Qle_bool 0 x))
    else Finite (Qred (if Qle_bool 0 x then r else - r)).

(** [x / y] on finite doubles, [y] not zero. *)
Definition div (x y : Q) : number := round (x / y).

(** [x * k] and [x / k] for a positive finite [k]. *)
Definition times (x : number) (k : Q) : number :=
  match x with
  | Finite q => round (q * k)
  | Infinite _ => x
  end.

Definition over (x : number) (k : Q) : number :=
  match x with
  | Finite q => round (q / k)
  | Infinite _ => x
  end.

(** [Math.round(x)]: the nearest integer, a tie going up; it is a double
    whenever [x] is. *)
Definition Math_round (x : number) : number :=
  match x with
  | Finite q => Finite (inject_Z (Qfloor (q + (1 # 2))))
  | Infinite _ => x
  end.

End Float64.

(* ===================================================================== *)
(** ** The language's [Date], on UTC *)
(* ===================================================================== *)

Module Dates.

Definition MS_PER_DAY : Z := 86400000.

(** Days from 1970-01-01 to the civil date [y]-[m]-[d] of the proleptic
    Gregorian calendar.  [d] may run past the end of the month, as the
    [MakeDay] of the language allows. *)
Definition days_from_civil (y m d : Z) : Z :=
  let y' := if m <=? 2 then y - 1 else y in
  let era := y' / 400 in
  let yoe := y' - era * 400 in
  let mp := if 2 <? m then m - 3 else m + 9 in
  let doy := (153 * mp + 2) / 5 + d - 1 in
  let doe := yoe * 365 + yoe / 4 - yoe / 100 + doy in
  era * 146097 + doe - 719468.

(** The civil date of a day number: year, month (1-12), day (1-31). *)
Definition civil_from_days (z : Z) : Z * Z * Z :=
  let z := z + 719468 in
  let era := z / 146097 in
  let doe := z - era * 146097 in
  let yoe := (doe - doe / 1460 + doe / 36524 - doe / 146096) / 365 in
  let doy := doe - (365 * yoe + yoe / 4 - yoe / 100) in
  let mp := (5 * doy + 2) / 153 in
  let d := doy - (153 * mp + 2) / 5 + 1 in
  let m := if mp <? 10 then mp + 3 else mp - 9 in
  let y := yoe + era * 400 in
  (if m <=? 2 then y + 1 else y, m, d).

Definition digit_val (c : ascii) : Z := Z.of_nat (nat_of_ascii c) - 48.

(** [new Date(s + "T12:00:00Z").getTime()] for an [s] of the shape
    [YYYY-MM-DD]; [None] is the time value [NaN] of an invalid date.  The
    runtime (V8) takes a month in 1-12 and a day in 1-31 and lets the day
    overflow into the next month.  Every caller hands over a string of that
    shape; for any other string the date is taken to be invalid. *)
Definition noon_of (s : string) : option Z :=
  match chars s with
  | [y1; y2; y3; y4; _; m1; m2; _; d1; d2] =>
      if date_regex s then
        let y := 1000 * digit_val y1 + 100 * digit_val y2 + 10 * digit_val y3 + digit_val y4 in
        let m := 10 * digit_val m1 + digit_val m2 in
        let d := 10 * digit_val d1 + digit_val d2 in
        if (1 <=? m) && (m <=? 12) && (1 <=? d) && (d <=? 31)
        then Some (days_from_civil y m 1 * MS_PER_DAY + (d - 1) * MS_PER_DAY + 12 * 3600000)
        else None
      else None
  | _ => None
  end.

Definition digit_char (n : Z) : ascii := ascii_of_nat (Z.to_nat (48 + n mod 10)).

(** [n] in decimal on [width] digits, zero-padded. *)
Fixpoint pad (width : nat) (n : Z) : string :=
  match width with
  | O => ""
  | S w => pad w (n / 10) ++ String (digit_char n) ""
  end.

(** The year of [toISOString]: four digits, or a sign and six digits. *)
Definition iso_year (y : Z) : string :=
  if (0 <=? y) && (y <=? 9999) then pad 4 y
  else (if y <? 0 then "-" else "+") ++ pad 6 (Z.abs y).

(** [new Date(t).toISOString()]. *)
Definition toISOString (t : Z) : string :=
  let day := t / MS_PER_DAY in
  let ms := t mod MS_PER_DAY in
  let '(y, m, d) := civil_from_days day in
  iso_year y ++ "-" ++ pad 2 m ++ "-" ++ pad 2 d ++ "T" ++
  pad 2 (ms / 3600000) ++ ":" ++ pad 2 (ms / 60000 mod 60) ++ ":" ++
  pad 2 (ms / 1000 mod 60) ++ "." ++ pad 3 (ms mod 1000) ++ "Z".

(** [s.slice(0, 10)]. *)
Definition slice10 (s : string) : string := substring 0 10 s.

(** [getUTCDay()]: 0 is Sunday. *)
Definition getUTCDay (t : Z) : Z := (t / MS_PER_DAY + 4) mod 7.

(** [getUTCMonth()]: 0 is January. *)
Definition getUTCMonth (t : Z) : Z :=
  let '(_, m, _) := civil_from_days (t / MS_PER_DAY) in m - 1.

(** backfill, [dateRange]: the body of [while (d <= end)], at most [fuel]
    times.  [setUTCDate(getUTCDate() + 1)] moves a UTC time by one day. *)
Fixpoint dateRange_loop (fuel : nat) (d end_ : Z) : list string :=
  match fuel with
  | O => []
  | S fuel' =>
      if d <=? end_
      then slice10 (toISOString d) :: dateRange_loop fuel' (d + MS_PER_DAY) end_
      else []
  end.

(** The number of turns after which [d <= end] fails. *)
Definition turns (d end_ : Z) : nat := Z.to_nat ((end_ - d) / MS_PER_DAY + 1).

(** [dateRange(from, to)]; a comparison with an invalid date is false. *)
Definition dateRange (from to : string) : list string :=
  match noon_of from, noon_of to with
  | Some d, Some end_ => dateRange_loop (turns d end_) d end_
  | _, _ => []
  end.

(** The date that follows [date]. *)
Definition next_day (date : string) : option string :=
  option_map (fun t => slice10 (toISOString (t + MS_PER_DAY))) (noon_of date).

(** daily-builder, [getYesterdayUTC()], at the instant [now]. *)
Definition getYesterdayUTC (now : Z) : string := slice10 (toISOString (now - MS_PER_DAY)).

End Dates.

(* ===================================================================== *)
(** ** lib/analytics/sources.js (unnamed/part_006): the upstream fetchers and
    the calendar *)
(* ===================================================================== *)

Module Sources.

Inductive provider : Type := Beecomm | Tabit | Weather | Oref.

(** What [fetch] resolves to: the status line and the body, which is JSON
    text ([Some]) or not ([None]). *)
Record http_response : Type := HttpResponse {
  http_status : Z;
  http_body : option value;
}.

(** [res.ok]. *)
Definition ok (r : http_response) : bool :=
  (200 <=? http_status r) && (http_status r <=? 299).

(** How a provider behaves for one request: it answers after some
    milliseconds, the connection fails after some milliseconds, or nothing
    comes back. *)
Inductive upstream : Type :=
| Responds (ms : Z) (status : Z) (body : option value)
| NetworkError (ms : Z)
| Silent.

Definition network : Type := provider -> upstream.

Definition AbortError : thrown := Err "AbortError" "This operation was aborted".

(** [fetchWithTimeout(url, options, ms)]: the abort timer fires at [ms]. *)
Definition fetchWithTimeout (u : upstream) (ms : Z) : completion http_response :=
  match u with
  | Responds t st body => if t <? ms then Return (HttpResponse st body) else Throw AbortError
  | NetworkError t => if t <? ms then Throw (Err "TypeError" "fetch failed") else Throw AbortError
  | Silent => Throw AbortError
  end.

(** [res.json()]: the first call parses the body; the body is consumed, and
    a later call on the same response rejects. *)
Definition json (r : http_response) (consumed : bool) : completion value :=
  if consumed then Throw (Err "TypeError" "Body is unusable")
  else match http_body r with
       | Some v => Return v
       | None => Throw (Err "SyntaxError" "Unexpected token")
       end.

(** [e?.name === "AbortError" ? "timeout" : "network"]. *)
Definition reason_of (e : thrown) : string :=
  match e with
  | Err name _ => if String.eqb name "AbortError" then "timeout" else "network"
  | _ => "network"
  end.

(** A provider that does not answer with a success status before the
    timer of [ms] milliseconds fires, and the reason code of that failure. *)
Definition fails (u : upstream) (ms : Z) : bool :=
  match u with
  | Responds t st _ => negb ((t <? ms) && (200 <=? st) && (st <=? 299))
  | NetworkError _ => true
  | Silent => true
  end.

(** The decimal numeral of a status code. *)
Fixpoint digits (fuel : nat) (n : Z) (acc : string) : string :=
  match fuel with
  | O => acc
  | S f =>
      let acc' := String (Dates.digit_char n) acc in
      if n / 10 =? 0 then acc' else digits f (n / 10) acc'
  end.

Definition decimal (n : Z) : string :=
  if n <? 0 then "-" ++ digits (Z.to_nat (Z.abs n) + 1) (Z.abs n) ""
  else digits (Z.to_nat n + 1) n "".

(** [`http_${res.status}`]. *)
Definition http_reason (r : http_response) : string := "http_" ++ decimal (http_status r).

Definition failure_reason (u : upstream) (ms : Z) : string :=
  match u with
  | Responds t st _ => if t <? ms then "http_" ++ decimal st else "timeout"
  | NetworkError t => if t <? ms then "network" else "timeout"
  | Silent => "timeout"
  end.

(** [raw.k] throws on [null]. *)
Definition null_access : thrown := Err "TypeError" "Cannot read properties of null".

Record beecomm_daily : Type := BeecommDaily {
  revenue_total : option Q;
  tickets : option Q;
  revenue_dine_in : option Q;
  revenue_delivery : option Q;
  revenue_takeaway : option Q;
  hourly : list (string * Q);
}.

Record staffing_doc : Type := StaffingDoc { total_hours : option Q }.

Record weather_doc : Type := WeatherDoc {
  rain_mm : Q;
  is_rain_day : bool;
  temp_avg : Q;
  wind_avg : Q;
}.

Record alerts_doc : Type := AlertsDoc {
  alert_count : Z;
  alert_minutes : Z;
  is_alert_day : bool;
}.

Record calendar_doc : Type := CalendarDoc {
  dow : option Z;
  weekend : bool;
  month : option Z;
  holiday : bool;
  holiday_eve : bool;
  new_year_eve : bool;
}.

(** The hours of [extractHourly], each with the key that [parseInt(h, 10)]
    indexes. *)
Definition HOURS : list (string * string) :=
  [("08", "8"); ("09", "9"); ("10", "10"); ("11", "11"); ("12", "12"); ("13", "13");
   ("14", "14"); ("15", "15"); ("16", "16"); ("17", "17"); ("18", "18"); ("19", "19");
   ("20", "20"); ("21", "21")].

(** The area names are kept as the bytes of their UTF-8 text; one such text
    occurs in another exactly when its bytes do. *)
Definition HADERA_AREAS : list string :=
  ["חדרה"; "קרית ים"; "קרית ביאליק"; "בנימינה"; "זכרון יעקב"; "עמיקם"; "עין עירון"; "קציר"].

Section Fetchers.

(** [Number(v)] of the language for a [v] that is neither a number nor
    nullish (a string, a boolean, an array, an object); [None] is [NaN]. *)
Variable Number_of : value -> option Q.

(** The configured [TABIT_API_KEY], if any. *)
Variable TABIT_API_KEY : option string.

(** [numOrNull(v)]: [(v != null && !isNaN(Number(v))) ? Number(v) : null]. *)
Definition numOrNull (v : value) : option Q :=
  match v with
  | VUndef | VNull => None
  | VNum q => Some q
  | _ => Number_of v
  end.

Definition extractHourly (hourlyRaw : value) : list (string * Q) :=
  List.map (fun '(h, n) =>
              let val := coalesce (coalesce (opt_prop hourlyRaw h)
                                            (opt_prop hourlyRaw (h ++ ":00")))
                                  (opt_prop hourlyRaw n) in
              (h, default 0%Q (numOrNull val)))
           HOURS.

(** Every fetcher yields the providers it contacted and its completion. *)
Definition fetchBeecommDaily (net : network) (date : string)
  : list provider * completion beecomm_daily :=
  ([Beecomm],
   match fetchWithTimeout (net Beecomm) 8000 with
   | Throw e => Throw (SourceReason "beecomm" (reason_of e))
   | Return res =>
       if negb (ok res) then Throw (SourceReason "beecomm" (http_reason res))
       else
         match json res false with
         | Throw e => Throw e
         | Return raw =>
             if nullish raw then Throw null_access
             else
               let field a b := coalesce (get_prop raw a) (get_prop raw b) in
               Return
                 {| revenue_total := numOrNull (field "total_sales" "totalSales");
                    tickets := numOrNull (field "transaction_count" "transactionCount");
                    revenue_dine_in :=
                      numOrNull (coalesce (field "dine_in_sales" "dineInSales") VNull);
                    revenue_delivery :=
                      numOrNull (coalesce (field "delivery_sales" "deliverySales") VNull);
                    revenue_takeaway :=
                      numOrNull (coalesce (field "takeaway_sales" "takeawaySales") VNull);
                    hourly := extractHourly (coalesce (field "hourly" "hourlyBreakdown") VNull) |}
         end
   end).

(** [!process.env.TABIT_API_KEY]. *)
Definition tabit_unconfigured : bool :=
  match TABIT_API_KEY with
  | Some k => String.eqb k ""
  | None => true
  end.

(** The value is [null] ([None]) or [{total_hours}]. *)
Definition fetchTabitHours (net : network) (date : string)
  : list provider * completion (option staffing_doc) :=
  if tabit_unconfigured then ([], Return None)
  else
    ([Tabit],
     match fetchWithTimeout (net Tabit) 8000 with
     | Throw _ => Return None
     | Return res =>
         if negb (ok res) then Return None
         else
           match json res false with
           | Throw e => Throw e
           | Return raw =>
               if nullish raw then Throw null_access
               else Return (Some {| total_hours :=
                                      numOrNull (coalesce (get_prop raw "total_hours")
                                                          (get_prop raw "totalHours")) |})
           end
     end).

Definition fetchWeather (net : network) (date : string)
  : list provider * completion weather_doc :=
  ([Weather],
   match fetchWithTimeout (net Weather) 6000 with
   | Throw e => Throw (SourceReason "weather" (reason_of e))
   | Return res =>
       if negb (ok res) then Throw (SourceReason "weather" (http_reason res))
       else
         match json res false with
         | Throw e => Throw e
         | Return raw =>
             if nullish raw then Throw null_access
             else
               let first k := opt_prop (opt_prop (get_prop raw "daily") k) "0" in
               let rain := default 0%Q (numOrNull (first "precipitation_sum")) in
               Return {| rain_mm := rain;
                         is_rain_day := negb (Qle_bool rain 1);
                         temp_avg := default 0%Q (numOrNull (first "temperature_2m_mean"));
                         wind_avg := default 0%Q (numOrNull (first "windspeed_10m_max")) |}
         end
   end).

(** [Array.isArray(v)]. *)
Definition isArray (v : value) : bool :=
  match v with VArr _ => true | _ => false end.

(** The predicate of the [filter] of lines 136-140.  Reading a property of
    a [null] element throws, and so does calling [slice] or [includes] on a
    value that has no such method. *)
Definition no_method : thrown := Err "TypeError" "is not a function".

Definition includes (area : value) (h : string) : completion bool :=
  match area with
  | VStr s => Return (match String.index 0 h s with Some _ => true | None => false end)
  | VArr xs => Return (existsb (is_string h) xs)
  | _ => Throw no_method
  end.

Fixpoint some_includes (area : value) (hs : list string) : completion bool :=
  match hs with
  | [] => Return false
  | h :: rest =>
      match includes area h with
      | Throw e => Throw e
      | Return true => Return true
      | Return false => some_includes area rest
      end
  end.

Definition alert_of_day (date : string) (a : value) : completion bool :=
  if nullish a then Throw null_access
  else
    match coalesce (coalesce (get_prop a "alertDate") (get_prop a "date")) (VStr "") with
    | VStr s =>
        if String.eqb (Dates.slice10 s) date
        then some_includes (coalesce (coalesce (get_prop a "data") (get_prop a "area")) (VStr ""))
                           HADERA_AREAS
        else Return false
    | VArr _ => Return false
    | _ => Throw no_method
    end.

Fixpoint filter_alerts (date : string) (alerts : list value) : completion (list value) :=
  match alerts with
  | [] => Return []
  | a :: rest =>
      match alert_of_day date a with
      | Throw e => Throw e
      | Return keep =>
          match filter_alerts date rest with
          | Throw e => Throw e
          | Return kept => Return (if keep then a :: kept else kept)
          end
      end
  end.

(** [fetchOrefAlerts]: line 134 calls [res.json()] once for the test and,
    when that is an array, once more for the value. *)
Definition fetchOrefAlerts (net : network) (date : string)
  : list provider * completion alerts_doc :=
  ([Oref],
   match fetchWithTimeout (net Oref) 4000 with
   | Throw e => Throw (SourceReason "oref" (reason_of e))
   | Return res =>
       if negb (ok res) then Throw (SourceReason "oref" (http_reason res))
       else
         match json res false with
         | Throw e => Throw e
         | Return probe =>
             let alerts : completion (list value) :=
               if isArray probe
               then match json res true with
                    | Throw e => Throw e
                    | Return (VArr xs) => Return xs
                    | Return _ => Throw no_method
                    end
               else Return [] in
             match alerts with
             | Throw e => Throw e
             | Return xs =>
                 match filter_alerts date xs with
                 | Throw e => Throw e
                 | Return day =>
                     Return {| alert_count := Z.of_nat (length day);
                               alert_minutes := Z.of_nat (length day) * 10;
                               is_alert_day := 0 <? Z.of_nat (length day) |}
                 end
             end
         end
   end).

End Fetchers.

Definition IL_HOLIDAYS : list string :=
  ["2024-10-02"; "2024-10-03"; "2024-10-11"; "2024-10-16"; "2024-10-17"; "2024-10-23";
   "2024-10-24"; "2024-12-25"; "2024-12-26"; "2024-12-27"; "2024-12-28"; "2024-12-29";
   "2024-12-30"; "2024-12-31"; "2025-01-01"; "2025-03-13"; "2025-03-14"; "2025-04-12";
   "2025-04-13"; "2025-04-14"; "2025-04-15"; "2025-04-16"; "2025-04-17"; "2025-04-18";
   "2025-04-19"; "2025-05-05"; "2025-05-12"; "2025-05-13"; "2025-05-16"; "2025-06-01";
   "2025-06-02"; "2025-08-03"; "2025-09-22"; "2025-09-23"; "2025-10-01"; "2025-10-06";
   "2025-10-07"; "2025-10-08"; "2025-10-09"; "2025-10-10"; "2025-10-11"; "2025-10-12";
   "2025-10-13"; "2025-10-14"; "2025-12-14"; "2025-12-15"; "2025-12-16"; "2025-12-17";
   "2025-12-18"; "2025-12-19"; "2025-12-20"; "2025-12-21"; "2026-03-02"; "2026-03-03";
   "2026-03-31"; "2026-04-01"; "2026-04-02"; "2026-04-03"; "2026-04-04"; "2026-04-05";
   "2026-04-06"; "2026-04-07"; "2026-04-20"; "2026-04-28"; "2026-04-29"; "2026-05-19";
   "2026-05-20"; "2026-07-23"; "2026-09-10"; "2026-09-11"; "2026-09-19"; "2026-09-24";
   "2026-09-25"; "2026-09-26"; "2026-09-27"; "2026-09-28"; "2026-09-29"; "2026-09-30";
   "2026-10-01"; "2026-10-02"].

Definition IL_HOLIDAY_EVES : list string :=
  ["2024-10-01"; "2024-10-10"; "2024-10-15"; "2024-10-22"; "2025-03-12"; "2025-04-11";
   "2025-04-17"; "2025-05-11"; "2025-05-31"; "2025-08-02"; "2025-09-21"; "2025-09-30";
   "2025-10-05"; "2025-10-12"; "2026-03-01"; "2026-03-30"; "2026-04-05"; "2026-04-27";
   "2026-05-18"; "2026-07-22"; "2026-09-09"; "2026-09-18"; "2026-09-23"; "2026-09-30"].

Definition NEW_YEAR_EVES : list string :=
  ["2024-12-31"; "2025-12-31"; "2026-12-31"].

(** [set.has(s)]. *)
Definition has (table : list string) (s : string) : bool := existsb (String.eqb s) table.

(** [buildCalendar(date)]; the day of the week and the month of an invalid
    date are [NaN]. *)
Definition buildCalendar (date : string) : calendar_doc :=
  let d := Dates.noon_of date in
  let dow := option_map Dates.getUTCDay d in
  {| dow := dow;
     weekend := match dow with Some n => (n =? 5) || (n =? 6) | None => false end;
     month := option_map (fun t => Dates.getUTCMonth t + 1) d;
     holiday := has IL_HOLIDAYS date;
     holiday_eve := has IL_HOLIDAY_EVES date || has NEW_YEAR_EVES date;
     new_year_eve := has NEW_YEAR_EVES date |}.

End Sources.

(* ===================================================================== *)
(** ** lib/analytics/builder.js (unnamed/part_005): the daily document *)
(* ===================================================================== *)

Module Builder.

Import Sources.

Record sources_status : Type := SourcesStatus {
  src_beecomm : string;
  src_weather : string;
  src_oref : string;
  src_tabit : string;
}.

Record meta_doc : Type := MetaDoc {
  createdAt : Z;
  builtAt : string;
  version : string;
  meta_tenantId : string;
  branchId : string;
  sources : sources_status;
  sourceVersions : list (string * string);
}.

Record daily_doc : Type := DailyDoc {
  doc_revenue_total : Q;
  doc_tickets : Q;
  avg_check : Float64.number;
  doc_revenue_dine_in : option Q;
  doc_revenue_delivery : option Q;
  doc_revenue_takeaway : option Q;
  doc_hourly : list (string * Q);
  weather : option weather_doc;
  alerts : option alerts_doc;
  calendar : calendar_doc;
  staffing : staffing_doc;
  meta : meta_doc;
}.

Definition BRANCH_ID : string := "main".

(** Line 155: [tickets > 0 ? Math.round((revenue_total / tickets) * 100) / 100 : 0],
    each operation in binary64. *)
Definition average_check (revenue_total tickets : Q) : Float64.number :=
  if negb (Qle_bool tickets 0)
  then Float64.over
         (Float64.Math_round (Float64.times (Float64.div revenue_total tickets) 100)) 100
  else Float64.Finite 0.

(** [settled.status === "fulfilled" ? "ok" : "missing"]. *)
Definition status_of {A} (settled : completion A) : string :=
  match settled with Return _ => "ok" | Throw _ => "missing" end.

(** [settled.status === "fulfilled" ? settled.value : null]. *)
Definition value_or_null {A} (settled : completion A) : option A :=
  match settled with Return v => Some v | Throw _ => None end.

Section Build.

Variable Number_of : value -> option Q.
Variable TABIT_API_KEY : option string.

(** [buildDailyDoc(tenantId, date)].  [now] is the clock at line 174-175.
    The result carries the providers that were contacted. *)
Definition buildDailyDoc (net : network) (now : Z) (tenantId date : string)
  : list provider * completion (string * daily_doc) :=
  let '(c0, required) := fetchBeecommDaily Number_of net date in
  match required with
  | Throw e => (c0, Throw e)
  | Return beecomm =>
      let '(c1, tabit) := fetchTabitHours Number_of TABIT_API_KEY net date in
      let '(c2, weather) := fetchWeather Number_of net date in
      let '(c3, oref) := fetchOrefAlerts net date in
      let staffing :=
        match tabit with
        | Return v => default {| total_hours := None |} v
        | Throw _ => {| total_hours := None |}
        end in
      let weatherDoc := value_or_null weather in
      let alertsDoc := value_or_null oref in
      let calendar := buildCalendar date in
      let revenue_total := default 0%Q (revenue_total beecomm) in
      let tickets := default 0%Q (tickets beecomm) in
      ((c0 ++ c1 ++ c2 ++ c3)%list,
       Return
         ("tenants/" ++ tenantId ++ "/analytics/daily/" ++ BRANCH_ID ++ "/" ++ date,
          {| doc_revenue_total := revenue_total;
             doc_tickets := tickets;
             avg_check := average_check revenue_total tickets;
             doc_revenue_dine_in := revenue_dine_in beecomm;
             doc_revenue_delivery := revenue_delivery beecomm;
             doc_revenue_takeaway := revenue_takeaway beecomm;
             doc_hourly := hourly beecomm;
             weather := weatherDoc;
             alerts := alertsDoc;
             calendar := calendar;
             staffing := staffing;
             meta :=
               {| createdAt := now;
                  builtAt := Dates.toISOString now;
                  version := "1.0.0";
                  meta_tenantId := tenantId;
                  branchId := BRANCH_ID;
                  sources :=
                    {| src_beecomm := "ok";
                       src_weather := status_of weather;
                       src_oref := status_of oref;
                       src_tabit :=
                         match tabit with
                         | Return (Some _) => "ok"
                         | _ => "missing"
                         end |};
                  sourceVersions :=
                    [("beecomm", "v1"); ("oref", "v1"); ("weather", "open-meteo")] |} |}))
  end.

End Build.

(** Sample providers: the required one answers 503; the weather one answers
    too late while the others answer well. *)
Definition net_beecomm_503 : network :=
  fun p => match p with Beecomm => Responds 120 503 None | _ => Silent end.

Definition net_weather_late : network :=
  fun p =>
    match p with
    | Beecomm => Responds 120 200
                   (Some (VObj [("total_sales", VNum 1000); ("transaction_count", VNum 7)]))
    | Tabit => Responds 90 200 (Some (VObj [("total_hours", VNum 42)]))
    | Weather => Responds 7000 200 None
    | Oref => Responds 50 200 (Some (VObj []))
    end.

(** A [Number] that finds every non-number to be [NaN]; the samples hold
    numbers only. *)
Definition numbers_only : value -> option Q := fun _ => None.

(** A day for which the required provider reports these two figures, and
    the other providers nothing. *)
Definition net_figures (total_sales transaction_count : Q) : network :=
  fun p =>
    match p with
    | Beecomm => Responds 120 200
                   (Some (VObj [("total_sales", VNum total_sales);
                                ("transaction_count", VNum transaction_count)]))
    | _ => Silent
    end.

(** The double that the literal [0.015] denotes, a little below 0.015. *)
Definition double_0_015 : Q := (1080863910568919 # 72057594037927936)%Q.

End Builder.

(* ===================================================================== *)
(** ** The tenant store (the realtime database behind lib/adminSdk.js) *)
(* ===================================================================== *)

Module Store.

(** [tenants/{tenantId}/analytics/_lock/backfill]. *)
Record lock_record : Type := LockRecord {
  lockId : string;
  expiresAt : Z;
}.

(** [tenants/{tenantId}/audit/roles/{key}]. *)
Record audit_entry : Type := AuditEntry {
  ts : Z;
  actorUid : string;
  targetUid : string;
  role : string;
  note : option string;
}.

(** The sub-tree of one tenant.  The database has no [null] leaves: an
    absent key reads as [null]. *)
Record tenant : Type := Tenant {
  members : gmap string value;
  roles : gmap string value;
  audit : list audit_entry;
  lock : option lock_record;
  daily : gmap string Builder.daily_doc;   (* [analytics/daily/main/{date}] *)
}.

Definition empty_tenant : tenant :=
  {| members := ∅; roles := ∅; audit := []; lock := None; daily := ∅ |}.

Abbreviation db := (gmap string tenant).

Definition tenant_of (d : db) (t : string) : tenant := default empty_tenant (d !! t).

(** [snap.val()] of a child of a map node. *)
Definition val_at (m : gmap string value) (k : string) : value := default VNull (m !! k).

(** How one database operation behaves, apart from the data: it answers
    after some milliseconds, fails after some milliseconds, or hangs. *)
Inductive io : Type :=
| Answers (ms : Z)
| Fails (ms : Z) (msg : string)
| Hangs.

(** [ref.get()] as a promise of the value found at the path. *)
Definition get (behaviour : io) (found : value) : promise value :=
  match behaviour with
  | Answers ms => Promise (Some ms) (Return found)
  | Fails ms msg => Promise (Some ms) (Throw (Err "Error" msg))
  | Hangs => Promise None (Return found)
  end.

(** [ref.transaction(fn)] run to completion without interference: either
    the call throws and nothing is written, or [fn] is applied to the current
    value and its result is committed, unless it is [undefined] ([None]).
    The result is the [committed] flag and the value left in the store. *)
Definition transaction {V : Type} (fault : option thrown) (fn : V -> option V) (current : V)
  : completion bool * V :=
  match fault with
  | Some e => (Throw e, current)
  | None =>
      match fn current with
      | Some next => (Return true, next)
      | None => (Return false, current)
      end
  end.

Definition with_roles (t : tenant) (r : gmap string value) : tenant :=
  {| members := members t; roles := r; audit := audit t; lock := lock t; daily := daily t |}.

Definition with_lock (t : tenant) (l : option lock_record) : tenant :=
  {| members := members t; roles := roles t; audit := audit t; lock := l; daily := daily t |}.

(** [db.ref(path).set(doc)] on the path of a daily document: the document
    replaces what was there. *)
Definition with_daily (t : tenant) (date : string) (doc : Builder.daily_doc) : tenant :=
  {| members := members t; roles := roles t; audit := audit t; lock := lock t;
     daily := <[date := doc]> (daily t) |}.

(** The multi-path [db.ref().update({members/uid: flag, audit/roles/key: entry})];
    a [null] flag removes the member. *)
Definition with_member_and_audit (t : tenant) (uid : string) (flag : value) (e : audit_entry)
  : tenant :=
  {| members := if is_null flag then delete uid (members t) else <[uid := flag]> (members t);
     roles := roles t;
     audit := (audit t ++ [e])%list;
     lock := lock t;
     daily := daily t |}.

Definition update_tenant (d : db) (tid : string) (f : tenant -> tenant) : db :=
  <[tid := f (tenant_of d tid)]> d.

End Store.

Import Store.

(* ===================================================================== *)
(** ** lib/helpers.js: role ranks and the tenant access check *)
(* ===================================================================== *)

Module Helpers.

(** The own properties of [ROLE_RANK]: the rank under each of its four
    keys, [None] under any other key. *)
Definition ROLE_RANK (r : string) : option Z :=
  if String.eqb r "owner" then Some 4
  else if String.eqb r "manager" then Some 3
  else if String.eqb r "shift_manager" then Some 2
  else if String.eqb r "viewer" then Some 1
  else None.

(** [VALID_ROLES.has(v)]. *)
Definition VALID_ROLES_has (v : value) : bool :=
  match v with
  | VStr r =>
      String.eqb r "owner" || String.eqb r "manager" ||
      String.eqb r "shift_manager" || String.eqb r "viewer"
  | _ => false
  end.

(** [ROLE_RANK] is an object literal, so [ROLE_RANK[r]] also finds what the
    object inherits from [Object.prototype]: eleven builtin functions and,
    under [__proto__], the prototype itself.  In a comparison such a value
    stands for the string that [ToPrimitive] gives for it: the text of the
    function as Node prints it, and [[object Object]] for the prototype. *)
Definition native (name : string) : string := "function " ++ name ++ "() { [native code] }".

Definition Object_prototype (key : string) : option string :=
  if String.eqb key "constructor" then Some (native "Object")
  else if String.eqb key "__proto__" then Some "[object Object]"
  else if existsb (String.eqb key)
            ["__defineGetter__"; "__defineSetter__"; "hasOwnProperty"; "__lookupGetter__";
             "__lookupSetter__"; "isPrototypeOf"; "propertyIsEnumerable"; "toString";
             "valueOf"; "toLocaleString"]
  then Some (native key)
  else None.

(** What [ROLE_RANK[r] || dflt] is: a number, or an inherited value (as its
    string).  The four ranks and the inherited values are all truthy. *)
Inductive property : Type :=
| Rank (n : Z)
| Inherited (text : string).

Definition rank_or (r : string) (dflt : Z) : property :=
  match ROLE_RANK r with
  | Some n => Rank n
  | None =>
      match Object_prototype r with
      | Some text => Inherited text
      | None => Rank dflt
      end
  end.

(** [a >= b]: two numbers by value, two strings by their code units (all
    of them ASCII here); a string that is no numeral against a number is
    [NaN] against a number, and the comparison is false. *)
Definition ge (a b : property) : bool :=
  match a, b with
  | Rank x, Rank y => y <=? x
  | Inherited s, Inherited t => negb (String.ltb s t)
  | _, _ => false
  end.

(** [hasRole(role, minRole)]: [(ROLE_RANK[role] || 0) >= (ROLE_RANK[minRole] || 999)]. *)
Definition hasRole (role minRole : string) : bool :=
  ge (rank_or role 0) (rank_or minRole 999).

(** [!id || typeof id !== "string" || id.length > 128]. *)
Definition bad_id (v : value) : bool :=
  match v with
  | VStr s => negb (truthy v) || (128 <? Z.of_nat (js_length s))
  | _ => true
  end.

Definition str_of (v : value) : string :=
  match v with VStr s => s | _ => "" end.

(** The behaviour of the two reads of one call. *)
Record reads : Type := Reads {
  member_io : io;
  role_io : io;
}.

Definition unavailable : thrown := StatusMsg 503 "authorization check unavailable".

Definition requireTenantAccess (d : db) (r : reads) (uid tenantId minRole : value)
  : completion string :=
  if bad_id uid then Throw (StatusMsg 400 "invalid uid")
  else if bad_id tenantId then Throw (StatusMsg 400 "invalid tenantId")
  else if negb (VALID_ROLES_has minRole) then Throw (StatusMsg 400 "invalid minRole")
  else if RTDB_FORBIDDEN (str_of uid) || RTDB_FORBIDDEN (str_of tenantId)
  then Throw (StatusMsg 400 "invalid characters in id")
  else
    let t := tenant_of d (str_of tenantId) in
    match withTimeout (get (member_io r) (val_at (members t) (str_of uid)))
                      3000 "membership lookup timed out" with
    | Throw _ => Throw unavailable
    | Return memberVal =>
        if negb (is_true_value memberVal)
        then Throw (StatusMsg 403 "not a tenant member")
        else
          match withTimeout (get (role_io r) (val_at (roles t) (str_of uid)))
                            3000 "role lookup timed out" with
          | Throw _ => Throw unavailable
          | Return role =>
              match role with
              | VStr rs =>
                  if negb (VALID_ROLES_has role)
                  then Throw (StatusMsg 403 "no valid role assigned")
                  else if negb (hasRole rs (str_of minRole))
                  then Throw (StatusMsg 403 "insufficient role")
                  else Return rs
              | _ => Throw (StatusMsg 403 "no valid role assigned")
              end
          end
    end.

(** The inputs that pass the validation of lines 21-27. *)
Definition valid_inputs (uid tenantId minRole : value) : Prop :=
  bad_id uid = false /\ bad_id tenantId = false /\ VALID_ROLES_has minRole = true /\
  RTDB_FORBIDDEN (str_of uid) = false /\ RTDB_FORBIDDEN (str_of tenantId) = false.

(** A read that comes back in time, without an error: no later than the
    3000 ms of the timer. *)
Definition in_time (b : io) : Prop := exists ms, b = Answers ms /\ ms <= 3000.

(** A read that errors, hangs, or exceeds the 3000 ms of the timer. *)
Definition errors_or_times_out (b : io) : Prop :=
  match b with
  | Answers ms => 3000 < ms
  | Fails _ _ => True
  | Hangs => True
  end.

(** A tenant with one member, who is a manager. *)
Definition sample_db : db :=
  {[ "t1" := {| members := {[ "u1" := VBool true ]};
                roles := {[ "u1" := VStr "manager" ]};
                audit := []; lock := None; daily := ∅ |} ]}.

End Helpers.

(* ===================================================================== *)
(** ** Owner bootstrap and role update *)
(* ===================================================================== *)

Module Roles.

Definition owner : value := VStr "owner".

(** [Object.entries(roles).filter(([, r]) => r === "owner").map(([uid]) => uid)].
    The entries come in the order of [map_to_list]; the code only looks at
    the length of the result and, when that is one, at its single element. *)
Definition owner_uids (roles : gmap string value) : list string :=
  List.map fst (List.filter (fun kv => is_string "owner" (snd kv)) (map_to_list roles)).

(** The owner set is non-empty. *)
Definition has_owner (roles : gmap string value) : Prop :=
  exists uid, roles !! uid = Some owner.

(** What the handlers get from outside the store: the request as the
    runtime hands it over, the verdicts of the token check and of the rate
    limiter, the feature flag, and the faults of the database calls. *)
Record request : Type := Request {
  method : string;
  caller : option string;          (* [requireAuth(req)]: the uid, or it throws *)
  limited_ip : completion bool;    (* [isRateLimited("..:ip:..")] *)
  limited_uid : completion bool;   (* [isRateLimited("..:uid:..")] *)
  body : option value;             (* the body after [JSON.parse]; [None]: it throws *)
}.

Record env : Type := Env {
  BOOTSTRAP_ENABLED : option string;
  access_reads : Helpers.reads;    (* the two reads of [requireTenantAccess] *)
  tx_fault : option thrown;        (* the transaction throws *)
  set_fault : option thrown;       (* the plain [set] throws *)
  side_fault : option thrown;      (* the membership and audit update throws *)
  now : Z;                         (* [Date.now()] *)
}.

(** The two rate-limit checks with their [catch]; [None] lets the request
    through. *)
Definition rate_gate (r : request) : option response :=
  match limited_ip r with
  | Throw e => Some (error_response (status_or e 503) (msg_or e "rate limiter error"))
  | Return true => Some (error_response 429 "too many requests")
  | Return false =>
      match limited_uid r with
      | Throw e => Some (error_response (status_or e 503) (msg_or e "rate limiter error"))
      | Return true => Some (error_response 429 "too many requests")
      | Return false => None
      end
  end.

(** The best-effort write that follows a committed role change. *)
Definition side_write (e : env) (d : db) (tid uid : string) (flag : value) (a : audit_entry)
  : db :=
  match side_fault e with
  | Some _ => d
  | None => update_tenant d tid (fun t => with_member_and_audit t uid flag a)
  end.

(** The owner set is exactly [{target}]. *)
Definition sole_owner (target : string) (rs : gmap string value) : Prop :=
  forall uid, rs !! uid = Some owner <-> uid = target.

(** A request for a role update as a client sends it. *)
Definition update_request (actor tenantId targetUid : string) (role : value) : request :=
  {| method := "POST"; caller := Some actor;
     limited_ip := Return false; limited_uid := Return false;
     body := Some (VObj [("tenantId", VStr tenantId); ("targetUid", VStr targetUid);
                         ("role", role)]) |}.

(** A request for a bootstrap as a client sends it. *)
Definition bootstrap_request (actor tenantId uid : string) : request :=
  {| method := "POST"; caller := Some actor;
     limited_ip := Return false; limited_uid := Return false;
     body := Some (VObj [("tenantId", VStr tenantId); ("uid", VStr uid)]) |}.

(** The [role] of the body of a request. *)
Definition role_field (r : request) : value :=
  match body r with
  | Some b => get_prop (coalesce b (VObj [])) "role"
  | None => VUndef
  end.

(** A tenant with one owner, and an environment without faults. *)
Definition one_owner_db : db :=
  {[ "t1" := {| members := {[ "u1" := VBool true ]};
                roles := {[ "u1" := owner ]};
                audit := []; lock := None; daily := ∅ |} ]}.

Definition calm : env :=
  {| BOOTSTRAP_ENABLED := Some "true";
     access_reads := Helpers.Reads (Answers 5) (Answers 5);
     tx_fault := None; set_fault := None; side_fault := None;
     now := 1730635200123 |}.

End Roles.

(* ===================================================================== *)
(** ** api/bootstrap-owner.js *)
(* ===================================================================== *)

Module BootstrapOwner.

Import Roles.

(** bootstrap-owner.js, lines 72-81: the update function of the
    transaction; [None] is the [undefined] that aborts. *)
Definition bootstrap_update (uid : string) (roles : gmap string value)
  : option (gmap string value) :=
  if (0 <? length (owner_uids roles))%nat then None
  else Some (<[uid := owner]> roles).

(** bootstrap-owner.js, [handler]. *)
Definition handler (e : env) (r : request) (d : db) : response * db :=
  if negb (match BOOTSTRAP_ENABLED e with Some v => String.eqb v "true" | None => false end)
  then (error_response 404 "not found", d)
  else if negb (String.eqb (method r) "POST") then (error_response 405 "method not allowed", d)
  else
    match caller r with
    | None => (error_response 401 "unauthorized", d)
    | Some claims_uid =>
        match rate_gate r with
        | Some resp => (resp, d)
        | None =>
            match body r with
            | None => (error_response 400 "invalid json", d)
            | Some b =>
                let b := coalesce b (VObj []) in
                let tenantId := get_prop b "tenantId" in
                let uid := get_prop b "uid" in
                if Helpers.bad_id tenantId then (error_response 400 "invalid tenantId", d)
                else if Helpers.bad_id uid then (error_response 400 "invalid uid", d)
                else if RTDB_FORBIDDEN (Helpers.str_of tenantId) || RTDB_FORBIDDEN (Helpers.str_of uid)
                then (error_response 400 "invalid characters", d)
                else
                  let tid := Helpers.str_of tenantId in
                  let u := Helpers.str_of uid in
                  if negb (String.eqb claims_uid u) then (error_response 403 "uid mismatch", d)
                  else
                    match transaction (tx_fault e) (bootstrap_update u) (roles (tenant_of d tid)) with
                    | (Throw _, _) => (error_response 503 "db transaction failed", d)
                    | (Return false, _) => (error_response 409 "tenant already has an owner", d)
                    | (Return true, next) =>
                        let d1 := update_tenant d tid (fun t => with_roles t next) in
                        let d2 := side_write e d1 tid u (VBool true)
                                    (AuditEntry (now e) u u "owner" (Some "bootstrap")) in
                        (Response 200 (VObj [("ok", VBool true); ("tenantId", tenantId);
                                             ("uid", uid); ("role", owner)]), d2)
                    end
            end
        end
    end.

End BootstrapOwner.

(* ===================================================================== *)
(** ** The admin-roles handler (unnamed/part_004): the role update *)
(* ===================================================================== *)

Module AdminRoles.

Import Roles.

(** admin-roles, lines 53-70: the update function of the transaction. *)
Definition apply_change (targetUid : string) (role : value) (roles : gmap string value)
  : gmap string value :=
  if is_null role then delete targetUid roles else <[targetUid := role]> roles.

Definition last_owner (targetUid : string) (roles : gmap string value) : bool :=
  match owner_uids roles with
  | [o] => String.eqb o targetUid
  | _ => false
  end.

Definition role_update (targetUid : string) (role : value) (roles : gmap string value)
  : option (gmap string value) :=
  if last_owner targetUid roles then None
  else Some (apply_change targetUid role roles).

(** admin-roles, [handler]. *)
Definition handler (e : env) (r : request) (d : db) : response * db :=
  if negb (String.eqb (method r) "POST") then (error_response 405 "method not allowed", d)
  else
    match caller r with
    | None => (error_response 401 "unauthorized", d)
    | Some claims_uid =>
        match rate_gate r with
        | Some resp => (resp, d)
        | None =>
            match body r with
            | None => (error_response 400 "invalid json", d)
            | Some b =>
                let b := coalesce b (VObj []) in
                let tenantId := get_prop b "tenantId" in
                let targetUid := get_prop b "targetUid" in
                let role := get_prop b "role" in
                if Helpers.bad_id tenantId then (error_response 400 "invalid tenantId", d)
                else if Helpers.bad_id targetUid then (error_response 400 "invalid targetUid", d)
                else if negb (is_null role) && negb (Helpers.VALID_ROLES_has role)
                then (error_response 400 "invalid role", d)
                else if RTDB_FORBIDDEN (Helpers.str_of tenantId) || RTDB_FORBIDDEN (Helpers.str_of targetUid)
                then (error_response 400 "invalid characters", d)
                else
                  let tid := Helpers.str_of tenantId in
                  let target := Helpers.str_of targetUid in
                  match Helpers.requireTenantAccess d (access_reads e)
                          (VStr claims_uid) tenantId owner with
                  | Throw x => (error_response (status_or x 403) (msg_or x "forbidden"), d)
                  | Return _ =>
                      let finish d1 :=
                        let d2 := side_write e d1 tid target
                                    (if is_null role then VNull else VBool true)
                                    (AuditEntry (now e) claims_uid target
                                       (if nullish role then "REMOVED" else Helpers.str_of role)
                                       None) in
                        (Response 200 (VObj [("ok", VBool true); ("tenantId", tenantId);
                                             ("targetUid", targetUid); ("role", role)]), d2) in
                      if negb (is_string "owner" role) then
                        match transaction (tx_fault e) (role_update target role)
                                (roles (tenant_of d tid)) with
                        | (Throw _, _) => (error_response 503 "db transaction failed", d)
                        | (Return false, _) =>
                            (error_response 409 "cannot remove or downgrade the last owner", d)
                        | (Return true, next) =>
                            finish (update_tenant d tid (fun t => with_roles t next))
                        end
                      else
                        match set_fault e with
                        | Some _ => (error_response 502 "db write failed", d)
                        | None =>
                            finish (update_tenant d tid
                                      (fun t => with_roles t (<[target := role]> (roles t))))
                        end
                  end
            end
        end
    end.

End AdminRoles.

(* ===================================================================== *)
(** ** Sequences of operations on the role state *)
(* ===================================================================== *)

Module Mutations.

Import Roles BootstrapOwner AdminRoles.

(** How one operation may change the roles node of a tenant. *)
Inductive change (rs rs' : gmap string value) : Prop :=
| unchanged : rs' = rs -> change rs rs'
| by_role_update target role : role_update target role rs = Some rs' -> change rs rs'
| by_set_owner target : rs' = <[target := owner]> rs -> change rs rs'
| by_bootstrap uid : bootstrap_update uid rs = Some rs' -> change rs rs'.

(** The two operations on the role state, as a caller issues them. *)
Inductive operation : Type :=
| Bootstrap (e : env) (r : request)
| UpdateRole (e : env) (r : request).

Definition perform (op : operation) (d : db) : response * db :=
  match op with
  | Bootstrap e r => BootstrapOwner.handler e r d
  | UpdateRole e r => AdminRoles.handler e r d
  end.

(** A sequence of operations, each one complete before the next. *)
Fixpoint perform_all (ops : list operation) (d : db) : db :=
  match ops with
  | [] => d
  | op :: rest => perform_all rest (snd (perform op d))
  end.

End Mutations.

(* ===================================================================== *)
(** ** Concurrent callers of [transaction] on one node *)
(* ===================================================================== *)

Module Cas.

Section Protocol.

Context {V : Type}.

(** A caller has not read yet (or must read again), holds the value it read
    together with its proposal, or is done. *)
Inductive phase : Type :=
| Idle
| Proposing (seen next : V)
| Committed
| Aborted.

Record state : Type := State {
  cell : V;
  callers : list phase;
}.

(** The update function of each caller. *)
Variable fns : list (V -> option V).

(** One caller moves at a time: it reads the node and runs its function,
    which proposes a value or aborts; the store commits a proposal when the
    node still holds what the caller read, and sends the caller back to
    reading when it does not. *)
Inductive step : state -> state -> Prop :=
| step_propose i f next s :
    fns !! i = Some f -> callers s !! i = Some Idle -> f (cell s) = Some next ->
    step s (State (cell s) (<[i := Proposing (cell s) next]> (callers s)))
| step_abort i f s :
    fns !! i = Some f -> callers s !! i = Some Idle -> f (cell s) = None ->
    step s (State (cell s) (<[i := Aborted]> (callers s)))
| step_commit i seen next s :
    callers s !! i = Some (Proposing seen next) -> seen = cell s ->
    step s (State next (<[i := Committed]> (callers s)))
| step_retry i seen next s :
    callers s !! i = Some (Proposing seen next) -> seen <> cell s ->
    step s (State (cell s) (<[i := Idle]> (callers s))).

Definition finished (p : phase) : bool :=
  match p with Committed | Aborted => true | _ => false end.

Definition is_committed (p : phase) : bool :=
  match p with Committed => true | _ => false end.

Definition is_aborted (p : phase) : bool :=
  match p with Aborted => true | _ => false end.

Definition count (f : phase -> bool) (ps : list phase) : nat :=
  length (List.filter f ps).

End Protocol.

Arguments phase : clear implicits.
Arguments state : clear implicits.

(** The callers of the bootstrap transaction, one per uid, on a roles node
    that holds [r0]. *)
Definition bootstrap_fns (uids : list string) : list (gmap string value -> option (gmap string value)) :=
  List.map BootstrapOwner.bootstrap_update uids.

Definition bootstrap_init (r0 : gmap string value) (uids : list string)
  : state (gmap string value) :=
  State r0 (List.map (fun _ => Idle) uids).

(** bootstrap-owner.js, lines 95-99 and 119: what a caller answers once its
    transaction is over. *)
Definition bootstrap_reply (p : phase (gmap string value)) : option Z :=
  match p with
  | Committed => Some 200
  | Aborted => Some 409
  | _ => None
  end.

(** A caller that got the answer [code]. *)
Definition answered (code : Z) (p : phase (gmap string value)) : bool :=
  match bootstrap_reply p with
  | Some c => c =? code
  | None => false
  end.

(** What is left to do, as a number that every step makes smaller. *)
Definition weight (owned : bool) (p : phase (gmap string value)) : nat :=
  match p, owned with
  | Idle, false => 4
  | Proposing _ _, false => 3
  | Proposing _ _, true => 2
  | Idle, true => 1
  | _, _ => 0
  end.

Definition owned (r : gmap string value) : bool := (0 <? length (Roles.owner_uids r))%nat.

Definition remaining (s : state (gmap string value)) : nat :=
  list_sum (List.map (weight (owned (cell s))) (callers s)).

Abbreviation roles_map := (gmap string value).

(** What holds of every state that the callers of the bootstrap can reach. *)
Record reachable_inv (uids : list string) (s : state roles_map) : Prop := Inv {
  inv_length : length (callers s) = length uids;
  inv_proposal : forall i seen next,
      callers s !! i = Some (Proposing seen next) ->
      ~ Roles.has_owner seen /\
      (exists u, uids !! i = Some u /\ next = <[u := Roles.owner]> seen) /\
      (seen = cell s \/ Roles.has_owner (cell s));
  inv_counts :
      if owned (cell s) then count is_committed (callers s) = 1%nat
      else count is_committed (callers s) = 0%nat /\ count is_aborted (callers s) = 0%nat;
}.

(** A run of two callers: the first proposes and commits, the second reads
    after that. *)
Definition two_callers_done : state roles_map :=
  State (<["u1" := Roles.owner]> ∅) [Committed; Aborted].

End Cas.

(* ===================================================================== *)
(** ** The lease lock of the backfill (unnamed/part_001, lines 82-113) *)
(* ===================================================================== *)

Module Lock.

Definition TTL_MS : Z := 10 * 60 * 1000.

(** acquireLock, lines 89-95: the update function.  [t_check] and
    [t_write] are the two readings of [Date.now()]. *)
Definition acquire_update (token : string) (t_check t_write : Z)
  (current : option lock_record) : option (option lock_record) :=
  match current with
  | Some c =>
      if negb (expiresAt c =? 0) && (t_check <? expiresAt c) then None
      else Some (Some {| lockId := token; expiresAt := t_write + TTL_MS |})
  | None => Some (Some {| lockId := token; expiresAt := t_write + TTL_MS |})
  end.

(** [acquireLock(ref)]: the token or [null], and the record left in the
    store.  [token] is the [lockId] drawn at line 86. *)
Definition acquireLock (fault : option thrown) (token : string) (t_check t_write : Z)
  (current : option lock_record) : option string * option lock_record :=
  match transaction fault (acquire_update token t_check t_write) current with
  | (Return true, stored) => (Some token, stored)
  | (_, stored) => (None, stored)
  end.

(** releaseLock, lines 106-109: the update function; [Some None] is the
    [null] that deletes the record. *)
Definition release_update (token : string) (current : option lock_record)
  : option (option lock_record) :=
  match current with
  | Some c => if negb (String.eqb (lockId c) token) then None else Some None
  | None => None
  end.

(** [releaseLock(ref, lockId)]: the record left in the store. *)
Definition releaseLock (fault : option thrown) (token : string)
  (current : option lock_record) : option lock_record :=
  snd (transaction fault (release_update token) current).

End Lock.

(* ===================================================================== *)
(** ** What the analytics handlers do to the outside *)
(* ===================================================================== *)

Module Effects.

Inductive event : Type :=
| AccessCheck (uid tenantId : string)
| LockAcquire (tenantId : string) (granted : bool)
| Build (tenantId date : string) (contacted : list Sources.provider)
| SetDoc (tenantId date : string)
| LockRelease (tenantId : string)
| LoadTenants.

(** The events of the loops: a build, with its calls to the providers, and a
    write. *)
Definition is_build (e : event) : bool :=
  match e with Build _ _ _ | SetDoc _ _ => true | _ => false end.

(** [e?.source ? `${e.source}/${e.reason}` : e?.message ?? "unknown"]. *)
Definition skip_reason (e : thrown) : string :=
  match e with
  | SourceReason source reason =>
      if String.eqb source "" then "unknown" else source ++ "/" ++ reason
  | Err _ msg => msg
  | StatusMsg _ _ => "unknown"
  end.

Section BuildAndWrite.

Variable Number_of : value -> option Q.
Variable TABIT_API_KEY : option string.

(** The body of the inner [try] of both loops: build the document of
    [(tenantId, date)] and write it; [None] when it went through, the skip
    reason when it threw. *)
Definition build_and_write (net : Sources.network) (now : Z) (write_fault : option thrown)
  (tenantId date : string) (d : db) : option string * db * list event :=
  let '(contacted, built) := Builder.buildDailyDoc Number_of TABIT_API_KEY net now tenantId date in
  match built with
  | Throw e => (Some (skip_reason e), d, [Build tenantId date contacted])
  | Return (path, doc) =>
      match write_fault with
      | Some e => (Some (skip_reason e), d,
                   [Build tenantId date contacted; SetDoc tenantId date])
      | None => (None, update_tenant d tenantId (fun t => with_daily t date doc),
                 [Build tenantId date contacted; SetDoc tenantId date])
      end
  end.

End BuildAndWrite.

End Effects.

(* ===================================================================== *)
(** ** api/analytics/backfill (unnamed/part_001): the bounded backfill *)
(* ===================================================================== *)

Module Backfill.

Import Effects.

Definition MAX_DAYS : Z := 90.

Record request : Type := Request {
  method : string;
  caller : option string;          (* [requireAuth(req)] *)
  limited_ip : completion bool;
  limited_uid : completion bool;
  q_tenantId : option string;      (* [req.query.tenantId] *)
  q_from : option string;
  q_to : option string;
}.

Record env : Type := Env {
  access_reads : Helpers.reads;
  token : string;                    (* the [lockId] drawn by [acquireLock] *)
  t_check : Z;
  t_write : Z;
  acquire_fault : option thrown;
  release_fault : option thrown;
  net : string -> Sources.network;   (* the providers, at the build of a date *)
  clock : string -> Z;               (* [Date.now()] at the build of a date *)
  write_fault : string -> option thrown;
}.

Record results : Type := Results {
  built : list string;
  skipped : list (string * string);
}.

Definition rate_gate (r : request) : option response :=
  match limited_ip r with
  | Throw e => Some (error_response (status_or e 503) (msg_or e "rate limiter error"))
  | Return true => Some (error_response 429 "too many requests")
  | Return false =>
      match limited_uid r with
      | Throw e => Some (error_response (status_or e 503) (msg_or e "rate limiter error"))
      | Return true => Some (error_response 429 "too many requests")
      | Return false => None
      end
  end.

Definition results_json (tenantId from to : string) (res : results) : value :=
  VObj [("tenantId", VStr tenantId); ("from", VStr from); ("to", VStr to);
        ("built", VArr (List.map VStr (built res)));
        ("skipped", VArr (List.map (fun '(date, reason) =>
                                      VObj [("date", VStr date); ("reason", VStr reason)])
                                   (skipped res)))].

Section Handler.

Variable Number_of : value -> option Q.
Variable TABIT_API_KEY : option string.

(** Lines 64-74: the loop over the dates. *)
Fixpoint loop (e : env) (tenantId : string) (dates : list string) (res : results) (d : db)
  : results * db * list event :=
  match dates with
  | [] => (res, d, [])
  | date :: rest =>
      let '(skip, d1, ev) :=
        build_and_write Number_of TABIT_API_KEY (net e date) (clock e date)
                        (write_fault e date) tenantId date d in
      let res1 :=
        match skip with
        | None => {| built := (built res ++ [date])%list; skipped := skipped res |}
        | Some reason => {| built := built res;
                            skipped := (skipped res ++ [(date, reason)])%list |}
        end in
      let '(res2, d2, ev2) := loop e tenantId rest res1 d1 in
      (res2, d2, (ev ++ ev2)%list)
  end.

Definition handler (e : env) (r : request) (d : db) : response * db * list event :=
  if negb (String.eqb (method r) "POST")
  then (error_response 405 "method not allowed", d, [])
  else
    match caller r with
    | None => (error_response 401 "unauthorized", d, [])
    | Some claims_uid =>
        match rate_gate r with
        | Some resp => (resp, d, [])
        | None =>
            let tenantId := default "" (q_tenantId r) in
            let from := default "" (q_from r) in
            let to := default "" (q_to r) in
            if String.eqb tenantId "" || RTDB_FORBIDDEN tenantId
            then (error_response 400 "invalid tenantId", d, [])
            else if negb (date_regex from) then (error_response 400 "invalid from date", d, [])
            else if negb (date_regex to) then (error_response 400 "invalid to date", d, [])
            else if String.ltb to from then (error_response 400 "from must be ≤ to", d, [])
            else
              let dates := Dates.dateRange from to in
              if MAX_DAYS <? Z.of_nat (length dates)
              then (error_response 400 ("max " ++ Sources.decimal MAX_DAYS ++ " days per backfill"),
                    d, [])
              else
                match Helpers.requireTenantAccess d (access_reads e)
                        (VStr claims_uid) (VStr tenantId) (VStr "manager") with
                | Throw x =>
                    (error_response (status_or x 403) (msg_or x "forbidden"), d,
                     [AccessCheck claims_uid tenantId])
                | Return _ =>
                    let '(got, stored) :=
                      Lock.acquireLock (acquire_fault e) (token e) (t_check e) (t_write e)
                                       (lock (tenant_of d tenantId)) in
                    let d1 := update_tenant d tenantId (fun t => with_lock t stored) in
                    match got with
                    | Some lockId =>
                        if String.eqb lockId ""
                        then (error_response 409 "another backfill is already running for this tenant",
                              d1, [AccessCheck claims_uid tenantId; LockAcquire tenantId true])
                        else
                          let '(res, d2, ev) :=
                            loop e tenantId dates {| built := []; skipped := [] |} d1 in
                          let d3 :=
                            update_tenant d2 tenantId
                              (fun t => with_lock t
                                          (Lock.releaseLock (release_fault e) lockId (lock t))) in
                          (Response 200 (results_json tenantId from to res), d3,
                           ([AccessCheck claims_uid tenantId; LockAcquire tenantId true] ++ ev
                            ++ [LockRelease tenantId])%list)
                    | None =>
                        (error_response 409 "another backfill is already running for this tenant",
                         d, [AccessCheck claims_uid tenantId; LockAcquire tenantId false])
                    end
                end
        end
    end.

End Handler.

(** A backfill request as a client sends it, past the token check and the
    rate limiter. *)
Definition backfill_request (uid tenantId from to : string) : request :=
  {| method := "POST"; caller := Some uid;
     limited_ip := Return false; limited_uid := Return false;
     q_tenantId := Some tenantId; q_from := Some from; q_to := Some to |}.

(** A tenant with a manager and no lock, and an environment in which the
    required provider fails on one date. *)
Definition managed_db : db :=
  {[ "t1" := {| members := {[ "u1" := VBool true ]};
                roles := {[ "u1" := VStr "manager" ]};
                audit := []; lock := None; daily := ∅ |} ]}.

Definition bumpy : env :=
  {| access_reads := Helpers.Reads (Answers 5) (Answers 5);
     token := "k3x9";
     t_check := 1730635200123; t_write := 1730635200123;
     acquire_fault := None; release_fault := None;
     net := fun date => if String.eqb date "2025-01-02"
                        then Builder.net_beecomm_503 else Builder.net_weather_late;
     clock := fun _ => 1730635200456;
     write_fault := fun date => if String.eqb date "2025-01-03"
                                then Some (Err "Error" "write failed") else None |}.

End Backfill.

(* ===================================================================== *)
(** ** api/analytics/daily-builder.js: the scheduled builder *)
(* ===================================================================== *)

Module DailyBuilder.

Import Effects.

(** The white space of one byte: U+0009 to U+000D and U+0020. *)
Definition is_space (c : ascii) : bool :=
  let n := nat_of_ascii c in
  ((9 <=? n) && (n <=? 13))%nat || (n =? 32)%nat.

(** The white space of two bytes: U+00A0. *)
Definition wide_space2 (c d : ascii) : bool :=
  ((nat_of_ascii c =? 194) && (nat_of_ascii d =? 160))%nat.

(** The white space of three bytes: U+1680, U+2000 to U+200A, U+2028,
    U+2029, U+202F, U+205F, U+3000 and U+FEFF. *)
Definition wide_space3 (c d f : ascii) : bool :=
  let x := nat_of_ascii c in
  let y := nat_of_ascii d in
  let z := nat_of_ascii f in
  (((x =? 225) && (y =? 154) && (z =? 128))
   || ((x =? 226) && (y =? 128)
       && (((128 <=? z) && (z <=? 138)) || (z =? 168) || (z =? 169) || (z =? 175)))
   || ((x =? 226) && (y =? 129) && (z =? 159))
   || ((x =? 227) && (y =? 128) && (z =? 128))
   || ((x =? 239) && (y =? 187) && (z =? 191)))%nat.

(** The run of white space ([\s], the white space and the line terminators
    of the language) at the head of a list of bytes, removed.  [two] and
    [three] tell the characters of two and of three bytes, in the order in
    which the list is read. *)
Fixpoint drop_white (two : ascii -> ascii -> bool) (three : ascii -> ascii -> ascii -> bool)
  (l : list ascii) : list ascii :=
  match l with
  | c :: rest =>
      if is_space c then drop_white two three rest
      else
        match rest with
        | d :: rest1 =>
            if two c d then drop_white two three rest1
            else
              match rest1 with
              | f :: rest2 => if three c d f then drop_white two three rest2 else l
              | [] => l
              end
        | [] => l
        end
  | [] => l
  end.

Definition lower (c : ascii) : ascii :=
  let n := nat_of_ascii c in
  if ((65 <=? n) && (n <=? 90))%nat then ascii_of_nat (n + 32) else c.

Fixpoint lowercase (s : string) : string :=
  match s with
  | EmptyString => EmptyString
  | String c rest => String (lower c) (lowercase rest)
  end.

(** U+00A0, the no-break space. *)
Definition nbsp : string := String (ascii_of_nat 194) (String (ascii_of_nat 160) "").

(** [s] without the white space it begins with. *)
Definition drop_spaces (s : string) : string :=
  string_of_list_ascii (drop_white wide_space2 wide_space3 (chars s)).

(** [s.replace(/^Bearer\s+/i, "")]: the six letters in either case, then
    at least one character of white space, and all that follow. *)
Definition strip_bearer (s : string) : string :=
  let rest := substring 6 (String.length s - 6) s in
  if String.eqb (lowercase (substring 0 6 s)) "bearer" &&
     negb (String.eqb (drop_spaces rest) rest)
  then drop_spaces rest
  else s.

(** [crypto.timingSafeEqual(a, b)]: every pair of bytes is combined, none
    is skipped; buffers of different lengths make it throw. *)
Fixpoint fold_diff (a b : list ascii) (acc : N) : N :=
  match a, b with
  | x :: a', y :: b' => fold_diff a' b' (N.lor acc (N.lxor (N_of_ascii x) (N_of_ascii y)))
  | _, _ => acc
  end.

Definition timingSafeEqual (a b : list ascii) : completion bool :=
  if (length a =? length b)%nat then Return (fold_diff a b 0 =? 0)%N
  else Throw (Err "RangeError" "Input buffers must have the same byte length").

Record request : Type := Request {
  x_cron_secret : option string;    (* [req.headers["x-cron-secret"]] *)
  authorization : option string;    (* [req.headers["authorization"]] *)
  q_date : option string;           (* [req.query.date] *)
}.

Record env : Type := Env {
  CRON_SECRET : option string;
  now : Z;
  tenants_fault : option thrown;     (* [db.ref("tenants").get()] throws *)
  net : string -> Sources.network;   (* the providers, at the build of a tenant *)
  clock : string -> Z;
  write_fault : string -> option thrown;
}.

Record results : Type := Results {
  built : list string;
  skipped : list (string * string);
}.

(** [x || y] on strings. *)
Definition or_else (x y : string) : string := if String.eqb x "" then y else x.

(** Lines 28-30: the secret that the request carries. *)
Definition incoming (r : request) : string :=
  or_else (default "" (x_cron_secret r)) (strip_bearer (default "" (authorization r))).

(** Lines 32-37. *)
Definition authorized (secret : string) (r : request) : bool :=
  let a := chars secret in
  let b := chars (incoming r) in
  if (length a =? length b)%nat
  then match timingSafeEqual a b with Return ok => ok | Throw _ => false end
  else false.

Definition results_json (date : string) (res : results) : value :=
  VObj [("date", VStr date);
        ("built", VArr (List.map VStr (built res)));
        ("skipped", VArr (List.map (fun '(tenantId, reason) =>
                                      VObj [("tenantId", VStr tenantId); ("reason", VStr reason)])
                                   (skipped res)))].

Section Handler.

Variable Number_of : value -> option Q.
Variable TABIT_API_KEY : option string.

(** Lines 67-78: the loop over the tenants. *)
Fixpoint loop (e : env) (date : string) (tenants : list string) (res : results) (d : db)
  : results * db * list event :=
  match tenants with
  | [] => (res, d, [])
  | tenantId :: rest =>
      let '(skip, d1, ev) :=
        build_and_write Number_of TABIT_API_KEY (net e tenantId) (clock e tenantId)
                        (write_fault e tenantId) tenantId date d in
      let res1 :=
        match skip with
        | None => {| built := (built res ++ [tenantId])%list; skipped := skipped res |}
        | Some reason => {| built := built res;
                            skipped := (skipped res ++ [(tenantId, reason)])%list |}
        end in
      let '(res2, d2, ev2) := loop e date rest res1 d1 in
      (res2, d2, (ev ++ ev2)%list)
  end.

(** The tenants come in the order of [map_to_list]. *)
Definition handler (e : env) (r : request) (d : db) : response * db * list event :=
  let secret := default "" (CRON_SECRET e) in
  if String.eqb secret "" then (error_response 503 "not configured", d, [])
  else if negb (authorized secret r) then (error_response 404 "not found", d, [])
  else
    let date := or_else (default "" (q_date r)) (Dates.getYesterdayUTC (now e)) in
    if negb (date_regex date) then (error_response 400 "invalid date", d, [])
    else
      match tenants_fault e with
      | Some _ => (error_response 503 "db unavailable", d, [LoadTenants])
      | None =>
          let tenants := List.map fst (map_to_list d) in
          let '(res, d1, ev) := loop e date tenants {| built := []; skipped := [] |} d in
          (Response 200 (results_json date res), d1, (LoadTenants :: ev)%list)
      end.

End Handler.

(** Sample environments, without and with a secret, and a request that
    guesses. *)
Definition no_secret : env :=
  {| CRON_SECRET := None; now := 1730635200123; tenants_fault := None;
     net := fun _ => Builder.net_weather_late; clock := fun _ => 1730635200123;
     write_fault := fun _ => None |}.

Definition with_secret : env :=
  {| CRON_SECRET := Some "s3cret"; now := 1730635200123; tenants_fault := None;
     net := fun _ => Builder.net_weather_late; clock := fun _ => 1730635200123;
     write_fault := fun _ => None |}.

Definition guess : request :=
  {| x_cron_secret := Some "guess"; authorization := None; q_date := None |}.

End DailyBuilder.

(* ===================================================================== *)
(** ** Runs of the two role handlers, with their responses *)
(* ===================================================================== *)

Module RoleRuns.

Import Roles Mutations.

(** The fields that the two handlers take from the body of a request
    ([const { tenantId, targetUid, role } = body ?? {}]), as strings. *)
Definition field (name : string) (r : request) : string :=
  match body r with
  | Some b => Helpers.str_of (get_prop (coalesce b (VObj [])) name)
  | None => ""
  end.

Definition request_of (op : operation) : request :=
  match op with Bootstrap _ r => r | UpdateRole _ r => r end.

Definition env_of (op : operation) : env :=
  match op with Bootstrap e _ => e | UpdateRole e _ => e end.

(** The response of each operation of a sequence, each one complete before
    the next. *)
Fixpoint perform_each (ops : list operation) (d : db) : list (operation * response) :=
  match ops with
  | [] => []
  | op :: rest => (op, fst (perform op d)) :: perform_each rest (snd (perform op d))
  end.

(** The answer of a handler that went through: status 200 and [ok: true]. *)
Definition accepted (resp : response) : bool :=
  (status resp =? 200) && is_true_value (get_prop (json resp) "ok").

(** A bootstrap of tenant [t] that went through. *)
Definition bootstrapped (t : string) (x : operation * response) : bool :=
  match fst x with
  | Bootstrap _ r => String.eqb (field "tenantId" r) t && accepted (snd x)
  | UpdateRole _ _ => false
  end.

End RoleRuns.

(* ===================================================================== *)
(** ** Sequences of calls of [acquireLock] and [releaseLock] on one tenant *)
(* ===================================================================== *)

Module LockRuns.

Import Lock.

(** One call, with the token it draws or passes, the readings of the clock
    and the fault of its transaction, if any. *)
Inductive call : Type :=
| Acquire (fault : option thrown) (token : string) (t_check t_write : Z)
| Release (fault : option thrown) (token : string).

(** The record that a call leaves in the store. *)
Definition after (c : call) (current : option lock_record) : option lock_record :=
  match c with
  | Acquire fault token t_check t_write => snd (acquireLock fault token t_check t_write current)
  | Release fault token => releaseLock fault token current
  end.

(** Calls one after the other, each one complete before the next. *)
Fixpoint after_all (cs : list call) (current : option lock_record) : option lock_record :=
  match cs with
  | [] => current
  | c :: rest => after_all rest (after c current)
  end.

(** The clock of an acquire has not passed [t]. *)
Definition not_after (t : Z) (c : call) : Prop :=
  match c with
  | Acquire _ _ t_check _ => t_check <= t
  | Release _ _ => True
  end.

(** A lease that ran out before a second caller came. *)
Definition relay : list call :=
  [Acquire None "c" 1300000 1300001; Release None "c"].

End LockRuns.

(* ===================================================================== *)
(** ** Sample states of the backfill *)
(* ===================================================================== *)

Module BackfillRuns.

(** The tenant of [managed_db] while another backfill holds the lock. *)
Definition held_db : db :=
  {[ "t1" := {| members := {[ "u1" := VBool true ]};
                roles := {[ "u1" := VStr "manager" ]};
                audit := [];
                lock := Some {| lockId := "other"; expiresAt := 1730635260123 |};
                daily := ∅ |} ]}.

End BackfillRuns.

(* ===================================================================== *)
(** ** Sample requests of the scheduled builder *)
(* ===================================================================== *)

Module DailyBuilderRuns.

Import DailyBuilder.

(** The two ways in which the scheduler may carry the secret, and a request
    whose two headers disagree. *)
Definition by_header : request :=
  {| x_cron_secret := Some "s3cret"; authorization := Some "Bearer stale"; q_date := None |}.

Definition by_bearer : request :=
  {| x_cron_secret := None; authorization := Some "bearer   s3cret"; q_date := None |}.

(** The secret behind a no-break space. *)
Definition by_bearer_nbsp : request :=
  {| x_cron_secret := None; authorization := Some ("Bearer" ++ nbsp ++ "s3cret");
     q_date := None |}.

Definition torn : request :=
  {| x_cron_secret := Some "stale"; authorization := Some "Bearer s3cret"; q_date := None |}.

Definition odd_date : request :=
  {| x_cron_secret := Some "s3cret"; authorization := None; q_date := Some "yesterday" |}.

End DailyBuilderRuns.

(* ===================================================================== *)
(** ** Counting what a run of builds does to the outside *)
(* ===================================================================== *)

Module EffectCounts.

Import Effects.

(** The requests sent to the providers, and the writes of documents, in a
    trace. *)
Fixpoint provider_calls (trace : list event) : nat :=
  match trace with
  | [] => O
  | Build _ _ contacted :: rest => (length contacted + provider_calls rest)%nat
  | _ :: rest => provider_calls rest
  end.

Fixpoint document_writes (trace : list event) : nat :=
  match trace with
  | [] => O
  | SetDoc _ _ :: rest => S (document_writes rest)
  | _ :: rest => document_writes rest
  end.

(** A provider of alerts that answers with an alert for Hadera on the day. *)
Definition net_alert : Sources.network :=
  fun p =>
    match p with
    | Sources.Oref =>
        Sources.Responds 50 200
          (Some (VArr [VObj [("alertDate", VStr "2025-01-01 10:00:00"); ("data", VStr "חדרה")]]))
    | _ => Builder.net_weather_late p
    end.

End EffectCounts.

(* ===================================================================== *)
(** ** The span of the four-digit years *)
(* ===================================================================== *)

Module DateSpan.

(** [Date.UTC(10000, 0, 1)]: the first instant whose year has five digits. *)
Definition YEAR_10000 : Z := 253402300800000.

End DateSpan.

(* ===================================================================== *)
(** ** lib/helpers.js, lines 76-122: the rate limiter *)
(* ===================================================================== *)

Module RateLimit.

(** The environment of the module: [NODE_ENV === "production"] and the two
    settings of the Upstash REST endpoint. *)
Record config : Type := Config {
  IS_PROD : bool;
  UPSTASH_REDIS_REST_URL : option string;
  UPSTASH_REDIS_REST_TOKEN : option string;
}.

(** How the endpoint behaves for one request: it answers with a status and
    a body, JSON ([Some]) or not; the connection fails; or nothing ever
    comes back (the [fetch] of line 85 has no timer). *)
Inductive upstash : Type :=
| Replies (status : Z) (body : option value)
| Unreachable
| Mute.

(** [!s] for an environment variable. *)
Definition unset (s : option string) : bool :=
  match s with Some v => String.eqb v "" | None => true end.

(** A pipeline sent to the endpoint: [INCR key] and [EXPIRE key windowSec NX]. *)
Record pipeline : Type := Pipeline {
  incr_key : string;
  expire_sec : Z;
}.

(** A call that may never settle: [None] is the promise that stays pending. *)
Definition settled (A : Type) : Type := option (completion A).

(** [upstashIncr(key, windowSec)]: the pipelines sent and the result. *)
Definition upstashIncr (c : config) (u : upstash) (key : string) (windowSec : Z)
  : list pipeline * settled value :=
  if unset (UPSTASH_REDIS_REST_URL c) || unset (UPSTASH_REDIS_REST_TOKEN c)
  then ([], Some (Return VNull))
  else
    ([Pipeline key windowSec],
     match u with
     | Mute => None
     | Unreachable => Some (Throw (Err "TypeError" "fetch failed"))
     | Replies st body =>
         if negb ((200 <=? st) && (st <=? 299)) then Some (Return VNull)
         else
           match body with
           | None => Some (Throw (Err "SyntaxError" "Unexpected token"))
           | Some data =>
               Some (Return (coalesce (opt_prop (opt_prop data "0") "result") VNull))
           end
     end).

(** An entry of [_buckets]. *)
Record bucket : Type := Bucket {
  count : Z;
  resetAt : Z;
}.

Abbreviation buckets := (gmap string bucket).

(** [inMemoryIncr(key, windowMs)] at the instant [now]: the count and the
    map it leaves. *)
Definition inMemoryIncr (now : Z) (key : string) (windowMs : Z) (b : buckets) : Z * buckets :=
  match b !! key with
  | Some rec =>
      if resetAt rec <? now
      then (1, <[key := {| count := 1; resetAt := now + windowMs |}]> b)
      else (count rec + 1, <[key := {| count := count rec + 1; resetAt := resetAt rec |}]> b)
  | None => (1, <[key := {| count := 1; resetAt := now + windowMs |}]> b)
  end.

Section Limiter.

(** [Number(v)] for a [v] that is neither a number nor nullish. *)
Variable Number_of : value -> option Q.

(** [count > limit] for a count that is not [null]: a comparison of numbers,
    false on [NaN]. *)
Definition exceeds (count : value) (limit : Z) : bool :=
  match count with
  | VNum q => negb (Qle_bool q (inject_Z limit))
  | VUndef => false
  | VNull => negb (Qle_bool 0 (inject_Z limit))
  | _ => match Number_of count with
         | Some q => negb (Qle_bool q (inject_Z limit))
         | None => false
         end
  end.

(** [isRateLimited(key, limit, windowMs)] at the instant [now]: the
    pipelines sent, the result and the buckets it leaves.  [windowMs] is a
    whole number of milliseconds, so that [Math.ceil(windowMs / 1000)] is
    the quotient of [windowMs + 999] by 1000. *)
Definition isRateLimited (c : config) (u : upstash) (now : Z)
  (key : string) (limit windowMs : Z) (b : buckets)
  : list pipeline * settled bool * buckets :=
  let windowSec := (windowMs + 999) / 1000 in
  let '(sent, count) := upstashIncr c u ("rl:" ++ key) windowSec in
  match count with
  | None => (sent, None, b)
  | Some (Throw e) => (sent, Some (Throw e), b)
  | Some (Return v) =>
      if is_null v then
        if IS_PROD c
        then (sent, Some (Throw (StatusMsg 503 "rate limiter unavailable")), b)
        else
          let '(n, b') := inMemoryIncr now key windowMs b in
          (sent, Some (Return (limit <? n)), b')
      else (sent, Some (Return (exceeds v limit)), b)
  end.

(** Calls for one key at the instants [times], one after the other. *)
Fixpoint calls_at (c : config) (u : upstash) (key : string) (limit windowMs : Z)
  (times : list Z) (b : buckets) : list (settled bool) * buckets :=
  match times with
  | [] => ([], b)
  | now :: rest =>
      let '(_, verdict, b1) := isRateLimited c u now key limit windowMs b in
      let '(verdicts, b2) := calls_at c u key limit windowMs rest b1 in
      (verdict :: verdicts, b2)
  end.

End Limiter.

(** The environment of a development machine, and of production without
    Upstash. *)
Definition dev : config :=
  {| IS_PROD := false; UPSTASH_REDIS_REST_URL := None; UPSTASH_REDIS_REST_TOKEN := None |}.

Definition bare_production : config :=
  {| IS_PROD := true; UPSTASH_REDIS_REST_URL := None; UPSTASH_REDIS_REST_TOKEN := None |}.

End RateLimit.

(* ===================================================================== *)
(** ** lib/helpers.js, lines 124-163: the allowed origin, the response
    headers, the address of the caller *)
(* ===================================================================== *)

Module Http.

(** The [headers] of a request: the [Headers] object of the edge runtime,
    whose [get] gives [null] for an absent name, or the plain object of the
    Node runtime, keyed by the lower-case names that the client sent. *)
Inductive headers : Type :=
| EdgeHeaders (h : gmap string string)
| NodeHeaders (h : gmap string string).

Definition not_callable : thrown := Err "TypeError" "req.headers.get is not a function".

(** [req.headers.get ? req.headers.get(name) : req.headers[name]]; [None]
    is [null] or [undefined].  On a plain object [get] is the header of
    that name, if the client sent one: a string, which cannot be called. *)
Definition read_header (hs : headers) (name : string) : completion (option string) :=
  match hs with
  | EdgeHeaders h => Return (h !! name)
  | NodeHeaders h =>
      match h !! "get" with
      | Some g => if String.eqb g "" then Return (h !! name) else Throw not_callable
      | None => Return (h !! name)
      end
  end.

(** [getAllowedOrigin(req)]; a missing [req] is [None]. *)
Definition getAllowedOrigin (ALLOWED_ORIGIN : option string) (req : option headers)
  : completion string :=
  let configured := default "" ALLOWED_ORIGIN in
  if String.eqb configured "" then Return ""
  else
    match match req with
          | Some hs => read_header hs "origin"
          | None => Return None
          end with
    | Throw e => Throw e
    | Return found =>
        let incoming := default "" found in
        if String.eqb incoming "" || String.eqb incoming "null" then Return ""
        else Return (if String.eqb incoming configured then incoming else "")
    end.

(** A [Response]: the status, the headers and the body before
    [JSON.stringify]. *)
Record reply : Type := Reply {
  reply_status : Z;
  reply_headers : gmap string string;
  reply_body : value;
}.

(** [errResponse(status, message, req)]. *)
Definition errResponse (ALLOWED_ORIGIN : option string) (st : Z) (message : string)
  (req : option headers) : completion reply :=
  match getAllowedOrigin ALLOWED_ORIGIN req with
  | Throw e => Throw e
  | Return origin =>
      let hs : gmap string string := {[ "Content-Type" := "application/json" ]} in
      Return {| reply_status := st;
                reply_headers := if String.eqb origin "" then hs
                                 else <["Access-Control-Allow-Origin" := origin]> hs;
                reply_body := VObj [("error", VStr message)] |}
  end.

(** [secHeaders(req, extra)]: the entries of [extra] replace the three
    defaults of the same name. *)
Definition secHeaders (ALLOWED_ORIGIN : option string) (req : option headers)
  (extra : gmap string string) : completion (gmap string string) :=
  match getAllowedOrigin ALLOWED_ORIGIN req with
  | Throw e => Throw e
  | Return origin =>
      let h : gmap string string :=
        extra ∪ {[ "Content-Type" := "application/json; charset=utf-8";
                   "Cache-Control" := "no-store";
                   "X-Content-Type-Options" := "nosniff" ]} in
      Return (if String.eqb origin "" then h
              else <["Access-Control-Allow-Origin" := origin]> h)
  end.

(** [s.split(",")[0]]: what comes before the first comma. *)
Fixpoint before_comma (s : string) : string :=
  match s with
  | EmptyString => EmptyString
  | String c rest => if Ascii.eqb c "," then EmptyString else String c (before_comma rest)
  end.

(** [s.trim()]: the white space at both ends removed; the end is read
    from the last byte backwards ([rev_append l []] is [l] reversed). *)
Definition trim (s : string) : string :=
  string_of_list_ascii
    (rev_append
       (DailyBuilder.drop_white
          (fun f d => DailyBuilder.wide_space2 d f)
          (fun f d c => DailyBuilder.wide_space3 c d f)
          (rev_append
             (DailyBuilder.drop_white DailyBuilder.wide_space2 DailyBuilder.wide_space3
                (chars s)) []))
       []).

(** [getIP(req)].  The conditional binds looser than [||]: the fallback to
    the empty string belongs to the branch of the plain object only, and a
    [null] from [get] is not a string to split. *)
Definition getIP (hs : headers) : completion string :=
  let forwarded : completion (option string) :=
    match hs with
    | EdgeHeaders h => Return (h !! "x-forwarded-for")
    | NodeHeaders h =>
        match read_header hs "x-forwarded-for" with
        | Throw e => Throw e
        | Return found => Return (Some (default "" found))
        end
    end in
  match forwarded with
  | Throw e => Throw e
  | Return None => Throw (Err "TypeError" "Cannot read properties of null (reading 'split')")
  | Return (Some v) =>
      let ip := trim (before_comma v) in
      Return (if String.eqb ip "" then "unknown" else ip)
  end.

(** Sample requests. *)
Definition from_app : headers :=
  NodeHeaders {[ "origin" := "https://app.example.com"; "x-forwarded-for" := " 10.0.0.7 , 172.16.0.1" ]}.

Definition from_elsewhere : headers :=
  NodeHeaders {[ "origin" := "https://app.example.com.evil.test" ]}.

Definition with_get_header : headers :=
  NodeHeaders {[ "get" := "1"; "x-forwarded-for" := "10.0.0.7" ]}.

End Http.

(* ===================================================================== *)
(** ** api/oref.js: the public proxy of the alerts feed, in its two builds *)
(* ===================================================================== *)

Module OrefFeed.

Import Http.

(** [_cache]: [null] or [{body, expiresAt}]. *)
Record cached : Type := Cached {
  cached_body : string;
  cached_until : Z;
}.

(** How the feed behaves for one [fetch] and [text()]: the text comes after
    some milliseconds, the connection fails after some milliseconds, or
    nothing comes back. *)
Inductive feed : Type :=
| Text (ms : Z) (text : string)
| Broken (ms : Z)
| Quiet.

(** The [fetch] under the abort timer of 4 s, then [up.text()]. *)
Definition fetch_text (f : feed) : completion string :=
  match f with
  | Text ms text => if ms <? 4000 then Return text else Throw Sources.AbortError
  | Broken ms => if ms <? 4000 then Throw (Err "TypeError" "fetch failed")
                 else Throw Sources.AbortError
  | Quiet => Throw Sources.AbortError
  end.

(** What is sent: the status, the headers that the code sets, and the body,
    as JSON or as text. *)
Inductive payload : Type :=
| Json (v : value)
| Plain (text : string).

Record answer : Type := Answer {
  answer_status : Z;
  answer_headers : gmap string string;
  answer_body : payload;
}.

(** What one request comes to: its answer, or what it throws; the cache it
    leaves; and whether the feed was asked. *)
Record outcome : Type := Outcome {
  sent : completion answer;
  cache_after : option cached;
  asked_feed : bool;
}.

(** The clock and the feed at one request. *)
Record env : Type := Env {
  ALLOWED_ORIGIN : option string;
  now_check : Z;      (* [Date.now()] at the test of the cache *)
  now_store : Z;      (* [Date.now()] when the cache is set *)
  upstream : feed;
}.

(** [_cache && Date.now() < _cache.expiresAt]. *)
Definition fresh (e : env) (cache : option cached) : option cached :=
  match cache with
  | Some c => if now_check e <? cached_until c then Some c else None
  | None => None
  end.

Definition of_reply (r : reply) : answer :=
  Answer (reply_status r) (reply_headers r) (Json (reply_body r)).

End OrefFeed.

(** The build for the Node runtime (the second text of the file). *)
Module OrefNode.

Import Http OrefFeed.

Record request : Type := Request {
  method : string;
  headers : gmap string string;
  limited : completion bool;    (* [await isRateLimited(`oref:ip:${ip}`, 10, 30_000)] *)
}.

(** The two headers of line 70-71. *)
Definition base : gmap string string :=
  {[ "Access-Control-Allow-Origin" := "*"; "Content-Type" := "application/json" ]}.

Section Handler.

(** [JSON.parse(text)] returns. *)
Variable JSON_parses : string -> bool.

(** The body that lines 103-110 keep for a text of the feed. *)
Definition kept (text : string) : string :=
  if 10240 <? Z.of_nat (js_length text) then "{}"
  else if negb (String.eqb (trim text) "")
       then if JSON_parses text then text else "{}"
       else "{}".

(** A body that is fit to be served: the empty object, or a text of the
    feed of at most 10240 UTF-16 code units, not blank, that parses. *)
Definition clean (body : string) : bool :=
  String.eqb body "{}" ||
  ((Z.of_nat (js_length body) <=? 10240) && negb (String.eqb (trim body) "")
   && JSON_parses body).

Definition cache_clean (cache : option cached) : Prop :=
  match cache with
  | Some c => clean (cached_body c) = true
  | None => True
  end.

Definition handler (e : env) (r : request) (cache : option cached) : outcome :=
  if negb (String.eqb (method r) "GET")
  then Outcome (Return (Answer 405 ∅ (Json (VObj [("error", VStr "method not allowed")]))))
               cache false
  else
    match getIP (NodeHeaders (headers r)) with
    | Throw x => Outcome (Throw x) cache false
    | Return ip =>
        match limited r with
        | Return true =>
            Outcome (Return (Answer 429 base (Json (VObj [("error", VStr "too many requests")]))))
                    cache false
        | _ =>
            match fresh e cache with
            | Some c =>
                Outcome (Return (Answer 200 (<["X-Cache" := "HIT"]> base) (Plain (cached_body c))))
                        cache false
            | None =>
                match fetch_text (upstream e) with
                | Throw _ => Outcome (Return (Answer 200 base (Plain "{}"))) cache true
                | Return text =>
                    let c := Cached (kept text) (now_store e + 15000) in
                    Outcome (Return (Answer 200 (<["X-Cache" := "MISS"]> base)
                                            (Plain (cached_body c))))
                            (Some c) true
                end
            end
        end
    end.

(** Requests one after the other, each with its clock and its feed. *)
Fixpoint serve (rs : list (env * request)) (cache : option cached) : list outcome :=
  match rs with
  | [] => []
  | (e, r) :: rest =>
      let o := handler e r cache in
      o :: serve rest (cache_after o)
  end.

End Handler.

(** A poll from a browser. *)
Definition poll : request :=
  {| method := "GET"; headers := {[ "x-forwarded-for" := "10.0.0.7" ]};
     limited := Return false |}.

Definition at_ (t : Z) (f : feed) : env :=
  {| ALLOWED_ORIGIN := None; now_check := t; now_store := t + 20; upstream := f |}.

(** A text of 6000 code units in 12000 bytes. *)
Definition hebrew_text : string := alefs (60 * 100).

End OrefNode.

(** The build for the edge runtime (the first text of the file). *)
Module OrefEdge.

Import Http OrefFeed.

Record request : Type := Request {
  method : string;
  headers : gmap string string;   (* the [Headers] of the request *)
}.

(** [isRateLimited(ip, 10, 30_000)] without [await] is the promise that the
    [async] function returns, an object; the call itself runs on, detached
    from the answer. *)
Definition unawaited : value := VObj [].

Section Handler.

Variable JSON_parses : string -> bool.

(** [new Response(body, {status: 200, headers})] behind [secHeaders()]. *)
Definition ok_answer (e : env) (x_cache : option string) (body : string) : completion answer :=
  match secHeaders (ALLOWED_ORIGIN e) None ∅ with
  | Throw x => Throw x
  | Return h =>
      Return (Answer 200 (match x_cache with Some v => <["X-Cache" := v]> h | None => h end)
                     (Plain body))
  end.

Definition err_answer (e : env) (st : Z) (msg : string) (r : request) : completion answer :=
  match errResponse (ALLOWED_ORIGIN e) st msg (Some (EdgeHeaders (headers r))) with
  | Throw x => Throw x
  | Return rep => Return (of_reply rep)
  end.

(** Lines 41-47: the cache after a text of the feed.  Line 44 sets the
    cache only when it is still [null]. *)
Definition store (e : env) (text : string) (cache : option cached) : option cached :=
  let empty := Some (Cached "{}" (now_store e + 15000)) in
  if 10240 <? Z.of_nat (js_length text) then empty
  else if negb (String.eqb (trim text) "")
       then
         let c1 := if JSON_parses text then cache else empty in
         match c1 with
         | Some _ => c1
         | None => Some (Cached text (now_store e + 15000))
         end
       else empty.

Definition handler (e : env) (r : request) (cache : option cached) : outcome :=
  if negb (String.eqb (method r) "GET")
  then Outcome (err_answer e 405 "method not allowed" r) cache false
  else
    match getIP (EdgeHeaders (headers r)) with
    | Throw x => Outcome (Throw x) cache false
    | Return ip =>
        if truthy unawaited
        then Outcome (err_answer e 429 "too many requests" r) cache false
        else
          match fresh e cache with
          | Some c => Outcome (ok_answer e (Some "HIT") (cached_body c)) cache false
          | None =>
              match fetch_text (upstream e) with
              | Throw _ => Outcome (ok_answer e None "{}") cache true
              | Return text =>
                  let cache1 := store e text cache in
                  Outcome (ok_answer e (Some "MISS")
                                     (match cache1 with Some c => cached_body c | None => "" end))
                          cache1 true
              end
          end
    end.

End Handler.

End OrefEdge.

(* ===================================================================== *)
(** ** api/beecomm.js and the Tabit proxy (unnamed/part_005, lines 1-98) *)
(* ===================================================================== *)

Module Proxy.

Import Http.

(** What the two proxies take from a request and from outside. *)
Record request : Type := Request {
  method : string;
  headers : gmap string string;    (* [req.headers] of Node *)
  caller : option string;          (* [requireAuth(req)]: the uid, or it throws *)
  limited_ip : completion bool;
  limited_uid : completion bool;
  q_tenantId : option string;      (* [req.query.tenantId] *)
  q_path : option string;
  q_date : option string;
}.

Record env : Type := Env {
  ALLOWED_ORIGIN : option string;
  access_reads : Helpers.reads;
  upstream : Sources.upstream;     (* the provider, at the one [fetch] *)
}.

(** What is sent: the status, the [Access-Control-Allow-Origin] that was
    set, if any, and the body given to [res.json]. *)
Record answer : Type := Answer {
  status : Z;
  allow_origin : option string;
  body : value;
}.

(** The answer, or what the handler throws, and the paths that were
    fetched from the provider. *)
Record outcome : Type := Outcome {
  sent : completion answer;
  fetched : list string;
}.

(** Lines 19-23: the origin that is allowed, if any. *)
Definition cors (e : env) (r : request) : option string :=
  let origin := default "" (headers r !! "origin") in
  let allowed := default "" (ALLOWED_ORIGIN e) in
  if negb (String.eqb origin "") && negb (String.eqb origin "null") && String.eqb origin allowed
  then Some origin else None.

Definition rate_gate (r : request) : option (Z * string) :=
  match limited_ip r with
  | Throw e => Some (status_or e 503, msg_or e "rate limiter error")
  | Return true => Some (429, "too many requests")
  | Return false =>
      match limited_uid r with
      | Throw e => Some (status_or e 503, msg_or e "rate limiter error")
      | Return true => Some (429, "too many requests")
      | Return false => None
      end
  end.

Definition error_body (msg : string) : value := VObj [("error", VStr msg)].

(** [strOrNull(v)]. *)
Definition strOrNull (v : value) : value :=
  match v with
  | VStr s => if Z.of_nat (js_length s) <? 64 then v else VNull
  | _ => VNull
  end.

(** [typeof v === "boolean"]. *)
Definition is_boolean (v : value) : bool :=
  match v with VBool _ => true | _ => false end.

(** A value without structure: [null], a boolean, a number, or a string of
    fewer than 64 UTF-16 code units. *)
Definition flat (v : value) : bool :=
  match v with
  | VNull | VBool _ | VNum _ => true
  | VStr s => Z.of_nat (js_length s) <? 64
  | _ => false
  end.

Section Extract.

Variable Number_of : value -> option Q.

(** [numOrNull(v)], as JSON. *)
Definition numOrNull (v : value) : value :=
  match Sources.numOrNull Number_of v with
  | Some q => VNum q
  | None => VNull
  end.

(** beecomm.js, [extractAggregates(raw, pathKey)]; reading a property of
    [null] throws. *)
Definition extractAggregates (raw : value) (pathKey : string) : completion value :=
  let num a b := numOrNull (coalesce (get_prop raw a) (get_prop raw b)) in
  if String.eqb pathKey "daily-summary" then
    if nullish raw then Throw Sources.null_access
    else Return (VObj
      [("date", strOrNull (coalesce (get_prop raw "date") (get_prop raw "Date")));
       ("totalSales", num "total_sales" "totalSales");
       ("cashSales", num "cash_sales" "cashSales");
       ("creditSales", num "credit_sales" "creditSales");
       ("deliverySales", num "delivery_sales" "deliverySales");
       ("otherSales", num "other_sales" "otherSales");
       ("transactionCount", num "transaction_count" "transactionCount");
       ("vatIncluded", if is_boolean (get_prop raw "vat_included")
                       then get_prop raw "vat_included" else VNull)])
  else if String.eqb pathKey "sales" then
    if nullish raw then Throw Sources.null_access
    else Return (VObj
      [("date", strOrNull (get_prop raw "date"));
       ("totalSales", num "total_sales" "totalSales");
       ("netSales", num "net_sales" "netSales")])
  else if String.eqb pathKey "payments" then
    if nullish raw then Throw Sources.null_access
    else Return (VObj
      [("date", strOrNull (get_prop raw "date"));
       ("cash", numOrNull (get_prop raw "cash"));
       ("credit", numOrNull (get_prop raw "credit"));
       ("other", numOrNull (get_prop raw "other"))])
  else Return (VObj []).

(** The Tabit proxy, [extractShiftAggregates(raw, pathKey)]. *)
Definition extractShiftAggregates (raw : value) (pathKey : string) : completion value :=
  let num a b := numOrNull (coalesce (get_prop raw a) (get_prop raw b)) in
  if String.eqb pathKey "shifts-summary" || String.eqb pathKey "labor-daily" then
    if nullish raw then Throw Sources.null_access
    else Return (VObj
      [("date", strOrNull (get_prop raw "date"));
       ("totalHours", num "total_hours" "totalHours");
       ("totalLaborCost", num "total_labor_cost" "totalLaborCost");
       ("employeeCount", num "employee_count" "employeeCount");
       ("shiftsCount", num "shifts_count" "shiftsCount")])
  else if String.eqb pathKey "shifts-current" then
    if nullish raw then Throw Sources.null_access
    else Return (VObj
      [("isOpen", if is_boolean (get_prop raw "is_open") then get_prop raw "is_open"
                  else coalesce (get_prop raw "isOpen") VNull);
       ("openedAt", strOrNull (coalesce (get_prop raw "opened_at") (get_prop raw "openedAt")));
       ("currentStaffCount", num "current_staff" "currentStaffCount")])
  else Return (VObj []).

(** What the two handlers share: every step but the table of paths, the
    role demanded, the test of the date and the extraction. *)
Definition serve
  (paths : string -> option string) (minRole : string) (date_ok : string -> bool)
  (extract : value -> string -> completion value)
  (e : env) (r : request) (d : db) : outcome :=
  if String.eqb (method r) "OPTIONS" then Outcome (Return (Answer 204 None VUndef)) []
  else if negb (String.eqb (method r) "GET")
  then Outcome (Return (Answer 405 None (error_body "method not allowed"))) []
  else
    let origin := cors e r in
    let reply st b := Outcome (Return (Answer st origin b)) [] in
    match caller r with
    | None => reply 401 (error_body "unauthorized")
    | Some uid =>
        match getIP (NodeHeaders (headers r)) with
        | Throw x => Outcome (Throw x) []
        | Return ip =>
            match rate_gate r with
            | Some (st, msg) => reply st (error_body msg)
            | None =>
                let tenantId := default "" (q_tenantId r) in
                if String.eqb tenantId "" then reply 400 (error_body "missing tenantId")
                else
                  match Helpers.requireTenantAccess d (access_reads e)
                          (VStr uid) (VStr tenantId) (VStr minRole) with
                  | Throw x => reply (status_or x 403) (error_body (msg_or x "forbidden"))
                  | Return _ =>
                      let path := default "" (q_path r) in
                      let date := default "" (q_date r) in
                      match paths path with
                      | None => reply 400 (error_body "invalid path")
                      | Some pathKey =>
                          if negb (date_ok date) then reply 400 (error_body "invalid date")
                          else
                            let unavailable :=
                              Outcome (Return (Answer 502 origin
                                                 (error_body "upstream unavailable"))) [path] in
                            match Sources.fetchWithTimeout (upstream e) 8000 with
                            | Throw _ => unavailable
                            | Return up =>
                                if negb (Sources.ok up)
                                then Outcome (Return (Answer 502 origin
                                                        (error_body "upstream error"))) [path]
                                else
                                  match Sources.json up false with
                                  | Throw _ => unavailable
                                  | Return raw =>
                                      match extract raw pathKey with
                                      | Throw _ => unavailable
                                      | Return aggregates =>
                                          Outcome (Return (Answer 200 origin aggregates)) [path]
                                      end
                                  end
                            end
                      end
                  end
            end
        end
    end.

End Extract.

(** A request from the app, and a shop whose provider behaves as [u]. *)
Definition ask (uid tenantId path date : string) : request :=
  {| method := "GET";
     headers := {[ "origin" := "https://app.example.com"; "x-forwarded-for" := "10.0.0.7" ]};
     caller := Some uid;
     limited_ip := Return false; limited_uid := Return false;
     q_tenantId := Some tenantId; q_path := Some path; q_date := Some date |}.

Definition shop (u : Sources.upstream) : env :=
  {| ALLOWED_ORIGIN := Some "https://app.example.com";
     access_reads := Helpers.Reads (Answers 5) (Answers 5);
     upstream := u |}.

End Proxy.

(** api/beecomm.js. *)
Module BeecommProxy.

Import Proxy.

(** [ALLOWED_PATHS.get(path)]. *)
Definition ALLOWED_PATHS (path : string) : option string :=
  if String.eqb path "/v1/reports/daily-summary" then Some "daily-summary"
  else if String.eqb path "/v1/reports/sales" then Some "sales"
  else if String.eqb path "/v1/reports/payments" then Some "payments"
  else None.

Definition handler (Number_of : value -> option Q) (e : env) (r : request) (d : db) : outcome :=
  serve ALLOWED_PATHS "manager" date_regex (extractAggregates Number_of) e r d.

End BeecommProxy.

(** The Tabit proxy (unnamed/part_005, lines 1-98). *)
Module TabitProxy.

Import Proxy.

Definition ALLOWED_PATHS (path : string) : option string :=
  if String.eqb path "/v1/shifts/summary" then Some "shifts-summary"
  else if String.eqb path "/v1/shifts/current" then Some "shifts-current"
  else if String.eqb path "/v1/labor/daily" then Some "labor-daily"
  else None.

(** [date && !regex.test(date)] is false: the date is absent or well formed. *)
Definition date_ok (date : string) : bool := String.eqb date "" || date_regex date.

Definition handler (Number_of : value -> option Q) (e : env) (r : request) (d : db) : outcome :=
  serve ALLOWED_PATHS "shift_manager" date_ok (extractShiftAggregates Number_of) e r d.

End TabitProxy.

(* ===================================================================== *)
(** ** api/analytics/check.js: the fresh document against the stored one *)
(* ===================================================================== *)

Module Check.

Import Http.

Record request : Type := Request {
  method : string;
  headers : gmap string string;    (* [req.headers] of Node *)
  caller : option string;          (* [requireAuth(req)] *)
  limited_ip : completion bool;
  limited_uid : completion bool;
  q_tenantId : option string;
  q_date : option string;
}.

Record env : Type := Env {
  access_reads : Helpers.reads;
  net : Sources.network;           (* the providers, at the build *)
  now : Z;                         (* [Date.now()] at the build *)
  read_fault : option thrown;      (* the read of the stored document throws *)
}.

Record checksum : Type := Checksum {
  fresh_revenue : Q;
  fresh_tickets : Q;
  stored_revenue : option Q;
  stored_tickets : option Q;
  matches : option bool;           (* [match]: [null] without a stored document *)
  stored_at : option Z;
}.

(** What is sent: an error, or the report of status 200. *)
Inductive answer : Type :=
| Refused (status : Z) (json : value)
| Report (tenantId date branchId : string) (doc : Builder.daily_doc) (sum : checksum)
         (stored : bool).

Record outcome : Type := Outcome {
  sent : completion answer;
  contacted : list Sources.provider;
}.

Definition BRANCH_ID : string := "main".

Definition rate_gate (r : request) : option response :=
  match limited_ip r with
  | Throw e => Some (error_response (status_or e 503) (msg_or e "rate limiter error"))
  | Return true => Some (error_response 429 "too many requests")
  | Return false =>
      match limited_uid r with
      | Throw e => Some (error_response (status_or e 503) (msg_or e "rate limiter error"))
      | Return true => Some (error_response 429 "too many requests")
      | Return false => None
      end
  end.

Definition refuse (st : Z) (msg : string) : outcome :=
  Outcome (Return (Refused st (VObj [("error", VStr msg)]))) [].

(** Lines 46-50: [e?.source ?? "unknown"] and
    [e?.reason ?? e?.message ?? "unknown"]. *)
Definition upstream_failed (e : thrown) : value :=
  VObj [("error", VStr "upstream failed");
        ("source", VStr match e with SourceReason source _ => source | _ => "unknown" end);
        ("reason", VStr match e with
                        | SourceReason _ reason => reason
                        | Err _ msg => msg
                        | StatusMsg _ _ => "unknown"
                        end)].

(** Lines 64-74. *)
Definition compare (fresh : Builder.daily_doc) (stored : option Builder.daily_doc) : checksum :=
  {| fresh_revenue := Builder.doc_revenue_total fresh;
     fresh_tickets := Builder.doc_tickets fresh;
     stored_revenue := option_map Builder.doc_revenue_total stored;
     stored_tickets := option_map Builder.doc_tickets stored;
     matches :=
       option_map (fun s => Qeq_bool (Builder.doc_revenue_total fresh) (Builder.doc_revenue_total s)
                            && Qeq_bool (Builder.doc_tickets fresh) (Builder.doc_tickets s))
                  stored;
     stored_at := option_map (fun s => Builder.createdAt (Builder.meta s)) stored |}.

Section Handler.

Variable Number_of : value -> option Q.
Variable TABIT_API_KEY : option string.

Definition handler (e : env) (r : request) (d : db) : outcome :=
  if negb (String.eqb (method r) "GET") then refuse 405 "method not allowed"
  else
    match caller r with
    | None => refuse 401 "unauthorized"
    | Some uid =>
        match getIP (NodeHeaders (headers r)) with
        | Throw x => Outcome (Throw x) []
        | Return ip =>
            match rate_gate r with
            | Some resp => Outcome (Return (Refused (status resp) (json resp))) []
            | None =>
                let tenantId := default "" (q_tenantId r) in
                let date := default "" (q_date r) in
                if String.eqb tenantId "" || RTDB_FORBIDDEN tenantId
                then refuse 400 "invalid tenantId"
                else if negb (date_regex date) then refuse 400 "invalid date"
                else
                  match Helpers.requireTenantAccess d (access_reads e)
                          (VStr uid) (VStr tenantId) (VStr "manager") with
                  | Throw x => refuse (status_or x 403) (msg_or x "forbidden")
                  | Return _ =>
                      let '(asked, built) :=
                        Builder.buildDailyDoc Number_of TABIT_API_KEY (net e) (now e)
                                              tenantId date in
                      match built with
                      | Throw x => Outcome (Return (Refused 502 (upstream_failed x))) asked
                      | Return (_, freshDoc) =>
                          let storedDoc :=
                            match read_fault e with
                            | Some _ => None
                            | None => daily (tenant_of d tenantId) !! date
                            end in
                          Outcome (Return (Report tenantId date BRANCH_ID freshDoc
                                             (compare freshDoc storedDoc)
                                             (match storedDoc with Some _ => true | None => false end)))
                                  asked
                      end
                  end
            end
        end
    end.

End Handler.

(** A check of one day of tenant "t1" by its manager. *)
Definition check_request (uid tenantId date : string) : request :=
  {| method := "GET"; headers := {[ "x-forwarded-for" := "10.0.0.7" ]};
     caller := Some uid; limited_ip := Return false; limited_uid := Return false;
     q_tenantId := Some tenantId; q_date := Some date |}.

Definition later : env :=
  {| access_reads := Helpers.Reads (Answers 5) (Answers 5);
     net := Builder.net_weather_late; now := 1730721600456; read_fault := None |}.

End Check.

(* ===================================================================== *)
(** * The embedding on sample inputs *)
(* ===================================================================== *)

Module Checks.

Example epoch_noon : Dates.noon_of "1970-01-01" = Some 43200000.
Proof. reflexivity. Qed.

Example iso_of_instant : Dates.toISOString 1730635200123 = "2024-11-03T12:00:00.123Z".
Proof. vm_compute. reflexivity. Qed.

Example leap_day_follows :
  Dates.next_day "2024-02-28" = Some "2024-02-29" /\
  Dates.next_day "2025-02-28" = Some "2025-03-01" /\
  Dates.next_day "2024-12-31" = Some "2025-01-01".
Proof. vm_compute. repeat split. Qed.

Example day_overflows_into_next_month :
  option_map Dates.toISOString (Dates.noon_of "2024-02-30") = Some "2024-03-01T12:00:00.000Z" /\
  Dates.noon_of "2024-13-01" = None /\ Dates.noon_of "2024-01-32" = None /\
  Dates.noon_of "2024-1-5" = None.
Proof. vm_compute. repeat split. Qed.

(** The two conversions between day numbers and civil dates agree on every
    day from 2020-01-01 to 2030-12-31. *)
Example civil_round_trip :
  forallb (fun n => let day := 18262 + Z.of_nat n in
                    let '(y, m, d) := Dates.civil_from_days day in
                    Dates.days_from_civil y m d =? day)
          (seq 0 4018) = true.
Proof. vm_compute. reflexivity. Qed.

Example range_over_new_year :
  Dates.dateRange "2024-12-30" "2025-01-02"
  = ["2024-12-30"; "2024-12-31"; "2025-01-01"; "2025-01-02"].
Proof. vm_compute. reflexivity. Qed.

Example range_backwards : Dates.dateRange "2025-01-02" "2025-01-01" = [].
Proof. vm_compute. reflexivity. Qed.

Example ninety_and_ninety_one :
  length (Dates.dateRange "2025-01-01" "2025-03-31") = 90%nat /\
  length (Dates.dateRange "2025-01-01" "2025-04-01") = 91%nat.
Proof. vm_compute. split; reflexivity. Qed.

Example a_friday :
  Sources.buildCalendar "2024-10-04"
  = {| Sources.dow := Some 5; Sources.weekend := true; Sources.month := Some 10;
       Sources.holiday := false; Sources.holiday_eve := false;
       Sources.new_year_eve := false |}.
Proof. vm_compute. reflexivity. Qed.

Example first_day_of_sukkot :
  Sources.holiday (Sources.buildCalendar "2025-10-07") = true /\
  Sources.holiday_eve (Sources.buildCalendar "2025-10-05") = true /\
  Sources.holiday_eve (Sources.buildCalendar "2025-12-31") = true.
Proof. vm_compute. repeat split. Qed.

Example status_numerals :
  Sources.decimal 503 = "503" /\ Sources.decimal 0 = "0" /\ Sources.decimal 1000 = "1000".
Proof. vm_compute. repeat split. Qed.

(** The doubles nearest to 142.86, to 0.13 and to 0.14: a half of a
    hundredth goes up from 1/8, which is a double, and down from 29/200,
    which is not. *)
Example average_checks :
  Builder.average_check 1000 7 = Float64.round (14286 # 100)%Q /\
  Builder.average_check 10 0 = Float64.Finite 0 /\
  Builder.average_check 1 8 = Float64.round (13 # 100)%Q /\
  Builder.average_check 29 200 = Float64.round (14 # 100)%Q.
Proof. vm_compute. repeat split. Qed.

Example doubles :
  Float64.round (1 # 10) = Float64.Finite (3602879701896397 # 36028797018963968)%Q /\
  Float64.round (inject_Z (2 ^ 1024)) = Float64.Infinite false /\
  Float64.round (1 # 2 ^ 1075)%Q = Float64.Finite 0.
Proof. vm_compute. repeat split. Qed.

(** The lengths that the sources bound are counted in code units: an id
    of 65 Hebrew letters passes the bound of 128, a name of 40 passes the
    bound of 64, and one of 64 does not. *)
Example lengths_in_code_units :
  Helpers.bad_id (VStr (alefs 65)) = false /\ Helpers.bad_id (VStr (alefs 129)) = true /\
  Proxy.strOrNull (VStr (alefs 40)) = VStr (alefs 40) /\
  Proxy.strOrNull (VStr (alefs 64)) = VNull.
Proof. vm_compute. repeat split. Qed.

Example code_units :
  js_length "abc" = 3%nat /\
  js_length (String (ascii_of_nat 215) (String (ascii_of_nat 169) "")) = 1%nat /\
  js_length (String (ascii_of_nat 240) (String (ascii_of_nat 159)
              (String (ascii_of_nat 153) (String (ascii_of_nat 130) "")))) = 2%nat.
Proof. repeat split. Qed.

Example property_keys :
  canonical_index "10" = Some 10%nat /\ canonical_index "08" = None /\
  get_prop (VArr [VNum 1; VNum 2]) "1" = VNum 2 /\
  get_prop (VObj [("a", VNull)]) "b" = VUndef.
Proof. vm_compute. repeat split. Qed.

Example bearer_prefix :
  DailyBuilder.strip_bearer "Bearer   abc" = "abc" /\
  DailyBuilder.strip_bearer "bEaReR abc" = "abc" /\
  DailyBuilder.strip_bearer "Bearerabc" = "Bearerabc" /\
  DailyBuilder.strip_bearer "xBearer abc" = "xBearer abc" /\
  DailyBuilder.strip_bearer ("Bearer" ++ DailyBuilder.nbsp ++ " abc") = "abc" /\
  DailyBuilder.strip_bearer ("Bearer" ++ DailyBuilder.nbsp) = "".
Proof. vm_compute. repeat split. Qed.

Example rank_order :
  Helpers.hasRole "owner" "manager" = true /\ Helpers.hasRole "viewer" "shift_manager" = false /\
  Helpers.hasRole "manager" "manager" = true /\ Helpers.hasRole "guest" "viewer" = false.
Proof. vm_compute. repeat split. Qed.

(** The alert feed, when it answers with an array, is read a second time,
    and that read rejects: the fetch rejects and the source is "missing". *)
Example alerts_array_is_read_twice :
  Sources.fetchOrefAlerts
    (fun _ => Sources.Responds 50 200 (Some (VArr []))) "2025-01-01"
  = ([Sources.Oref], Throw (Err "TypeError" "Body is unusable")).
Proof. vm_compute. reflexivity. Qed.

End Checks.

(* ===================================================================== *)
(** * Properties *)
(* ===================================================================== *)

(** ** The tenant access check fails closed *)

Module HelpersFacts.

Import Helpers.

Lemma get_in_time b v :
  in_time b -> forall msg, withTimeout (get b v) 3000 msg = Return v.
Proof.
  intros (ms & -> & Hms) msg. unfold withTimeout, get; simpl.
  destruct (Z.leb_spec ms 3000); [reflexivity | lia].
Qed.

Lemma get_unavailable b v msg :
  errors_or_times_out b -> exists e, withTimeout (get b v) 3000 msg = Throw e.
Proof.
  destruct b as [ms|ms m|]; simpl; intros H; unfold withTimeout; simpl.
  - destruct (Z.leb_spec ms 3000); [lia | eauto].
  - destruct (ms <=? 3000); eauto.
  - eauto.
Qed.

Lemma get_returns b v msg w :
  withTimeout (get b v) 3000 msg = Return w -> in_time b /\ w = v.
Proof.
  destruct b as [ms|ms m|]; unfold withTimeout; simpl.
  - destruct (Z.leb_spec ms 3000); [|discriminate].
    intros [= <-]. split; [exists ms; split; [reflexivity | assumption] | reflexivity].
  - destruct (ms <=? 3000); discriminate.
  - discriminate.
Qed.

Lemma is_true_value_spec v : is_true_value v = true <-> v = VBool true.
Proof.
  split; [|intros ->; reflexivity].
  destruct v as [| |[]| | | |]; simpl; congruence.
Qed.

Lemma valid_role_rank r :
  VALID_ROLES_has (VStr r) = true -> exists k, ROLE_RANK r = Some k /\ 1 <= k <= 4.
Proof.
  unfold VALID_ROLES_has, ROLE_RANK.
  destruct (String.eqb r "owner"); [intros _; exists 4; split; [reflexivity | lia] |].
  destruct (String.eqb r "manager"); [intros _; exists 3; split; [reflexivity | lia] |].
  destruct (String.eqb r "shift_manager"); [intros _; exists 2; split; [reflexivity | lia] |].
  destruct (String.eqb r "viewer"); [intros _; exists 1; split; [reflexivity | lia] |].
  discriminate.
Qed.

Lemma valid_role_is_string v : VALID_ROLES_has v = true -> v = VStr (str_of v).
Proof. destruct v; simpl; try discriminate. reflexivity. Qed.

(** Between two keys of [ROLE_RANK], [hasRole] compares the ranks. *)
Lemma hasRole_ranks a b ra rb :
  ROLE_RANK a = Some ra -> ROLE_RANK b = Some rb -> hasRole a b = (rb <=? ra).
Proof. intros Ha Hb. unfold hasRole, rank_or. rewrite Ha, Hb. reflexivity. Qed.

(** C2.  On inputs that pass the validation: a membership read that errors,
    hangs or takes more than 3000 ms makes the call throw status 503, so no
    role comes back; a membership read that succeeds, in 3000 ms at most,
    with anything but the boolean [true] makes it throw status 403, "not a
    tenant member"; and a role is returned only when the member flag read
    in time is exactly [true], the role read in time is that very string,
    one of the four known roles, of rank at least the rank of [minRole]. *)
Theorem requireTenantAccess_fail_closed d r uid tenantId minRole :
  valid_inputs uid tenantId minRole ->
  let t := tenant_of d (str_of tenantId) in
  let memberVal := val_at (members t) (str_of uid) in
  let roleVal := val_at (roles t) (str_of uid) in
  (errors_or_times_out (member_io r) ->
     requireTenantAccess d r uid tenantId minRole
     = Throw (StatusMsg 503 "authorization check unavailable")) /\
  (in_time (member_io r) -> memberVal <> VBool true ->
     requireTenantAccess d r uid tenantId minRole
     = Throw (StatusMsg 403 "not a tenant member")) /\
  (forall role, requireTenantAccess d r uid tenantId minRole = Return role ->
     in_time (member_io r) /\ memberVal = VBool true /\
     in_time (role_io r) /\ roleVal = VStr role /\
     VALID_ROLES_has (VStr role) = true /\
     exists rank min_rank,
       ROLE_RANK role = Some rank /\ ROLE_RANK (str_of minRole) = Some min_rank /\
       min_rank <= rank).
Proof.
  intros (Hu & Ht & Hm & Hfu & Hft) t memberVal roleVal.
  unfold requireTenantAccess. rewrite Hu, Ht, Hm, Hfu, Hft. simpl.
  fold t. fold memberVal. fold roleVal.
  split; [|split].
  - intros Hbad.
    destruct (get_unavailable _ memberVal "membership lookup timed out" Hbad) as [e ->].
    reflexivity.
  - intros Hok Hne. rewrite (get_in_time _ _ Hok).
    destruct (is_true_value memberVal) eqn:E; [|reflexivity].
    apply is_true_value_spec in E. contradiction.
  - intros role.
    destruct (withTimeout (get (member_io r) memberVal) 3000 _) as [mv|] eqn:Em;
      [|discriminate].
    apply get_returns in Em as [Hin ->].
    destruct (is_true_value memberVal) eqn:Etrue; simpl; [|discriminate].
    apply is_true_value_spec in Etrue.
    destruct (withTimeout (get (role_io r) roleVal) 3000 _) as [rv|] eqn:Er;
      [|discriminate].
    apply get_returns in Er as [Hin2 ->].
    destruct roleVal as [| | | |rs| |] eqn:Erole; try discriminate.
    destruct (VALID_ROLES_has (VStr rs)) eqn:Ev; simpl; [|discriminate].
    destruct (hasRole rs (str_of minRole)) eqn:Eh; simpl; [|discriminate].
    intros [= <-].
    repeat (split; [assumption || reflexivity|]).
    destruct (valid_role_rank rs Ev) as (k & Hk & _).
    rewrite (valid_role_is_string _ Hm) in Hm.
    destruct (valid_role_rank _ Hm) as (km & Hkm & _).
    exists k, km. repeat split; try assumption.
    rewrite (hasRole_ranks _ _ _ _ Hk Hkm) in Eh. lia.
Qed.

Lemma requireTenantAccess_fail_closed_witness :
  requireTenantAccess sample_db (Reads (Answers 3000) (Answers 3000))
    (VStr "u1") (VStr "t1") (VStr "shift_manager") = Return "manager" /\
  requireTenantAccess sample_db (Reads (Answers 3001) (Answers 15))
    (VStr "u1") (VStr "t1") (VStr "shift_manager")
  = Throw (StatusMsg 503 "authorization check unavailable") /\
  requireTenantAccess sample_db (Reads (Answers 12) (Answers 15))
    (VStr "u2") (VStr "t1") (VStr "shift_manager")
  = Throw (StatusMsg 403 "not a tenant member").
Proof.
  split; [reflexivity | split].
  - apply (requireTenantAccess_fail_closed sample_db (Reads (Answers 3001) (Answers 15))
             (VStr "u1") (VStr "t1") (VStr "shift_manager")).
    + repeat split; reflexivity.
    + simpl. lia.
  - apply (requireTenantAccess_fail_closed sample_db (Reads (Answers 12) (Answers 15))
             (VStr "u2") (VStr "t1") (VStr "shift_manager")).
    + repeat split; reflexivity.
    + exists 12. split; [reflexivity | lia].
    + vm_compute. discriminate.
Defined.

End HelpersFacts.

(** ** The owner set of a tenant is never emptied *)

Module RolesFacts.

Import Roles BootstrapOwner AdminRoles Mutations.

Lemma is_string_spec lit v : is_string lit v = true <-> v = VStr lit.
Proof.
  destruct v; simpl; try (split; [discriminate | congruence]).
  rewrite String.eqb_eq. split; congruence.
Qed.

Lemma owner_uids_spec (rs : gmap string value) uid :
  In uid (owner_uids rs) <-> rs !! uid = Some owner.
Proof.
  unfold owner_uids. rewrite in_map_iff. split.
  - intros ([k v] & <- & Hin). apply filter_In in Hin as [Hin Hv]. simpl in *.
    apply is_string_spec in Hv. subst v.
    apply list_elem_of_In, elem_of_map_to_list in Hin. exact Hin.
  - intros Hl. exists (uid, owner). split; [reflexivity|].
    apply filter_In. split; [|reflexivity].
    apply list_elem_of_In, elem_of_map_to_list. exact Hl.
Qed.

Lemma NoDup_map_fst_filter {A B} (f : A * B -> bool) (l : list (A * B)) :
  NoDup (List.map fst l) -> NoDup (List.map fst (List.filter f l)).
Proof.
  induction l as [|x l IH]; simpl; intros Hnd; [constructor|].
  inversion Hnd as [|? ? Hnotin Hnd']; subst.
  destruct (f x); simpl; [constructor|]; auto.
  intros Hin. apply Hnotin.
  apply list_elem_of_In in Hin. apply list_elem_of_In.
  apply in_map_iff in Hin as (y & Hy & Hin).
  apply filter_In in Hin as [Hin _].
  apply in_map_iff. exists y. split; assumption.
Qed.

Lemma owner_uids_NoDup (rs : gmap string value) : NoDup (owner_uids rs).
Proof.
  unfold owner_uids. apply NoDup_map_fst_filter.
  apply (NoDup_fst_map_to_list rs).
Qed.

Lemma has_owner_uids (rs : gmap string value) : has_owner rs <-> owner_uids rs <> [].
Proof.
  split.
  - intros [uid Huid] Hnil. apply owner_uids_spec in Huid. rewrite Hnil in Huid. destruct Huid.
  - destruct (owner_uids rs) as [|o os] eqn:E; [congruence|]. intros _.
    exists o. apply owner_uids_spec. rewrite E. left. reflexivity.
Qed.

Lemma owned_spec (rs : gmap string value) :
  (0 <? length (owner_uids rs))%nat = true <-> has_owner rs.
Proof.
  rewrite has_owner_uids, Nat.ltb_lt.
  destruct (owner_uids rs); simpl; split; try lia; try congruence; try discriminate.
Qed.

(** The transaction of the bootstrap aborts exactly when there is an owner. *)
Lemma bootstrap_update_None uid (rs : gmap string value) :
  bootstrap_update uid rs = None <-> has_owner rs.
Proof.
  unfold bootstrap_update. rewrite <- owned_spec.
  destruct (0 <? length (owner_uids rs))%nat; split; congruence.
Qed.

Lemma bootstrap_update_Some uid (rs rs' : gmap string value) :
  bootstrap_update uid rs = Some rs' <-> ~ has_owner rs /\ rs' = <[uid := owner]> rs.
Proof.
  unfold bootstrap_update. rewrite <- owned_spec.
  destruct (0 <? length (owner_uids rs))%nat; split.
  - discriminate.
  - intros [H _]. exfalso. apply H. reflexivity.
  - intros [= <-]. split; [discriminate | reflexivity].
  - intros [_ ->]. reflexivity.
Qed.

(** When the last-owner test lets a change through, some owner other than
    the target stays. *)
Lemma other_owner target (rs : gmap string value) :
  has_owner rs -> last_owner target rs = false ->
  exists uid, uid <> target /\ rs !! uid = Some owner.
Proof.
  intros Hown Hlast. unfold last_owner in Hlast.
  pose proof (owner_uids_NoDup rs) as Hnd.
  apply has_owner_uids in Hown.
  destruct (owner_uids rs) as [|o1 [|o2 os]] eqn:E; [congruence| |].
  - exists o1. split.
    + intros ->. rewrite String.eqb_refl in Hlast. discriminate.
    + apply owner_uids_spec. rewrite E. left. reflexivity.
  - inversion Hnd as [|? ? Hnotin _]; subst.
    destruct (String.eqb_spec o1 target) as [->|Hne].
    + exists o2. split.
      * intros ->. apply Hnotin. left.
      * apply owner_uids_spec. rewrite E. right. left. reflexivity.
    + exists o1. split; [assumption|].
      apply owner_uids_spec. rewrite E. left. reflexivity.
Qed.

Lemma apply_change_other target role (rs : gmap string value) uid :
  uid <> target -> apply_change target role rs !! uid = rs !! uid.
Proof.
  intros Hne. unfold apply_change.
  destruct (is_null role); [apply lookup_delete_ne | apply lookup_insert_ne]; congruence.
Qed.

Lemma role_update_keeps_owner target role (rs rs' : gmap string value) :
  has_owner rs -> role_update target role rs = Some rs' -> has_owner rs'.
Proof.
  unfold role_update. intros Hown.
  destruct (last_owner target rs) eqn:Hlast; [discriminate|].
  intros [= <-].
  destruct (other_owner target rs Hown Hlast) as (uid & Hne & Hu).
  exists uid. rewrite apply_change_other; assumption.
Qed.

Lemma role_update_last_owner target role (rs : gmap string value) :
  owner_uids rs = [target] -> role_update target role rs = None.
Proof.
  intros E. unfold role_update, last_owner. rewrite E, String.eqb_refl. reflexivity.
Qed.

Lemma insert_owner_monotone target (rs : gmap string value) uid :
  rs !! uid = Some owner -> <[target := owner]> rs !! uid = Some owner.
Proof.
  intros H. destruct (decide (target = uid)) as [->|Hne].
  - apply lookup_insert_eq.
  - rewrite lookup_insert_ne; assumption.
Qed.

(** The roles of a tenant after a change of one tenant. *)
Lemma tenant_of_update (d : db) tid f t :
  tenant_of (update_tenant d tid f) t
  = if decide (tid = t) then f (tenant_of d tid) else tenant_of d t.
Proof.
  unfold tenant_of, update_tenant. rewrite lookup_insert.
  destruct (decide (tid = t)); reflexivity.
Qed.

Lemma roles_side_write e d tid uid flag a t :
  roles (tenant_of (side_write e d tid uid flag a) t) = roles (tenant_of d t).
Proof.
  unfold side_write. destruct (side_fault e); [reflexivity|].
  rewrite tenant_of_update. destruct (decide (tid = t)) as [->|]; reflexivity.
Qed.

Lemma roles_with_roles d tid rs t :
  roles (tenant_of (update_tenant d tid (fun x => with_roles x rs)) t)
  = if decide (tid = t) then rs else roles (tenant_of d t).
Proof. rewrite tenant_of_update. destruct (decide (tid = t)); reflexivity. Qed.

Lemma transaction_committed {V} fault (fn : V -> option V) cur next :
  transaction fault fn cur = (Return true, next) -> fault = None /\ fn cur = Some next.
Proof.
  unfold transaction. destruct fault; [discriminate|].
  destruct (fn cur); intros [= <-]; split; reflexivity.
Qed.

Lemma change_keeps_owner rs rs' : change rs rs' -> has_owner rs -> has_owner rs'.
Proof.
  intros [->|target role Hu|target ->|uid Hb] Hown.
  - assumption.
  - eapply role_update_keeps_owner; eassumption.
  - destruct Hown as [u Hu]. exists u. apply insert_owner_monotone. assumption.
  - apply bootstrap_update_Some in Hb as [Hno _]. contradiction.
Qed.

Ltac committed_tx :=
  match goal with
  | H : transaction _ _ _ = (Return true, _) |- _ =>
      apply transaction_committed in H as [_ H]
  end.

Lemma bootstrap_handler_change e r d t :
  change (roles (tenant_of d t)) (roles (tenant_of (snd (BootstrapOwner.handler e r d)) t)).
Proof.
  unfold BootstrapOwner.handler.
  repeat case_match; simplify_eq/=; try (apply unchanged; reflexivity).
  all: rewrite roles_side_write, roles_with_roles.
  all: destruct (decide _) as [<-|]; [|apply unchanged; reflexivity].
  all: committed_tx; eapply by_bootstrap; eassumption.
Qed.

Lemma roles_handler_change e r d t :
  change (roles (tenant_of d t)) (roles (tenant_of (snd (AdminRoles.handler e r d)) t)).
Proof.
  unfold AdminRoles.handler.
  repeat case_match; simplify_eq/=; try (apply unchanged; reflexivity).
  all: rewrite roles_side_write, tenant_of_update.
  all: destruct (decide _) as [<-|]; [|apply unchanged; reflexivity].
  all: simpl.
  all: first
    [ committed_tx; eapply by_role_update; eassumption
    | match goal with H : negb (is_string "owner" ?role) = false |- _ =>
        apply negb_false_iff, is_string_spec in H; rewrite H end;
      eapply by_set_owner; reflexivity ].
Qed.

Lemma perform_change op d t :
  change (roles (tenant_of d t)) (roles (tenant_of (snd (perform op d)) t)).
Proof.
  destruct op; simpl; [apply bootstrap_handler_change | apply roles_handler_change].
Qed.

Lemma perform_all_keeps_owner ops : forall d t,
  has_owner (roles (tenant_of d t)) -> has_owner (roles (tenant_of (perform_all ops d) t)).
Proof.
  induction ops as [|op ops IH]; simpl; intros d t Hown; [assumption|].
  apply IH. eapply change_keeps_owner; [apply perform_change | assumption].
Qed.

Lemma sole_owner_uids target (rs : gmap string value) :
  sole_owner target rs -> owner_uids rs = [target].
Proof.
  intros Hsole.
  pose proof (owner_uids_NoDup rs) as Hnd.
  assert (Hall : forall u, In u (owner_uids rs) <-> u = target).
  { intros u. rewrite owner_uids_spec. apply Hsole. }
  destruct (owner_uids rs) as [|o1 [|o2 os]].
  - exfalso. apply (Hall target). reflexivity.
  - f_equal. apply Hall. left. reflexivity.
  - exfalso. inversion Hnd as [|? ? Hnotin _]; subst. apply Hnotin.
    assert (o1 = target) as -> by (apply Hall; left; reflexivity).
    assert (o2 = target) as -> by (apply Hall; right; left; reflexivity).
    left.
Qed.

(** A well-formed request to remove or downgrade the only owner, from a
    caller who passes the access check, is answered 409 and changes nothing. *)
Lemma roles_handler_last_owner e d actor tid target role granted :
  Helpers.bad_id (VStr tid) = false -> Helpers.bad_id (VStr target) = false ->
  RTDB_FORBIDDEN tid = false -> RTDB_FORBIDDEN target = false ->
  is_null role || Helpers.VALID_ROLES_has role = true ->
  is_string "owner" role = false ->
  Helpers.requireTenantAccess d (access_reads e) (VStr actor) (VStr tid) owner
    = Return granted ->
  tx_fault e = None ->
  sole_owner target (roles (tenant_of d tid)) ->
  AdminRoles.handler e (update_request actor tid target role) d
  = (error_response 409 "cannot remove or downgrade the last owner", d).
Proof.
  intros Ht Hu Hft Hfu Hrole Hnot Hacc Htx Hsole.
  assert (Hr : negb (is_null role) && negb (Helpers.VALID_ROLES_has role) = false).
  { destruct (is_null role), (Helpers.VALID_ROLES_has role); simpl in *; congruence. }
  unfold AdminRoles.handler, update_request, rate_gate.
  cbn -[Helpers.bad_id RTDB_FORBIDDEN Helpers.requireTenantAccess transaction role_update
        is_null Helpers.VALID_ROLES_has is_string].
  rewrite Ht, Hu, Hr, Hft, Hfu.
  cbn -[Helpers.requireTenantAccess transaction role_update is_string].
  rewrite Hacc, Hnot.
  unfold transaction. rewrite Htx.
  rewrite (role_update_last_owner _ _ _ (sole_owner_uids _ _ Hsole)).
  reflexivity.
Qed.

Lemma roles_handler_owner_adds e r d t :
  role_field r = owner ->
  roles (tenant_of (snd (AdminRoles.handler e r d)) t) = roles (tenant_of d t) \/
  exists target,
    roles (tenant_of (snd (AdminRoles.handler e r d)) t) = <[target := owner]> (roles (tenant_of d t)).
Proof.
  unfold role_field, AdminRoles.handler. intros Hrole.
  repeat case_match; simplify_eq/=; try (left; reflexivity).
  all: rewrite roles_side_write, tenant_of_update.
  all: destruct (decide _) as [<-|]; [|left; reflexivity].
  all: simpl; rewrite ?Hrole in *; simpl in *; try discriminate.
  all: right; eexists; reflexivity.
Qed.

Lemma bootstrap_handler_adds e r d t :
  roles (tenant_of (snd (BootstrapOwner.handler e r d)) t) = roles (tenant_of d t) \/
  exists uid,
    roles (tenant_of (snd (BootstrapOwner.handler e r d)) t) = <[uid := owner]> (roles (tenant_of d t)).
Proof.
  unfold BootstrapOwner.handler.
  repeat case_match; simplify_eq/=; try (left; reflexivity).
  all: rewrite roles_side_write, roles_with_roles.
  all: destruct (decide _) as [<-|]; [|left; reflexivity].
  all: match goal with
       | H : transaction _ _ _ = (Return true, _) |- _ =>
           apply transaction_committed in H as [_ H];
           apply bootstrap_update_Some in H as [_ ->]
       end.
  all: right; eexists; reflexivity.
Qed.

(** C1.  Whatever the sequence of Bootstrap and UpdateRole operations, a
    tenant that has an owner before it has an owner after it.  An UpdateRole
    to a role other than owner, on a state whose owner set is exactly the
    target, aborts: the transaction function returns nothing to commit and
    the handler answers 409 with the store unchanged.  An UpdateRole to owner
    and a Bootstrap leave the roles of a tenant as they were or add one
    owner entry to them. *)
Theorem owner_set_never_emptied :
  (forall ops d t,
     has_owner (roles (tenant_of d t)) ->
     has_owner (roles (tenant_of (perform_all ops d) t))) /\
  (forall target role rs, sole_owner target rs -> role_update target role rs = None) /\
  (forall e d actor tid target role granted,
     Helpers.bad_id (VStr tid) = false -> Helpers.bad_id (VStr target) = false ->
     RTDB_FORBIDDEN tid = false -> RTDB_FORBIDDEN target = false ->
     is_null role || Helpers.VALID_ROLES_has role = true ->
     is_string "owner" role = false ->
     Helpers.requireTenantAccess d (access_reads e) (VStr actor) (VStr tid) owner
       = Return granted ->
     tx_fault e = None ->
     sole_owner target (roles (tenant_of d tid)) ->
     AdminRoles.handler e (update_request actor tid target role) d
     = (error_response 409 "cannot remove or downgrade the last owner", d)) /\
  (forall e r d t,
     role_field r = owner ->
     roles (tenant_of (snd (AdminRoles.handler e r d)) t) = roles (tenant_of d t) \/
     exists target,
       roles (tenant_of (snd (AdminRoles.handler e r d)) t)
       = <[target := owner]> (roles (tenant_of d t))) /\
  (forall e r d t,
     roles (tenant_of (snd (BootstrapOwner.handler e r d)) t) = roles (tenant_of d t) \/
     exists uid,
       roles (tenant_of (snd (BootstrapOwner.handler e r d)) t)
       = <[uid := owner]> (roles (tenant_of d t))).
Proof.
  split; [|split; [|split; [|split]]].
  - intros ops d t. apply perform_all_keeps_owner.
  - intros target role rs Hsole. apply role_update_last_owner, sole_owner_uids, Hsole.
  - intros. eapply roles_handler_last_owner; eassumption.
  - intros. apply roles_handler_owner_adds. assumption.
  - intros. apply bootstrap_handler_adds.
Qed.

Lemma owner_set_never_emptied_witness :
  has_owner
    (roles (tenant_of
       (perform_all
          [UpdateRole calm (update_request "u1" "t1" "u1" VNull);
           UpdateRole calm (update_request "u1" "t1" "u2" (VStr "manager"));
           UpdateRole calm (update_request "u1" "t1" "u1" (VStr "viewer"));
           Bootstrap calm (bootstrap_request "u3" "t1" "u3")]
          one_owner_db) "t1")) /\
  AdminRoles.handler calm (update_request "u1" "t1" "u1" VNull) one_owner_db
  = (error_response 409 "cannot remove or downgrade the last owner", one_owner_db).
Proof.
  assert (Hsole : sole_owner "u1" (roles (tenant_of one_owner_db "t1"))).
  { intros uid. change (roles (tenant_of one_owner_db "t1")) with ({[ "u1" := owner ]} : gmap string value).
    rewrite lookup_singleton_Some. split; [intros [<- _] | intros ->]; auto. }
  split.
  - apply (proj1 owner_set_never_emptied).
    exists "u1". reflexivity.
  - apply (proj1 (proj2 (proj2 owner_set_never_emptied))) with (granted := "owner");
      try reflexivity.
    exact Hsole.
Defined.

End RolesFacts.

(** ** Concurrent bootstraps: exactly one succeeds *)

Module CasFacts.

Import Roles BootstrapOwner AdminRoles Mutations Cas RolesFacts.

Lemma count_insert {V} (f : phase V -> bool) (l : list (phase V)) i p p' :
  l !! i = Some p ->
  (count f (<[i := p']> l) + Nat.b2n (f p) = count f l + Nat.b2n (f p'))%nat.
Proof.
  unfold count. revert i. induction l as [|x l IH]; intros [|i] Hl; simpl in *; try discriminate.
  - injection Hl as ->. destruct (f p), (f p'); simpl; lia.
  - specialize (IH i Hl). destruct (f x); simpl; lia.
Qed.

Lemma sum_insert {V} (w : phase V -> nat) (l : list (phase V)) i p p' :
  l !! i = Some p ->
  (list_sum (List.map w (<[i := p']> l)) + w p = list_sum (List.map w l) + w p')%nat.
Proof.
  revert i. induction l as [|x l IH]; intros [|i] Hl; simpl in *; try discriminate.
  - injection Hl as ->. lia.
  - specialize (IH i Hl). lia.
Qed.

Lemma sum_le {V} (w w' : phase V -> nat) (l : list (phase V)) :
  (forall p, w p <= w' p)%nat ->
  (list_sum (List.map w l) <= list_sum (List.map w' l))%nat.
Proof.
  intros Hle. induction l as [|x l IH]; simpl; [lia|]. specialize (Hle x). lia.
Qed.

Lemma weight_owned_le p : (weight true p <= weight false p)%nat.
Proof. destruct p; simpl; lia. Qed.

Lemma owned_true (rs : roles_map) : owned rs = true <-> has_owner rs.
Proof. apply owned_spec. Qed.

Lemma owned_false (rs : roles_map) : owned rs = false <-> ~ has_owner rs.
Proof.
  rewrite <- owned_true. destruct (owned rs); split; congruence.
Qed.

Lemma owned_insert uid (rs : roles_map) : owned (<[uid := owner]> rs) = true.
Proof. apply owned_true. exists uid. apply lookup_insert_eq. Qed.

Section Bootstraps.

Variable uids : list string.
Variable r0 : roles_map.

Abbreviation fns := (bootstrap_fns uids).
Abbreviation init := (bootstrap_init r0 uids).

Local Abbreviation inv := (reachable_inv uids).

Lemma fns_lookup i f : fns !! i = Some f -> exists u, uids !! i = Some u /\ f = bootstrap_update u.
Proof.
  unfold bootstrap_fns. change (List.map bootstrap_update uids) with (bootstrap_update <$> uids).
  rewrite list_lookup_fmap. destruct (uids !! i) as [u|]; simpl; [|discriminate].
  intros [= <-]. eauto.
Qed.

Lemma count_all_idle (f : phase roles_map -> bool) (l : list string) :
  f Idle = false -> count f (List.map (fun _ => Idle) l) = 0%nat.
Proof.
  intros Hf. unfold count. induction l as [|x l IH]; simpl; [reflexivity|].
  rewrite Hf. exact IH.
Qed.

Lemma inv_init : ~ has_owner r0 -> inv init.
Proof.
  intros Hno. constructor; simpl.
  - apply length_map.
  - intros i seen next Hl. exfalso. revert Hl.
    change (List.map (fun _ : string => Idle) uids) with ((fun _ : string => @Idle roles_map) <$> uids).
    rewrite list_lookup_fmap. destruct (uids !! i); discriminate.
  - apply owned_false in Hno. rewrite Hno.
    split; apply count_all_idle; reflexivity.
Qed.

Lemma inv_step s s' : inv s -> step fns s s' -> inv s'.
Proof.
  intros [Hlen Hprop Hcnt] Hstep.
  destruct Hstep as [i f next s Hf Hi Hrun | i f s Hf Hi Hrun | i seen next s Hi Hseen | i seen next s Hi Hne].
  - (* a proposal *)
    apply fns_lookup in Hf as (u & Hu & ->).
    apply bootstrap_update_Some in Hrun as [Hno ->].
    constructor; simpl.
    + rewrite length_insert. assumption.
    + intros j seen' next' Hj.
      destruct (decide (i = j)) as [<-|Hij].
      * rewrite list_lookup_insert_eq in Hj by (eapply lookup_lt_Some; eassumption).
        injection Hj as <- <-. repeat split; eauto.
      * rewrite list_lookup_insert_ne in Hj by assumption. eauto.
    + pose proof (count_insert is_committed _ i _ (Proposing (cell s) (<[u:=owner]> (cell s))) Hi) as Hc.
      pose proof (count_insert is_aborted _ i _ (Proposing (cell s) (<[u:=owner]> (cell s))) Hi) as Ha.
      simpl in Hc, Ha. destruct (owned (cell s)); lia.
  - (* an abort *)
    apply fns_lookup in Hf as (u & Hu & ->).
    apply bootstrap_update_None in Hrun.
    constructor; simpl.
    + rewrite length_insert. assumption.
    + intros j seen' next' Hj.
      destruct (decide (i = j)) as [<-|Hij].
      * rewrite list_lookup_insert_eq in Hj by (eapply lookup_lt_Some; eassumption).
        discriminate.
      * rewrite list_lookup_insert_ne in Hj by assumption. eauto.
    + pose proof (count_insert is_committed _ i _ Aborted Hi) as Hc.
      simpl in Hc. apply owned_true in Hrun. rewrite Hrun in *. lia.
  - (* a commit *)
    destruct (Hprop _ _ _ Hi) as (Hno & (u & Hu & ->) & _). subst seen.
    constructor; simpl.
    + rewrite length_insert. assumption.
    + intros j seen' next' Hj.
      destruct (decide (i = j)) as [<-|Hij].
      * rewrite list_lookup_insert_eq in Hj by (eapply lookup_lt_Some; eassumption).
        discriminate.
      * rewrite list_lookup_insert_ne in Hj by assumption.
        destruct (Hprop _ _ _ Hj) as (Hno' & Hnext & _).
        repeat split; try assumption.
        right. exists u. apply lookup_insert_eq.
    + rewrite owned_insert.
      pose proof (count_insert is_committed _ i _ Committed Hi) as Hc.
      simpl in Hc. apply owned_false in Hno. rewrite Hno in Hcnt. lia.
  - (* a retry *)
    constructor; simpl.
    + rewrite length_insert. assumption.
    + intros j seen' next' Hj.
      destruct (decide (i = j)) as [<-|Hij].
      * rewrite list_lookup_insert_eq in Hj by (eapply lookup_lt_Some; eassumption).
        discriminate.
      * rewrite list_lookup_insert_ne in Hj by assumption. eauto.
    + pose proof (count_insert is_committed _ i _ Idle Hi) as Hc.
      pose proof (count_insert is_aborted _ i _ Idle Hi) as Ha.
      simpl in Hc, Ha. destruct (owned (cell s)); lia.
Qed.

Lemma inv_reachable s : ~ has_owner r0 -> rtc (step fns) init s -> inv s.
Proof.
  intros Hno. revert s. apply rtc_ind_r.
  - apply inv_init, Hno.
  - intros y z _ Hstep Hy. eapply inv_step; eassumption.
Qed.

(** Every step uses up some of what is left to do. *)
Lemma step_decreases s s' : inv s -> step fns s s' -> (remaining s' < remaining s)%nat.
Proof.
  intros [Hlen Hprop Hcnt] Hstep. unfold remaining.
  destruct Hstep as [i f next s Hf Hi Hrun | i f s Hf Hi Hrun | i seen next s Hi Hseen | i seen next s Hi Hne];
    simpl.
  - apply fns_lookup in Hf as (u & Hu & ->).
    apply bootstrap_update_Some in Hrun as [Hno ->]. apply owned_false in Hno.
    pose proof (sum_insert (weight (owned (cell s))) _ i _
                  (Proposing (cell s) (<[u:=owner]> (cell s))) Hi) as Hs.
    rewrite Hno in *. simpl in Hs. lia.
  - apply fns_lookup in Hf as (u & Hu & ->).
    apply bootstrap_update_None, owned_true in Hrun.
    pose proof (sum_insert (weight (owned (cell s))) _ i _ Aborted Hi) as Hs.
    rewrite Hrun in *. simpl in Hs. lia.
  - destruct (Hprop _ _ _ Hi) as (Hno & (u & Hu & ->) & _). subst seen.
    rewrite owned_insert. apply owned_false in Hno. rewrite Hno.
    pose proof (sum_insert (weight true) _ i _ Committed Hi) as Hs.
    pose proof (sum_insert (weight false) _ i _ Committed Hi) as Hs'.
    pose proof (sum_le (weight true) (weight false)
                  (<[i:=Committed]> (callers s)) weight_owned_le) as Hle.
    simpl in Hs, Hs'. lia.
  - destruct (Hprop _ _ _ Hi) as (Hno & _ & [Heq|Hown]); [congruence|].
    apply owned_true in Hown.
    pose proof (sum_insert (weight (owned (cell s))) _ i _ Idle Hi) as Hs.
    rewrite Hown in *. simpl in Hs. lia.
Qed.

Lemma remaining_init : (remaining init <= 4 * length uids)%nat.
Proof.
  unfold remaining. simpl. generalize (owned r0). intros b.
  induction uids as [|u us IH]; simpl; [lia|]. destruct b; simpl in *; lia.
Qed.

(** No run is longer than four steps per caller. *)
Lemma runs_are_short n s :
  ~ has_owner r0 -> nsteps (step fns) n init s -> (n + remaining s <= 4 * length uids)%nat.
Proof.
  intros Hno Hn.
  assert (H : forall a b k, nsteps (step fns) k a b -> inv a ->
                            inv b /\ (k + remaining b <= remaining a)%nat).
  { clear. intros a b k Hk. induction Hk as [a | k a b c Hab Hbc IH]; intros Ha.
    - split; [assumption | lia].
    - pose proof (step_decreases _ _ Ha Hab).
      destruct (IH (inv_step _ _ Ha Hab)) as [Hc Hle]. split; [assumption | lia]. }
  destruct (H _ _ _ Hn (inv_init Hno)) as [_ Hle].
  pose proof remaining_init. lia.
Qed.

(** A caller that is not done can always move. *)
Lemma unfinished_can_step s i p :
  inv s -> callers s !! i = Some p -> finished p = false -> exists s', step fns s s'.
Proof.
  intros [Hlen Hprop Hcnt] Hi Hfin.
  destruct p as [|seen next| |]; try discriminate.
  - assert (Hlt : (i < length uids)%nat) by (rewrite <- Hlen; eapply lookup_lt_Some; eassumption).
    destruct (lookup_lt_is_Some_2 uids i Hlt) as [u Hu].
    assert (Hf : fns !! i = Some (bootstrap_update u)).
    { unfold bootstrap_fns. change (List.map bootstrap_update uids) with (bootstrap_update <$> uids).
      rewrite list_lookup_fmap, Hu. reflexivity. }
    destruct (bootstrap_update u (cell s)) as [next|] eqn:E.
    + eexists. eapply step_propose; eassumption.
    + eexists. eapply step_abort; eassumption.
  - destruct (Hprop _ _ _ Hi) as (Hno & _ & [Heq|Hown]).
    + eexists. eapply step_commit; eassumption.
    + eexists. eapply step_retry; [eassumption|]. intros ->. contradiction.
Qed.

Lemma count_finished (l : list (phase roles_map)) :
  (forall p, In p l -> finished p = true) ->
  (count is_committed l + count is_aborted l = length l)%nat.
Proof.
  unfold count. induction l as [|x l IH]; simpl; intros Hall; [reflexivity|].
  assert (Hx := Hall x (or_introl eq_refl)).
  assert (Hl : forall p, In p l -> finished p = true) by (intros; apply Hall; right; assumption).
  specialize (IH Hl). destruct x; simpl in *; try discriminate; lia.
Qed.

(** When every caller is done, one has committed and the others aborted. *)
Lemma terminal_counts s :
  uids <> [] -> inv s -> (forall p, In p (callers s) -> finished p = true) ->
  count is_committed (callers s) = 1%nat /\
  count is_aborted (callers s) = (length uids - 1)%nat.
Proof.
  intros Hne [Hlen Hprop Hcnt] Hall.
  pose proof (count_finished _ Hall) as Hsum.
  destruct (owned (cell s)).
  - split; [assumption | lia].
  - destruct Hcnt as [Hc Ha]. destruct uids; [congruence|]. simpl in *. lia.
Qed.

Lemma committed_at_most_once s : inv s -> (count is_committed (callers s) <= 1)%nat.
Proof.
  intros [_ _ Hcnt]. destruct (owned (cell s)); lia.
Qed.

End Bootstraps.

Lemma count_ext {V} (f g : phase V -> bool) l :
  (forall p, f p = g p) -> count f l = count g l.
Proof.
  intros H. unfold count. induction l as [|x l IH]; simpl; [reflexivity|].
  rewrite H. destruct (g x); simpl; congruence.
Qed.

(** A well-formed bootstrap request whose transaction does not throw. *)
Lemma bootstrap_handler_outcome e d uid tid :
  BOOTSTRAP_ENABLED e = Some "true" ->
  Helpers.bad_id (VStr tid) = false -> Helpers.bad_id (VStr uid) = false ->
  RTDB_FORBIDDEN tid = false -> RTDB_FORBIDDEN uid = false ->
  tx_fault e = None ->
  (has_owner (roles (tenant_of d tid)) ->
     BootstrapOwner.handler e (bootstrap_request uid tid uid) d
     = (error_response 409 "tenant already has an owner", d)) /\
  (~ has_owner (roles (tenant_of d tid)) ->
     status (fst (BootstrapOwner.handler e (bootstrap_request uid tid uid) d)) = 200 /\
     roles (tenant_of (snd (BootstrapOwner.handler e (bootstrap_request uid tid uid) d)) tid)
     = <[uid := owner]> (roles (tenant_of d tid))).
Proof.
  intros Hflag Ht Hu Hft Hfu Htx.
  unfold BootstrapOwner.handler, bootstrap_request, rate_gate.
  rewrite Hflag.
  cbn -[Helpers.bad_id RTDB_FORBIDDEN transaction bootstrap_update side_write update_tenant
        tenant_of].
  rewrite Ht, Hu, Hft, Hfu.
  cbn -[transaction bootstrap_update side_write update_tenant tenant_of].
  rewrite String.eqb_refl.
  rewrite Htx. unfold transaction.
  split.
  - intros Hown. apply (bootstrap_update_None uid) in Hown. rewrite Hown. reflexivity.
  - intros Hno.
    assert (E : bootstrap_update uid (roles (tenant_of d tid))
                = Some (<[uid := owner]> (roles (tenant_of d tid))))
      by (apply bootstrap_update_Some; split; [assumption | reflexivity]).
    rewrite E. cbn -[side_write update_tenant tenant_of].
    split; [reflexivity|].
    rewrite roles_side_write, roles_with_roles.
    destruct (decide (tid = tid)); [reflexivity | congruence].
Qed.

(** C3.  The transaction function of the bootstrap aborts exactly when the
    roles map it reads holds an entry equal to "owner", and otherwise proposes
    that map extended with the caller as owner.  A well-formed request whose
    transaction does not throw is answered 409 exactly when the tenant has an
    owner, and otherwise is answered 200 with the caller added as owner.
    Among concurrent callers on a tenant without owner: at most one commits
    at any time; every run ends within four steps per caller; a caller that
    is not done can always move; and once all are done exactly one got 200
    and all the others got 409. *)
Theorem bootstrap_exactly_one :
  (forall uid (rs : roles_map), bootstrap_update uid rs = None <-> has_owner rs) /\
  (forall uid (rs : roles_map),
     ~ has_owner rs -> bootstrap_update uid rs = Some (<[uid := owner]> rs)) /\
  (forall e d uid tid,
     BOOTSTRAP_ENABLED e = Some "true" ->
     Helpers.bad_id (VStr tid) = false -> Helpers.bad_id (VStr uid) = false ->
     RTDB_FORBIDDEN tid = false -> RTDB_FORBIDDEN uid = false ->
     tx_fault e = None ->
     let answer := BootstrapOwner.handler e (bootstrap_request uid tid uid) d in
     (status (fst answer) = 409 <-> has_owner (roles (tenant_of d tid))) /\
     (has_owner (roles (tenant_of d tid)) -> snd answer = d) /\
     (~ has_owner (roles (tenant_of d tid)) ->
        status (fst answer) = 200 /\
        roles (tenant_of (snd answer) tid) = <[uid := owner]> (roles (tenant_of d tid)))) /\
  (forall uids (r0 : roles_map) s,
     uids <> [] -> ~ has_owner r0 ->
     rtc (step (bootstrap_fns uids)) (bootstrap_init r0 uids) s ->
     (count (answered 200) (callers s) <= 1)%nat /\
     (forall n, nsteps (step (bootstrap_fns uids)) n (bootstrap_init r0 uids) s ->
                (n <= 4 * length uids)%nat) /\
     (forall i p, callers s !! i = Some p -> finished p = false ->
                  exists s', step (bootstrap_fns uids) s s') /\
     ((forall p, In p (callers s) -> finished p = true) ->
        count (answered 200) (callers s) = 1%nat /\
        count (answered 409) (callers s) = (length uids - 1)%nat)).
Proof.
  split; [|split; [|split]].
  - intros uid rs. apply bootstrap_update_None.
  - intros uid rs Hno. apply bootstrap_update_Some. split; [assumption | reflexivity].
  - intros e d uid tid Hflag Ht Hu Hft Hfu Htx answer.
    destruct (bootstrap_handler_outcome e d uid tid Hflag Ht Hu Hft Hfu Htx) as [Hyes Hnot].
    fold answer in Hyes, Hnot.
    split; [|split].
    + split.
      * intros H409. destruct (owned (roles (tenant_of d tid))) eqn:E.
        -- apply owned_true. assumption.
        -- apply owned_false in E. destruct (Hnot E) as [H200 _]. congruence.
      * intros Hown. rewrite (Hyes Hown). reflexivity.
    + intros Hown. rewrite (Hyes Hown). reflexivity.
    + exact Hnot.
  - intros uids r0 s Hne Hno Hrtc.
    pose proof (inv_reachable uids r0 s Hno Hrtc) as Hinv.
    assert (E200 : forall l, count (answered 200) l = count is_committed l)
      by (intros l; apply count_ext; intros []; reflexivity).
    assert (E409 : forall l, count (answered 409) l = count is_aborted l)
      by (intros l; apply count_ext; intros []; reflexivity).
    rewrite E200, E409.
    split; [|split; [|split]].
    + apply (committed_at_most_once uids s Hinv).
    + intros n Hn. pose proof (runs_are_short uids r0 n s Hno Hn). lia.
    + intros i p Hi Hfin. eapply unfinished_can_step; eassumption.
    + apply terminal_counts; assumption.
Qed.

Lemma bootstrap_exactly_one_witness :
  rtc (step (bootstrap_fns ["u1"; "u2"])) (bootstrap_init ∅ ["u1"; "u2"]) two_callers_done /\
  List.map bootstrap_reply (callers two_callers_done) = [Some 200; Some 409] /\
  count (answered 200) (callers two_callers_done) = 1%nat /\
  count (answered 409) (callers two_callers_done) = 1%nat.
Proof.
  assert (Hrun : rtc (step (bootstrap_fns ["u1"; "u2"])) (bootstrap_init ∅ ["u1"; "u2"])
                     two_callers_done).
  { eapply rtc_l.
    { apply (step_propose _ 0%nat (bootstrap_update "u1") (<["u1" := owner]> ∅)
               (State ∅ [Idle; Idle])); reflexivity. }
    eapply rtc_l.
    { apply (step_commit _ 0%nat ∅ (<["u1" := owner]> ∅)
               (State ∅ [Proposing ∅ (<["u1" := owner]> ∅); Idle])); reflexivity. }
    eapply rtc_l.
    { apply (step_abort _ 1%nat (bootstrap_update "u2")
               (State (<["u1" := owner]> ∅) [Committed; Idle])); reflexivity. }
    apply rtc_refl. }
  split; [exact Hrun|]. split; [reflexivity|].
  apply (proj2 (proj2 (proj2 bootstrap_exactly_one)) ["u1"; "u2"] ∅ two_callers_done).
  - discriminate.
  - intros [uid H]. rewrite lookup_empty in H. discriminate.
  - exact Hrun.
  - intros p [<-|[<-|[]]]; reflexivity.
Defined.

End CasFacts.

(** ** The lease lock *)

Module LockFacts.

Import Lock.

Lemma acquire_update_held token t_check t_write c :
  0 <= t_check -> t_check < expiresAt c ->
  acquire_update token t_check t_write (Some c) = None.
Proof.
  intros Hpos Hlt. unfold acquire_update.
  destruct (Z.eqb_spec (expiresAt c) 0); [lia|].
  destruct (Z.ltb_spec t_check (expiresAt c)); [reflexivity | lia].
Qed.

Lemma acquire_update_free token t_check t_write cur :
  (cur = None \/ exists c, cur = Some c /\ expiresAt c <= t_check) ->
  acquire_update token t_check t_write cur
  = Some (Some {| lockId := token; expiresAt := t_write + TTL_MS |}).
Proof.
  intros [->|(c & -> & Hexp)]; [reflexivity|].
  unfold acquire_update.
  destruct (Z.ltb_spec t_check (expiresAt c)); [lia|].
  rewrite andb_false_r. reflexivity.
Qed.

(** C4.  With the clock at or after the epoch: an acquire that finds a
    record with [now < expiresAt] returns no token and leaves the record as
    it is; an acquire that finds no record, or a record with
    [now >= expiresAt] (released or not), returns its token and stores that
    token with [expiresAt = now + TTL]; a release with a token other than the
    stored one leaves the record as it is; a release with the stored token
    deletes the record. *)
Theorem lease_lock_lifecycle :
  (forall fault token t_check t_write c,
     0 <= t_check -> t_check < expiresAt c ->
     acquireLock fault token t_check t_write (Some c) = (None, Some c)) /\
  (forall token t_check t_write cur,
     (cur = None \/ exists c, cur = Some c /\ expiresAt c <= t_check) ->
     acquireLock None token t_check t_write cur
     = (Some token, Some {| lockId := token; expiresAt := t_write + TTL_MS |})) /\
  (forall fault token c,
     lockId c <> token -> releaseLock fault token (Some c) = Some c) /\
  (forall token c,
     lockId c = token -> releaseLock None token (Some c) = None).
Proof.
  split; [|split; [|split]].
  - intros fault token t1 t2 c Hpos Hlt. unfold acquireLock, transaction.
    destruct fault; [reflexivity|].
    rewrite acquire_update_held by assumption. reflexivity.
  - intros token t1 t2 cur Hfree. unfold acquireLock, transaction.
    rewrite acquire_update_free by assumption. reflexivity.
  - intros fault token c Hne. unfold releaseLock, transaction, release_update.
    destruct fault; [reflexivity|].
    destruct (String.eqb_spec (lockId c) token); [contradiction | reflexivity].
  - intros token c <-. unfold releaseLock, transaction, release_update.
    rewrite String.eqb_refl. reflexivity.
Qed.

Lemma lease_lock_lifecycle_witness :
  let first := {| lockId := "a1"; expiresAt := 1000 + TTL_MS |} in
  let second := {| lockId := "b2"; expiresAt := 1000 + TTL_MS + 7 + TTL_MS |} in
  acquireLock None "a1" 1000 1000 None = (Some "a1", Some first) /\
  acquireLock None "b2" 5000 5000 (Some first) = (None, Some first) /\
  acquireLock None "b2" (1000 + TTL_MS + 7) (1000 + TTL_MS + 7) (Some first)
    = (Some "b2", Some second) /\
  releaseLock None "a1" (Some second) = Some second /\
  releaseLock None "b2" (Some second) = None.
Proof.
  intros first second.
  destruct lease_lock_lifecycle as (Hheld & Hfree & Hstale & Hown).
  split; [|split; [|split; [|split]]].
  - apply Hfree. left. reflexivity.
  - apply Hheld; [lia | simpl; unfold TTL_MS; lia].
  - apply Hfree. right. exists first. split; [reflexivity | simpl; lia].
  - apply Hstale. simpl. discriminate.
  - apply Hown. reflexivity.
Defined.

End LockFacts.

(** ** The calendar features *)

Module CalendarFacts.

Import Sources.

Lemma has_spec table s : has table s = true <-> In s table.
Proof.
  unfold has. rewrite existsb_exists. split.
  - intros (x & Hin & Heq). apply String.eqb_eq in Heq. subst. assumption.
  - intros Hin. exists s. split; [assumption | apply String.eqb_refl].
Qed.

Lemma getUTCDay_range t : 0 <= Dates.getUTCDay t <= 6.
Proof. unfold Dates.getUTCDay. pose proof (Z.mod_pos_bound (t / Dates.MS_PER_DAY + 4) 7). lia. Qed.

Lemma eves_precede_holidays :
  forallb (fun eve => match Dates.next_day eve with
                      | Some h => has IL_HOLIDAYS h
                      | None => false
                      end) IL_HOLIDAY_EVES = true.
Proof. vm_compute. reflexivity. Qed.

(** C8, as stated, fails: 2024-10-02 is the day before the listed holiday
    2024-10-03 and its [holiday_eve] is false. *)
Lemma holiday_eve_counterexample :
  Dates.next_day "2024-10-02" = Some "2024-10-03" /\
  In "2024-10-03" IL_HOLIDAYS /\
  holiday_eve (buildCalendar "2024-10-02") = false.
Proof.
  split; [vm_compute; reflexivity|]. split; [|vm_compute; reflexivity].
  apply has_spec. vm_compute. reflexivity.
Qed.

(** C8, amended.  [buildCalendar] is a function of the date string alone,
    such that: [holiday] is true exactly for the dates of the holiday table;
    [holiday_eve] is true exactly for the dates of the holiday-eve table and
    of the new-year-eve table, and every date of the holiday-eve table is the
    day before a listed holiday; [weekend] is true exactly when the day of
    the week, a number from 0 to 6, is 5 or 6. *)
Theorem buildCalendar_features date :
  (holiday (buildCalendar date) = true <-> In date IL_HOLIDAYS) /\
  (holiday_eve (buildCalendar date) = true <->
     In date IL_HOLIDAY_EVES \/ In date NEW_YEAR_EVES) /\
  (In date IL_HOLIDAY_EVES ->
     exists h, Dates.next_day date = Some h /\ In h IL_HOLIDAYS) /\
  (weekend (buildCalendar date) = true <->
     dow (buildCalendar date) = Some 5 \/ dow (buildCalendar date) = Some 6) /\
  (forall n, dow (buildCalendar date) = Some n -> 0 <= n <= 6).
Proof.
  split; [|split; [|split; [|split]]].
  - apply has_spec.
  - unfold buildCalendar; cbn [holiday_eve]. rewrite orb_true_iff, !has_spec. reflexivity.
  - intros Hin.
    pose proof (proj1 (forallb_forall _ _) eves_precede_holidays date Hin) as H.
    simpl in H. destruct (Dates.next_day date) as [h|]; [|discriminate].
    exists h. split; [reflexivity | apply has_spec; assumption].
  - unfold buildCalendar; cbn [weekend dow].
    destruct (Dates.noon_of date) as [t|]; simpl.
    + rewrite orb_true_iff, !Z.eqb_eq. split; intros [H|H]; try (left; congruence); right; congruence.
    + split; [discriminate | intros [H|H]; discriminate].
  - unfold buildCalendar; cbn [dow].
    destruct (Dates.noon_of date) as [t|]; simpl; [|discriminate].
    intros n [= <-]. apply getUTCDay_range.
Qed.

Lemma buildCalendar_features_witness :
  exists h, Dates.next_day "2025-10-05" = Some h /\ In h IL_HOLIDAYS.
Proof.
  apply (proj1 (proj2 (proj2 (buildCalendar_features "2025-10-05")))).
  apply has_spec. vm_compute. reflexivity.
Defined.

End CalendarFacts.

(** ** Binary64: the error of one rounding *)

Module Float64Facts.

Import Float64.
Local Open Scope Q_scope.

Lemma pow2_pos e : 0 < pow2 e.
Proof. apply Qpower_0_lt. reflexivity. Qed.

Lemma pow2_add a b : pow2 (a + b) == pow2 a * pow2 b.
Proof. apply Qpower_plus. discriminate. Qed.

Lemma pow2_succ a : pow2 (a + 1) == 2 * pow2 a.
Proof. rewrite pow2_add. unfold pow2 at 2. rewrite Qpower_1_r. ring. Qed.

Lemma pow2_of_Z n : (0 <= n)%Z -> pow2 n == inject_Z (2 ^ n).
Proof. intros H. unfold pow2. rewrite Zpower_Qpower by exact H. reflexivity. Qed.

Lemma pow2_le a b : (a <= b)%Z -> pow2 a <= pow2 b.
Proof. intros H. apply Qpower_le_compat_l; [exact H | discriminate]. Qed.

Lemma ilog2_spec a : 0 < a -> pow2 (ilog2 a) <= a /\ a < pow2 (ilog2 a + 1).
Proof.
  intros Ha. destruct a as [n d]. unfold ilog2. cbn [Qnum Qden].
  assert (Hn : (0 < n)%Z) by (unfold Qlt in Ha; simpl in Ha; lia).
  set (ln := Z.log2 n). set (ld := Z.log2 (Z.pos d)).
  assert (Hln : (0 <= ln)%Z) by apply Z.log2_nonneg.
  assert (Hld : (0 <= ld)%Z) by apply Z.log2_nonneg.
  destruct (Z.log2_spec n Hn) as [Hn1 Hn2]. fold ln in Hn1, Hn2.
  destruct (Z.log2_spec (Z.pos d) ltac:(lia)) as [Hd1 Hd2]. fold ld in Hd1, Hd2.
  assert (Ea : n # d == inject_Z n / inject_Z (Z.pos d)) by apply Qmake_Qdiv.
  assert (HP : pow2 ln <= inject_Z n /\ inject_Z n < 2 * pow2 ln).
  { rewrite <- pow2_succ, !pow2_of_Z by lia. rewrite <- Zle_Qle, <- Zlt_Qlt.
    replace (ln + 1)%Z with (Z.succ ln) by lia. split; assumption. }
  assert (HR : pow2 ld <= inject_Z (Z.pos d) /\ inject_Z (Z.pos d) < 2 * pow2 ld).
  { rewrite <- pow2_succ, !pow2_of_Z by lia. rewrite <- Zle_Qle, <- Zlt_Qlt.
    replace (ld + 1)%Z with (Z.succ ld) by lia. split; assumption. }
  pose proof (pow2_pos ln) as Pp. pose proof (pow2_pos ld) as Rp.
  assert (Ek : pow2 (ln - ld) * pow2 ld == pow2 ln).
  { rewrite <- pow2_add. replace (ln - ld + ld)%Z with ln by lia. reflexivity. }
  assert (Ead : (n # d) * inject_Z (Z.pos d) == inject_Z n).
  { rewrite Ea. field. intros H. rewrite H in HR. lra. }
  pose proof (pow2_pos (ln - ld)) as Kp.
  set (P := pow2 ln) in *. set (R := pow2 ld) in *. set (K := pow2 (ln - ld)) in *.
  set (N := inject_Z n) in *. set (D := inject_Z (Z.pos d)) in *. set (A := n # d) in *.
  destruct HP as [HP1 HP2]. destruct HR as [HR1 HR2].
  assert (Hup : A < 2 * K).
  { apply Qnot_le_lt. intros Hc. 
    assert (2 * K * R <= A * D) by nra. nra. }
  assert (Hlo : K < 2 * A).
  { apply Qnot_le_lt. intros Hc.
    assert (2 * A * D <= K * (2 * R)) by nra. nra. }
  destruct (Qle_bool K A) eqn:E.
  - apply Qle_bool_iff in E. split; [exact E|].
    rewrite pow2_succ. exact Hup.
  - assert (Hlt : A < K).
    { apply Qnot_le_lt. intros Hc. apply Qle_bool_iff in Hc. congruence. }
    replace (ln - ld - 1 + 1)%Z with (ln - ld)%Z by lia. split; [|exact Hlt].
    assert (Eh : 2 * pow2 (ln - ld - 1) == K).
    { rewrite <- pow2_succ. replace (ln - ld - 1 + 1)%Z with (ln - ld)%Z by lia. reflexivity. }
    lra.
Qed.

Lemma nearest_even_error x :
  - (1 # 2) <= inject_Z (nearest_even x) - x <= 1 # 2.
Proof.
  unfold nearest_even.
  pose proof (Qfloor_le x) as H1. pose proof (Qlt_floor x) as H2.
  rewrite inject_Z_plus in H2. change (inject_Z 1) with 1 in H2.
  destruct (Qcompare_spec (x - inject_Z (Qfloor x)) (1 # 2)) as [E|E|E].
  - destruct (Z.even (Qfloor x)); [|rewrite inject_Z_plus; change (inject_Z 1) with 1]; lra.
  - lra.
  - rewrite inject_Z_plus. change (inject_Z 1) with 1. lra.
Qed.

Lemma Qabs_nonzero x : ~ x == 0 -> 0 < Qabs x.
Proof.
  intros Hx. apply Qabs_case; intros H; apply Qnot_le_lt; intros Hc; apply Hx; lra.
Qed.

(** The spacing of the doubles around [a]: half of it is at most
    [a * 2^-53], or [2^-1075] in the subnormal range. *)
Lemma half_ulp a :
  0 < a ->
  pow2 (Z.max (ilog2 a - 52) (-1074) - 1) <= a * pow2 (-53) + pow2 (-1075).
Proof.
  intros Ha. destruct (ilog2_spec a Ha) as [Hk _].
  pose proof (pow2_pos (-53)) as Hu. pose proof (pow2_pos (-1075)) as He.
  destruct (Z.max_spec (ilog2 a - 52) (-1074)) as [[_ ->]|[_ ->]].
  - change (-1074 - 1)%Z with (-1075)%Z. nra.
  - replace (ilog2 a - 52 - 1)%Z with (ilog2 a + -53)%Z by lia.
    rewrite pow2_add. nra.
Qed.

Lemma rounded_magnitude a (e : Z) :
  0 < a ->
  - pow2 (e - 1) <= inject_Z (nearest_even (a / pow2 e)) * pow2 e - a <= pow2 (e - 1).
Proof.
  intros Ha. pose proof (nearest_even_error (a / pow2 e)) as Hm.
  pose proof (pow2_pos e) as Hp.
  assert (Eh : 2 * pow2 (e - 1) == pow2 e).
  { rewrite <- pow2_succ. replace (e - 1 + 1)%Z with e by lia. reflexivity. }
  assert (Ea : a / pow2 e * pow2 e == a) by (field; lra).
  set (m := inject_Z (nearest_even (a / pow2 e))) in *.
  set (q := a / pow2 e) in *. set (p := pow2 e) in *. set (h := pow2 (e - 1)) in *.
  split; nra.
Qed.

(** The error of one rounding: relative [2^-53], or absolute [2^-1075] in
    the subnormal range. *)
Lemma round_error x c :
  round x = Finite c ->
  Qabs (c - x) <= Qabs x * pow2 (-53) + pow2 (-1075).
Proof.
  unfold round. pose proof (pow2_pos (-53)) as Hu. pose proof (pow2_pos (-1075)) as He.
  destruct (Qeq_bool x 0) eqn:E0.
  - intros [= <-]. apply Qeq_bool_iff in E0.
    apply Qabs_Qle_condition. pose proof (Qabs_nonneg x). split; nra.
  - assert (Hx : ~ x == 0) by (intros H; apply Qeq_bool_iff in H; congruence).
    pose proof (Qabs_nonzero x Hx) as Ha.
    set (e := Z.max (ilog2 (Qabs x) - 52) (-1074)).
    pose proof (rounded_magnitude (Qabs x) e Ha) as Hr.
    pose proof (half_ulp (Qabs x) Ha) as Hh. fold e in Hh.
    destruct (Qle_bool (pow2 1024) _); [discriminate|].
    intros [= <-]. rewrite Qred_correct. apply Qabs_Qle_condition.
    set (r := inject_Z _ * pow2 e) in *.
    destruct (Qle_bool 0 x) eqn:Es.
    + apply Qle_bool_iff in Es. pose proof (Qabs_pos x Es) as Ex.
      set (a := Qabs x) in *. clearbody a r. split; lra.
    + assert (Hneg : x <= 0).
      { apply Qnot_lt_le. intros Hc. apply Qlt_le_weak, Qle_bool_iff in Hc. congruence. }
      pose proof (Qabs_neg x Hneg) as Ex.
      set (a := Qabs x) in *. clearbody a r. split; lra.
Qed.

(** No overflow below [2^1023]. *)
Lemma round_finite x : Qabs x < pow2 1023 -> exists c, round x = Finite c.
Proof.
  intros Hb. unfold round.
  destruct (Qeq_bool x 0) eqn:E0; [eexists; reflexivity|].
  assert (Hx : ~ x == 0) by (intros H; apply Qeq_bool_iff in H; congruence).
  pose proof (Qabs_nonzero x Hx) as Ha.
  set (e := Z.max (ilog2 (Qabs x) - 52) (-1074)).
  pose proof (rounded_magnitude (Qabs x) e Ha) as Hr.
  pose proof (half_ulp (Qabs x) Ha) as Hh. fold e in Hh.
  destruct (Qle_bool (pow2 1024) _) eqn:Ov; [|eexists; reflexivity].
  exfalso. apply Qle_bool_iff in Ov.
  assert (E1 : pow2 1024 == 2 * pow2 1023) by (rewrite <- pow2_succ; reflexivity).
  assert (E2 : pow2 (-1075) <= pow2 1023) by (apply pow2_le; lia).
  assert (E3 : pow2 (-53) <= 1 # 4) by (vm_compute; discriminate).
  pose proof (pow2_pos 1023). pose proof (pow2_pos (-53)).  pose proof (pow2_pos (-1075)).
  assert (E4 : pow2 (-1075) <= (1 # 4) * pow2 1023).
  { replace (-1075)%Z with (-2098 + 1023)%Z by lia. rewrite pow2_add.
    assert (pow2 (-2098) <= 1 # 4) by (apply (Qle_trans _ (pow2 (-2))); [apply pow2_le; lia | vm_compute; discriminate]).
    nra. }
  set (P := pow2 1023) in *. set (u := pow2 (-53)) in *. set (h := pow2 (-1075)) in *.
  set (r := inject_Z _ * pow2 e) in *. set (a := Qabs x) in *.
  clearbody P u h r a. nra.
Qed.

End Float64Facts.

(** ** The daily document *)

Module BuilderFacts.

Import Sources Builder.

Local Open Scope Q_scope.

Lemma average_check_zero revenue tickets :
  tickets <= 0 -> average_check revenue tickets = Float64.Finite 0.
Proof.
  intros Hle. unfold average_check.
  apply Qle_bool_iff in Hle. rewrite Hle. reflexivity.
Qed.

Lemma round_bounds x c :
  Float64.round x = Float64.Finite c ->
  - (Qabs x * (1 # 9007199254740992) + Float64.pow2 (-1075)) <= c - x /\
  c - x <= Qabs x * (1 # 9007199254740992) + Float64.pow2 (-1075).
Proof.
  intros H. apply Float64Facts.round_error in H. apply Qabs_Qle_condition in H.
  assert (E : Float64.pow2 (-53) == 1 # 9007199254740992) by reflexivity.
  rewrite E in H. exact H.
Qed.

Lemma Qabs_bounds x : 0 <= Qabs x /\ - Qabs x <= x /\ x <= Qabs x.
Proof.
  split; [apply Qabs_nonneg|]. apply Qabs_Qle_condition. apply Qle_refl.
Qed.

Lemma Qabs_le_of x b : - b <= x -> x <= b -> Qabs x <= b.
Proof. intros H1 H2. apply Qabs_Qle_condition. split; assumption. Qed.

(** The steps of line 155 when its result is finite. *)
Lemma average_check_steps revenue tickets c :
  0 < tickets -> average_check revenue tickets = Float64.Finite c ->
  exists x y,
    Float64.round (revenue / tickets) = Float64.Finite x /\
    Float64.round (x * 100) = Float64.Finite y /\
    Float64.round (inject_Z (Qfloor (y + (1 # 2))) / 100) = Float64.Finite c.
Proof.
  intros Hpos. unfold average_check.
  destruct (Qle_bool tickets 0) eqn:E; [apply Qle_bool_iff in E; lra|].
  cbn [negb]. unfold Float64.div.
  destruct (Float64.round (revenue / tickets)) as [x|s] eqn:Ex; [|discriminate].
  cbn [Float64.times]. destruct (Float64.round (x * 100)) as [y|s] eqn:Ey; [|discriminate].
  cbn [Float64.Math_round Float64.over]. intros H. exists x, y. repeat split; assumption.
Qed.

Lemma average_check_near revenue tickets c :
  0 < tickets -> average_check revenue tickets = Float64.Finite c ->
  exists hundredths : Z,
    Float64.round (inject_Z hundredths / 100) = Float64.Finite c /\
    Qabs (c - revenue / tickets)
    <= (1 # 200) + Qabs (revenue / tickets) * Float64.pow2 (-51) + Float64.pow2 (-60).
Proof.
  intros Hpos Hc.
  destruct (average_check_steps _ _ _ Hpos Hc) as (x & y & Hx & Hy & Hn).
  exists (Qfloor (y + (1 # 2))). split; [exact Hn|].
  apply round_bounds in Hx, Hy, Hn.
  pose proof (Qfloor_le (y + (1 # 2))) as Hf1. pose proof (Qlt_floor (y + (1 # 2))) as Hf2.
  rewrite inject_Z_plus in Hf2. change (inject_Z 1) with 1 in Hf2.
  set (n := inject_Z (Qfloor (y + (1 # 2)))) in *.
  set (q := revenue / tickets) in *.
  assert (En : n / 100 == n * (1 # 100)) by reflexivity.
  rewrite En in Hn.
  pose proof (Qabs_bounds q) as (A0 & A1 & A2).
  pose proof (Qabs_bounds (x * 100)) as (B0 & B1 & B2).
  pose proof (Qabs_bounds (n * (1 # 100))) as (C0 & C1 & C2).
  assert (He : 0 < Float64.pow2 (-1075)) by apply Float64Facts.pow2_pos.
  assert (He' : Float64.pow2 (-1075) <= 1 # 1267650600228229401496703205376).
  { apply (Qle_trans _ (Float64.pow2 (-100))); [apply Float64Facts.pow2_le; lia | vm_compute; discriminate]. }
  assert (E51 : Float64.pow2 (-51) == 1 # 2251799813685248) by reflexivity.
  assert (E60 : Float64.pow2 (-60) == 1 # 1152921504606846976) by reflexivity.
  rewrite E51, E60.
  set (h := Float64.pow2 (-1075)) in *.
  assert (Bx : Qabs (x * 100) <= 100 * (Qabs q * (1 + (1 # 9007199254740992)) + h)).
  { apply Qabs_le_of; lra. }
  assert (Cn : Qabs (n * (1 # 100))
               <= (1 # 100) * (Qabs (x * 100) * (1 + (1 # 9007199254740992)) + h + (1 # 2))).
  { apply Qabs_le_of; lra. }
  apply Qabs_le_of.
  - clearbody n q h. set (a := Qabs q) in *. set (b := Qabs (x * 100)) in *.
    set (d := Qabs (n * (1 # 100))) in *. clearbody a b d. lra.
  - clearbody n q h. set (a := Qabs q) in *. set (b := Qabs (x * 100)) in *.
    set (d := Qabs (n * (1 # 100))) in *. clearbody a b d. lra.
Qed.

Lemma Qabs_lt_of x b : - b < x -> x < b -> Qabs x < b.
Proof. intros H1 H2. apply Qabs_Qlt_condition. split; assumption. Qed.

(** No overflow while the quotient is below [2^1000]. *)
Lemma average_check_finite revenue tickets :
  0 < tickets -> Qabs (revenue / tickets) < Float64.pow2 1000 ->
  exists c, average_check revenue tickets = Float64.Finite c.
Proof.
  intros Hpos Hq. unfold average_check.
  destruct (Qle_bool tickets 0) eqn:E; [apply Qle_bool_iff in E; lra|].
  cbn [negb]. unfold Float64.div.
  assert (E23 : Float64.pow2 1023 == 8388608 * Float64.pow2 1000).
  { replace 1023%Z with (23 + 1000)%Z by lia. rewrite Float64Facts.pow2_add. reflexivity. }
  assert (P1 : 1 <= Float64.pow2 1000) by (apply (Float64Facts.pow2_le 0 1000); lia).
  assert (He : 0 < Float64.pow2 (-1075)) by apply Float64Facts.pow2_pos.
  assert (He' : Float64.pow2 (-1075) <= 1) by (apply (Float64Facts.pow2_le (-1075) 0); lia).
  set (q := revenue / tickets) in *.
  pose proof (Qabs_bounds q) as (A0 & A1 & A2).
  destruct (Float64Facts.round_finite q) as [x Hx]; [lra|]. rewrite Hx. cbn [Float64.times].
  apply round_bounds in Hx.
  assert (Bx : Qabs (x * 100) < 300 * Float64.pow2 1000).
  { apply Qabs_lt_of; set (a := Qabs q) in *; set (P := Float64.pow2 1000) in *;
      set (h := Float64.pow2 (-1075)) in *; clearbody a P h q; lra. }
  pose proof (Qabs_bounds (x * 100)) as (B0 & B1 & B2).
  destruct (Float64Facts.round_finite (x * 100)) as [y Hy]; [lra|]. rewrite Hy. cbn [Float64.Math_round Float64.over].
  apply round_bounds in Hy.
  pose proof (Qfloor_le (y + (1 # 2))) as Hf1. pose proof (Qlt_floor (y + (1 # 2))) as Hf2.
  rewrite inject_Z_plus in Hf2. change (inject_Z 1) with 1 in Hf2.
  set (n := inject_Z (Qfloor (y + (1 # 2)))) in *.
  assert (En : n / 100 == n * (1 # 100)) by reflexivity.
  apply Float64Facts.round_finite. rewrite En.
  apply Qabs_lt_of; set (a := Qabs q) in *; set (P := Float64.pow2 1000) in *;
    set (b := Qabs (x * 100)) in *; set (P' := Float64.pow2 1023) in *;
    set (h := Float64.pow2 (-1075)) in *; clearbody a b P P' h q n; lra.
Qed.

Local Close Scope Q_scope.

Section Build.

Variable Number_of : value -> option Q.
Variable TABIT_API_KEY : option string.

Local Abbreviation build := (buildDailyDoc Number_of TABIT_API_KEY).
Local Abbreviation beecomm_of net date := (snd (fetchBeecommDaily Number_of net date)).
Local Abbreviation tabit_of net date := (snd (fetchTabitHours Number_of TABIT_API_KEY net date)).
Local Abbreviation weather_of net date := (snd (fetchWeather Number_of net date)).
Local Abbreviation oref_of net date := (snd (fetchOrefAlerts net date)).

(** What a document that was built is made of. *)
Lemma build_Return net now tenantId date calls path doc :
  build net now tenantId date = (calls, Return (path, doc)) ->
  exists beecomm,
    beecomm_of net date = Return beecomm /\
    doc_revenue_total doc = default 0%Q (revenue_total beecomm) /\
    doc_tickets doc = default 0%Q (tickets beecomm) /\
    avg_check doc = average_check (doc_revenue_total doc) (doc_tickets doc) /\
    staffing doc = match tabit_of net date with
                   | Return v => default {| total_hours := None |} v
                   | Throw _ => {| total_hours := None |}
                   end /\
    weather doc = value_or_null (weather_of net date) /\
    alerts doc = value_or_null (oref_of net date) /\
    src_tabit (sources (meta doc)) = match tabit_of net date with
                                     | Return (Some _) => "ok"
                                     | _ => "missing"
                                     end /\
    src_weather (sources (meta doc)) = status_of (weather_of net date) /\
    src_oref (sources (meta doc)) = status_of (oref_of net date) /\
    calls = ([Beecomm] ++ fst (fetchTabitHours Number_of TABIT_API_KEY net date)
             ++ [Weather] ++ [Oref])%list.
Proof.
  unfold buildDailyDoc.
  destruct (fetchBeecommDaily Number_of net date) as [c0 [b|e]] eqn:Eb; [|discriminate].
  destruct (fetchTabitHours Number_of TABIT_API_KEY net date) as [c1 tabit] eqn:Et.
  destruct (fetchWeather Number_of net date) as [c2 weather] eqn:Ew.
  destruct (fetchOrefAlerts net date) as [c3 oref] eqn:Eo.
  intros [= <- <- <-]. exists b. simpl.
  assert (c0 = [Beecomm]) as -> by (unfold fetchBeecommDaily in Eb; congruence).
  assert (c2 = [Weather]) as -> by (unfold fetchWeather in Ew; congruence).
  assert (c3 = [Oref]) as -> by (unfold fetchOrefAlerts in Eo; congruence).
  repeat split; reflexivity.
Qed.

Lemma build_result net now tenantId date :
  match beecomm_of net date with
  | Return _ => exists path doc, snd (build net now tenantId date) = Return (path, doc)
  | Throw e => snd (build net now tenantId date) = Throw e
  end.
Proof.
  unfold buildDailyDoc.
  destruct (fetchBeecommDaily Number_of net date) as [c0 [b|e]]; simpl; [|reflexivity].
  destruct (fetchTabitHours Number_of TABIT_API_KEY net date) as [c1 tabit].
  destruct (fetchWeather Number_of net date) as [c2 weather].
  destruct (fetchOrefAlerts net date) as [c3 oref].
  simpl. eauto.
Qed.

Lemma fetchWithTimeout_fails u ms :
  fails u ms = true ->
  match fetchWithTimeout u ms with
  | Return res => ok res = false /\ "http_" ++ decimal (http_status res) = failure_reason u ms
  | Throw e => reason_of e = failure_reason u ms
  end.
Proof.
  destruct u as [t st body|t|]; simpl.
  - destruct (t <? ms); simpl; [|reflexivity].
    unfold ok; simpl. intros H. apply negb_true_iff in H. split; [assumption | reflexivity].
  - destruct (t <? ms); reflexivity.
  - reflexivity.
Qed.

Lemma fetchWithTimeout_succeeds u ms :
  fails u ms = false -> exists res, fetchWithTimeout u ms = Return res /\ ok res = true.
Proof.
  destruct u as [t st body|t|]; simpl; try discriminate.
  intros H. apply negb_false_iff in H.
  destruct (t <? ms); simpl in *; [|discriminate].
  eexists. split; [reflexivity | exact H].
Qed.

(** The required fetch throws a [{source, reason}] exactly when its
    provider fails. *)
Lemma beecomm_structured net date :
  (fails (net Beecomm) 8000 = true ->
     beecomm_of net date
     = Throw (SourceReason "beecomm" (failure_reason (net Beecomm) 8000))) /\
  (fails (net Beecomm) 8000 = false ->
     forall source reason, beecomm_of net date <> Throw (SourceReason source reason)).
Proof.
  unfold fetchBeecommDaily; simpl. split.
  - intros Hf. pose proof (fetchWithTimeout_fails _ _ Hf) as H.
    destruct (fetchWithTimeout (net Beecomm) 8000) as [res|e].
    + destruct H as [Hok Hr]. rewrite Hok. simpl. unfold http_reason. rewrite Hr. reflexivity.
    + rewrite H. reflexivity.
  - intros Hs source reason.
    destruct (fetchWithTimeout_succeeds _ _ Hs) as (res & -> & Hok). rewrite Hok. simpl.
    unfold json. destruct (http_body res) as [raw|]; [|discriminate].
    destruct (nullish raw); discriminate.
Qed.

Lemma tabit_fails net date :
  fails (net Tabit) 8000 = true -> tabit_of net date = Return None.
Proof.
  intros Hf. unfold fetchTabitHours.
  destruct (tabit_unconfigured TABIT_API_KEY); [reflexivity|]. simpl.
  pose proof (fetchWithTimeout_fails _ _ Hf) as H.
  destruct (fetchWithTimeout (net Tabit) 8000) as [res|e]; [|reflexivity].
  destruct H as [-> _]. reflexivity.
Qed.

Lemma weather_fails net date :
  fails (net Weather) 6000 = true -> exists e, weather_of net date = Throw e.
Proof.
  intros Hf. unfold fetchWeather; simpl.
  pose proof (fetchWithTimeout_fails _ _ Hf) as H.
  destruct (fetchWithTimeout (net Weather) 6000) as [res|e]; [|eauto].
  destruct H as [-> _]. simpl. eauto.
Qed.

Lemma oref_fails net date :
  fails (net Oref) 4000 = true -> exists e, oref_of net date = Throw e.
Proof.
  intros Hf. unfold fetchOrefAlerts; simpl.
  pose proof (fetchWithTimeout_fails _ _ Hf) as H.
  destruct (fetchWithTimeout (net Oref) 4000) as [res|e]; [|eauto].
  destruct H as [-> _]. simpl. eauto.
Qed.

(** C5.  [buildDailyDoc] rejects with a [{source, reason}] value exactly
    when the required provider fails (no success status before the 8 s
    timer), and then the source is "beecomm" and the reason is "network",
    "timeout" or "http_<status>".  The outcome of the build is decided by
    the required provider alone; in a document that was built, a failed
    optional provider has a null block ([{total_hours: null}] for staffing)
    and the status "missing", and the block and the status of each source
    depend on the behaviour of that source only. *)
Theorem required_and_optional_failures net now tenantId date :
  let result := snd (buildDailyDoc Number_of TABIT_API_KEY net now tenantId date) in
  ((exists source reason, result = Throw (SourceReason source reason)) <->
     fails (net Beecomm) 8000 = true) /\
  (fails (net Beecomm) 8000 = true ->
     result = Throw (SourceReason "beecomm" (failure_reason (net Beecomm) 8000))) /\
  (forall path doc, result = Return (path, doc) ->
     (fails (net Tabit) 8000 = true ->
        staffing doc = {| total_hours := None |} /\
        src_tabit (sources (meta doc)) = "missing") /\
     (fails (net Weather) 6000 = true ->
        weather doc = None /\ src_weather (sources (meta doc)) = "missing") /\
     (fails (net Oref) 4000 = true ->
        alerts doc = None /\ src_oref (sources (meta doc)) = "missing")) /\
  (forall net', net' Beecomm = net Beecomm ->
     match result, snd (buildDailyDoc Number_of TABIT_API_KEY net' now tenantId date) with
     | Return (path, doc), Return (path', doc') =>
         path' = path /\
         doc_revenue_total doc' = doc_revenue_total doc /\
         doc_tickets doc' = doc_tickets doc /\
         avg_check doc' = avg_check doc /\
         src_beecomm (sources (meta doc')) = src_beecomm (sources (meta doc)) /\
         (net' Tabit = net Tabit ->
            staffing doc' = staffing doc /\
            src_tabit (sources (meta doc')) = src_tabit (sources (meta doc))) /\
         (net' Weather = net Weather ->
            weather doc' = weather doc /\
            src_weather (sources (meta doc')) = src_weather (sources (meta doc))) /\
         (net' Oref = net Oref ->
            alerts doc' = alerts doc /\
            src_oref (sources (meta doc')) = src_oref (sources (meta doc)))
     | Throw e, Throw e' => e' = e
     | _, _ => False
     end).
Proof.
  intros result.
  pose proof (build_result net now tenantId date) as Hres. fold result in Hres.
  destruct (beecomm_structured net date) as [Hfail Hgood].
  split; [|split; [|split]].
  - split.
    + intros (source & reason & Hr).
      destruct (fails (net Beecomm) 8000) eqn:E; [reflexivity|]. exfalso.
      destruct (beecomm_of net date) as [b|e] eqn:Eb.
      * destruct Hres as (p & doc & Hp). congruence.
      * apply (Hgood eq_refl source reason). congruence.
    + intros Hf. rewrite (Hfail Hf) in Hres. eauto.
  - intros Hf. rewrite (Hfail Hf) in Hres. exact Hres.
  - intros path doc Hr.
    destruct (build net now tenantId date) as [calls r] eqn:Eb. simpl in result.
    subst result. subst r.
    destruct (build_Return _ _ _ _ _ _ _ Eb)
      as (b & _ & _ & _ & _ & Hst & Hw & Ha & Hsrc_t & Hsrc_w & Hsrc_o & _).
    split; [|split].
    + intros Hf. rewrite Hst, Hsrc_t, (tabit_fails _ _ Hf). split; reflexivity.
    + intros Hf. destruct (weather_fails _ date Hf) as [e He].
      rewrite Hw, Hsrc_w, He. split; reflexivity.
    + intros Hf. destruct (oref_fails _ date Hf) as [e He].
      rewrite Ha, Hsrc_o, He. split; reflexivity.
  - intros net' Hb. subst result. unfold buildDailyDoc, fetchBeecommDaily.
    rewrite Hb.
    destruct (fetchWithTimeout (net Beecomm) 8000) as [res|e]; simpl; [|reflexivity].
    destruct (ok res); simpl; [|reflexivity].
    unfold json.
    destruct (http_body res) as [raw|]; simpl; [|reflexivity].
    destruct (nullish raw); simpl; [reflexivity|].
    destruct (fetchTabitHours Number_of TABIT_API_KEY net date) as [c1 t1] eqn:Et.
    destruct (fetchTabitHours Number_of TABIT_API_KEY net' date) as [c1' t1'] eqn:Et'.
    simpl.
    repeat split.
    + unfold fetchTabitHours in Et, Et'. rewrite H in Et'.
      assert (t1' = t1) as -> by (destruct (tabit_unconfigured TABIT_API_KEY); congruence).
      reflexivity.
    + unfold fetchTabitHours in Et, Et'. rewrite H in Et'.
      assert (t1' = t1) as -> by (destruct (tabit_unconfigured TABIT_API_KEY); congruence).
      reflexivity.
    + rewrite H. reflexivity.
    + rewrite H. reflexivity.
    + rewrite H. reflexivity.
    + rewrite H. reflexivity.
Qed.

Local Open Scope Q_scope.

(** C9, as amended.  In a document that was built, [revenue_total] and
    [tickets] are the figures of the provider, 0 standing for a null.  When
    [tickets] is positive, [avg_check] is what line 155 computes in
    binary64: a finite [avg_check] is the double nearest to a whole number
    of hundredths, and it is away from [revenue_total / tickets] by at most
    half a hundredth and the rounding of the three operations, which is at
    most [2^-51] of the quotient and [2^-60]; and [avg_check] is finite
    whenever the quotient is below [2^1000].  When [tickets] is not
    positive, so in particular when it is 0, [avg_check] is 0 and nothing is
    divided. *)
Theorem avg_check_rounded net now tenantId date calls path doc :
  buildDailyDoc Number_of TABIT_API_KEY net now tenantId date = (calls, Return (path, doc)) ->
  exists beecomm,
    snd (fetchBeecommDaily Number_of net date) = Return beecomm /\
    doc_revenue_total doc = default 0 (revenue_total beecomm) /\
    doc_tickets doc = default 0 (tickets beecomm) /\
    (0 < doc_tickets doc ->
       (forall c, avg_check doc = Float64.Finite c ->
          (exists hundredths : Z,
             Float64.round (inject_Z hundredths / 100) = Float64.Finite c) /\
          Qabs (c - doc_revenue_total doc / doc_tickets doc)
          <= (1 # 200) + Qabs (doc_revenue_total doc / doc_tickets doc) * Float64.pow2 (-51)
             + Float64.pow2 (-60)) /\
       (Qabs (doc_revenue_total doc / doc_tickets doc) < Float64.pow2 1000 ->
          exists c, avg_check doc = Float64.Finite c)) /\
    (doc_tickets doc <= 0 -> avg_check doc = Float64.Finite 0).
Proof.
  intros Hb.
  destruct (build_Return _ _ _ _ _ _ _ Hb) as (b & Hfetch & Hrev & Htick & Havg & _).
  exists b. repeat (split; [assumption|]).
  rewrite Havg. split.
  - intros Hpos. split.
    + intros c Hc.
      destruct (average_check_near _ _ _ Hpos Hc) as (n & Hn & Hnear).
      split; [exists n; exact Hn | exact Hnear].
    + apply average_check_finite. exact Hpos.
  - apply average_check_zero.
Qed.

Local Close Scope Q_scope.

(** C10.  Without a [TABIT_API_KEY], [fetchTabitHours] resolves to null
    and contacts no provider; a document built then has the staffing block
    [{total_hours: null}] and the status "missing" for tabit, and the build
    did not contact the staffing provider.  Whatever the configuration, the
    status of tabit is "ok" exactly when the fetch fulfils with a value that
    is not null. *)
Theorem tabit_unconfigured_is_missing net now tenantId date :
  (tabit_unconfigured TABIT_API_KEY = true ->
     fetchTabitHours Number_of TABIT_API_KEY net date = ([], Return None) /\
     forall calls path doc,
       buildDailyDoc Number_of TABIT_API_KEY net now tenantId date = (calls, Return (path, doc)) ->
       staffing doc = {| total_hours := None |} /\
       src_tabit (sources (meta doc)) = "missing" /\
       ~ In Tabit calls) /\
  (forall calls path doc,
     buildDailyDoc Number_of TABIT_API_KEY net now tenantId date = (calls, Return (path, doc)) ->
     (src_tabit (sources (meta doc)) = "ok" <->
        exists v, snd (fetchTabitHours Number_of TABIT_API_KEY net date) = Return (Some v))).
Proof.
  split.
  - intros Hun.
    assert (Hf : fetchTabitHours Number_of TABIT_API_KEY net date = ([], Return None))
      by (unfold fetchTabitHours; rewrite Hun; reflexivity).
    split; [exact Hf|].
    intros calls path doc Hb.
    destruct (build_Return _ _ _ _ _ _ _ Hb)
      as (b & _ & _ & _ & _ & Hst & _ & _ & Hsrc & _ & _ & Hcalls).
    rewrite Hf in Hst, Hsrc, Hcalls. simpl in *.
    repeat split; try assumption.
    rewrite Hcalls. intros [H|[H|[H|[]]]]; discriminate.
  - intros calls path doc Hb.
    destruct (build_Return _ _ _ _ _ _ _ Hb)
      as (b & _ & _ & _ & _ & _ & _ & _ & Hsrc & _).
    rewrite Hsrc.
    destruct (tabit_of net date) as [[v|]|e]; split; eauto; try discriminate.
    + intros [v Hv]. discriminate.
    + intros [v Hv]. discriminate.
Qed.

End Build.

Lemma required_and_optional_failures_witness :
  snd (buildDailyDoc numbers_only (Some "key") net_beecomm_503 1730635200123 "t1" "2025-01-01")
  = Throw (SourceReason "beecomm" "http_503") /\
  exists path doc,
    snd (buildDailyDoc numbers_only (Some "key") net_weather_late 1730635200123 "t1" "2025-01-01")
    = Return (path, doc) /\
    weather doc = None /\ src_weather (sources (meta doc)) = "missing" /\
    src_tabit (sources (meta doc)) = "ok" /\ src_oref (sources (meta doc)) = "ok".
Proof.
  split.
  - exact (proj1 (proj2 (required_and_optional_failures numbers_only (Some "key")
                           net_beecomm_503 1730635200123 "t1" "2025-01-01")) eq_refl).
  - eexists. eexists. split; [reflexivity|].
    split; [|split; [|split; reflexivity]].
    + apply (proj1 (proj2 (proj2 (required_and_optional_failures numbers_only (Some "key")
                                    net_weather_late 1730635200123 "t1" "2025-01-01")))
                   _ _ eq_refl).
      reflexivity.
    + apply (proj1 (proj2 (proj2 (required_and_optional_failures numbers_only (Some "key")
                                    net_weather_late 1730635200123 "t1" "2025-01-01")))
                   _ _ eq_refl).
      reflexivity.
Defined.

Lemma avg_check_rounded_witness :
  exists path doc calls c,
    buildDailyDoc numbers_only (Some "key") net_weather_late 1730635200123 "t1" "2025-01-01"
    = (calls, Return (path, doc)) /\
    avg_check doc = Float64.Finite c /\
    (Qabs (c - doc_revenue_total doc / doc_tickets doc)
     <= (1 # 200) + Qabs (doc_revenue_total doc / doc_tickets doc) * Float64.pow2 (-51)
        + Float64.pow2 (-60))%Q.
Proof.
  destruct (buildDailyDoc numbers_only (Some "key") net_weather_late 1730635200123
              "t1" "2025-01-01") as [calls [[path doc]|x]] eqn:Hb;
    [|vm_compute in Hb; discriminate].
  destruct (avg_check_rounded numbers_only (Some "key") net_weather_late 1730635200123
              "t1" "2025-01-01" calls path doc Hb) as (b & _ & Hrev & Htick & Hpos & _).
  assert (Hfig : doc_revenue_total doc = 1000%Q /\ doc_tickets doc = 7%Q).
  { vm_compute in Hb. injection Hb as _ _ <-. split; reflexivity. }
  destruct Hfig as [Er Et].
  destruct Hpos as [Hnear Hfin]; [rewrite Et; reflexivity|].
  destruct Hfin as [c Hc]; [rewrite Er, Et; vm_compute; reflexivity|].
  exists path, doc, calls, c. split; [reflexivity|]. split; [exact Hc|].
  apply (Hnear c Hc).
Defined.

(** The claim as it was stated fails on doubles.  For a revenue of 29 and
    200 tickets the quotient is 0.145, which [Math.round]'s own rule, a tie
    going up, turns into 0.15; the document holds the double nearest to
    0.14.  The lower hundredth is not the rule either: a revenue of 1 and 8
    tickets, 0.125, give the double nearest to 0.13.  And for a revenue of
    0.015 as a double, a little below 0.015, and one ticket, the hundredth
    nearest to the quotient is 0.01, while the document holds the double
    nearest to 0.02, more than half a hundredth away from the quotient. *)
Lemma avg_check_counterexample :
  (exists path doc calls,
     buildDailyDoc numbers_only None (net_figures 29 200) 1730635200123 "t1" "2025-01-01"
     = (calls, Return (path, doc)) /\
     (doc_revenue_total doc / doc_tickets doc == 145 # 1000)%Q /\
     (inject_Z (Qfloor ((145 # 1000) * 100 + (1 # 2))) / 100 == 15 # 100)%Q /\
     avg_check doc = Float64.round (14 # 100)%Q /\
     avg_check doc <> Float64.round (15 # 100)%Q) /\
  (exists path doc calls,
     buildDailyDoc numbers_only None (net_figures 1 8) 1730635200123 "t1" "2025-01-01"
     = (calls, Return (path, doc)) /\
     (doc_revenue_total doc / doc_tickets doc == 125 # 1000)%Q /\
     avg_check doc = Float64.round (13 # 100)%Q) /\
  (exists path doc calls c,
     buildDailyDoc numbers_only None (net_figures double_0_015 1) 1730635200123
                   "t1" "2025-01-01"
     = (calls, Return (path, doc)) /\
     (0 < doc_tickets doc)%Q /\
     (Qabs ((1 # 100) - doc_revenue_total doc / doc_tickets doc) < 1 # 200)%Q /\
     avg_check doc = Float64.Finite c /\
     Float64.round (2 # 100)%Q = Float64.Finite c /\
     ~ (Qabs (c - doc_revenue_total doc / doc_tickets doc) <= 1 # 200)%Q).
Proof.
  split; [|split].
  - eexists. eexists. eexists. split; [vm_compute; reflexivity|].
    split; [reflexivity|]. split; [reflexivity|]. split; [reflexivity|].
    vm_compute. discriminate.
  - eexists. eexists. eexists. split; [vm_compute; reflexivity|].
    split; reflexivity.
  - eexists. eexists. eexists. eexists. split; [vm_compute; reflexivity|].
    split; [reflexivity|]. split; [reflexivity|]. split; [reflexivity|].
    split; [reflexivity|]. vm_compute. intros H. apply H. reflexivity.
Defined.

Lemma tabit_unconfigured_is_missing_witness :
  fetchTabitHours numbers_only None net_weather_late "2025-01-01" = ([], Return None) /\
  exists path doc calls,
    buildDailyDoc numbers_only None net_weather_late 1730635200123 "t1" "2025-01-01"
    = (calls, Return (path, doc)) /\
    staffing doc = {| total_hours := None |} /\
    src_tabit (sources (meta doc)) = "missing" /\ ~ In Tabit calls.
Proof.
  destruct (proj1 (tabit_unconfigured_is_missing numbers_only None net_weather_late
                     1730635200123 "t1" "2025-01-01") eq_refl) as [Hfetch Hdoc].
  split; [exact Hfetch|].
  eexists. eexists. eexists. split; [reflexivity|].
  eapply Hdoc. reflexivity.
Defined.

End BuilderFacts.

(** ** The scheduled builder fails closed *)

Module DailyBuilderFacts.

Import Effects DailyBuilder.

Lemma N_of_ascii_inj x y : N_of_ascii x = N_of_ascii y -> x = y.
Proof.
  intros H. rewrite <- (ascii_N_embedding x), <- (ascii_N_embedding y), H. reflexivity.
Qed.

Lemma fold_diff_zero a : forall b acc,
  length a = length b ->
  (fold_diff a b acc = 0%N <-> acc = 0%N /\ a = b).
Proof.
  induction a as [|x a IH]; intros [|y b] acc Hlen; simpl in *; try discriminate.
  - split; [intros ->; split; reflexivity | intros [-> _]; reflexivity].
  - injection Hlen as Hlen. rewrite (IH b _ Hlen), N.lor_eq_0_iff, N.lxor_eq_0_iff.
    split.
    + intros [[-> Hxy] ->]. apply N_of_ascii_inj in Hxy. subst. split; reflexivity.
    + intros [-> [= -> ->]]. repeat split; reflexivity.
Qed.

Lemma chars_inj s s' : chars s = chars s' -> s = s'.
Proof.
  unfold chars. intros H.
  rewrite <- (string_of_list_ascii_of_string s), <- (string_of_list_ascii_of_string s'), H.
  reflexivity.
Qed.

(** The comparison of lines 32-37 accepts exactly the configured secret. *)
Lemma authorized_spec secret r : authorized secret r = true <-> incoming r = secret.
Proof.
  unfold authorized, timingSafeEqual.
  destruct (Nat.eqb_spec (length (chars secret)) (length (chars (incoming r)))) as [Hlen|Hlen].
  - rewrite N.eqb_eq, (fold_diff_zero _ _ _ Hlen). split.
    + intros [_ H]. symmetry. apply chars_inj. assumption.
    + intros ->. split; reflexivity.
  - split; [discriminate|]. intros H. rewrite H in Hlen. contradiction.
Qed.

Section Handler.

Variable Number_of : value -> option Q.
Variable TABIT_API_KEY : option string.

Local Abbreviation run := (handler Number_of TABIT_API_KEY).

(** C6.  Without a configured [CRON_SECRET] every request is answered 503,
    nothing is read, built or written.  With a configured secret and a
    supplied secret that differs from it, the answer is the bare 404
    "not found", and again nothing is read, built or written.  The
    supplied secret is [incoming]: the [x-cron-secret] header, or else the
    [Authorization] header without its [Bearer] and the white space after
    it.  The comparison, which combines every pair of bytes, accepts
    exactly the configured secret; and whenever the handler loads the
    tenants or builds anything, the supplied secret is the configured
    one. *)
Theorem daily_builder_fails_closed e r d :
  (CRON_SECRET e = None \/ CRON_SECRET e = Some "" ->
     handler Number_of TABIT_API_KEY e r d = (error_response 503 "not configured", d, [])) /\
  (forall secret,
     CRON_SECRET e = Some secret -> secret <> "" -> incoming r <> secret ->
     handler Number_of TABIT_API_KEY e r d = (error_response 404 "not found", d, [])) /\
  (forall secret, authorized secret r = true <-> incoming r = secret) /\
  (forall resp d' trace,
     handler Number_of TABIT_API_KEY e r d = (resp, d', trace) -> trace <> [] ->
     exists secret, CRON_SECRET e = Some secret /\ secret <> "" /\ incoming r = secret).
Proof.
  split; [|split; [|split]].
  - intros [H|H]; unfold handler; rewrite H; reflexivity.
  - intros secret Hs Hne Hwrong. unfold handler. rewrite Hs. simpl.
    destruct (String.eqb_spec secret ""); [contradiction|].
    destruct (authorized secret r) eqn:E; [|reflexivity].
    apply authorized_spec in E. contradiction.
  - intros secret. apply authorized_spec.
  - intros resp d' trace. unfold handler.
    destruct (CRON_SECRET e) as [secret|]; simpl;
      [|intros [= _ _ <-] H; contradiction].
    destruct (String.eqb_spec secret "") as [->|Hne];
      [intros [= _ _ <-] H; contradiction|].
    destruct (authorized secret r) eqn:E; simpl;
      [|intros [= _ _ <-] H; contradiction].
    intros _ _. exists secret. repeat split; try assumption.
    apply authorized_spec. assumption.
Qed.

End Handler.

Lemma daily_builder_fails_closed_witness :
  handler Builder.numbers_only None no_secret guess Roles.one_owner_db
  = (error_response 503 "not configured", Roles.one_owner_db, []) /\
  handler Builder.numbers_only None with_secret guess Roles.one_owner_db
  = (error_response 404 "not found", Roles.one_owner_db, []) /\
  authorized "s3cret" DailyBuilderRuns.by_bearer_nbsp = true.
Proof.
  split; [|split].
  - apply (proj1 (daily_builder_fails_closed Builder.numbers_only None no_secret guess
                    Roles.one_owner_db)).
    left. reflexivity.
  - apply (proj1 (proj2 (daily_builder_fails_closed Builder.numbers_only None with_secret guess
                           Roles.one_owner_db)) "s3cret").
    + reflexivity.
    + discriminate.
    + vm_compute. discriminate.
  - apply (proj1 (proj2 (proj2 (daily_builder_fails_closed Builder.numbers_only None
                                  with_secret DailyBuilderRuns.by_bearer_nbsp
                                  Roles.one_owner_db))) "s3cret").
    reflexivity.
Defined.

End DailyBuilderFacts.

(** ** The bounded backfill *)

Module BackfillFacts.

Import Effects Backfill.

Lemma turns_after d end_ : end_ < d -> Dates.turns d end_ = O.
Proof.
  intros Hlt. unfold Dates.turns.
  assert ((end_ - d) / Dates.MS_PER_DAY < 0) by (apply Z.div_lt_upper_bound; [reflexivity | lia]).
  lia.
Qed.

Lemma turns_step d end_ :
  d <= end_ -> Dates.turns d end_ = S (Dates.turns (d + Dates.MS_PER_DAY) end_).
Proof.
  intros Hle. unfold Dates.turns.
  replace (end_ - d) with ((end_ - (d + Dates.MS_PER_DAY)) + 1 * Dates.MS_PER_DAY) by lia.
  rewrite Z.div_add by (unfold Dates.MS_PER_DAY; lia).
  assert (-1 <= (end_ - (d + Dates.MS_PER_DAY)) / Dates.MS_PER_DAY).
  { apply Z.div_le_lower_bound; [reflexivity | unfold Dates.MS_PER_DAY; lia]. }
  lia.
Qed.

(** With the fuel of [dateRange], or more, the loop stops because [d <= end]
    fails: it runs [turns] times whatever the surplus. *)
Lemma dateRange_loop_enough fuel : forall d end_,
  (Dates.turns d end_ <= fuel)%nat ->
  Dates.dateRange_loop fuel d end_ = Dates.dateRange_loop (Dates.turns d end_) d end_ /\
  length (Dates.dateRange_loop fuel d end_) = Dates.turns d end_.
Proof.
  induction fuel as [|fuel IH]; intros d end_ Hfuel.
  - assert (Dates.turns d end_ = O) as -> by lia. split; reflexivity.
  - destruct (Z.leb_spec d end_) as [Hle|Hgt].
    + rewrite (turns_step _ _ Hle) in *. simpl.
      destruct (Z.leb_spec d end_); [|lia].
      destruct (IH (d + Dates.MS_PER_DAY) end_ ltac:(lia)) as [Heq Hlen].
      split; [rewrite Heq; reflexivity | simpl; rewrite Hlen; reflexivity].
    + rewrite (turns_after _ _ Hgt). simpl.
      destruct (Z.leb_spec d end_); [lia|]. split; reflexivity.
Qed.

(** The range from [from] to [to], both ends included, counts the days
    between the two dates plus one. *)
Lemma dateRange_length from to d end_ :
  Dates.noon_of from = Some d -> Dates.noon_of to = Some end_ ->
  Z.of_nat (length (Dates.dateRange from to))
  = Z.max 0 ((end_ - d) / Dates.MS_PER_DAY + 1).
Proof.
  intros Hf Ht. unfold Dates.dateRange. rewrite Hf, Ht.
  rewrite (proj2 (dateRange_loop_enough _ d end_ (Nat.le_refl _))).
  unfold Dates.turns. lia.
Qed.

Lemma acquireLock_granted fault tok t1 t2 cur lockId stored :
  Lock.acquireLock fault tok t1 t2 cur = (Some lockId, stored) ->
  lockId = tok /\
  stored = Some {| Store.lockId := tok; expiresAt := t2 + Lock.TTL_MS |}.
Proof.
  unfold Lock.acquireLock, transaction.
  destruct fault; [discriminate|].
  destruct (Lock.acquire_update tok t1 t2 cur) as [next|] eqn:E; [|discriminate].
  intros [= <- <-]. split; [reflexivity|].
  unfold Lock.acquire_update in E.
  destruct cur as [c|]; [destruct (_ && _)|]; congruence.
Qed.

Lemma lock_update_daily (d : db) tid date doc t :
  lock (tenant_of (update_tenant d tid (fun x => with_daily x date doc)) t)
  = lock (tenant_of d t).
Proof.
  rewrite RolesFacts.tenant_of_update. destruct (decide (tid = t)) as [->|]; reflexivity.
Qed.

Section Handler.

Variable Number_of : value -> option Q.
Variable TABIT_API_KEY : option string.

Local Abbreviation run := (handler Number_of TABIT_API_KEY).

Lemma build_and_write_spec nw now fault tid date d :
  let '(skip, d', ev) := build_and_write Number_of TABIT_API_KEY nw now fault tid date d in
  (forall t, lock (tenant_of d' t) = lock (tenant_of d t)) /\
  Forall (fun x => is_build x = true) ev.
Proof.
  unfold build_and_write.
  destruct (Builder.buildDailyDoc _ _ _ _ _ _) as [contacted [[path doc]|x]].
  - destruct fault.
    + split; [reflexivity | repeat constructor].
    + split; [intros t; apply lock_update_daily | repeat constructor].
  - split; [reflexivity | repeat constructor].
Qed.

(** The loop touches neither the lock nor anything but builds and writes,
    and files every date as built or as skipped. *)
Lemma loop_spec e tid dates : forall res d,
  let '(res', d', ev) := loop Number_of TABIT_API_KEY e tid dates res d in
  (forall t, lock (tenant_of d' t) = lock (tenant_of d t)) /\
  Forall (fun x => is_build x = true) ev /\
  (length (built res') + length (skipped res')
   = length (built res) + length (skipped res) + length dates)%nat.
Proof.
  induction dates as [|date rest IH]; intros res d; simpl.
  - repeat split; [constructor | lia].
  - pose proof (build_and_write_spec (net e date) (clock e date) (write_fault e date)
                  tid date d) as Hbw.
    destruct (build_and_write _ _ _ _ _ _ _ _) as [[skip d1] ev1].
    destruct Hbw as [Hlock1 Hev1].
    match goal with |- context [loop _ _ _ _ _ ?r d1] => specialize (IH r d1) end.
    destruct (loop _ _ _ _ _ _ d1) as [[res2 d2] ev2].
    destruct IH as (Hlock2 & Hev2 & Hlen).
    split; [|split].
    + intros t. rewrite Hlock2. apply Hlock1.
    + apply Forall_app. split; assumption.
    + destruct skip; simpl in Hlen; rewrite ?length_app in Hlen; simpl in Hlen; lia.
Qed.

Lemma over_bound e r d :
  MAX_DAYS < Z.of_nat (length (Dates.dateRange (default "" (q_from r)) (default "" (q_to r)))) ->
  snd (fst (run e r d)) = d /\ snd (run e r d) = [] /\
  (method r = "POST" -> caller r <> None -> rate_gate r = None ->
   status (fst (fst (run e r d))) = 400).
Proof.
  intros Hover. unfold handler.
  apply Z.ltb_lt in Hover.
  destruct (String.eqb_spec (method r) "POST") as [Hm|Hm]; simpl;
    [|repeat split; intros; contradiction].
  destruct (caller r) as [uid|]; [|repeat split; intros; contradiction].
  destruct (rate_gate r) as [resp|]; [repeat split; intros; discriminate|].
  destruct (_ || _); [repeat split|].
  destruct (date_regex (default "" (q_from r))); simpl; [|repeat split].
  destruct (date_regex (default "" (q_to r))); simpl; [|repeat split].
  destruct (String.ltb _ _); [repeat split|].
  rewrite Hover. repeat split.
Qed.

Lemma within_bound_releases e d uid tid from to granted stored :
  tid <> "" -> RTDB_FORBIDDEN tid = false ->
  date_regex from = true -> date_regex to = true -> String.ltb to from = false ->
  Z.of_nat (length (Dates.dateRange from to)) <= MAX_DAYS ->
  Helpers.requireTenantAccess d (access_reads e) (VStr uid) (VStr tid) (VStr "manager")
    = Return granted ->
  token e <> "" ->
  Lock.acquireLock (acquire_fault e) (token e) (t_check e) (t_write e) (lock (tenant_of d tid))
    = (Some (token e), stored) ->
  exists res ev d',
    run e (backfill_request uid tid from to) d
    = (Response 200 (results_json tid from to res), d',
       ([AccessCheck uid tid; LockAcquire tid true] ++ ev ++ [LockRelease tid])%list) /\
    Forall (fun x => is_build x = true) ev /\
    (length (built res) + length (skipped res) = length (Dates.dateRange from to))%nat /\
    lock (tenant_of d' tid) = Lock.releaseLock (release_fault e) (token e) stored /\
    (release_fault e = None -> lock (tenant_of d' tid) = None).
Proof.
  intros Htid Hforb Hfrom Hto Horder Hbound Hacc Htok Hacq.
  unfold handler, backfill_request, rate_gate.
  cbn -[RTDB_FORBIDDEN date_regex String.ltb Dates.dateRange Helpers.requireTenantAccess
        Lock.acquireLock loop MAX_DAYS Z.ltb Z.of_nat update_tenant tenant_of Lock.releaseLock
        results_json String.eqb].
  destruct (String.eqb_spec tid ""); [contradiction|].
  rewrite Hforb, Hfrom, Hto, Horder.
  cbn -[Dates.dateRange Helpers.requireTenantAccess
        Lock.acquireLock loop MAX_DAYS Z.ltb Z.of_nat update_tenant tenant_of Lock.releaseLock
        results_json String.eqb].
  destruct (Z.ltb_spec MAX_DAYS (Z.of_nat (length (Dates.dateRange from to)))); [lia|].
  rewrite Hacc, Hacq.
  destruct (String.eqb_spec (token e) ""); [contradiction|].
  pose proof (loop_spec e tid (Dates.dateRange from to) {| built := []; skipped := [] |}
                (update_tenant d tid (fun t => with_lock t stored))) as Hloop.
  destruct (loop _ _ _ _ _ _ _) as [[res d2] ev].
  destruct Hloop as (Hlock & Hev & Hlen).
  exists res, ev. eexists. split; [reflexivity|].
  split; [assumption|]. split; [simpl in Hlen; lia|].
  assert (Hfinal : lock (tenant_of
            (update_tenant d2 tid
               (fun t => with_lock t (Lock.releaseLock (release_fault e) (token e) (lock t))))
            tid) = Lock.releaseLock (release_fault e) (token e) stored).
  { rewrite RolesFacts.tenant_of_update. destruct (decide (tid = tid)); [|congruence].
    simpl. rewrite Hlock, RolesFacts.tenant_of_update.
    destruct (decide (tid = tid)); [reflexivity | congruence]. }
  split; [exact Hfinal|].
  intros Hrel. rewrite Hfinal, Hrel.
  destruct (acquireLock_granted _ _ _ _ _ _ _ Hacq) as [_ ->].
  unfold Lock.releaseLock, transaction, Lock.release_update. simpl.
  rewrite String.eqb_refl. reflexivity.
Qed.

(** C7.  The range from [from] to [to] holds one date per day from the
    first to the last, both included.  A request whose range holds more than
    90 days reaches neither the lock, nor a provider, nor a write:
    the store is as it was and nothing was called; once past the method
    check, the token check and the rate limiter it is answered 400.  A
    request within the bound that holds the lock runs the loop and then
    releases: whatever the providers and the writes do on each date, every
    date is filed as built or skipped, the answer is 200, the release comes
    after every build and write, and with a release that does not throw the
    lock record is gone. *)
Theorem backfill_bound_and_release e d :
  (forall from to t_from t_to,
     Dates.noon_of from = Some t_from -> Dates.noon_of to = Some t_to ->
     Z.of_nat (length (Dates.dateRange from to))
     = Z.max 0 ((t_to - t_from) / Dates.MS_PER_DAY + 1)) /\
  (forall r,
     MAX_DAYS < Z.of_nat (length (Dates.dateRange (default "" (q_from r))
                                                  (default "" (q_to r)))) ->
     snd (fst (handler Number_of TABIT_API_KEY e r d)) = d /\
     snd (handler Number_of TABIT_API_KEY e r d) = [] /\
     (method r = "POST" -> caller r <> None -> rate_gate r = None ->
      status (fst (fst (handler Number_of TABIT_API_KEY e r d))) = 400)) /\
  (forall uid tid from to granted stored,
     tid <> "" -> RTDB_FORBIDDEN tid = false ->
     date_regex from = true -> date_regex to = true -> String.ltb to from = false ->
     Z.of_nat (length (Dates.dateRange from to)) <= MAX_DAYS ->
     Helpers.requireTenantAccess d (access_reads e) (VStr uid) (VStr tid) (VStr "manager")
       = Return granted ->
     token e <> "" ->
     Lock.acquireLock (acquire_fault e) (token e) (t_check e) (t_write e)
                      (lock (tenant_of d tid))
       = (Some (token e), stored) ->
     exists res ev d',
       handler Number_of TABIT_API_KEY e (backfill_request uid tid from to) d
       = (Response 200 (results_json tid from to res), d',
          ([AccessCheck uid tid; LockAcquire tid true] ++ ev ++ [LockRelease tid])%list) /\
       Forall (fun x => is_build x = true) ev /\
       (length (built res) + length (skipped res) = length (Dates.dateRange from to))%nat /\
       lock (tenant_of d' tid) = Lock.releaseLock (release_fault e) (token e) stored /\
       (release_fault e = None -> lock (tenant_of d' tid) = None)).
Proof.
  split; [|split].
  - intros from to t_from t_to. apply dateRange_length.
  - intros r. apply over_bound.
  - intros. eapply within_bound_releases; eassumption.
Qed.

End Handler.

Lemma backfill_bound_and_release_witness :
  (let over := handler Builder.numbers_only (Some "key") bumpy
                 (backfill_request "u1" "t1" "2025-01-01" "2025-04-01") managed_db in
   snd (fst over) = managed_db /\ snd over = [] /\ status (fst (fst over)) = 400) /\
  exists res ev d',
    handler Builder.numbers_only (Some "key") bumpy
      (backfill_request "u1" "t1" "2025-01-01" "2025-01-04") managed_db
    = (Response 200 (results_json "t1" "2025-01-01" "2025-01-04" res), d',
       ([AccessCheck "u1" "t1"; LockAcquire "t1" true] ++ ev ++ [LockRelease "t1"])%list) /\
    lock (tenant_of d' "t1") = None.
Proof.
  split.
  - assert (Hover : MAX_DAYS < Z.of_nat (length (Dates.dateRange "2025-01-01" "2025-04-01")))
      by (vm_compute; reflexivity).
    destruct (proj1 (proj2 (backfill_bound_and_release Builder.numbers_only (Some "key") bumpy
                       managed_db))
                    (backfill_request "u1" "t1" "2025-01-01" "2025-04-01") Hover)
      as (Hdb & Htrace & Hstatus).
    intros over. split; [exact Hdb | split; [exact Htrace|]].
    apply Hstatus; [reflexivity | discriminate | reflexivity].
  - assert (Hin : Z.of_nat (length (Dates.dateRange "2025-01-01" "2025-01-04")) <= MAX_DAYS)
      by (vm_compute; discriminate).
    destruct (proj2 (proj2 (backfill_bound_and_release Builder.numbers_only (Some "key") bumpy
                       managed_db))
                    "u1" "t1" "2025-01-01" "2025-01-04" "manager"
                    (Some {| lockId := "k3x9"; expiresAt := 1730635200123 + Lock.TTL_MS |})
                    ltac:(discriminate) eq_refl eq_refl eq_refl eq_refl Hin eq_refl
                    ltac:(discriminate) eq_refl)
      as (res & ev & d' & Hrun & _ & _ & _ & Hfree).
    exists res, ev, d'. split; [exact Hrun | apply Hfree; reflexivity].
Defined.

End BackfillFacts.

(** ** The tenant access check: validation, the role stage, the rank order *)

Module AccessFacts.

Import Helpers HelpersFacts.

Lemma rank_known a k : ROLE_RANK a = Some k -> VALID_ROLES_has (VStr a) = true /\ 1 <= k <= 4.
Proof.
  unfold ROLE_RANK, VALID_ROLES_has.
  repeat (destruct (String.eqb a _); [intros [= <-]; split; [reflexivity | lia] |]).
  discriminate.
Qed.

Lemma rank_injective a b k : ROLE_RANK a = Some k -> ROLE_RANK b = Some k -> a = b.
Proof.
  unfold ROLE_RANK.
  destruct (String.eqb a "owner") eqn:A4; [apply String.eqb_eq in A4|];
    (destruct (String.eqb a "manager") eqn:A3; [apply String.eqb_eq in A3|]);
    (destruct (String.eqb a "shift_manager") eqn:A2; [apply String.eqb_eq in A2|]);
    (destruct (String.eqb a "viewer") eqn:A1; [apply String.eqb_eq in A1|]);
    (destruct (String.eqb b "owner") eqn:B4; [apply String.eqb_eq in B4|]);
    (destruct (String.eqb b "manager") eqn:B3; [apply String.eqb_eq in B3|]);
    (destruct (String.eqb b "shift_manager") eqn:B2; [apply String.eqb_eq in B2|]);
    (destruct (String.eqb b "viewer") eqn:B1; [apply String.eqb_eq in B1|]);
    congruence.
Qed.

Lemma inherited_key k text :
  Object_prototype k = Some text -> ROLE_RANK k = None /\ VALID_ROLES_has (VStr k) = false.
Proof.
  unfold Object_prototype, ROLE_RANK, VALID_ROLES_has.
  destruct (String.eqb_spec k "constructor") as [->|_]; [intros _; split; reflexivity|].
  destruct (String.eqb_spec k "__proto__") as [->|_]; [intros _; split; reflexivity|].
  destruct (existsb (String.eqb k) _) eqn:E; [|discriminate].
  intros _. apply existsb_exists in E as (x & Hx & ->%String.eqb_eq).
  repeat (destruct Hx as [<-|Hx]; [split; reflexivity|]). destruct Hx.
Qed.

Lemma ltb_irrefl s : String.ltb s s = false.
Proof.
  unfold String.ltb. pose proof (String.compare_antisym s s) as H.
  destruct (String.compare s s); try reflexivity. discriminate.
Qed.

(** When [hasRole] holds: between two roles by their ranks, and between
    two keys that the table inherits by the strings they stand for. *)
Lemma hasRole_spec a b :
  hasRole a b = true <->
  (exists ra rb, ROLE_RANK a = Some ra /\ ROLE_RANK b = Some rb /\ rb <= ra) \/
  (exists s t, Object_prototype a = Some s /\ Object_prototype b = Some t /\
               String.ltb s t = false).
Proof.
  unfold hasRole, rank_or. split.
  - destruct (ROLE_RANK a) as [ra|] eqn:Ea, (ROLE_RANK b) as [rb|] eqn:Eb.
    + cbn [ge]. intros H%Z.leb_le. left. exists ra, rb. auto.
    + apply rank_known in Ea.
      destruct (Object_prototype b); cbn [ge]; [discriminate|]. intros H%Z.leb_le. lia.
    + apply rank_known in Eb.
      destruct (Object_prototype a); cbn [ge]; [discriminate|]. intros H%Z.leb_le. lia.
    + destruct (Object_prototype a) as [s|], (Object_prototype b) as [t|]; cbn [ge];
        try discriminate.
      intros H%negb_true_iff. right. exists s, t. auto.
  - intros [(ra & rb & -> & -> & H)|(s & t & Ha & Hb & H)].
    + cbn [ge]. apply Z.leb_le. exact H.
    + destruct (inherited_key _ _ Ha) as [-> _]. destruct (inherited_key _ _ Hb) as [-> _].
      rewrite Ha, Hb. cbn [ge]. rewrite H. reflexivity.
Qed.

(** A role passes only roles, and only a role passes a role. *)
Lemma hasRole_of_role a b :
  VALID_ROLES_has (VStr a) = true \/ VALID_ROLES_has (VStr b) = true ->
  hasRole a b = true ->
  exists ra rb, ROLE_RANK a = Some ra /\ ROLE_RANK b = Some rb /\ rb <= ra.
Proof.
  intros Hv [H|(s & t & Ha & Hb & _)]%hasRole_spec; [exact H|].
  apply inherited_key in Ha as [_ Ha]. apply inherited_key in Hb as [_ Hb].
  destruct Hv; congruence.
Qed.

(** X3.  [hasRole(role, minRole)] compares two of the four roles by their
    ranks, and on the four roles it is a total order with "owner" on top:
    transitive, any two roles compare, and two roles that pass each other
    are the same role.  A role passes nothing but roles, and nothing but a
    role passes a role.  But the rank table is a plain object: a key that
    it inherits from [Object.prototype] ("constructor", "toString", ...)
    passes itself, so [hasRole] alone does not turn every unknown string
    down; two strings pass one another only when both are roles or both
    are inherited keys, and a string that is neither passes nothing and
    nothing passes it. *)
Theorem hasRole_rank_order :
  (forall a b, hasRole a b = true <->
     (exists ra rb, ROLE_RANK a = Some ra /\ ROLE_RANK b = Some rb /\ rb <= ra) \/
     (exists s t, Object_prototype a = Some s /\ Object_prototype b = Some t /\
                  String.ltb s t = false)) /\
  (forall a b c, VALID_ROLES_has (VStr a) = true ->
     hasRole a b = true -> hasRole b c = true ->
     hasRole a c = true /\ VALID_ROLES_has (VStr b) = true /\ VALID_ROLES_has (VStr c) = true) /\
  (forall a b, VALID_ROLES_has (VStr a) = true -> VALID_ROLES_has (VStr b) = true ->
     hasRole a b = true \/ hasRole b a = true) /\
  (forall a b, VALID_ROLES_has (VStr a) = true ->
     hasRole a b = true -> hasRole b a = true -> a = b) /\
  (forall a, VALID_ROLES_has (VStr a) = true -> hasRole "owner" a = true) /\
  (forall k text, Object_prototype k = Some text ->
     hasRole k k = true /\
     forall r, VALID_ROLES_has (VStr r) = true -> hasRole k r = false /\ hasRole r k = false) /\
  (forall a b, VALID_ROLES_has (VStr a) = false -> Object_prototype a = None ->
     hasRole a b = false /\ hasRole b a = false).
Proof.
  split; [exact hasRole_spec|].
  split; [|split; [|split; [|split; [|split]]]].
  - intros a b c Hv Hab Hbc.
    destruct (hasRole_of_role _ _ (or_introl Hv) Hab) as (ra & rb & Ha & Hb & Hle).
    pose proof (proj1 (rank_known _ _ Hb)) as Hvb.
    destruct (hasRole_of_role _ _ (or_introl Hvb) Hbc) as (rb' & rc & Hb' & Hc & Hle').
    rewrite Hb in Hb'. injection Hb' as <-.
    split; [|split; [exact Hvb | exact (proj1 (rank_known _ _ Hc))]].
    apply hasRole_spec. left. exists ra, rc. repeat split; [assumption..|lia].
  - intros a b (ra & Ha & _)%valid_role_rank (rb & Hb & _)%valid_role_rank.
    destruct (Z.le_ge_cases ra rb).
    + right. apply hasRole_spec. left. exists rb, ra. auto.
    + left. apply hasRole_spec. left. exists ra, rb. auto.
  - intros a b Hv Hab Hba.
    destruct (hasRole_of_role _ _ (or_introl Hv) Hab) as (ra & rb & Ha & Hb & Hle).
    destruct (hasRole_of_role _ _ (or_intror Hv) Hba) as (rb' & ra' & Hb' & Ha' & Hle').
    rewrite Ha in Ha'. rewrite Hb in Hb'. injection Ha' as <-. injection Hb' as <-.
    assert (ra = rb) as -> by lia. eapply rank_injective; eassumption.
  - intros a (ra & Ha & Hr)%valid_role_rank. apply hasRole_spec. left.
    exists 4, ra. repeat split; [assumption | lia].
  - intros k text Hk. split.
    + apply hasRole_spec. right. exists text, text. repeat split; try assumption.
      apply ltb_irrefl.
    + intros r Hr. apply inherited_key in Hk as [_ Hk]. split.
      * destruct (hasRole k r) eqn:E; [|reflexivity].
        destruct (hasRole_of_role _ _ (or_intror Hr) E) as (rk & _ & Hrk & _).
        apply rank_known in Hrk. intuition congruence.
      * destruct (hasRole r k) eqn:E; [|reflexivity].
        destruct (hasRole_of_role _ _ (or_introl Hr) E) as (_ & rk & _ & Hrk & _).
        apply rank_known in Hrk. intuition congruence.
  - intros a b Hv Hp. split.
    + destruct (hasRole a b) eqn:E; [|reflexivity].
      apply hasRole_spec in E as [(ra & _ & Hra & _)|(s & _ & Hs & _)]; [|congruence].
      apply rank_known in Hra. intuition congruence.
    + destruct (hasRole b a) eqn:E; [|reflexivity].
      apply hasRole_spec in E as [(_ & ra & _ & Hra & _)|(_ & t & _ & Ht & _)]; [|congruence].
      apply rank_known in Hra. intuition congruence.
Qed.

Lemma access_granted d r uid tenantId minRole role :
  requireTenantAccess d r uid tenantId minRole = Return role ->
  valid_inputs uid tenantId minRole /\
  in_time (member_io r) /\ in_time (role_io r) /\
  val_at (members (tenant_of d (str_of tenantId))) (str_of uid) = VBool true /\
  val_at (roles (tenant_of d (str_of tenantId))) (str_of uid) = VStr role /\
  VALID_ROLES_has (VStr role) = true /\
  hasRole role (str_of minRole) = true.
Proof.
  unfold requireTenantAccess, valid_inputs.
  destruct (bad_id uid); [discriminate|].
  destruct (bad_id tenantId); [discriminate|].
  destruct (VALID_ROLES_has minRole); [|discriminate]. cbn [negb].
  destruct (RTDB_FORBIDDEN (str_of uid)); [discriminate|].
  destruct (RTDB_FORBIDDEN (str_of tenantId)); [discriminate|]. cbn [orb].
  destruct (withTimeout (get (member_io r) _) 3000 _) as [mv|] eqn:Em; [|discriminate].
  apply get_returns in Em as [Hin ->].
  destruct (is_true_value _) eqn:Etrue; cbn [negb]; [|discriminate].
  apply is_true_value_spec in Etrue.
  destruct (withTimeout (get (role_io r) _) 3000 _) as [rv|] eqn:Er; [|discriminate].
  apply get_returns in Er as [Hin2 ->].
  destruct (val_at (roles _) _) as [| | | |rs| |] eqn:Erole; try discriminate.
  destruct (VALID_ROLES_has (VStr rs)) eqn:Ev; cbn [negb]; [|discriminate].
  destruct (hasRole rs (str_of minRole)) eqn:Eh; cbn [negb]; [|discriminate].
  intros [= <-]. repeat split; assumption.
Qed.

Lemma access_grants d r uid tenantId minRole role :
  valid_inputs uid tenantId minRole ->
  in_time (member_io r) -> in_time (role_io r) ->
  val_at (members (tenant_of d (str_of tenantId))) (str_of uid) = VBool true ->
  val_at (roles (tenant_of d (str_of tenantId))) (str_of uid) = VStr role ->
  VALID_ROLES_has (VStr role) = true ->
  hasRole role (str_of minRole) = true ->
  requireTenantAccess d r uid tenantId minRole = Return role.
Proof.
  intros (Hu & Ht & Hm & Hfu & Hft) Hin Hin2 Hmem Hrole Hv Hh.
  unfold requireTenantAccess. rewrite Hu, Ht, Hm, Hfu, Hft. cbn [negb orb].
  rewrite (get_in_time _ _ Hin), Hmem. cbn [is_true_value negb].
  rewrite (get_in_time _ _ Hin2), Hrole, Hv, Hh. reflexivity.
Qed.

(** X1.  Past the validation and the membership check (the member flag,
    read in time, is [true]): a role read that errors, hangs or takes more
    than 3000 ms makes the call throw status 503; for a role read that
    answers in 3000 ms at most, a role that is missing, not a string or not
    one of the four roles makes it throw 403 "no valid role assigned", a
    known role below [minRole] makes it throw 403 "insufficient role", and
    a known role that passes [minRole] is returned as it is stored. *)
Theorem requireTenantAccess_role_stage d r uid tenantId minRole :
  valid_inputs uid tenantId minRole ->
  in_time (member_io r) ->
  val_at (members (tenant_of d (str_of tenantId))) (str_of uid) = VBool true ->
  let roleVal := val_at (roles (tenant_of d (str_of tenantId))) (str_of uid) in
  (errors_or_times_out (role_io r) ->
     requireTenantAccess d r uid tenantId minRole
     = Throw (StatusMsg 503 "authorization check unavailable")) /\
  (in_time (role_io r) -> VALID_ROLES_has roleVal = false ->
     requireTenantAccess d r uid tenantId minRole
     = Throw (StatusMsg 403 "no valid role assigned")) /\
  (in_time (role_io r) -> VALID_ROLES_has roleVal = true ->
     hasRole (str_of roleVal) (str_of minRole) = false ->
     requireTenantAccess d r uid tenantId minRole
     = Throw (StatusMsg 403 "insufficient role")) /\
  (in_time (role_io r) -> VALID_ROLES_has roleVal = true ->
     hasRole (str_of roleVal) (str_of minRole) = true ->
     requireTenantAccess d r uid tenantId minRole = Return (str_of roleVal)).
Proof.
  intros Hvalid Hin Hmem roleVal.
  pose proof Hvalid as (Hu & Ht & Hm & Hfu & Hft).
  unfold requireTenantAccess. rewrite Hu, Ht, Hm, Hfu, Hft. cbn [negb orb].
  rewrite (get_in_time _ _ Hin), Hmem. cbn [is_true_value negb]. fold roleVal.
  split; [|split; [|split]].
  - intros Hbad.
    destruct (get_unavailable _ roleVal "role lookup timed out" Hbad) as [e ->].
    reflexivity.
  - intros Hin2 Hv. rewrite (get_in_time _ _ Hin2).
    destruct roleVal; try reflexivity. rewrite Hv. reflexivity.
  - intros Hin2 Hv Hh. rewrite (get_in_time _ _ Hin2).
    rewrite (valid_role_is_string _ Hv) in Hv |- *. cbn [str_of] in *.
    rewrite Hv, Hh. reflexivity.
  - intros Hin2 Hv Hh. rewrite (get_in_time _ _ Hin2).
    rewrite (valid_role_is_string _ Hv) in Hv |- *. cbn [str_of] in *.
    rewrite Hv, Hh. reflexivity.
Qed.

Lemma requireTenantAccess_role_stage_witness :
  requireTenantAccess sample_db (Reads (Answers 12) (Fails 40 "permission denied"))
    (VStr "u1") (VStr "t1") (VStr "viewer")
  = Throw (StatusMsg 503 "authorization check unavailable") /\
  requireTenantAccess sample_db (Reads (Answers 12) (Answers 15))
    (VStr "u1") (VStr "t1") (VStr "owner")
  = Throw (StatusMsg 403 "insufficient role") /\
  requireTenantAccess sample_db (Reads (Answers 12) (Answers 3001))
    (VStr "u1") (VStr "t1") (VStr "viewer")
  = Throw (StatusMsg 503 "authorization check unavailable") /\
  requireTenantAccess sample_db (Reads (Answers 12) (Answers 3000))
    (VStr "u1") (VStr "t1") (VStr "viewer") = Return "manager".
Proof.
  assert (Hvalid : forall m, VALID_ROLES_has (VStr m) = true ->
                             valid_inputs (VStr "u1") (VStr "t1") (VStr m))
    by (intros m Hm; repeat split; try reflexivity; exact Hm).
  assert (Hin : forall io, in_time (member_io (Reads (Answers 12) io)))
    by (intros io; exists 12; split; [reflexivity | lia]).
  split; [|split; [|split]].
  - pose proof (requireTenantAccess_role_stage sample_db
                  (Reads (Answers 12) (Fails 40 "permission denied"))
                  (VStr "u1") (VStr "t1") (VStr "viewer")
                  (Hvalid "viewer" eq_refl) (Hin _) eq_refl) as H.
    cbv zeta in H. apply (proj1 H). exact I.
  - pose proof (requireTenantAccess_role_stage sample_db (Reads (Answers 12) (Answers 15))
                  (VStr "u1") (VStr "t1") (VStr "owner")
                  (Hvalid "owner" eq_refl) (Hin _) eq_refl) as H.
    cbv zeta in H. apply (proj1 (proj2 (proj2 H))).
    + exists 15. split; [reflexivity | lia].
    + reflexivity.
    + reflexivity.
  - pose proof (requireTenantAccess_role_stage sample_db (Reads (Answers 12) (Answers 3001))
                  (VStr "u1") (VStr "t1") (VStr "viewer")
                  (Hvalid "viewer" eq_refl) (Hin _) eq_refl) as H.
    cbv zeta in H. apply (proj1 H). simpl. lia.
  - pose proof (requireTenantAccess_role_stage sample_db (Reads (Answers 12) (Answers 3000))
                  (VStr "u1") (VStr "t1") (VStr "viewer")
                  (Hvalid "viewer" eq_refl) (Hin _) eq_refl) as H.
    cbv zeta in H. apply (proj2 (proj2 (proj2 H))).
    + exists 3000. split; [reflexivity | lia].
    + reflexivity.
    + reflexivity.
Defined.

(** X2.  The validation comes before any read: when an id is empty, not a
    string, longer than 128 UTF-16 code units (its [length]) or holds one
    of [. # $ [ ] /], or when [minRole] is not one of the four roles, the
    call throws status 400 with a message fixed by the inputs alone,
    whatever the store holds and however its reads behave; on inputs that
    pass, an id of 65 Hebrew letters among them, it never throws 400. *)
Theorem requireTenantAccess_validates_first uid tenantId minRole :
  (~ valid_inputs uid tenantId minRole ->
     exists msg, forall d r,
       requireTenantAccess d r uid tenantId minRole = Throw (StatusMsg 400 msg)) /\
  (valid_inputs uid tenantId minRole ->
     forall d r msg,
       requireTenantAccess d r uid tenantId minRole <> Throw (StatusMsg 400 msg)).
Proof.
  unfold valid_inputs, requireTenantAccess. split.
  - intros Hbad.
    destruct (bad_id uid); [eexists; reflexivity|].
    destruct (bad_id tenantId); [eexists; reflexivity|].
    destruct (VALID_ROLES_has minRole); [|eexists; reflexivity]. cbn [negb].
    destruct (RTDB_FORBIDDEN (str_of uid)); [eexists; reflexivity|].
    destruct (RTDB_FORBIDDEN (str_of tenantId)); [eexists; reflexivity|].
    exfalso. apply Hbad. repeat split; reflexivity.
  - intros (-> & -> & -> & -> & ->) d r msg. cbn [negb orb].
    destruct (withTimeout _ _ _); [|discriminate].
    destruct (negb _); [discriminate|].
    destruct (withTimeout _ _ _) as [[| | | |rs| |]|]; try discriminate.
    destruct (negb _); [discriminate|].
    destruct (negb _); discriminate.
Qed.

Lemma requireTenantAccess_validates_first_witness :
  (exists msg, forall d r,
     requireTenantAccess d r (VStr "u1") (VStr "a/../b") (VStr "viewer")
     = Throw (StatusMsg 400 msg)) /\
  requireTenantAccess sample_db (Reads Hangs Hangs) (VStr "u1") (VStr "t1") (VStr "viewer")
  <> Throw (StatusMsg 400 "invalid tenantId") /\
  requireTenantAccess sample_db (Reads (Answers 12) (Answers 15))
    (VStr "u1") (VStr (alefs 65)) (VStr "viewer")
  <> Throw (StatusMsg 400 "invalid tenantId") /\
  (exists msg, forall d r,
     requireTenantAccess d r (VStr "u1") (VStr (alefs 129)) (VStr "viewer")
     = Throw (StatusMsg 400 msg)).
Proof.
  split; [|split; [|split]].
  - apply (requireTenantAccess_validates_first (VStr "u1") (VStr "a/../b") (VStr "viewer")).
    intros (_ & _ & _ & _ & H). vm_compute in H. discriminate.
  - apply (requireTenantAccess_validates_first (VStr "u1") (VStr "t1") (VStr "viewer")).
    repeat split; reflexivity.
  - apply (requireTenantAccess_validates_first (VStr "u1") (VStr (alefs 65)) (VStr "viewer")).
    repeat split; reflexivity.
  - apply (requireTenantAccess_validates_first (VStr "u1") (VStr (alefs 129)) (VStr "viewer")).
    intros (_ & H & _). vm_compute in H. discriminate.
Defined.

(** X4.  Access is monotone in the demanded role: a call that returns a
    role for [minRole] returns the same role for every [minRole'] that
    [minRole] itself passes (a manager-level grant is also a viewer-level
    grant). *)
Theorem requireTenantAccess_monotone d r uid tenantId minRole minRole' role :
  requireTenantAccess d r uid tenantId (VStr minRole) = Return role ->
  hasRole minRole minRole' = true ->
  requireTenantAccess d r uid tenantId (VStr minRole') = Return role.
Proof.
  intros Hret Hh.
  apply access_granted in Hret
    as ((Hu & Ht & Hm & Hfu & Hft) & Hin & Hin2 & Hmem & Hrole & Hv & Hrank).
  cbn [str_of] in Hrank.
  apply access_grants; try assumption.
  - repeat split; try assumption.
    destruct (hasRole_of_role _ _ (or_introl Hm) Hh) as (_ & rb & _ & Hb & _).
    apply rank_known in Hb. tauto.
  - cbn [str_of].
    destruct (hasRole_of_role _ _ (or_introl Hv) Hrank) as (ra & rb & Ha & Hb & Hab).
    destruct (hasRole_of_role _ _ (or_introl Hm) Hh) as (rb' & rc & Hb' & Hc & Hbc).
    rewrite Hb in Hb'. injection Hb' as <-.
    apply hasRole_spec. left. exists ra, rc. repeat split; [assumption..|lia].
Qed.

Lemma requireTenantAccess_monotone_witness :
  requireTenantAccess sample_db (Reads (Answers 12) (Answers 15))
    (VStr "u1") (VStr "t1") (VStr "viewer") = Return "manager".
Proof.
  apply (requireTenantAccess_monotone sample_db (Reads (Answers 12) (Answers 15))
           (VStr "u1") (VStr "t1") "manager" "viewer" "manager"); reflexivity.
Defined.

Lemma hasRole_rank_order_witness :
  hasRole "owner" "shift_manager" = true /\
  hasRole "constructor" "constructor" = true /\
  hasRole "constructor" "viewer" = false /\ hasRole "owner" "constructor" = false.
Proof.
  destruct hasRole_rank_order as (_ & Htrans & _ & _ & _ & Hkey & _).
  split; [apply (Htrans "owner" "manager" "shift_manager"); reflexivity|].
  destruct (Hkey "constructor" _ eq_refl) as [Hself Hrole].
  split; [exact Hself|].
  split; [apply (Hrole "viewer") | apply (Hrole "owner")]; reflexivity.
Defined.

End AccessFacts.

(** ** The role handlers: failures, scope, audit trail, authorisation *)

Module RoleRunFacts.

Import Roles Mutations RoleRuns RolesFacts AccessFacts.

Lemma side_write_other e d tid uid flag a t :
  t <> tid -> tenant_of (side_write e d tid uid flag a) t = tenant_of d t.
Proof.
  intros Hne. unfold side_write. destruct (side_fault e); [reflexivity|].
  rewrite tenant_of_update. destruct (decide (tid = t)); [congruence | reflexivity].
Qed.

Lemma update_other (d : db) tid f t :
  t <> tid -> tenant_of (update_tenant d tid f) t = tenant_of d t.
Proof.
  intros Hne. rewrite tenant_of_update. destruct (decide (tid = t)); [congruence | reflexivity].
Qed.

Lemma side_write_lock_daily e d tid uid flag a t :
  lock (tenant_of (side_write e d tid uid flag a) t) = lock (tenant_of d t) /\
  daily (tenant_of (side_write e d tid uid flag a) t) = daily (tenant_of d t).
Proof.
  unfold side_write. destruct (side_fault e); [split; reflexivity|].
  rewrite tenant_of_update. destruct (decide (tid = t)) as [->|]; split; reflexivity.
Qed.

Lemma with_roles_lock_daily (d : db) tid rs t :
  lock (tenant_of (update_tenant d tid (fun x => with_roles x (rs x))) t) = lock (tenant_of d t) /\
  daily (tenant_of (update_tenant d tid (fun x => with_roles x (rs x))) t) = daily (tenant_of d t).
Proof.
  rewrite tenant_of_update. destruct (decide (tid = t)) as [->|]; split; reflexivity.
Qed.

(** X5.  A request that either role handler answers with anything but 200
    leaves the store exactly as it was. *)
Theorem failed_role_request_changes_nothing op d :
  status (fst (perform op d)) <> 200 -> snd (perform op d) = d.
Proof.
  destruct op as [e r|e r]; simpl;
    [unfold BootstrapOwner.handler | unfold AdminRoles.handler].
  all: repeat case_match; simplify_eq/=; intros Hst; try reflexivity.
  all: exfalso; apply Hst; reflexivity.
Qed.

Lemma failed_role_request_changes_nothing_witness :
  snd (perform (UpdateRole calm (update_request "u1" "t1" "u1" VNull)) one_owner_db)
  = one_owner_db.
Proof.
  apply (failed_role_request_changes_nothing
           (UpdateRole calm (update_request "u1" "t1" "u1" VNull)) one_owner_db).
  vm_compute. discriminate.
Defined.

(** X6.  Either role handler touches one tenant only, the one named in the
    body of the request: every other tenant is left as it was; and in no
    tenant does it touch the lock record or the daily documents. *)
Theorem role_handlers_stay_in_their_tenant op d t :
  (t <> field "tenantId" (request_of op) ->
     tenant_of (snd (perform op d)) t = tenant_of d t) /\
  lock (tenant_of (snd (perform op d)) t) = lock (tenant_of d t) /\
  daily (tenant_of (snd (perform op d)) t) = daily (tenant_of d t).
Proof.
  destruct op as [e r|e r]; simpl; unfold field;
    [unfold BootstrapOwner.handler | unfold AdminRoles.handler].
  all: repeat case_match; simplify_eq/=; try (repeat split; reflexivity).
  all: split; [intros Hne; rewrite side_write_other, update_other by assumption; reflexivity|].
  all: match goal with
       | |- context [side_write ?e ?d1 ?tid ?uid ?flag ?a] =>
           destruct (side_write_lock_daily e d1 tid uid flag a t) as [-> ->]
       end.
  all: rewrite tenant_of_update; destruct (decide _) as [<-|]; split; reflexivity.
Qed.

Lemma role_handlers_stay_in_their_tenant_witness :
  tenant_of (snd (perform (UpdateRole calm (update_request "u1" "t1" "u2" (VStr "manager")))
                    one_owner_db)) "t2"
  = tenant_of one_owner_db "t2".
Proof.
  apply (role_handlers_stay_in_their_tenant
           (UpdateRole calm (update_request "u1" "t1" "u2" (VStr "manager"))) one_owner_db "t2").
  vm_compute. discriminate.
Defined.

Lemma audit_side_write e d tid uid flag a t :
  audit (tenant_of (side_write e d tid uid flag a) t) = audit (tenant_of d t) \/
  (side_fault e = None /\ t = tid /\
   audit (tenant_of (side_write e d tid uid flag a) t) = (audit (tenant_of d t) ++ [a])%list).
Proof.
  unfold side_write. destruct (side_fault e); [left; reflexivity|].
  rewrite tenant_of_update. destruct (decide (tid = t)) as [->|]; [|left; reflexivity].
  right. repeat split; reflexivity.
Qed.

Lemma audit_with_roles (d : db) tid rs t :
  audit (tenant_of (update_tenant d tid (fun x => with_roles x (rs x))) t) = audit (tenant_of d t).
Proof. rewrite tenant_of_update. destruct (decide (tid = t)) as [->|]; reflexivity. Qed.

Lemma audit_step op d t :
  audit (tenant_of (snd (perform op d)) t) = audit (tenant_of d t) \/
  (status (fst (perform op d)) = 200 /\ t = field "tenantId" (request_of op) /\
   side_fault (env_of op) = None /\
   exists entry,
     audit (tenant_of (snd (perform op d)) t) = (audit (tenant_of d t) ++ [entry])%list /\
     caller (request_of op) = Some (actorUid entry) /\ ts entry = now (env_of op)).
Proof.
  destruct op as [e r|e r]; simpl; unfold field;
    [unfold BootstrapOwner.handler | unfold AdminRoles.handler].
  all: repeat case_match; simplify_eq/=; try (left; reflexivity).
  all: match goal with
       | |- context [side_write ?e ?d1 ?tid ?uid ?flag ?a] =>
           destruct (audit_side_write e d1 tid uid flag a t) as [->|(Hs & -> & ->)]
       end.
  all: rewrite ?(audit_with_roles d _ (fun _ => _)), ?(audit_with_roles d _ (fun x => _ (roles x))).
  all: try (left; reflexivity).
  all: right; repeat split; try assumption; eexists; split; [reflexivity|].
  all: simpl; split; try reflexivity.
  all: match goal with H : negb (String.eqb _ _) = false |- _ =>
         apply negb_false_iff, String.eqb_eq in H; rewrite H end; reflexivity.
Qed.

(** X7.  The audit trail is append-only: one operation leaves the trail of
    a tenant as it was or appends one entry to it, and it appends only when
    it answers 200, to the tenant named in the request, with the caller as
    the actor and the clock of the call as the time; so after any sequence
    of operations the earlier trail is a prefix of the later one. *)
Theorem role_audit_is_append_only :
  (forall op d t,
     audit (tenant_of (snd (perform op d)) t) = audit (tenant_of d t) \/
     (status (fst (perform op d)) = 200 /\ t = field "tenantId" (request_of op) /\
      side_fault (env_of op) = None /\
      exists entry,
        audit (tenant_of (snd (perform op d)) t) = (audit (tenant_of d t) ++ [entry])%list /\
        caller (request_of op) = Some (actorUid entry) /\ ts entry = now (env_of op))) /\
  (forall ops d t,
     exists added,
       audit (tenant_of (perform_all ops d) t) = (audit (tenant_of d t) ++ added)%list /\
       (length added <= length ops)%nat).
Proof.
  split; [exact audit_step|].
  induction ops as [|op ops IH]; intros d t; simpl.
  - exists []. rewrite app_nil_r. split; [reflexivity | simpl; lia].
  - destruct (IH (snd (perform op d)) t) as (added & -> & Hlen).
    destruct (audit_step op d t) as [->|(_ & _ & _ & entry & -> & _)].
    + exists added. split; [reflexivity | lia].
    + exists (entry :: added). rewrite <- app_assoc. split; [reflexivity | simpl; lia].
Qed.

Lemma accepted_error st msg : accepted (error_response st msg) = false.
Proof. unfold accepted. simpl. apply andb_false_r. Qed.

Lemma rate_gate_rejects r resp : rate_gate r = Some resp -> accepted resp = false.
Proof.
  unfold rate_gate. repeat case_match; intros [= <-]; apply accepted_error.
Qed.

Ltac not_accepted H :=
  first [ rewrite accepted_error in H; discriminate
        | erewrite rate_gate_rejects in H by eassumption; discriminate ].

Lemma val_at_lookup (m : gmap string value) k v :
  val_at m k = v -> v <> VNull -> m !! k = Some v.
Proof. unfold val_at. destruct (m !! k); simpl; congruence. Qed.

Lemma passes_owner role : Helpers.hasRole role "owner" = true -> role = "owner".
Proof.
  intros H.
  destruct (hasRole_of_role role "owner" (or_intror eq_refl) H) as (ra & rb & Ha & Hb & Hle).
  injection Hb as <-. pose proof (rank_known _ _ Ha) as [_ Hr].
  assert (ra = 4) as -> by lia. eapply rank_injective; [eassumption | reflexivity].
Qed.

(** X8.  A role update goes through (status 200, [ok: true]) only for a caller who, in the tenant
    of the request, has the member flag [true] and the role "owner" at the
    time of the check.  The roles of that tenant are then the old ones with
    the target's entry set to the role, or removed when the role is [null];
    and when the write that follows goes through, the member flag of the
    target is [true], or removed with the role. *)
Theorem role_update_is_authorized e r d :
  accepted (fst (AdminRoles.handler e r d)) = true ->
  exists actor,
    caller r = Some actor /\
    members (tenant_of d (field "tenantId" r)) !! actor = Some (VBool true) /\
    roles (tenant_of d (field "tenantId" r)) !! actor = Some owner /\
    roles (tenant_of (snd (AdminRoles.handler e r d)) (field "tenantId" r))
    = AdminRoles.apply_change (field "targetUid" r) (role_field r)
        (roles (tenant_of d (field "tenantId" r))) /\
    (side_fault e = None ->
     members (tenant_of (snd (AdminRoles.handler e r d)) (field "tenantId" r))
     = (if is_null (role_field r)
        then delete (field "targetUid" r) (members (tenant_of d (field "tenantId" r)))
        else <[field "targetUid" r := VBool true]> (members (tenant_of d (field "tenantId" r))))).
Proof.
  unfold field, role_field, AdminRoles.handler.
  repeat case_match; simplify_eq; cbn [fst snd]; intros Hst; try not_accepted Hst.
  all: match goal with
       | H : Helpers.requireTenantAccess _ _ _ _ _ = Return _ |- _ =>
           apply access_granted in H as (_ & _ & _ & Hmem & Hrole & _ & Hrank)
       end.
  all: cbn [Helpers.str_of] in *.
  all: apply passes_owner in Hrank; subst.
  all: eexists; split; [reflexivity|].
  all: split; [apply val_at_lookup; [assumption | discriminate]|].
  all: split; [apply val_at_lookup; [assumption | discriminate]|].
  all: rewrite roles_side_write, tenant_of_update, decide_True by reflexivity.
  all: split.
  all: try (intros Hside; unfold side_write; rewrite Hside, tenant_of_update, decide_True by reflexivity;
            rewrite tenant_of_update, decide_True by reflexivity; simpl;
            destruct (is_null _); reflexivity).
  all: first
    [ committed_tx; unfold AdminRoles.role_update in *;
      destruct (AdminRoles.last_owner _ _); simplify_eq; reflexivity
    | simpl; unfold AdminRoles.apply_change;
      match goal with H : negb (is_string "owner" ?role) = false |- _ =>
        apply negb_false_iff, is_string_spec in H; rewrite H end;
      reflexivity ].
Qed.

Lemma role_update_is_authorized_witness :
  exists actor,
    caller (update_request "u1" "t1" "u2" (VStr "manager")) = Some actor /\
    roles (tenant_of one_owner_db "t1") !! actor = Some owner.
Proof.
  destruct (role_update_is_authorized calm (update_request "u1" "t1" "u2" (VStr "manager"))
              one_owner_db) as (actor & Hc & _ & Ho & _).
  - reflexivity.
  - exists actor. split; assumption.
Defined.

Lemma bootstrap_accepted e r d :
  accepted (fst (BootstrapOwner.handler e r d)) = true ->
  caller r = Some (field "uid" r) /\
  ~ has_owner (roles (tenant_of d (field "tenantId" r))) /\
  roles (tenant_of (snd (BootstrapOwner.handler e r d)) (field "tenantId" r))
  = <[field "uid" r := owner]> (roles (tenant_of d (field "tenantId" r))).
Proof.
  unfold field, BootstrapOwner.handler.
  repeat case_match; simplify_eq; cbn [fst snd]; intros Hst; try not_accepted Hst.
  rewrite roles_side_write, roles_with_roles, decide_True by reflexivity.
  committed_tx.
  match goal with H : BootstrapOwner.bootstrap_update _ _ = Some _ |- _ =>
    apply bootstrap_update_Some in H as [Hno ->] end.
  match goal with H : negb (String.eqb _ _) = false |- _ =>
    apply negb_false_iff, String.eqb_eq in H; rewrite H end.
  split; [reflexivity|]. split; [assumption|]. reflexivity.
Qed.

Lemma no_second_bootstrap ops : forall d t,
  has_owner (roles (tenant_of d t)) ->
  List.filter (bootstrapped t) (perform_each ops d) = [].
Proof.
  induction ops as [|op ops IH]; intros d t Hown; simpl; [reflexivity|].
  rewrite IH by (eapply change_keeps_owner; [apply perform_change | assumption]).
  destruct (bootstrapped t (op, fst (perform op d))) eqn:E; [|reflexivity].
  exfalso. unfold bootstrapped in E. destruct op as [e r|e r]; simpl in E; [|discriminate].
  apply andb_true_iff in E as [Et Es].
  apply String.eqb_eq in Et. subst t.
  apply bootstrap_accepted in Es as (_ & Hno & _). contradiction.
Qed.

(** X9.  A bootstrap goes through (status 200, [ok: true]) only when the
    caller is the uid of the body and the tenant has no owner, and it leaves
    that uid an owner.  So in any sequence of bootstraps and role updates,
    each complete before the next, at most one bootstrap of a given tenant
    goes through, and none does if the tenant had an owner to begin with. *)
Theorem bootstrap_is_one_shot :
  (forall e r d,
     accepted (fst (BootstrapOwner.handler e r d)) = true ->
     caller r = Some (field "uid" r) /\
     ~ has_owner (roles (tenant_of d (field "tenantId" r))) /\
     roles (tenant_of (snd (BootstrapOwner.handler e r d)) (field "tenantId" r))
     = <[field "uid" r := owner]> (roles (tenant_of d (field "tenantId" r)))) /\
  (forall ops d t,
     (length (List.filter (bootstrapped t) (perform_each ops d)) <= 1)%nat) /\
  (forall ops d t,
     has_owner (roles (tenant_of d t)) ->
     List.filter (bootstrapped t) (perform_each ops d) = []).
Proof.
  split; [exact bootstrap_accepted|].
  split; [|intros ops d t; apply no_second_bootstrap].
  induction ops as [|op ops IH]; intros d t; simpl; [lia|].
  destruct (bootstrapped t (op, fst (perform op d))) eqn:E; [|apply IH].
  simpl. rewrite no_second_bootstrap; [simpl; lia|].
  unfold bootstrapped in E. destruct op as [e r|e r]; simpl in E; [|discriminate].
  apply andb_true_iff in E as [Et Es].
  apply String.eqb_eq in Et. subst t.
  apply bootstrap_accepted in Es as (_ & _ & Hroles).
  simpl. rewrite Hroles. exists (field "uid" r). apply lookup_insert_eq.
Qed.

Lemma bootstrap_is_one_shot_witness :
  List.filter (bootstrapped "t1")
    (perform_each [Bootstrap calm (bootstrap_request "u3" "t1" "u3");
                   Bootstrap calm (bootstrap_request "u1" "t1" "u1")] one_owner_db) = [].
Proof.
  apply bootstrap_is_one_shot. exists "u1". reflexivity.
Defined.

Lemma role_audit_is_append_only_witness :
  exists added,
    audit (tenant_of (perform_all
                        [UpdateRole calm (update_request "u1" "t1" "u2" (VStr "manager"))]
                        one_owner_db) "t1")
    = (audit (tenant_of one_owner_db "t1") ++ added)%list /\
    (length added <= 1)%nat.
Proof.
  exact (proj2 role_audit_is_append_only
           [UpdateRole calm (update_request "u1" "t1" "u2" (VStr "manager"))]
           one_owner_db "t1").
Defined.

End RoleRunFacts.

(** ** The lease lock excludes *)

Module LockRunFacts.

Import Lock LockRuns.

Lemma acquire_granted fault token t_check t_write cur :
  fst (acquireLock fault token t_check t_write cur) = Some token ->
  fault = None /\
  snd (acquireLock fault token t_check t_write cur)
  = Some {| lockId := token; expiresAt := t_write + TTL_MS |} /\
  match cur with
  | Some c => expiresAt c = 0 \/ expiresAt c <= t_check
  | None => True
  end.
Proof.
  unfold acquireLock, transaction, acquire_update.
  destruct fault; [discriminate|].
  destruct cur as [c|]; simpl.
  - destruct (Z.eqb_spec (expiresAt c) 0); simpl.
    + intros _. repeat split. left. assumption.
    + destruct (Z.ltb_spec t_check (expiresAt c)); simpl; [discriminate|].
      intros _. repeat split. right. assumption.
  - intros _. repeat split.
Qed.

Lemma acquire_denied fault token t_check t_write cur :
  fst (acquireLock fault token t_check t_write cur) = None ->
  snd (acquireLock fault token t_check t_write cur) = cur.
Proof.
  unfold acquireLock, transaction, acquire_update.
  destruct fault; [reflexivity|].
  destruct cur as [c|]; simpl; [|discriminate].
  destruct (negb (expiresAt c =? 0) && (t_check <? expiresAt c)); simpl;
    [reflexivity | discriminate].
Qed.

Lemma acquire_outcome fault token t_check t_write cur :
  fst (acquireLock fault token t_check t_write cur) = Some token \/
  fst (acquireLock fault token t_check t_write cur) = None.
Proof.
  unfold acquireLock, transaction. destruct fault; [right; reflexivity|].
  destruct (acquire_update _ _ _ _); [left | right]; reflexivity.
Qed.

Lemma release_outcome fault token cur :
  releaseLock fault token cur = cur \/
  (fault = None /\ exists c, cur = Some c /\ lockId c = token /\ releaseLock fault token cur = None).
Proof.
  unfold releaseLock, transaction, release_update.
  destruct fault; [left; reflexivity|].
  destruct cur as [c|]; [|left; reflexivity].
  destruct (String.eqb_spec (lockId c) token); simpl; [|left; reflexivity].
  right. split; [reflexivity|]. exists c. repeat split. assumption.
Qed.

Lemma lease_survives A expA t cs : forall cur,
  cur = Some {| lockId := A; expiresAt := expA |} ->
  0 <= t -> Forall (not_after t) cs ->
  after_all cs cur = Some {| lockId := A; expiresAt := expA |} \/
  In (Release None A) cs \/ expA <= t.
Proof.
  induction cs as [|c cs IH]; intros cur Hcur Ht Hall; [left; assumption|].
  inversion Hall as [|? ? Hc Hrest]; subst. simpl.
  destruct c as [fault token t_check t_write|fault token]; simpl in *.
  - destruct (acquire_outcome fault token t_check t_write
                (Some {| lockId := A; expiresAt := expA |})) as [Hg|Hd].
    + apply acquire_granted in Hg as (_ & _ & [Hz|Hexp]); simpl in *; right; right; lia.
    + rewrite (acquire_denied _ _ _ _ _ Hd).
      destruct (IH _ eq_refl Ht Hrest) as [H|[H|H]]; auto.
  - destruct (release_outcome fault token (Some {| lockId := A; expiresAt := expA |}))
      as [->|(-> & c & [= <-] & Hid & _)].
    + destruct (IH _ eq_refl Ht Hrest) as [H|[H|H]]; auto.
    + simpl in Hid. subst token. right. left. left. reflexivity.
Qed.

(** X10.  The lease excludes: when a call of [acquireLock] is granted, and
    after further calls of [acquireLock] and [releaseLock] a later call is
    granted too, then either the first lease had run out by the time of the
    later check (its [expiresAt], ten minutes after its own write, is not
    after that reading of the clock), or the calls in between hold a
    [releaseLock] with the first token that went through.  The clock is
    taken not to run backwards between the acquires. *)
Theorem lease_excludes cur fA A tA_check tA_write between fB B tB_check tB_write :
  fst (acquireLock fA A tA_check tA_write cur) = Some A ->
  fst (acquireLock fB B tB_check tB_write
         (after_all between (snd (acquireLock fA A tA_check tA_write cur)))) = Some B ->
  0 <= tB_check ->
  Forall (not_after tB_check) between ->
  tA_write + TTL_MS <= tB_check \/ In (Release None A) between.
Proof.
  intros HA HB Ht Hall.
  apply acquire_granted in HA as (_ & HsA & _).
  destruct (lease_survives A (tA_write + TTL_MS) tB_check between _ HsA Ht Hall)
    as [Hs|[Hr|He]]; [|right; assumption|left; assumption].
  rewrite Hs in HB. apply acquire_granted in HB as (_ & _ & [Hz|Hexp]); simpl in *; left; lia.
Qed.

Lemma lease_excludes_witness :
  100000 + TTL_MS <= 1400000 \/ In (Release None "a") relay.
Proof.
  apply (lease_excludes None None "a" 100000 100000 relay None "b" 1400000 1400001).
  - reflexivity.
  - reflexivity.
  - lia.
  - repeat constructor; simpl; lia.
Defined.

End LockRunFacts.

(** ** The backfill: refusals, what it files and stores, what it leaves alone *)

Module BackfillRunFacts.

Import Effects Backfill BackfillFacts BackfillRuns.

Lemma daily_update_daily (d : db) tid date doc x :
  daily (tenant_of (update_tenant d tid (fun t => with_daily t date doc)) tid) !! x
  = if String.eqb x date then Some doc else daily (tenant_of d tid) !! x.
Proof.
  rewrite RolesFacts.tenant_of_update, decide_True by reflexivity. simpl.
  destruct (String.eqb_spec x date) as [->|Hne].
  - apply lookup_insert_eq.
  - apply lookup_insert_ne. congruence.
Qed.

Lemma rest_update_daily (d : db) tid date doc t :
  (t <> tid -> tenant_of (update_tenant d tid (fun x => with_daily x date doc)) t = tenant_of d t) /\
  members (tenant_of (update_tenant d tid (fun x => with_daily x date doc)) t)
  = members (tenant_of d t) /\
  roles (tenant_of (update_tenant d tid (fun x => with_daily x date doc)) t)
  = roles (tenant_of d t) /\
  audit (tenant_of (update_tenant d tid (fun x => with_daily x date doc)) t)
  = audit (tenant_of d t).
Proof.
  rewrite RolesFacts.tenant_of_update.
  destruct (decide (tid = t)) as [->|]; repeat split; try reflexivity.
  intros H. congruence.
Qed.

Lemma rest_update_lock (d : db) tid f t :
  (t <> tid -> tenant_of (update_tenant d tid (fun x => with_lock x (f x))) t = tenant_of d t) /\
  members (tenant_of (update_tenant d tid (fun x => with_lock x (f x))) t)
  = members (tenant_of d t) /\
  roles (tenant_of (update_tenant d tid (fun x => with_lock x (f x))) t)
  = roles (tenant_of d t) /\
  audit (tenant_of (update_tenant d tid (fun x => with_lock x (f x))) t)
  = audit (tenant_of d t) /\
  daily (tenant_of (update_tenant d tid (fun x => with_lock x (f x))) t)
  = daily (tenant_of d t).
Proof.
  rewrite RolesFacts.tenant_of_update.
  destruct (decide (tid = t)) as [->|]; repeat split; try reflexivity.
  intros H. congruence.
Qed.

Section Handler.

Variable Number_of : value -> option Q.
Variable TABIT_API_KEY : option string.

(** The two ways of the inner [try]. *)
Lemma build_and_write_cases nw now fault tid date d :
  (exists path doc,
     snd (Builder.buildDailyDoc Number_of TABIT_API_KEY nw now tid date) = Return (path, doc) /\
     fault = None /\
     build_and_write Number_of TABIT_API_KEY nw now fault tid date d
     = (None, update_tenant d tid (fun t => with_daily t date doc),
        [Build tid date (fst (Builder.buildDailyDoc Number_of TABIT_API_KEY nw now tid date));
         SetDoc tid date])) \/
  ((match snd (Builder.buildDailyDoc Number_of TABIT_API_KEY nw now tid date), fault with
    | Return _, None => false
    | _, _ => true
    end = true) /\
   exists reason ev,
     build_and_write Number_of TABIT_API_KEY nw now fault tid date d = (Some reason, d, ev)).
Proof.
  unfold build_and_write.
  destruct (Builder.buildDailyDoc _ _ _ _ _ _) as [contacted [[path doc]|x]]; simpl.
  - destruct fault.
    + right. split; [reflexivity|]. eauto.
    + left. exists path, doc. repeat split; reflexivity.
  - right. split; [reflexivity|]. eauto.
Qed.

Lemma backfill_loop_files e tid dates : forall res d,
  let ok date :=
    match snd (Builder.buildDailyDoc Number_of TABIT_API_KEY (net e date) (clock e date) tid date),
          write_fault e date with
    | Return _, None => true
    | _, _ => false
    end in
  let doc_of date :=
    match snd (Builder.buildDailyDoc Number_of TABIT_API_KEY (net e date) (clock e date) tid date)
    with
    | Return (_, doc) => Some doc
    | Throw _ => None
    end in
  let '(res', d', _) := loop Number_of TABIT_API_KEY e tid dates res d in
  built res' = (built res ++ List.filter ok dates)%list /\
  List.map fst (skipped res') = (List.map fst (skipped res)
                                 ++ List.filter (fun x => negb (ok x)) dates)%list /\
  (forall x, daily (tenant_of d' tid) !! x
             = if existsb (String.eqb x) (List.filter ok dates) then doc_of x
               else daily (tenant_of d tid) !! x) /\
  (forall t, (t <> tid -> tenant_of d' t = tenant_of d t) /\
             members (tenant_of d' t) = members (tenant_of d t) /\
             roles (tenant_of d' t) = roles (tenant_of d t) /\
             audit (tenant_of d' t) = audit (tenant_of d t)).
Proof.
  induction dates as [|date rest IH]; intros res d ok doc_of; simpl.
  - rewrite !app_nil_r. repeat split; reflexivity.
  - destruct (build_and_write_cases (net e date) (clock e date) (write_fault e date) tid date d)
      as [(path & doc & Hb & Hw & ->)|(Hbad & reason & ev & ->)].
    + match goal with |- context [loop _ _ _ _ _ ?r ?d1] => specialize (IH r d1) end.
      destruct (loop _ _ _ _ _ _ _) as [[res2 d2] ev2].
      destruct IH as (Hbuilt & Hskip & Hdaily & Hrest). fold ok in Hbuilt, Hskip, Hdaily.
      fold doc_of in Hdaily.
      assert (Hok : ok date = true) by (unfold ok; rewrite Hb, Hw; reflexivity).
      cbn [List.filter existsb]. rewrite Hok. cbn [built skipped existsb] in *.
      rewrite <- List.app_assoc in Hbuilt. cbn [app] in Hbuilt.
      split; [exact Hbuilt|]. split; [exact Hskip|]. split.
      * intros x. rewrite Hdaily, daily_update_daily.
        destruct (String.eqb_spec x date) as [->|]; cbn [orb]; [|reflexivity].
        destruct (existsb _ _); [reflexivity|]. unfold doc_of. rewrite Hb. reflexivity.
      * intros t. destruct (Hrest t) as (H1 & -> & -> & ->).
        destruct (rest_update_daily d tid date doc t) as (H2 & -> & -> & ->).
        repeat split. intros Hne. rewrite H1, H2 by assumption. reflexivity.
    + match goal with |- context [loop _ _ _ _ _ ?r d] => specialize (IH r d) end.
      destruct (loop _ _ _ _ _ _ _) as [[res2 d2] ev2].
      destruct IH as (Hbuilt & Hskip & Hdaily & Hrest). fold ok in Hbuilt, Hskip, Hdaily.
      fold doc_of in Hdaily.
      assert (Hok : ok date = false).
      { unfold ok. destruct (snd _) as [[? ?]|]; [destruct (write_fault e date)|];
          simpl in *; congruence. }
      cbn [List.filter existsb]. rewrite Hok. cbn [built skipped negb] in *.
      rewrite map_app, <- List.app_assoc in Hskip. cbn [List.map fst app] in Hskip.
      split; [exact Hbuilt|]. split; [exact Hskip|]. split; [exact Hdaily | exact Hrest].
Qed.

(** X11.  Past the method check, the token check and the rate limiter, the
    query is validated before the store is read: a tenant id that is
    missing, empty or holds one of [. # $ [ ] /], a [from] or a [to] that is
    missing or not of the shape YYYY-MM-DD, and a [from] after [to] are each
    answered 400 with the message of the case, the store as it was and
    nothing called, not even the access check. *)
Theorem backfill_validates_first e r d uid :
  method r = "POST" -> caller r = Some uid -> rate_gate r = None ->
  let tenantId := default "" (q_tenantId r) in
  let from := default "" (q_from r) in
  let to := default "" (q_to r) in
  (tenantId = "" \/ RTDB_FORBIDDEN tenantId = true ->
     handler Number_of TABIT_API_KEY e r d = (error_response 400 "invalid tenantId", d, [])) /\
  (tenantId <> "" -> RTDB_FORBIDDEN tenantId = false -> date_regex from = false ->
     handler Number_of TABIT_API_KEY e r d = (error_response 400 "invalid from date", d, [])) /\
  (tenantId <> "" -> RTDB_FORBIDDEN tenantId = false -> date_regex from = true ->
   date_regex to = false ->
     handler Number_of TABIT_API_KEY e r d = (error_response 400 "invalid to date", d, [])) /\
  (tenantId <> "" -> RTDB_FORBIDDEN tenantId = false -> date_regex from = true ->
   date_regex to = true -> String.ltb to from = true ->
     handler Number_of TABIT_API_KEY e r d = (error_response 400 "from must be ≤ to", d, [])).
Proof.
  intros Hm Hc Hr tenantId from to. unfold handler.
  rewrite Hm, Hc, Hr. fold tenantId from to. cbn [String.eqb Ascii.eqb Bool.eqb negb].
  replace (String.eqb "POST" "POST") with true by reflexivity. cbn [negb].
  split; [|split; [|split]].
  - intros [H|H]; rewrite H; [reflexivity|]. rewrite orb_true_r. reflexivity.
  - intros Hne H1 H2. rewrite H1, H2.
    destruct (String.eqb_spec tenantId ""); [contradiction|]. reflexivity.
  - intros Hne H1 H2 H3. rewrite H1, H2, H3.
    destruct (String.eqb_spec tenantId ""); [contradiction|]. reflexivity.
  - intros Hne H1 H2 H3 H4. rewrite H1, H2, H3, H4.
    destruct (String.eqb_spec tenantId ""); [contradiction|]. reflexivity.
Qed.

(** X12.  A backfill that is refused by the access check or finds the lock
    held does nothing: when the access check throws, the answer carries its
    status and message, the store is as it was and only the access check was
    made, so the lock was not tried; when access is granted and the lock
    record is held and not yet expired, or the transaction on it fails, the
    answer is 409, the holder's record and the rest of the store are as
    they were, and nothing was built, written or released. *)
Theorem backfill_refused_without_effect e d uid tid from to :
  tid <> "" -> RTDB_FORBIDDEN tid = false ->
  date_regex from = true -> date_regex to = true -> String.ltb to from = false ->
  Z.of_nat (length (Dates.dateRange from to)) <= MAX_DAYS ->
  (forall x,
     Helpers.requireTenantAccess d (access_reads e) (VStr uid) (VStr tid) (VStr "manager")
       = Throw x ->
     handler Number_of TABIT_API_KEY e (backfill_request uid tid from to) d
     = (error_response (status_or x 403) (msg_or x "forbidden"), d, [AccessCheck uid tid])) /\
  (forall granted,
     Helpers.requireTenantAccess d (access_reads e) (VStr uid) (VStr tid) (VStr "manager")
       = Return granted ->
     (acquire_fault e <> None \/
      exists c, lock (tenant_of d tid) = Some c /\ expiresAt c <> 0 /\ t_check e < expiresAt c) ->
     handler Number_of TABIT_API_KEY e (backfill_request uid tid from to) d
     = (error_response 409 "another backfill is already running for this tenant", d,
        [AccessCheck uid tid; LockAcquire tid false])).
Proof.
  intros Htid Hforb Hfrom Hto Horder Hbound.
  unfold handler, backfill_request, rate_gate.
  cbn -[RTDB_FORBIDDEN date_regex String.ltb Dates.dateRange Helpers.requireTenantAccess
        Lock.acquireLock loop MAX_DAYS Z.ltb Z.of_nat update_tenant tenant_of Lock.releaseLock
        results_json String.eqb].
  destruct (String.eqb_spec tid ""); [contradiction|].
  rewrite Hforb, Hfrom, Hto, Horder.
  cbn -[Dates.dateRange Helpers.requireTenantAccess
        Lock.acquireLock loop MAX_DAYS Z.ltb Z.of_nat update_tenant tenant_of Lock.releaseLock
        results_json String.eqb].
  destruct (Z.ltb_spec MAX_DAYS (Z.of_nat (length (Dates.dateRange from to)))); [lia|].
  split.
  - intros x ->. reflexivity.
  - intros granted -> Hheld.
    assert (Lock.acquireLock (acquire_fault e) (token e) (t_check e) (t_write e)
              (lock (tenant_of d tid)) = (None, lock (tenant_of d tid))) as ->;
      [|reflexivity].
    unfold Lock.acquireLock, transaction, Lock.acquire_update.
    destruct Hheld as [Hf|(c & -> & Hz & Hlt)].
    + destruct (acquire_fault e); [reflexivity | contradiction].
    + destruct (acquire_fault e); [reflexivity|].
      destruct (Z.eqb_spec (expiresAt c) 0); [contradiction|].
      destruct (Z.ltb_spec (t_check e) (expiresAt c)); [reflexivity | lia].
Qed.

Lemma existsb_eqb_In x (l : list string) : existsb (String.eqb x) l = true <-> In x l.
Proof.
  rewrite existsb_exists. split.
  - intros (y & Hin & ->%String.eqb_eq). assumption.
  - intros Hin. exists x. split; [assumption | apply String.eqb_refl].
Qed.

(** X13.  A backfill that holds the lock files every date of the range, in
    order, under [built] when the document was built and its write went
    through, and under [skipped] otherwise.  After it, the stored document
    of every built date is the one that [buildDailyDoc] returned for that
    date, whatever was stored before, and the stored document of every other
    date is what it was. *)
Theorem backfill_files_and_stores e d uid tid from to granted stored :
  tid <> "" -> RTDB_FORBIDDEN tid = false ->
  date_regex from = true -> date_regex to = true -> String.ltb to from = false ->
  Z.of_nat (length (Dates.dateRange from to)) <= MAX_DAYS ->
  Helpers.requireTenantAccess d (access_reads e) (VStr uid) (VStr tid) (VStr "manager")
    = Return granted ->
  token e <> "" ->
  Lock.acquireLock (acquire_fault e) (token e) (t_check e) (t_write e) (lock (tenant_of d tid))
    = (Some (token e), stored) ->
  let went_through date :=
    match snd (Builder.buildDailyDoc Number_of TABIT_API_KEY (net e date) (clock e date) tid date),
          write_fault e date with
    | Return _, None => true
    | _, _ => false
    end in
  exists res ev d',
    handler Number_of TABIT_API_KEY e (backfill_request uid tid from to) d
    = (Response 200 (results_json tid from to res), d', ev) /\
    built res = List.filter went_through (Dates.dateRange from to) /\
    List.map fst (skipped res)
    = List.filter (fun date => negb (went_through date)) (Dates.dateRange from to) /\
    (forall date, In date (built res) ->
       exists path doc,
         snd (Builder.buildDailyDoc Number_of TABIT_API_KEY (net e date) (clock e date) tid date)
         = Return (path, doc) /\
         daily (tenant_of d' tid) !! date = Some doc) /\
    (forall date, ~ In date (built res) ->
       daily (tenant_of d' tid) !! date = daily (tenant_of d tid) !! date).
Proof.
  intros Htid Hforb Hfrom Hto Horder Hbound Hacc Htok Hacq went_through.
  unfold handler, backfill_request, rate_gate.
  cbn -[RTDB_FORBIDDEN date_regex String.ltb Dates.dateRange Helpers.requireTenantAccess
        Builder.buildDailyDoc Lock.acquireLock loop MAX_DAYS Z.ltb Z.of_nat update_tenant tenant_of Lock.releaseLock
        results_json String.eqb].
  destruct (String.eqb_spec tid ""); [contradiction|].
  rewrite Hforb, Hfrom, Hto, Horder.
  cbn -[Dates.dateRange Helpers.requireTenantAccess
        Builder.buildDailyDoc Lock.acquireLock loop MAX_DAYS Z.ltb Z.of_nat update_tenant tenant_of Lock.releaseLock
        results_json String.eqb].
  destruct (Z.ltb_spec MAX_DAYS (Z.of_nat (length (Dates.dateRange from to)))); [lia|].
  rewrite Hacc, Hacq.
  destruct (String.eqb_spec (token e) ""); [contradiction|].
  pose proof (backfill_loop_files e tid (Dates.dateRange from to) {| built := []; skipped := [] |}
                (update_tenant d tid (fun t => with_lock t stored))) as Hloop.
  cbv zeta in Hloop. fold went_through in Hloop.
  destruct (loop _ _ _ _ _ _ _) as [[res d2] ev].
  destruct Hloop as (Hbuilt & Hskip & Hdaily & _). cbn [built skipped List.map app] in *.
  exists res. eexists. eexists. split; [reflexivity|].
  split; [exact Hbuilt|]. split; [exact Hskip|].
  assert (Hd : forall x,
             daily (tenant_of
                      (update_tenant d2 tid
                         (fun t => with_lock t (Lock.releaseLock (release_fault e) (token e) (lock t))))
                      tid) !! x
             = if existsb (String.eqb x) (built res)
               then match snd (Builder.buildDailyDoc Number_of TABIT_API_KEY
                                 (net e x) (clock e x) tid x) with
                    | Return (_, doc) => Some doc
                    | Throw _ => None
                    end
               else daily (tenant_of d tid) !! x).
  { intros x.
    destruct (rest_update_lock d2 tid
                (fun t => Lock.releaseLock (release_fault e) (token e) (lock t)) tid)
      as (_ & _ & _ & _ & ->).
    rewrite Hdaily, <- Hbuilt.
    destruct (rest_update_lock d tid (fun _ => stored) tid) as (_ & _ & _ & _ & ->).
    reflexivity. }
  split.
  - intros date Hin. rewrite Hd.
    rewrite (proj2 (existsb_eqb_In date (built res)) Hin).
    rewrite Hbuilt in Hin. apply filter_In in Hin as [_ Hok]. unfold went_through in Hok.
    destruct (snd (Builder.buildDailyDoc Number_of TABIT_API_KEY
                     (net e date) (clock e date) tid date)) as [[path doc]|];
      [|discriminate].
    exists path, doc. split; reflexivity.
  - intros date Hnot. rewrite Hd.
    destruct (existsb (String.eqb date) (built res)) eqn:E; [|reflexivity].
    apply existsb_eqb_In in E. contradiction.
Qed.

(** X14.  Whatever the request and whatever happens, the backfill handler
    leaves the members, the roles and the audit trail of every tenant as
    they were, and leaves every tenant other than the one of the query
    untouched. *)
Theorem backfill_touches_one_tenant e r d t :
  members (tenant_of (snd (fst (handler Number_of TABIT_API_KEY e r d))) t)
  = members (tenant_of d t) /\
  roles (tenant_of (snd (fst (handler Number_of TABIT_API_KEY e r d))) t)
  = roles (tenant_of d t) /\
  audit (tenant_of (snd (fst (handler Number_of TABIT_API_KEY e r d))) t)
  = audit (tenant_of d t) /\
  (t <> default "" (q_tenantId r) ->
   tenant_of (snd (fst (handler Number_of TABIT_API_KEY e r d))) t = tenant_of d t).
Proof.
  unfold handler.
  destruct (negb _); [repeat split|].
  destruct (caller r) as [uid|]; [|repeat split].
  destruct (rate_gate r); [repeat split|].
  destruct (_ || _); [repeat split|].
  destruct (negb _); [repeat split|].
  destruct (negb _); [repeat split|].
  destruct (String.ltb _ _); [repeat split|].
  destruct (_ <? _); [repeat split|].
  destruct (Helpers.requireTenantAccess _ _ _ _ _); [|repeat split].
  destruct (Lock.acquireLock _ _ _ _ _) as [[lockId|] stored]; [|repeat split].
  set (tid := default "" (q_tenantId r)).
  destruct (rest_update_lock d tid (fun _ => stored) t) as (Ho1 & Hm1 & Hr1 & Ha1 & _).
  destruct (String.eqb lockId ""); [cbn [fst snd]; repeat split; assumption|].
  pose proof (backfill_loop_files e tid (Dates.dateRange (default "" (q_from r)) (default "" (q_to r)))
                {| built := []; skipped := [] |}
                (update_tenant d tid (fun t => with_lock t stored))) as Hloop.
  cbv zeta in Hloop.
  destruct (loop _ _ _ _ _ _ _) as [[res d2] ev].
  destruct Hloop as (_ & _ & _ & Hrest). destruct (Hrest t) as (Ho2 & Hm2 & Hr2 & Ha2).
  cbn [fst snd].
  destruct (rest_update_lock d2 tid
              (fun t => Lock.releaseLock (release_fault e) lockId (lock t)) t)
    as (Ho3 & -> & -> & -> & _).
  rewrite Hm2, Hr2, Ha2. repeat split; try assumption.
  intros Hne. rewrite Ho3, Ho2, Ho1 by assumption. reflexivity.
Qed.

End Handler.

Lemma backfill_validates_first_witness :
  handler Builder.numbers_only None bumpy
    (backfill_request "u1" "t1/../t2" "2025-01-01" "2025-01-02") managed_db
  = (error_response 400 "invalid tenantId", managed_db, []).
Proof.
  apply (backfill_validates_first Builder.numbers_only None bumpy
           (backfill_request "u1" "t1/../t2" "2025-01-01" "2025-01-02") managed_db "u1");
    try reflexivity.
  right. reflexivity.
Defined.

Lemma backfill_refused_without_effect_witness :
  handler Builder.numbers_only None bumpy
    (backfill_request "u2" "t1" "2025-01-01" "2025-01-02") managed_db
  = (error_response 403 "not a tenant member", managed_db, [AccessCheck "u2" "t1"]) /\
  handler Builder.numbers_only None bumpy
    (backfill_request "u1" "t1" "2025-01-01" "2025-01-02") held_db
  = (error_response 409 "another backfill is already running for this tenant", held_db,
     [AccessCheck "u1" "t1"; LockAcquire "t1" false]).
Proof.
  assert (Hin : Z.of_nat (length (Dates.dateRange "2025-01-01" "2025-01-02")) <= MAX_DAYS)
    by (vm_compute; discriminate).
  split.
  - apply (proj1 (backfill_refused_without_effect Builder.numbers_only None bumpy managed_db
                    "u2" "t1" "2025-01-01" "2025-01-02"
                    ltac:(discriminate) eq_refl eq_refl eq_refl eq_refl Hin)
                 (StatusMsg 403 "not a tenant member")).
    reflexivity.
  - apply (proj2 (backfill_refused_without_effect Builder.numbers_only None bumpy held_db
                    "u1" "t1" "2025-01-01" "2025-01-02"
                    ltac:(discriminate) eq_refl eq_refl eq_refl eq_refl Hin)
                 "manager").
    + reflexivity.
    + right. eexists. split; [reflexivity|]. split; [discriminate | vm_compute; reflexivity].
Defined.

Lemma backfill_files_and_stores_witness :
  exists res ev d',
    handler Builder.numbers_only (Some "key") bumpy
      (backfill_request "u1" "t1" "2025-01-01" "2025-01-04") managed_db
    = (Response 200 (results_json "t1" "2025-01-01" "2025-01-04" res), d', ev) /\
    built res = ["2025-01-01"; "2025-01-04"] /\
    List.map fst (skipped res) = ["2025-01-02"; "2025-01-03"].
Proof.
  assert (Hin : Z.of_nat (length (Dates.dateRange "2025-01-01" "2025-01-04")) <= MAX_DAYS)
    by (vm_compute; discriminate).
  destruct (backfill_files_and_stores Builder.numbers_only (Some "key") bumpy managed_db
              "u1" "t1" "2025-01-01" "2025-01-04" "manager"
              (Some {| lockId := "k3x9"; expiresAt := 1730635200123 + Lock.TTL_MS |})
              ltac:(discriminate) eq_refl eq_refl eq_refl eq_refl Hin eq_refl
              ltac:(discriminate) eq_refl)
    as (res & ev & d' & Hrun & Hbuilt & Hskip & _).
  exists res, ev, d'. split; [exact Hrun|]. split; [exact Hbuilt | exact Hskip].
Defined.

Lemma backfill_touches_one_tenant_witness :
  tenant_of (snd (fst (handler Builder.numbers_only (Some "key") bumpy
                         (backfill_request "u1" "t1" "2025-01-01" "2025-01-04") managed_db)))
            "t2"
  = tenant_of managed_db "t2".
Proof.
  apply (proj2 (proj2 (proj2 (backfill_touches_one_tenant Builder.numbers_only (Some "key")
                                bumpy (backfill_request "u1" "t1" "2025-01-01" "2025-01-04")
                                managed_db "t2")))).
  vm_compute. discriminate.
Defined.

End BackfillRunFacts.

(** ** The scheduled builder: where the secret is read from, what a run does *)

Module DailyBuilderRunFacts.

Import Effects DailyBuilder DailyBuilderFacts DailyBuilderRuns.

Lemma substring_all s : substring 0 (String.length s) s = s.
Proof. induction s as [|c s IH]; simpl; [reflexivity | rewrite IH; reflexivity]. Qed.

Lemma lowercase_bearer scheme :
  lowercase scheme = "bearer" ->
  exists c1 c2 c3 c4 c5 c6,
    scheme = String c1 (String c2 (String c3 (String c4 (String c5 (String c6 ""))))).
Proof.
  intros H.
  destruct scheme as [|c1 [|c2 [|c3 [|c4 [|c5 [|c6 [|c7 rest]]]]]]]; try discriminate.
  repeat eexists.
Qed.

Lemma chars_app a b : chars (a ++ b) = (chars a ++ chars b)%list.
Proof. induction a as [|c a IH]; simpl; [reflexivity | rewrite <- IH; reflexivity]. Qed.

(** A run of white space is dropped whole, whatever follows it. *)
Lemma drop_white_run two three l : forall g,
  drop_white two three g = [] -> drop_white two three (g ++ l)%list = drop_white two three l.
Proof.
  intros g. remember (length g) as n eqn:Hn.
  assert (Hle : (length g <= n)%nat) by lia. clear Hn. revert g Hle.
  induction n as [|n IH]; intros g Hle Hg.
  - destruct g; [reflexivity | simpl in Hle; lia].
  - destruct g as [|c [|d [|f rest]]]; [reflexivity|..]; cbn [drop_white app] in *.
    + destruct (DailyBuilder.is_space c); [reflexivity | discriminate].
    + destruct (DailyBuilder.is_space c).
      * apply (IH [d]); [simpl in *; lia | exact Hg].
      * destruct (two c d); [reflexivity | discriminate].
    + destruct (DailyBuilder.is_space c).
      * apply (IH (d :: f :: rest)); [simpl in *; lia | exact Hg].
      * destruct (two c d).
        -- apply (IH (f :: rest)); [simpl in *; lia | exact Hg].
        -- destruct (three c d f); [|discriminate].
           apply (IH rest); [simpl in *; lia | exact Hg].
Qed.

Lemma drop_spaces_run gaps s : drop_spaces gaps = "" -> drop_spaces (gaps ++ s) = drop_spaces s.
Proof.
  unfold drop_spaces. intros H. rewrite chars_app, drop_white_run; [reflexivity|].
  destruct (drop_white _ _ (chars gaps)); [reflexivity | discriminate].
Qed.

Lemma string_length_app a b :
  String.length (a ++ b) = (String.length a + String.length b)%nat.
Proof. induction a as [|c a IH]; simpl; [reflexivity | rewrite IH; reflexivity]. Qed.

Lemma length_string_of_list l : String.length (string_of_list_ascii l) = length l.
Proof. induction l as [|c l IH]; simpl; [reflexivity | rewrite IH; reflexivity]. Qed.

(** What is dropped is a prefix, and what is left does not begin with a
    white space of one byte. *)
Lemma drop_white_split two three : forall l,
  exists pre, l = (pre ++ drop_white two three l)%list /\
              match drop_white two three l with
              | c :: _ => is_space c = false
              | [] => True
              end.
Proof.
  intros l. remember (length l) as n eqn:Hn.
  assert (Hle : (length l <= n)%nat) by lia. clear Hn. revert l Hle.
  induction n as [|n IH]; intros l Hle.
  - destruct l; [exists []; split; [reflexivity | exact I] | simpl in Hle; lia].
  - destruct l as [|c rest]; [exists []; split; [reflexivity | exact I]|].
    cbn [drop_white]. destruct (is_space c) eqn:Ec.
    { destruct (IH rest) as (pre & Hl & Hhd); [simpl in Hle; lia|].
      exists (c :: pre). split; [simpl; congruence | exact Hhd]. }
    destruct rest as [|d rest1]; [exists []; split; [reflexivity | exact Ec]|].
    destruct (two c d).
    { destruct (IH rest1) as (pre & Hl & Hhd); [simpl in Hle; lia|].
      exists (c :: d :: pre). split; [simpl; congruence | exact Hhd]. }
    destruct rest1 as [|f rest2]; [exists []; split; [reflexivity | exact Ec]|].
    destruct (three c d f).
    { destruct (IH rest2) as (pre & Hl & Hhd); [simpl in Hle; lia|].
      exists (c :: d :: f :: pre). split; [simpl; congruence | exact Hhd]. }
    exists []. split; [reflexivity | exact Ec].
Qed.

Lemma substring_past_six c1 c2 c3 c4 c5 c6 rest :
  let s := String c1 (String c2 (String c3 (String c4 (String c5 (String c6 rest))))) in
  substring 0 6 s = String c1 (String c2 (String c3 (String c4 (String c5 (String c6 ""))))) /\
  substring 6 (String.length s - 6) s = rest.
Proof.
  split; [destruct rest; reflexivity|]. cbn. rewrite Nat.sub_0_r. apply substring_all.
Qed.

Lemma strip_bearer_scheme scheme rest :
  lowercase scheme = "bearer" -> drop_spaces rest <> rest ->
  strip_bearer (scheme ++ rest) = drop_spaces rest.
Proof.
  intros Hs Hgap.
  destruct (lowercase_bearer _ Hs) as (c1 & c2 & c3 & c4 & c5 & c6 & ->).
  unfold strip_bearer.
  change (String c1 (String c2 (String c3 (String c4 (String c5 (String c6 "")))))
          ++ rest)
    with (String c1 (String c2 (String c3 (String c4 (String c5 (String c6 rest)))))).
  destruct (substring_past_six c1 c2 c3 c4 c5 c6 rest) as [-> ->].
  rewrite Hs. change (String.eqb "bearer" "bearer") with true. cbn [andb].
  destruct (String.eqb_spec (drop_spaces rest) rest); [contradiction | reflexivity].
Qed.

Lemma strip_bearer_bare s :
  lowercase (substring 0 6 s) <> "bearer" -> strip_bearer s = s.
Proof.
  intros H. unfold strip_bearer.
  destruct (String.eqb_spec (lowercase (substring 0 6 s)) "bearer"); [contradiction|].
  reflexivity.
Qed.

(** X15.  The secret of a request is the [x-cron-secret] header when that
    is not empty, whatever [Authorization] holds; otherwise it is the
    [Authorization] header, without a leading [Bearer] (in any case of
    letters) and the run of white space after it, one character at least
    of the [\s] of the language, the no-break space and the other white
    space beyond ASCII included; or as it is when it has no such scheme.
    So a request is let in with the secret in [x-cron-secret], or as
    [Bearer <secret>] when the secret does not itself begin with white
    space, or bare in [Authorization]; a secret that begins with white
    space is never let in behind [Bearer], which takes the white space
    away; and a request whose [x-cron-secret] is not empty and wrong is
    turned away even when its [Authorization] holds the right secret. *)
Theorem cron_secret_header_forms secret :
  secret <> "" ->
  (forall r, x_cron_secret r = Some secret -> authorized secret r = true) /\
  (forall r scheme gaps,
     x_cron_secret r = None \/ x_cron_secret r = Some "" ->
     lowercase scheme = "bearer" ->
     gaps <> "" -> drop_spaces gaps = "" ->
     drop_spaces secret = secret ->
     authorization r = Some (scheme ++ gaps ++ secret) ->
     authorized secret r = true) /\
  (forall r scheme gaps,
     x_cron_secret r = None \/ x_cron_secret r = Some "" ->
     lowercase scheme = "bearer" ->
     gaps <> "" -> drop_spaces gaps = "" ->
     drop_spaces secret <> secret ->
     authorization r = Some (scheme ++ gaps ++ secret) ->
     authorized secret r = false) /\
  (forall r,
     x_cron_secret r = None \/ x_cron_secret r = Some "" ->
     lowercase (substring 0 6 secret) <> "bearer" ->
     authorization r = Some secret ->
     authorized secret r = true) /\
  (forall r x,
     x_cron_secret r = Some x -> x <> "" -> x <> secret -> authorized secret r = false).
Proof.
  intros Hne.
  assert (Hstrip : forall r scheme gaps,
            x_cron_secret r = None \/ x_cron_secret r = Some "" ->
            lowercase scheme = "bearer" -> gaps <> "" -> drop_spaces gaps = "" ->
            authorization r = Some (scheme ++ gaps ++ secret) ->
            incoming r = drop_spaces secret).
  { intros r scheme gaps Hx Hs Hg Hgaps Ha. unfold incoming, or_else. rewrite Ha.
    assert (default "" (x_cron_secret r) = "") as -> by (destruct Hx as [-> | ->]; reflexivity).
    cbn -[strip_bearer].
    rewrite (strip_bearer_scheme _ _ Hs); [apply drop_spaces_run; exact Hgaps|].
    rewrite (drop_spaces_run _ _ Hgaps). intros Heq.
    assert (Hlen : String.length (drop_spaces secret) = String.length (gaps ++ secret))
      by (rewrite Heq; reflexivity).
    rewrite string_length_app in Hlen.
    assert (Hshort : (String.length (drop_spaces secret) <= String.length secret)%nat).
    { unfold drop_spaces.
      destruct (drop_white_split wide_space2 wide_space3 (chars secret)) as (pre & Hl & _).
      rewrite <- (string_of_list_ascii_of_string secret) at 2. fold (chars secret).
      rewrite Hl at 2. rewrite !length_string_of_list, List.length_app. lia. }
    destruct gaps; [contradiction | simpl in Hlen; lia]. }
  split; [|split; [|split; [|split]]].
  - intros r Hx. apply authorized_spec. unfold incoming, or_else. rewrite Hx. simpl.
    destruct (String.eqb_spec secret ""); [contradiction | reflexivity].
  - intros r scheme gaps Hx Hs Hg Hgaps Hlead Ha. apply authorized_spec.
    rewrite (Hstrip r scheme gaps); assumption.
  - intros r scheme gaps Hx Hs Hg Hgaps Hlead Ha.
    destruct (authorized secret r) eqn:E; [|reflexivity].
    apply authorized_spec in E. rewrite (Hstrip r scheme gaps) in E; congruence.
  - intros r Hx Hbare Ha. apply authorized_spec.
    unfold incoming, or_else. rewrite Ha.
    assert (default "" (x_cron_secret r) = "") as -> by (destruct Hx as [-> | ->]; reflexivity).
    cbn -[strip_bearer]. apply strip_bearer_bare. assumption.
  - intros r x Hx Hxne Hwrong.
    destruct (authorized secret r) eqn:E; [|reflexivity].
    apply authorized_spec in E. unfold incoming, or_else in E. rewrite Hx in E. simpl in E.
    destruct (String.eqb_spec x ""); congruence.
Qed.

Lemma cron_secret_header_forms_witness :
  authorized "s3cret" by_header = true /\
  authorized "s3cret" by_bearer = true /\
  authorized "s3cret" by_bearer_nbsp = true /\
  authorized "s3cret" torn = false.
Proof.
  destruct (cron_secret_header_forms "s3cret" ltac:(discriminate))
    as (H1 & H2 & _ & _ & H5).
  split; [|split; [|split]].
  - apply H1. reflexivity.
  - apply (H2 by_bearer "bearer" "   "); try reflexivity; [left; reflexivity | discriminate].
  - apply (H2 by_bearer_nbsp "Bearer" nbsp); try reflexivity;
      [left; reflexivity | discriminate].
  - apply (H5 torn "stale"); [reflexivity | discriminate | discriminate].
Defined.

Lemma daily_update_at (d : db) tid date doc t x :
  daily (tenant_of (update_tenant d tid (fun u => with_daily u date doc)) t) !! x
  = if String.eqb t tid && String.eqb x date then Some doc else daily (tenant_of d t) !! x.
Proof.
  rewrite RolesFacts.tenant_of_update.
  destruct (String.eqb_spec t tid) as [->|Hne]; cbn [andb].
  - rewrite decide_True by reflexivity. simpl.
    destruct (String.eqb_spec x date) as [->|Hx].
    + apply lookup_insert_eq.
    + apply lookup_insert_ne. congruence.
  - rewrite decide_False by congruence. reflexivity.
Qed.

Lemma rest_update_at (d : db) tid date doc t :
  members (tenant_of (update_tenant d tid (fun u => with_daily u date doc)) t)
  = members (tenant_of d t) /\
  roles (tenant_of (update_tenant d tid (fun u => with_daily u date doc)) t)
  = roles (tenant_of d t) /\
  audit (tenant_of (update_tenant d tid (fun u => with_daily u date doc)) t)
  = audit (tenant_of d t) /\
  lock (tenant_of (update_tenant d tid (fun u => with_daily u date doc)) t)
  = lock (tenant_of d t).
Proof.
  rewrite RolesFacts.tenant_of_update.
  destruct (decide (tid = t)) as [->|]; repeat split; reflexivity.
Qed.

Lemma filter_partition {A} (f : A -> bool) (l : list A) :
  Permutation (List.filter f l ++ List.filter (fun x => negb (f x)) l) l.
Proof.
  induction l as [|a l IH]; simpl; [constructor|].
  destruct (f a); simpl.
  - constructor. exact IH.
  - symmetry. apply Permutation_cons_app. symmetry. exact IH.
Qed.

Lemma tenant_listed (d : db) t : In t (List.map fst (map_to_list d)) <-> is_Some (d !! t).
Proof.
  rewrite <- list_elem_of_In, list_elem_of_fmap. split.
  - intros ([k v] & -> & Hin). apply elem_of_map_to_list in Hin. simpl. eauto.
  - intros [v Hv]. exists (t, v). split; [reflexivity|]. apply elem_of_map_to_list. exact Hv.
Qed.

Section Handler.

Variable Number_of : value -> option Q.
Variable TABIT_API_KEY : option string.

Lemma daily_loop_files e date tenants : forall res d,
  let ok t :=
    match snd (Builder.buildDailyDoc Number_of TABIT_API_KEY (net e t) (clock e t) t date),
          write_fault e t with
    | Return _, None => true
    | _, _ => false
    end in
  let doc_of t :=
    match snd (Builder.buildDailyDoc Number_of TABIT_API_KEY (net e t) (clock e t) t date) with
    | Return (_, doc) => Some doc
    | Throw _ => None
    end in
  let '(res', d', _) := loop Number_of TABIT_API_KEY e date tenants res d in
  built res' = (built res ++ List.filter ok tenants)%list /\
  List.map fst (skipped res') = (List.map fst (skipped res)
                                 ++ List.filter (fun x => negb (ok x)) tenants)%list /\
  (forall t x, daily (tenant_of d' t) !! x
               = if existsb (String.eqb t) (List.filter ok tenants) && String.eqb x date
                 then doc_of t
                 else daily (tenant_of d t) !! x) /\
  (forall t, members (tenant_of d' t) = members (tenant_of d t) /\
             roles (tenant_of d' t) = roles (tenant_of d t) /\
             audit (tenant_of d' t) = audit (tenant_of d t) /\
             lock (tenant_of d' t) = lock (tenant_of d t)).
Proof.
  induction tenants as [|tid rest IH]; intros res d ok doc_of; simpl.
  - rewrite !app_nil_r. repeat split; reflexivity.
  - destruct (BackfillRunFacts.build_and_write_cases Number_of TABIT_API_KEY
                (net e tid) (clock e tid) (write_fault e tid) tid date d)
      as [(path & doc & Hb & Hw & ->)|(Hbad & reason & ev & ->)].
    + match goal with |- context [loop _ _ _ _ _ ?r ?d1] => specialize (IH r d1) end.
      destruct (loop _ _ _ _ _ _ _) as [[res2 d2] ev2].
      destruct IH as (Hbuilt & Hskip & Hdaily & Hrest). fold ok in Hbuilt, Hskip, Hdaily.
      fold doc_of in Hdaily.
      assert (Hok : ok tid = true) by (unfold ok; rewrite Hb, Hw; reflexivity).
      cbn [List.filter existsb]. rewrite Hok. cbn [built skipped existsb] in *.
      rewrite <- List.app_assoc in Hbuilt. cbn [app] in Hbuilt.
      split; [exact Hbuilt|]. split; [exact Hskip|]. split.
      * intros t x. rewrite Hdaily, daily_update_at.
        destruct (String.eqb_spec t tid) as [->|]; cbn [orb andb]; [|reflexivity].
        destruct (String.eqb_spec x date) as [->|]; [|rewrite andb_false_r; reflexivity].
        rewrite andb_true_r.
        destruct (existsb _ _); [reflexivity|]. unfold doc_of. rewrite Hb. reflexivity.
      * intros t. destruct (Hrest t) as (-> & -> & -> & ->). apply rest_update_at.
    + match goal with |- context [loop _ _ _ _ _ ?r d] => specialize (IH r d) end.
      destruct (loop _ _ _ _ _ _ _) as [[res2 d2] ev2].
      destruct IH as (Hbuilt & Hskip & Hdaily & Hrest). fold ok in Hbuilt, Hskip, Hdaily.
      fold doc_of in Hdaily.
      assert (Hok : ok tid = false).
      { unfold ok. destruct (snd _) as [[? ?]|]; [destruct (write_fault e tid)|];
          simpl in *; congruence. }
      cbn [List.filter existsb]. rewrite Hok. cbn [built skipped negb] in *.
      rewrite map_app, <- List.app_assoc in Hskip. cbn [List.map fst app] in Hskip.
      split; [exact Hbuilt|]. split; [exact Hskip|]. split; [exact Hdaily | exact Hrest].
Qed.

(** X16.  A request that carries the configured secret: a date that is given
    and not of the shape YYYY-MM-DD is answered 400 before the store is
    read; a failed load of the tenants is answered 503 with nothing built;
    otherwise the answer is 200 and every tenant of the store is filed
    exactly once, under [built] when its document was built and written and
    under [skipped] otherwise.  The run stores, for every built tenant, the
    document that [buildDailyDoc] returned, under the date of the run, and
    changes no other document. *)
Theorem daily_builder_run e r d secret :
  CRON_SECRET e = Some secret -> secret <> "" -> incoming r = secret ->
  let date := or_else (default "" (q_date r)) (Dates.getYesterdayUTC (now e)) in
  let went_through t :=
    match snd (Builder.buildDailyDoc Number_of TABIT_API_KEY (net e t) (clock e t) t date),
          write_fault e t with
    | Return _, None => true
    | _, _ => false
    end in
  (date_regex date = false ->
     handler Number_of TABIT_API_KEY e r d = (error_response 400 "invalid date", d, [])) /\
  (date_regex date = true -> tenants_fault e <> None ->
     handler Number_of TABIT_API_KEY e r d
     = (error_response 503 "db unavailable", d, [LoadTenants])) /\
  (date_regex date = true -> tenants_fault e = None ->
     exists res ev d',
       handler Number_of TABIT_API_KEY e r d
       = (Response 200 (results_json date res), d', (LoadTenants :: ev)%list) /\
       (forall t, In t (built res) <-> is_Some (d !! t) /\ went_through t = true) /\
       (forall t, In t (List.map fst (skipped res))
                  <-> is_Some (d !! t) /\ went_through t = false) /\
       Permutation (built res ++ List.map fst (skipped res)) (List.map fst (map_to_list d)) /\
       (forall t, In t (built res) ->
          exists path doc,
            snd (Builder.buildDailyDoc Number_of TABIT_API_KEY (net e t) (clock e t) t date)
            = Return (path, doc) /\
            daily (tenant_of d' t) !! date = Some doc) /\
       (forall t x, x <> date \/ ~ In t (built res) ->
          daily (tenant_of d' t) !! x = daily (tenant_of d t) !! x)).
Proof.
  intros Hs Hne Hin date went_through.
  assert (Hauth : authorized secret r = true) by (apply authorized_spec; assumption).
  unfold handler. rewrite Hs. cbn [default from_option id].
  destruct (String.eqb_spec secret ""); [contradiction|].
  rewrite Hauth. cbn [negb]. fold date.
  split; [|split].
  - intros ->. reflexivity.
  - intros -> Hf. cbn [negb]. destruct (tenants_fault e); [reflexivity | contradiction].
  - intros -> ->. cbn [negb].
    pose proof (daily_loop_files e date (List.map fst (map_to_list d))
                  {| built := []; skipped := [] |} d) as Hloop.
    cbv zeta in Hloop. fold went_through in Hloop.
    destruct (loop _ _ _ _ _ _ _) as [[res d'] ev].
    destruct Hloop as (Hbuilt & Hskip & Hdaily & _). cbn [built skipped List.map app] in *.
    exists res, ev, d'. split; [reflexivity|].
    split; [|split; [|split; [|split]]].
    + intros t. rewrite Hbuilt, filter_In, tenant_listed. reflexivity.
    + intros t. rewrite Hskip, filter_In, tenant_listed, negb_true_iff. reflexivity.
    + rewrite Hbuilt, Hskip. apply filter_partition.
    + intros t Ht. rewrite Hdaily, <- Hbuilt.
      rewrite (proj2 (BackfillRunFacts.existsb_eqb_In t (built res)) Ht), String.eqb_refl.
      rewrite Hbuilt in Ht. apply filter_In in Ht as [_ Hok]. unfold went_through in Hok.
      cbn [andb].
      destruct (snd (Builder.buildDailyDoc Number_of TABIT_API_KEY
                       (net e t) (clock e t) t date)) as [[path doc]|]; [|discriminate].
      exists path, doc. split; reflexivity.
    + intros t x Hor. rewrite Hdaily, <- Hbuilt.
      destruct Hor as [Hx|Ht].
      * destruct (String.eqb_spec x date); [contradiction|]. rewrite andb_false_r. reflexivity.
      * destruct (existsb (String.eqb t) (built res)) eqn:E; [|reflexivity].
        apply BackfillRunFacts.existsb_eqb_In in E. contradiction.
Qed.

End Handler.

Lemma daily_builder_run_witness :
  handler Builder.numbers_only None with_secret odd_date Roles.one_owner_db
  = (error_response 400 "invalid date", Roles.one_owner_db, []) /\
  exists res ev d',
    handler Builder.numbers_only None with_secret by_header Roles.one_owner_db
    = (Response 200 (results_json "2024-11-02" res), d', (LoadTenants :: ev)%list) /\
    In "t1" (built res).
Proof.
  split.
  - apply (daily_builder_run Builder.numbers_only None with_secret odd_date Roles.one_owner_db
             "s3cret"); try reflexivity. discriminate.
  - destruct (daily_builder_run Builder.numbers_only None with_secret by_header
                Roles.one_owner_db "s3cret" eq_refl ltac:(discriminate) eq_refl)
      as (_ & _ & H).
    destruct (H eq_refl eq_refl) as (res & ev & d' & Hrun & Hbuilt & _).
    exists res, ev, d'. split; [exact Hrun|].
    apply Hbuilt. split; [eexists; reflexivity | reflexivity].
Defined.

End DailyBuilderRunFacts.

(** ** The fetchers and the document: alerts, calls, tenants, paths *)

Module SourcesFacts.

Import Sources Builder Effects EffectCounts.

Section Build.

Variable Number_of : value -> option Q.
Variable TABIT_API_KEY : option string.

Lemma filter_alerts_nil date : filter_alerts date [] = Return [].
Proof. reflexivity. Qed.

Lemma fetchOrefAlerts_zero net date a :
  snd (fetchOrefAlerts net date) = Return a ->
  a = {| alert_count := 0; alert_minutes := 0; is_alert_day := false |}.
Proof.
  unfold fetchOrefAlerts. cbn [snd].
  destruct (fetchWithTimeout (net Oref) 4000) as [res|]; [|discriminate].
  destruct (negb (ok res)); [discriminate|].
  unfold json at 1. cbn [negb].
  destruct (http_body res) as [probe|]; [|discriminate].
  destruct (isArray probe).
  - unfold json. discriminate.
  - simpl. intros [= <-]. reflexivity.
Qed.

(** X17.  [fetchOrefAlerts] never reports an alert: whatever the provider
    answers, a result that comes back has the count 0, the minutes 0 and
    [is_alert_day] false; and when the provider answers in time, with a
    success status and a JSON array (the shape of the alert history), the
    second [res.json()] of line 134 finds the body consumed and the call
    rejects.  So the [alerts] block of a document is [null] or all zero. *)
Theorem fetchOrefAlerts_never_counts net date :
  (forall a, snd (fetchOrefAlerts net date) = Return a ->
     a = {| alert_count := 0; alert_minutes := 0; is_alert_day := false |}) /\
  (forall ms st xs,
     net Oref = Responds ms st (Some (VArr xs)) -> ms < 4000 -> 200 <= st <= 299 ->
     snd (fetchOrefAlerts net date) = Throw (Err "TypeError" "Body is unusable")) /\
  (forall now tenantId path doc,
     snd (buildDailyDoc Number_of TABIT_API_KEY net now tenantId date) = Return (path, doc) ->
     alerts doc = None \/
     alerts doc = Some {| alert_count := 0; alert_minutes := 0; is_alert_day := false |}).
Proof.
  split; [apply fetchOrefAlerts_zero|]. split.
  - intros ms st xs Hnet Hms Hst. unfold fetchOrefAlerts, fetchWithTimeout. rewrite Hnet.
    destruct (Z.ltb_spec ms 4000); [|lia]. unfold ok. cbn [http_status snd].
    destruct (Z.leb_spec 200 st); [|lia]. destruct (Z.leb_spec st 299); [|lia].
    reflexivity.
  - intros now tenantId path doc. unfold buildDailyDoc.
    destruct (fetchBeecommDaily Number_of net date) as [c0 [beecomm|x]]; [|discriminate].
    destruct (fetchTabitHours Number_of TABIT_API_KEY net date) as [c1 tabit].
    destruct (fetchWeather Number_of net date) as [c2 weather].
    pose proof (fetchOrefAlerts_zero net date) as Hz.
    destruct (fetchOrefAlerts net date) as [c3 [a|x]]; cbn [snd] in *.
    + intros [= _ <-]. right. cbn [alerts value_or_null]. f_equal. apply Hz. reflexivity.
    + intros [= _ <-]. left. reflexivity.
Qed.

Ltac distinct_providers :=
  repeat (apply NoDup_cons; split;
          [intros Hin; repeat (apply elem_of_cons in Hin as [Hin|Hin]; [discriminate|]);
           inversion Hin|]);
  apply NoDup_nil; exact I.

Lemma contacted_bound net now tenantId date :
  (length (fst (buildDailyDoc Number_of TABIT_API_KEY net now tenantId date)) <= 4)%nat /\
  NoDup (fst (buildDailyDoc Number_of TABIT_API_KEY net now tenantId date)) /\
  (forall x, snd (fetchBeecommDaily Number_of net date) = Throw x ->
     fst (buildDailyDoc Number_of TABIT_API_KEY net now tenantId date) = [Beecomm]).
Proof.
  unfold buildDailyDoc, fetchBeecommDaily, fetchTabitHours, fetchWeather, fetchOrefAlerts.
  destruct (match fetchWithTimeout (net Beecomm) 8000 with Return _ => _ | Throw _ => _ end)
    as [beecomm|x]; cbn [fst snd].
  - destruct (tabit_unconfigured TABIT_API_KEY); cbn [fst snd app length].
    + split; [lia|]. split; [|discriminate].
      distinct_providers.
    + split; [lia|]. split; [|discriminate].
      distinct_providers.
  - split; [simpl; lia|]. split; [|reflexivity].
    distinct_providers.
Qed.

Lemma provider_calls_app a b :
  provider_calls (a ++ b) = (provider_calls a + provider_calls b)%nat.
Proof.
  induction a as [|x a IH]; [reflexivity|]. destruct x; simpl; rewrite IH; lia.
Qed.

Lemma document_writes_app a b :
  document_writes (a ++ b) = (document_writes a + document_writes b)%nat.
Proof.
  induction a as [|x a IH]; [reflexivity|]. destruct x; simpl; rewrite IH; lia.
Qed.

Lemma build_and_write_budget nw now fault tid date d :
  (provider_calls (snd (build_and_write Number_of TABIT_API_KEY nw now fault tid date d)) <= 4)%nat /\
  (document_writes (snd (build_and_write Number_of TABIT_API_KEY nw now fault tid date d)) <= 1)%nat.
Proof.
  unfold build_and_write.
  pose proof (contacted_bound nw now tid date) as (Hlen & _ & _).
  destruct (buildDailyDoc _ _ _ _ _ _) as [contacted [[path doc]|x]]; cbn [fst] in Hlen.
  - destruct fault; simpl; lia.
  - simpl; lia.
Qed.

Lemma backfill_loop_budget e tid dates : forall res d,
  (provider_calls (snd (Backfill.loop Number_of TABIT_API_KEY e tid dates res d))
   <= 4 * length dates)%nat /\
  (document_writes (snd (Backfill.loop Number_of TABIT_API_KEY e tid dates res d))
   <= length dates)%nat.
Proof.
  induction dates as [|date rest IH]; intros res d; simpl; [lia|].
  pose proof (build_and_write_budget (Backfill.net e date) (Backfill.clock e date)
                (Backfill.write_fault e date) tid date d) as Hb.
  destruct (build_and_write _ _ _ _ _ _ _ _) as [[skip d1] ev]. cbn [snd] in Hb.
  match goal with |- context [Backfill.loop _ _ _ _ _ ?r d1] => specialize (IH r d1) end.
  destruct (Backfill.loop _ _ _ _ _ _ _) as [[res2 d2] ev2]. cbn [snd] in *.
  rewrite provider_calls_app, document_writes_app. lia.
Qed.

Lemma daily_loop_budget e date tenants : forall res d,
  (provider_calls (snd (DailyBuilder.loop Number_of TABIT_API_KEY e date tenants res d))
   <= 4 * length tenants)%nat /\
  (document_writes (snd (DailyBuilder.loop Number_of TABIT_API_KEY e date tenants res d))
   <= length tenants)%nat.
Proof.
  induction tenants as [|tid rest IH]; intros res d; simpl; [lia|].
  pose proof (build_and_write_budget (DailyBuilder.net e tid) (DailyBuilder.clock e tid)
                (DailyBuilder.write_fault e tid) tid date d) as Hb.
  destruct (build_and_write _ _ _ _ _ _ _ _) as [[skip d1] ev]. cbn [snd] in Hb.
  match goal with |- context [DailyBuilder.loop _ _ _ _ _ ?r d1] => specialize (IH r d1) end.
  destruct (DailyBuilder.loop _ _ _ _ _ _ _) as [[res2 d2] ev2]. cbn [snd] in *.
  rewrite provider_calls_app, document_writes_app. lia.
Qed.

(** X18.  One build contacts each provider at most once, the required one
    first, and no other when the required one fails.  So a backfill,
    whatever the request, sends at most 360 requests to the providers and
    writes at most 90 documents; and a run of the scheduled builder sends
    at most four requests and writes at most one document per tenant of the
    store. *)
Theorem build_call_budget :
  (forall net now tenantId date,
     (length (fst (buildDailyDoc Number_of TABIT_API_KEY net now tenantId date)) <= 4)%nat /\
     NoDup (fst (buildDailyDoc Number_of TABIT_API_KEY net now tenantId date)) /\
     (forall x, snd (fetchBeecommDaily Number_of net date) = Throw x ->
        fst (buildDailyDoc Number_of TABIT_API_KEY net now tenantId date) = [Beecomm])) /\
  (forall e r d,
     (provider_calls (snd (Backfill.handler Number_of TABIT_API_KEY e r d)) <= 360)%nat /\
     (document_writes (snd (Backfill.handler Number_of TABIT_API_KEY e r d)) <= 90)%nat) /\
  (forall e r d,
     (provider_calls (snd (DailyBuilder.handler Number_of TABIT_API_KEY e r d))
      <= 4 * length (map_to_list d))%nat /\
     (document_writes (snd (DailyBuilder.handler Number_of TABIT_API_KEY e r d))
      <= length (map_to_list d))%nat).
Proof.
  split; [exact contacted_bound|]. split.
  - intros e r d. unfold Backfill.handler.
    destruct (negb _); [simpl; lia|].
    destruct (Backfill.caller r) as [uid|]; [|simpl; lia].
    destruct (Backfill.rate_gate r); [simpl; lia|].
    destruct (_ || _); [simpl; lia|].
    destruct (negb _); [simpl; lia|].
    destruct (negb _); [simpl; lia|].
    destruct (String.ltb _ _); [simpl; lia|].
    destruct (Z.ltb_spec Backfill.MAX_DAYS
                (Z.of_nat (length (Dates.dateRange (default "" (Backfill.q_from r))
                                                   (default "" (Backfill.q_to r))))))
      as [|Hlen]; [simpl; lia|].
    destruct (Helpers.requireTenantAccess _ _ _ _ _); [|simpl; lia].
    destruct (Lock.acquireLock _ _ _ _ _) as [[lockId|] stored]; [|simpl; lia].
    destruct (String.eqb lockId ""); [simpl; lia|].
    match goal with
    | |- context [Backfill.loop _ _ ?e ?tid ?dates ?res ?d1] =>
        pose proof (backfill_loop_budget e tid dates res d1) as Hb
    end.
    destruct (Backfill.loop _ _ _ _ _ _ _) as [[res2 d2] ev2]. cbn [snd] in *.
    rewrite !provider_calls_app, !document_writes_app.
    unfold Backfill.MAX_DAYS in Hlen. simpl provider_calls. simpl document_writes. lia.
  - intros e r d. unfold DailyBuilder.handler.
    destruct (String.eqb _ _); [simpl; lia|].
    destruct (negb _); [simpl; lia|].
    destruct (negb _); [simpl; lia|].
    destruct (DailyBuilder.tenants_fault e); [simpl; lia|].
    match goal with
    | |- context [DailyBuilder.loop _ _ ?e ?date ?tenants ?res ?d1] =>
        pose proof (daily_loop_budget e date tenants res d1) as Hb
    end.
    destruct (DailyBuilder.loop _ _ _ _ _ _ _) as [[res2 d2] ev2]. cbn [snd] in *.
    rewrite length_map in Hb. simpl. lia.
Qed.

Lemma drop_prefix (p a b : string) : p ++ a = p ++ b -> a = b.
Proof. induction p as [|c p IH]; simpl; [tauto|]. intros [= H]. apply IH, H. Qed.

Lemma first_slash (a a' b b' : string) :
  RTDB_FORBIDDEN a = false -> RTDB_FORBIDDEN a' = false ->
  a ++ String "/" b = a' ++ String "/" b' -> a = a' /\ b = b'.
Proof.
  unfold RTDB_FORBIDDEN, chars. revert a'.
  induction a as [|c a IH]; intros [|c' a']; simpl.
  - intros _ _ [= ->]. split; reflexivity.
  - intros _ Hf' [= <- _]. simpl in Hf'. discriminate.
  - intros Hf _ [= -> _]. simpl in Hf. discriminate.
  - intros Hf Hf' [= -> H].
    apply orb_false_iff in Hf as [_ Hf]. apply orb_false_iff in Hf' as [_ Hf'].
    destruct (IH a' Hf Hf' H) as [-> ->]. split; reflexivity.
Qed.

(** X19.  The path of a document is [tenants/<tenantId>/analytics/daily/main/<date>].
    For tenant ids without any of [. # $ [ ] /], as every handler checks
    before it builds, the path fixes the tenant and the date: two builds
    write to the same path only for the same tenant and the same date, so a
    build for one tenant never lands in the tree of another. *)
Theorem document_path_is_confined net now tenantId date path doc :
  snd (buildDailyDoc Number_of TABIT_API_KEY net now tenantId date) = Return (path, doc) ->
  path = "tenants/" ++ tenantId ++ "/analytics/daily/main/" ++ date /\
  meta_tenantId (meta doc) = tenantId /\
  forall net' now' tenantId' date' doc',
    RTDB_FORBIDDEN tenantId = false -> RTDB_FORBIDDEN tenantId' = false ->
    snd (buildDailyDoc Number_of TABIT_API_KEY net' now' tenantId' date') = Return (path, doc') ->
    tenantId' = tenantId /\ date' = date.
Proof.
  assert (Hpath : forall nw t tid dt p dc,
             snd (buildDailyDoc Number_of TABIT_API_KEY nw t tid dt) = Return (p, dc) ->
             p = "tenants/" ++ tid ++ "/analytics/daily/main/" ++ dt /\
             meta_tenantId (meta dc) = tid).
  { intros nw t tid dt p dc. unfold buildDailyDoc.
    destruct (fetchBeecommDaily Number_of nw dt) as [c0 [beecomm|x]]; [|discriminate].
    destruct (fetchTabitHours _ _ _ _) as [c1 tabit].
    destruct (fetchWeather _ _ _) as [c2 weather].
    destruct (fetchOrefAlerts _ _) as [c3 oref].
    cbn [snd]. intros [= <- <-]. split; reflexivity. }
  intros H. destruct (Hpath _ _ _ _ _ _ H) as [-> Hmeta].
  split; [reflexivity|]. split; [exact Hmeta|].
  intros net' now' tenantId' date' doc' Hf Hf' H'.
  destruct (Hpath _ _ _ _ _ _ H') as [Heq _].
  apply (drop_prefix "tenants/") in Heq.
  change ("/analytics/daily/main/" ++ date) with (String "/" ("analytics/daily/main/" ++ date)) in Heq.
  change ("/analytics/daily/main/" ++ date') with (String "/" ("analytics/daily/main/" ++ date')) in Heq.
  apply first_slash in Heq as [-> Heq]; try assumption.
  apply (drop_prefix "analytics/daily/main/") in Heq. split; congruence.
Qed.

End Build.

Lemma fetchOrefAlerts_never_counts_witness :
  snd (fetchOrefAlerts net_alert "2025-01-01") = Throw (Err "TypeError" "Body is unusable").
Proof.
  apply (proj1 (proj2 (fetchOrefAlerts_never_counts numbers_only None net_alert "2025-01-01"))
           50 200 [VObj [("alertDate", VStr "2025-01-01 10:00:00"); ("data", VStr "חדרה")]]).
  - reflexivity.
  - lia.
  - lia.
Defined.

Lemma document_path_is_confined_witness :
  exists path doc,
    snd (buildDailyDoc numbers_only None net_weather_late 1730635200123 "t1" "2025-01-01")
    = Return (path, doc) /\
    path = "tenants/t1/analytics/daily/main/2025-01-01".
Proof.
  destruct (snd (buildDailyDoc numbers_only None net_weather_late 1730635200123 "t1" "2025-01-01"))
    as [[path doc]|x] eqn:E; [|vm_compute in E; discriminate].
  exists path, doc. split; [reflexivity|].
  apply (document_path_is_confined numbers_only None net_weather_late 1730635200123
           "t1" "2025-01-01" path doc E).
Defined.

Lemma build_call_budget_witness :
  fst (buildDailyDoc numbers_only None net_beecomm_503 0 "t1" "2025-01-01") = [Beecomm].
Proof.
  apply (proj2 (proj2 (proj1 (build_call_budget numbers_only None)
                         net_beecomm_503 0 "t1" "2025-01-01"))
           (SourceReason "beecomm" "http_503")).
  vm_compute. reflexivity.
Defined.

End SourcesFacts.

(** ** Dates: the civil calendar, the ISO text, the range of a backfill *)

Module DatesFacts.

Import Dates DateSpan.

Lemma civil_from_days_spec z :
  let '(y, m, d) := civil_from_days z in
  1 <= m <= 12 /\ 1 <= d <= 31 /\ days_from_civil y m d = z.
Proof.
  unfold civil_from_days, days_from_civil.
  set (z' := z + 719468).
  set (era := z' / 146097).
  set (doe := z' - era * 146097).
  assert (Hdoe : 0 <= doe <= 146096) by (subst doe era; Z.div_mod_to_equations; lia).
  set (yoe := (doe - doe / 1460 + doe / 36524 - doe / 146096) / 365).
  set (doy := doe - (365 * yoe + yoe / 4 - yoe / 100)).
  assert (Hy : 0 <= yoe <= 399 /\ 0 <= doy <= 365)
    by (subst doy yoe; Z.div_mod_to_equations; lia).
  set (mp := (5 * doy + 2) / 153).
  assert (Hmp : 0 <= mp <= 11) by (subst mp; Z.div_mod_to_equations; lia).
  set (d := doy - (153 * mp + 2) / 5 + 1).
  assert (Hd : 1 <= d <= 31) by (subst d mp; Z.div_mod_to_equations; lia).
  assert (Hdoy : (153 * mp + 2) / 5 + d - 1 = doy) by (subst d; lia).
  destruct (Z.ltb_spec mp 10) as [Hlt|Hge].
  - destruct (Z.leb_spec (mp + 3) 2); [lia|].
    destruct (Z.ltb_spec 2 (mp + 3)); [|lia].
    replace (mp + 3 - 3) with mp by lia. rewrite Hdoy.
    assert (Hera : (yoe + era * 400) / 400 = era) by (Z.div_mod_to_equations; lia).
    rewrite Hera. replace (yoe + era * 400 - era * 400) with yoe by lia.
    repeat split; lia.
  - destruct (Z.leb_spec (mp - 9) 2); [|lia].
    destruct (Z.ltb_spec 2 (mp - 9)); [lia|].
    replace (mp - 9 + 9) with mp by lia. rewrite Hdoy.
    replace (yoe + era * 400 + 1 - 1) with (yoe + era * 400) by lia.
    assert (Hera : (yoe + era * 400) / 400 = era) by (Z.div_mod_to_equations; lia).
    rewrite Hera. replace (yoe + era * 400 - era * 400) with yoe by lia.
    repeat split; lia.
Qed.

Lemma civil_year_range z :
  -719468 <= z < 2932897 ->
  let '(y, _, _) := civil_from_days z in 0 <= y <= 9999.
Proof.
  intros Hz. unfold civil_from_days.
  set (z' := z + 719468).
  set (era := z' / 146097).
  set (doe := z' - era * 146097).
  assert (Hera : 0 <= era <= 24) by (subst era z'; Z.div_mod_to_equations; lia).
  assert (Hdoe : 0 <= doe <= 146096) by (subst doe era; Z.div_mod_to_equations; lia).
  assert (Hlast : era = 24 -> doe <= 146036) by (subst doe era z'; Z.div_mod_to_equations; lia).
  set (yoe := (doe - doe / 1460 + doe / 36524 - doe / 146096) / 365).
  set (doy := doe - (365 * yoe + yoe / 4 - yoe / 100)).
  assert (Hy : 0 <= yoe <= 399 /\ 0 <= doy <= 365)
    by (subst doy yoe; Z.div_mod_to_equations; lia).
  set (mp := (5 * doy + 2) / 153).
  assert (Hmp : 0 <= mp <= 11) by (subst mp; Z.div_mod_to_equations; lia).
  assert (Hjan : mp >= 10 -> doy >= 306) by (subst mp; Z.div_mod_to_equations; lia).
  assert (Hfeb : yoe = 399 -> doy >= 306 -> doe >= 146037)
    by (subst doy; Z.div_mod_to_equations; lia).
  fold mp. lazy beta iota.
  destruct (Z.ltb_spec mp 10) as [Hlt|Hge].
  - destruct (Z.leb_spec (mp + 3) 2); lia.
  - destruct (Z.leb_spec (mp - 9) 2); lia.
Qed.

Lemma is_digit_digit_char n : is_digit (digit_char n) = true.
Proof.
  unfold is_digit, digit_char.
  assert (H : 0 <= n mod 10 < 10) by (apply Z.mod_pos_bound; lia).
  rewrite nat_ascii_embedding by lia.
  apply andb_true_iff. split; apply Nat.leb_le; lia.
Qed.

Lemma digit_val_digit_char n : digit_val (digit_char n) = n mod 10.
Proof.
  unfold digit_val, digit_char.
  assert (H : 0 <= n mod 10 < 10) by (apply Z.mod_pos_bound; lia).
  rewrite nat_ascii_embedding by lia. lia.
Qed.

(** The first ten characters of the ISO text of an instant. *)
Lemma slice10_toISOString t y m d :
  civil_from_days (t / MS_PER_DAY) = (y, m, d) -> 0 <= y <= 9999 ->
  slice10 (toISOString t)
  = String (digit_char (y / 10 / 10 / 10)) (String (digit_char (y / 10 / 10))
      (String (digit_char (y / 10)) (String (digit_char y)
        (String "-" (String (digit_char (m / 10)) (String (digit_char m)
          (String "-" (String (digit_char (d / 10)) (String (digit_char d) ""))))))))).
Proof.
  intros Hc Hy. unfold toISOString. rewrite Hc. unfold iso_year.
  destruct (Z.leb_spec 0 y); [|lia]. destruct (Z.leb_spec y 9999); [|lia].
  reflexivity.
Qed.

(** The date of an instant between 1970 and the year 9999 has the shape
    YYYY-MM-DD, and read back at noon it is the noon of the same UTC day. *)
Lemma date_of_instant t :
  0 <= t < YEAR_10000 ->
  date_regex (slice10 (toISOString t)) = true /\
  noon_of (slice10 (toISOString t)) = Some (t / MS_PER_DAY * MS_PER_DAY + 12 * 3600000).
Proof.
  intros Ht.
  assert (Hz : -719468 <= t / MS_PER_DAY < 2932897).
  { unfold YEAR_10000, MS_PER_DAY in *. Z.div_mod_to_equations. lia. }
  pose proof (civil_from_days_spec (t / MS_PER_DAY)) as Hspec.
  pose proof (civil_year_range (t / MS_PER_DAY) Hz) as Hyear.
  destruct (civil_from_days (t / MS_PER_DAY)) as [[y m] d] eqn:Hc.
  destruct Hspec as (Hm & Hd & Hback).
  rewrite (slice10_toISOString t y m d Hc Hyear).
  assert (Hre : date_regex
    (String (digit_char (y / 10 / 10 / 10)) (String (digit_char (y / 10 / 10))
      (String (digit_char (y / 10)) (String (digit_char y)
        (String "-" (String (digit_char (m / 10)) (String (digit_char m)
          (String "-" (String (digit_char (d / 10)) (String (digit_char d) ""))))))))))
    = true).
  { unfold date_regex, chars. cbn [list_ascii_of_string].
    rewrite !is_digit_digit_char. reflexivity. }
  split; [exact Hre|].
  unfold noon_of. rewrite Hre. unfold chars. cbn [list_ascii_of_string].
  rewrite !digit_val_digit_char.
  assert (Hyy : 1000 * (y / 10 / 10 / 10 mod 10) + 100 * (y / 10 / 10 mod 10)
                + 10 * (y / 10 mod 10) + y mod 10 = y)
    by (Z.div_mod_to_equations; lia).
  assert (Hmm : 10 * (m / 10 mod 10) + m mod 10 = m) by (Z.div_mod_to_equations; lia).
  assert (Hdd : 10 * (d / 10 mod 10) + d mod 10 = d) by (Z.div_mod_to_equations; lia).
  rewrite Hyy, Hmm, Hdd.
  destruct (Z.leb_spec 1 m); [|lia]. destruct (Z.leb_spec m 12); [|lia].
  destruct (Z.leb_spec 1 d); [|lia]. destruct (Z.leb_spec d 31); [|lia].
  cbn [andb]. f_equal.
  assert (Hlin : days_from_civil y m 1 + (d - 1) = days_from_civil y m d)
    by (unfold days_from_civil; lia).
  rewrite <- Hback, <- Hlin. lia.
Qed.

Lemma noon_of_shape s a : noon_of s = Some a -> exists z, a = z * MS_PER_DAY + 12 * 3600000.
Proof.
  unfold noon_of.
  destruct (chars s) as [|y1 [|y2 [|y3 [|y4 [|s1 [|m1 [|m2 [|s2 [|d1 [|d2 [|]]]]]]]]]]];
    try discriminate.
  destruct (date_regex s); [|discriminate].
  destruct (_ && _); [|discriminate].
  intros [= <-]. eexists (_ + (_ - 1)). rewrite Z.mul_add_distr_r. reflexivity.
Qed.

Lemma noon_day z k : (z * MS_PER_DAY + 12 * 3600000 + k * MS_PER_DAY) / MS_PER_DAY = z + k.
Proof. unfold MS_PER_DAY. Z.div_mod_to_equations. lia. Qed.

Lemma dateRange_loop_days fuel : forall z k0 end_,
  0 <= z * MS_PER_DAY + 12 * 3600000 + k0 * MS_PER_DAY -> 0 <= k0 -> end_ < YEAR_10000 ->
  forall k s,
    dateRange_loop fuel (z * MS_PER_DAY + 12 * 3600000 + k0 * MS_PER_DAY) end_ !! k = Some s ->
    date_regex s = true /\
    noon_of s = Some (z * MS_PER_DAY + 12 * 3600000 + (k0 + Z.of_nat k) * MS_PER_DAY).
Proof.
  induction fuel as [|fuel IH]; intros z k0 end_ Hpos Hk0 Hend k s; simpl; [discriminate|].
  destruct (Z.leb_spec (z * MS_PER_DAY + 12 * 3600000 + k0 * MS_PER_DAY) end_) as [Hle|];
    [|discriminate].
  destruct k as [|k]; simpl.
  - intros [= <-].
    destruct (date_of_instant (z * MS_PER_DAY + 12 * 3600000 + k0 * MS_PER_DAY)) as [Hre Hnoon];
      [lia|].
    split; [exact Hre|]. rewrite Hnoon, noon_day. f_equal. lia.
  - replace (z * MS_PER_DAY + 12 * 3600000 + k0 * MS_PER_DAY + MS_PER_DAY)
      with (z * MS_PER_DAY + 12 * 3600000 + (k0 + 1) * MS_PER_DAY) by lia.
    intros Hs. apply IH in Hs; [|unfold MS_PER_DAY in *; lia|lia|assumption].
    destruct Hs as [Hre Hnoon]. split; [exact Hre|]. rewrite Hnoon. f_equal. lia.
Qed.

(** X20.  For two dates that [Date] accepts, between 1970 and the year
    9999, every element of [dateRange(from, to)] has the shape YYYY-MM-DD
    and the element of index [k] is the date of the day [k] days after
    [from]: read back, it is the noon of [from] plus [k] days.  So the dates
    are pairwise distinct and in calendar order, and when [from] is not
    after [to] the last one is the day of [to]. *)
Theorem dateRange_is_consecutive_days from to a b :
  noon_of from = Some a -> noon_of to = Some b -> 0 <= a -> b < YEAR_10000 ->
  Forall (fun s => date_regex s = true) (dateRange from to) /\
  (forall k s, dateRange from to !! k = Some s ->
     noon_of s = Some (a + Z.of_nat k * MS_PER_DAY)) /\
  NoDup (dateRange from to) /\
  (a <= b -> exists s, last (dateRange from to) = Some s /\ noon_of s = Some b).
Proof.
  intros Hfrom Hto Ha Hb.
  destruct (noon_of_shape _ _ Hfrom) as [z ->].
  destruct (noon_of_shape _ _ Hto) as [zb ->].
  assert (Hall : forall k s, dateRange from to !! k = Some s ->
            date_regex s = true /\
            noon_of s = Some (z * MS_PER_DAY + 12 * 3600000 + Z.of_nat k * MS_PER_DAY)).
  { intros k s Hs. unfold dateRange in Hs. rewrite Hfrom, Hto in Hs.
    replace (z * MS_PER_DAY + 12 * 3600000)
      with (z * MS_PER_DAY + 12 * 3600000 + 0 * MS_PER_DAY) in Hs at 2 by lia.
    apply dateRange_loop_days in Hs; [|lia|lia|assumption].
    destruct Hs as [Hre Hnoon]. split; [exact Hre|]. rewrite Hnoon. f_equal. }
  split; [|split; [|split]].
  - apply Forall_lookup. intros k s Hs. apply (Hall k s Hs).
  - intros k s Hs. apply (Hall k s Hs).
  - apply NoDup_alt. intros i j s Hi Hj.
    destruct (Hall i s Hi) as [_ Hni]. destruct (Hall j s Hj) as [_ Hnj].
    rewrite Hni in Hnj. injection Hnj as Heq. unfold MS_PER_DAY in Heq. lia.
  - intros Hle.
    assert (Hlen : length (dateRange from to) = S (Z.to_nat (zb - z))).
    { unfold dateRange. rewrite Hfrom, Hto.
      rewrite (proj2 (BackfillFacts.dateRange_loop_enough _ _ _ (Nat.le_refl _))).
      unfold turns.
      replace (zb * MS_PER_DAY + 12 * 3600000 - (z * MS_PER_DAY + 12 * 3600000))
        with ((zb - z) * MS_PER_DAY) by lia.
      rewrite Z.div_mul by (unfold MS_PER_DAY; lia).
      unfold MS_PER_DAY in Hle. lia. }
    destruct (dateRange from to !! Z.to_nat (zb - z)) as [s|] eqn:Hs.
    + exists s. split.
      * rewrite last_lookup, Hlen. exact Hs.
      * destruct (Hall _ _ Hs) as [_ ->]. f_equal. unfold MS_PER_DAY in *. lia.
    + apply lookup_ge_None in Hs. lia.
Qed.

Lemma dateRange_is_consecutive_days_witness :
  NoDup (dateRange "2024-02-27" "2024-03-02") /\
  exists s, last (dateRange "2024-02-27" "2024-03-02") = Some s /\
            noon_of s = Some 1709380800000.
Proof.
  destruct (dateRange_is_consecutive_days "2024-02-27" "2024-03-02"
              1709035200000 1709380800000 eq_refl eq_refl ltac:(lia) ltac:(reflexivity))
    as (_ & _ & Hnd & Hlast).
  split; [exact Hnd|]. apply Hlast. lia.
Defined.

(** X21.  At any instant from the second day of 1970 to the end of the year
    9999, [getYesterdayUTC()] has the shape YYYY-MM-DD and names the UTC
    day before the day of the clock.  So a run of the scheduled builder
    without a [date] in the query never fails the date check: with the
    right secret it is not answered 400. *)
Theorem getYesterdayUTC_is_a_date now :
  MS_PER_DAY <= now < YEAR_10000 ->
  date_regex (getYesterdayUTC now) = true /\
  noon_of (getYesterdayUTC now) = Some ((now / MS_PER_DAY - 1) * MS_PER_DAY + 12 * 3600000) /\
  forall Number_of TABIT_API_KEY e r d,
    DailyBuilder.now e = now ->
    DailyBuilder.q_date r = None \/ DailyBuilder.q_date r = Some "" ->
    status (fst (fst (DailyBuilder.handler Number_of TABIT_API_KEY e r d))) <> 400.
Proof.
  intros Hnow. unfold getYesterdayUTC.
  assert (Hin : 0 <= now - MS_PER_DAY < YEAR_10000)
    by (unfold MS_PER_DAY, YEAR_10000 in *; lia).
  destruct (date_of_instant (now - MS_PER_DAY) Hin) as [Hre Hnoon].
  split; [exact Hre|]. split.
  - rewrite Hnoon. f_equal.
    replace (now - MS_PER_DAY) with (now + (-1) * MS_PER_DAY) by lia.
    rewrite Z.div_add by (unfold MS_PER_DAY; lia). lia.
  - intros Number_of TABIT_API_KEY e r d He Hq. unfold DailyBuilder.handler.
    destruct (String.eqb _ _); [discriminate|].
    destruct (negb _); [discriminate|].
    assert (DailyBuilder.or_else (default "" (DailyBuilder.q_date r))
              (getYesterdayUTC (DailyBuilder.now e)) = slice10 (toISOString (now - MS_PER_DAY)))
      as ->.
    { destruct Hq as [-> | ->]; rewrite He; reflexivity. }
    rewrite Hre. cbn [negb].
    destruct (DailyBuilder.tenants_fault e); [discriminate|].
    destruct (DailyBuilder.loop _ _ _ _ _ _ _) as [[res d1] ev]. discriminate.
Qed.

Lemma getYesterdayUTC_is_a_date_witness :
  noon_of (getYesterdayUTC 1709251200000) = Some 1709208000000.
Proof.
  destruct (getYesterdayUTC_is_a_date 1709251200000) as (_ & H & _).
  - unfold MS_PER_DAY, YEAR_10000. lia.
  - exact H.
Defined.

End DatesFacts.

(** ** The rate limiter: the window of the fallback, production fails closed *)

Module RateLimitFacts.

Import RateLimit.

Lemma upstash_off c u key sec :
  unset (UPSTASH_REDIS_REST_URL c) = true \/ unset (UPSTASH_REDIS_REST_TOKEN c) = true ->
  upstashIncr c u key sec = ([], Some (Return VNull)).
Proof.
  intros H. unfold upstashIncr.
  destruct H as [-> | ->]; [|rewrite orb_true_r]; reflexivity.
Qed.

Section Limiter.

Variable Number_of : value -> option Q.

Lemma fallback_call c u now key limit windowMs b :
  IS_PROD c = false ->
  unset (UPSTASH_REDIS_REST_URL c) = true \/ unset (UPSTASH_REDIS_REST_TOKEN c) = true ->
  isRateLimited Number_of c u now key limit windowMs b
  = ([], Some (Return (limit <? fst (inMemoryIncr now key windowMs b))),
     snd (inMemoryIncr now key windowMs b)).
Proof.
  intros Hp Hoff. unfold isRateLimited. rewrite (upstash_off _ _ _ _ Hoff), Hp.
  cbn [is_null]. destruct (inMemoryIncr now key windowMs b). reflexivity.
Qed.

(** Within a window, the calls count on. *)
Lemma window_counts c u key limit windowMs reset : forall times n b,
  IS_PROD c = false ->
  unset (UPSTASH_REDIS_REST_URL c) = true \/ unset (UPSTASH_REDIS_REST_TOKEN c) = true ->
  b !! key = Some {| count := n; resetAt := reset |} ->
  Forall (fun t => t <= reset) times ->
  fst (calls_at Number_of c u key limit windowMs times b)
  = List.map (fun k => Some (Return (limit <? n + Z.of_nat k))) (seq 1 (length times)) /\
  snd (calls_at Number_of c u key limit windowMs times b) !! key
  = Some {| count := n + Z.of_nat (length times); resetAt := reset |}.
Proof.
  induction times as [|t times IH]; intros n b Hp Hoff Hb Hall.
  - simpl. rewrite Z.add_0_r. split; [reflexivity | exact Hb].
  - inversion Hall as [|? ? Ht Hrest]; subst.
    cbn [calls_at]. rewrite (fallback_call c u t key limit windowMs b Hp Hoff).
    unfold inMemoryIncr. rewrite Hb. cbn [resetAt count].
    destruct (Z.ltb_spec reset t); [lia|]. cbn [fst snd].
    specialize (IH (n + 1) (<[key := {| count := n + 1; resetAt := reset |}]> b) Hp Hoff
                  (lookup_insert_eq _ _ _) Hrest).
    destruct (calls_at _ _ _ _ _ _ _ _) as [verdicts b2]. cbn [fst snd] in *.
    destruct IH as [-> ->]. split.
    + cbn [length seq List.map]. apply (f_equal2 cons); [reflexivity|].
      rewrite <- (seq_shift (length times) 1), List.map_map.
      apply List.map_ext. intros k. do 3 f_equal. lia.
    + do 2 f_equal. cbn [length]. lia.
Qed.

(** X22.  The fallback limiter of a development machine (no Upstash, not
    production) counts in fixed windows: when the first call for a key is
    made at an instant [t1], or after the window of that key ran out, and
    the following calls come no later than [t1 + windowMs], the call number
    [k] is limited exactly when [k] exceeds the limit; the window is not
    pushed forward by the calls; and the first call after [t1 + windowMs]
    starts a new count, so it is let through for any limit of at least one.
    No request is sent to Upstash. *)
Theorem fallback_window_counts c u key limit windowMs t1 rest b :
  IS_PROD c = false ->
  unset (UPSTASH_REDIS_REST_URL c) = true \/ unset (UPSTASH_REDIS_REST_TOKEN c) = true ->
  (b !! key = None \/ exists rec, b !! key = Some rec /\ resetAt rec < t1) ->
  Forall (fun t => t <= t1 + windowMs) rest ->
  fst (calls_at Number_of c u key limit windowMs (t1 :: rest) b)
  = List.map (fun k => Some (Return (limit <? Z.of_nat k))) (seq 1 (S (length rest))) /\
  (forall later,
     t1 + windowMs < later ->
     isRateLimited Number_of c u later key limit windowMs
       (snd (calls_at Number_of c u key limit windowMs (t1 :: rest) b))
     = ([], Some (Return (limit <? 1)),
        <[key := {| count := 1; resetAt := later + windowMs |}]>
          (snd (calls_at Number_of c u key limit windowMs (t1 :: rest) b)))).
Proof.
  intros Hp Hoff Hfresh Hall.
  cbn [calls_at]. rewrite (fallback_call c u t1 key limit windowMs b Hp Hoff).
  assert (Hfirst : inMemoryIncr t1 key windowMs b
                   = (1, <[key := {| count := 1; resetAt := t1 + windowMs |}]> b)).
  { unfold inMemoryIncr. destruct Hfresh as [-> | (rec & -> & Hlt)]; [reflexivity|].
    destruct (Z.ltb_spec (resetAt rec) t1); [reflexivity | lia]. }
  rewrite Hfirst. cbn [fst snd].
  destruct (window_counts c u key limit windowMs (t1 + windowMs) rest 1
              (<[key := {| count := 1; resetAt := t1 + windowMs |}]> b) Hp Hoff
              (lookup_insert_eq _ _ _) Hall) as [Hv Hb].
  destruct (calls_at _ _ _ _ _ _ _ _) as [verdicts b2]. cbn [fst snd] in *.
  split.
  - rewrite Hv. cbn [seq List.map]. apply (f_equal2 cons); [reflexivity|].
    rewrite <- (seq_shift (length rest) 1), List.map_map.
    apply List.map_ext. intros k. do 3 f_equal. lia.
  - intros later Hlater. rewrite (fallback_call c u later key limit windowMs b2 Hp Hoff).
    unfold inMemoryIncr. rewrite Hb. cbn [resetAt].
    destruct (Z.ltb_spec (t1 + windowMs) later); [reflexivity | lia].
Qed.

(** X23.  In production the limiter fails closed and never falls back to
    the in-memory buckets, which it leaves untouched: without the Upstash
    settings no request is sent and the call throws status 503, "rate
    limiter unavailable"; so it does when Upstash answers without a success
    status or without a count.  A verdict comes back only from a count that
    Upstash returned, and is whether that count exceeds the limit.  The
    expiry sent with the increment is the window in whole seconds, rounded
    up.  Whatever the limiter throws, [e.status || 503] is 503. *)
Theorem production_limiter_fails_closed c u now key limit windowMs b :
  IS_PROD c = true ->
  snd (isRateLimited Number_of c u now key limit windowMs b) = b /\
  (unset (UPSTASH_REDIS_REST_URL c) = true \/ unset (UPSTASH_REDIS_REST_TOKEN c) = true ->
     fst (isRateLimited Number_of c u now key limit windowMs b)
     = ([], Some (Throw (StatusMsg 503 "rate limiter unavailable")))) /\
  (forall st body,
     u = Replies st body -> st < 200 \/ 299 < st ->
     snd (fst (isRateLimited Number_of c u now key limit windowMs b))
     = Some (Throw (StatusMsg 503 "rate limiter unavailable"))) /\
  (forall verdict,
     snd (fst (isRateLimited Number_of c u now key limit windowMs b)) = Some (Return verdict) ->
     exists st data,
       u = Replies st (Some data) /\ 200 <= st <= 299 /\
       nullish (opt_prop (opt_prop data "0") "result") = false /\
       verdict = exceeds Number_of (opt_prop (opt_prop data "0") "result") limit) /\
  Forall (fun p => incr_key p = "rl:" ++ key /\
                   windowMs <= expire_sec p * 1000 < windowMs + 1000)
         (fst (fst (isRateLimited Number_of c u now key limit windowMs b))) /\
  (forall e,
     snd (fst (isRateLimited Number_of c u now key limit windowMs b)) = Some (Throw e) ->
     status_or e 503 = 503).
Proof.
  intros Hp.
  assert (Hceil : windowMs <= (windowMs + 999) / 1000 * 1000 < windowMs + 1000)
    by (Z.div_mod_to_equations; lia).
  split; [|split; [|split; [|split; [|split]]]].
  - unfold isRateLimited, upstashIncr. rewrite Hp.
    repeat case_match; simplify_eq/=; reflexivity.
  - intros Hoff. unfold isRateLimited. rewrite (upstash_off _ _ _ _ Hoff), Hp. reflexivity.
  - intros st body -> Hst. unfold isRateLimited, upstashIncr. rewrite Hp.
    assert ((200 <=? st) && (st <=? 299) = false) as ->.
    { apply andb_false_iff. destruct Hst; [left; apply Z.leb_gt | right; apply Z.leb_gt]; lia. }
    destruct (_ || _); reflexivity.
  - intros verdict. unfold isRateLimited, upstashIncr. rewrite Hp.
    destruct (_ || _); [discriminate|].
    destruct u as [st body| |]; try discriminate.
    destruct ((200 <=? st) && (st <=? 299)) eqn:Hst; cbn [negb]; [|discriminate].
    apply andb_true_iff in Hst as [H1%Z.leb_le H2%Z.leb_le].
    destruct body as [data|]; [|discriminate].
    unfold coalesce.
    destruct (nullish (opt_prop (opt_prop data "0") "result")) eqn:Hn; [discriminate|].
    destruct (is_null _) eqn:Hnull.
    { destruct (opt_prop (opt_prop data "0") "result"); simpl in *; discriminate. }
    intros [= <-]. exists st, data. repeat split; assumption.
  - unfold isRateLimited, upstashIncr.
    destruct (_ || _); [repeat case_match; simplify_eq/=; constructor|].
    repeat case_match; simplify_eq/=; repeat constructor; simpl; lia.
  - intros e. unfold isRateLimited, upstashIncr. rewrite Hp.
    repeat case_match; simplify_eq/=; intros; simplify_eq; reflexivity.
Qed.

End Limiter.

Lemma fallback_window_counts_witness :
  fst (calls_at Builder.numbers_only dev Mute "roles:ip:10.0.0.7" 3 1000 [100; 400; 900; 1100] ∅)
  = [Some (Return false); Some (Return false); Some (Return false); Some (Return true)].
Proof.
  apply (fallback_window_counts Builder.numbers_only dev Mute "roles:ip:10.0.0.7" 3 1000
           100 [400; 900; 1100] ∅).
  - reflexivity.
  - left. reflexivity.
  - left. reflexivity.
  - repeat constructor; lia.
Defined.

Lemma production_limiter_fails_closed_witness :
  fst (isRateLimited Builder.numbers_only bare_production Mute 100 "roles:ip:10.0.0.7" 5 60000 ∅)
  = ([], Some (Throw (StatusMsg 503 "rate limiter unavailable"))).
Proof.
  apply (production_limiter_fails_closed Builder.numbers_only bare_production Mute 100
           "roles:ip:10.0.0.7" 5 60000 ∅).
  - reflexivity.
  - left. reflexivity.
Defined.

End RateLimitFacts.

(** ** The allowed origin is matched strictly; the address of the caller *)

Module HttpFacts.

Import Http.

Lemma getAllowedOrigin_cases env req o :
  getAllowedOrigin env req = Return o ->
  o = "" \/
  (env = Some o /\ o <> "null" /\
   exists hs, req = Some hs /\ read_header hs "origin" = Return (Some o)).
Proof.
  unfold getAllowedOrigin.
  destruct (String.eqb_spec (default "" env) ""); [intros [= <-]; left; reflexivity|].
  destruct req as [hs|]; [|intros [= <-]; left; reflexivity].
  destruct (read_header hs "origin") as [[incoming|]|] eqn:Hread;
    [|intros [= <-]; left; reflexivity|discriminate].
  cbn [default from_option id].
  destruct (String.eqb_spec incoming ""); [intros [= <-]; left; reflexivity|].
  destruct (String.eqb_spec incoming "null"); [intros [= <-]; left; reflexivity|].
  cbn [orb].
  destruct (String.eqb_spec incoming (default "" env)) as [Heq|];
    [|intros [= <-]; left; reflexivity].
  intros [= <-]. right.
  destruct env as [configured|]; simpl in *; [|congruence]. subst configured.
  split; [reflexivity|]. split; [assumption|]. exists hs. split; [reflexivity | exact Hread].
Qed.

Lemma getAllowedOrigin_match o hs :
  o <> "" -> o <> "null" -> read_header hs "origin" = Return (Some o) ->
  getAllowedOrigin (Some o) (Some hs) = Return o.
Proof.
  intros Hne Hnull Hread. unfold getAllowedOrigin. cbn [default from_option id].
  destruct (String.eqb_spec o ""); [contradiction|]. rewrite Hread.
  cbn [default from_option id].
  destruct (String.eqb_spec o ""); [contradiction|].
  destruct (String.eqb_spec o "null"); [contradiction|].
  cbn [orb]. rewrite String.eqb_refl. reflexivity.
Qed.

(** X24.  The CORS origin is matched strictly.  [getAllowedOrigin] gives
    the empty string or the configured origin, and the configured origin
    only when it is set, is not "null" and is equal, character for
    character, to the [Origin] header of the request; in that case it does
    give it.  [errResponse] carries [Access-Control-Allow-Origin] exactly
    then, with that origin.  [secHeaders] likewise, over the three
    defaults; the caller's [extra] replaces a default of the same name, and
    when no origin is allowed an [Access-Control-Allow-Origin] of [extra]
    is passed on as it is. *)
Theorem allowed_origin_is_strict env req :
  (forall o, getAllowedOrigin env req = Return o ->
     o = "" \/
     (env = Some o /\ o <> "null" /\
      exists hs, req = Some hs /\ read_header hs "origin" = Return (Some o))) /\
  (forall o hs,
     env = Some o -> req = Some hs -> o <> "" -> o <> "null" ->
     read_header hs "origin" = Return (Some o) ->
     getAllowedOrigin env req = Return o) /\
  (forall st msg r,
     errResponse env st msg req = Return r ->
     reply_status r = st /\ reply_body r = VObj [("error", VStr msg)] /\
     exists o, getAllowedOrigin env req = Return o /\
               reply_headers r !! "Access-Control-Allow-Origin"
               = if String.eqb o "" then None else Some o) /\
  (forall extra h,
     secHeaders env req extra = Return h ->
     exists o, getAllowedOrigin env req = Return o /\
       h !! "Access-Control-Allow-Origin"
       = (if String.eqb o "" then extra !! "Access-Control-Allow-Origin" else Some o) /\
       forall k, k <> "Access-Control-Allow-Origin" ->
         h !! k = match extra !! k with
                  | Some v => Some v
                  | None =>
                      ({[ "Content-Type" := "application/json; charset=utf-8";
                          "Cache-Control" := "no-store";
                          "X-Content-Type-Options" := "nosniff" ]} : gmap string string) !! k
                  end).
Proof.
  split; [apply getAllowedOrigin_cases|]. split; [|split].
  - intros o hs -> -> Hne Hnull Hread. apply getAllowedOrigin_match; assumption.
  - intros st msg r. unfold errResponse.
    destruct (getAllowedOrigin env req) as [o|]; [|discriminate].
    intros [= <-]. cbn [reply_status reply_body reply_headers].
    split; [reflexivity|]. split; [reflexivity|]. exists o. split; [reflexivity|].
    destruct (String.eqb o ""); [reflexivity|]. apply lookup_insert_eq.
  - intros extra h. unfold secHeaders.
    destruct (getAllowedOrigin env req) as [o|]; [|discriminate].
    intros [= <-]. exists o. split; [reflexivity|].
    assert (Hunion : forall k,
              (extra ∪ ({[ "Content-Type" := "application/json; charset=utf-8";
                           "Cache-Control" := "no-store";
                           "X-Content-Type-Options" := "nosniff" ]} : gmap string string)) !! k
              = match extra !! k with
                | Some v => Some v
                | None =>
                    ({[ "Content-Type" := "application/json; charset=utf-8";
                        "Cache-Control" := "no-store";
                        "X-Content-Type-Options" := "nosniff" ]} : gmap string string) !! k
                end).
    { intros k. rewrite lookup_union. destruct (extra !! k), (_ !! k); reflexivity. }
    destruct (String.eqb o "").
    + split; [|intros k _; apply Hunion].
      rewrite Hunion. destruct (extra !! _); reflexivity.
    + split; [apply lookup_insert_eq|].
      intros k Hk. rewrite lookup_insert_ne by congruence. apply Hunion.
Qed.

Lemma allowed_origin_is_strict_witness :
  getAllowedOrigin (Some "https://app.example.com") (Some from_app)
  = Return "https://app.example.com".
Proof.
  apply (proj1 (proj2 (allowed_origin_is_strict (Some "https://app.example.com")
                         (Some from_app)))
           "https://app.example.com" from_app); try reflexivity; discriminate.
Defined.

Lemma before_comma_clean s : ~ In ","%char (chars (before_comma s)).
Proof.
  induction s as [|c s IH]; simpl; [tauto|].
  destruct (Ascii.eqb_spec c ","); simpl; [tauto|]. intros [H|H]; [congruence | contradiction].
Qed.

Local Abbreviation from_start :=
  (DailyBuilder.drop_white DailyBuilder.wide_space2 DailyBuilder.wide_space3).
Local Abbreviation from_end :=
  (DailyBuilder.drop_white (fun f d => DailyBuilder.wide_space2 d f)
                           (fun f d c => DailyBuilder.wide_space3 c d f)).

Lemma drop_white_In two three l c : In c (DailyBuilder.drop_white two three l) -> In c l.
Proof.
  destruct (DailyBuilderRunFacts.drop_white_split two three l) as (pre & Hl & _).
  intros H. rewrite Hl. apply in_or_app. right. exact H.
Qed.

Lemma trim_chars s : chars (trim s) = rev (from_end (rev (from_start (chars s)))).
Proof.
  unfold trim, chars. rewrite list_ascii_of_string_of_list_ascii, <- !rev_alt. reflexivity.
Qed.

Lemma trim_In s c : In c (chars (trim s)) -> In c (chars s).
Proof.
  rewrite trim_chars. intros H%in_rev%drop_white_In%in_rev%drop_white_In. exact H.
Qed.

(** A trimmed string neither begins nor ends with white space. *)
Lemma trim_ends s :
  match chars (trim s) with c :: _ => DailyBuilder.is_space c = false | [] => True end /\
  match rev (chars (trim s)) with c :: _ => DailyBuilder.is_space c = false | [] => True end.
Proof.
  rewrite trim_chars.
  set (l1 := from_start (chars s)).
  destruct (DailyBuilderRunFacts.drop_white_split
              DailyBuilder.wide_space2 DailyBuilder.wide_space3 (chars s))
    as (pre1 & _ & Hhd1). fold l1 in Hhd1.
  destruct (DailyBuilderRunFacts.drop_white_split
              (fun f d => DailyBuilder.wide_space2 d f)
              (fun f d c => DailyBuilder.wide_space3 c d f) (rev l1))
    as (pre2 & Hl2 & Hhd2).
  set (l2 := from_end (rev l1)) in *.
  split; [|rewrite rev_involutive; exact Hhd2].
  assert (Hl1 : l1 = (rev l2 ++ rev pre2)%list).
  { rewrite <- (rev_involutive l1), Hl2, rev_app_distr. reflexivity. }
  destruct (rev l2) as [|c rest] eqn:E; [exact I|].
  rewrite Hl1 in Hhd1. exact Hhd1.
Qed.

Lemma chars_nil s : chars s = [] -> s = "".
Proof. destruct s; [reflexivity | discriminate]. Qed.

(** X25.  [getIP] gives the first element of [x-forwarded-for], trimmed,
    or "unknown" when that is empty: what it returns is never empty, holds
    no comma and neither begins nor ends with white space.  On the plain
    headers of Node, without a header named [get], it always returns, and
    returns "unknown" when [x-forwarded-for] is absent.  It throws a
    [TypeError] on the [Headers] of the edge runtime when
    [x-forwarded-for] is absent, and on the plain headers of Node when the
    client sent a non-empty header named [get]. *)
Theorem getIP_first_hop hs :
  (forall ip, getIP hs = Return ip ->
     ip <> "" /\ ~ In ","%char (chars ip) /\
     match chars ip with c :: _ => DailyBuilder.is_space c = false | [] => True end /\
     match rev (chars ip) with c :: _ => DailyBuilder.is_space c = false | [] => True end) /\
  (forall h,
     hs = NodeHeaders h -> h !! "get" = None \/ h !! "get" = Some "" ->
     exists ip, getIP hs = Return ip /\
                (h !! "x-forwarded-for" = None -> ip = "unknown")) /\
  (forall h,
     hs = EdgeHeaders h -> h !! "x-forwarded-for" = None ->
     exists msg, getIP hs = Throw (Err "TypeError" msg)) /\
  (forall h g,
     hs = NodeHeaders h -> h !! "get" = Some g -> g <> "" ->
     getIP hs = Throw not_callable).
Proof.
  split; [|split; [|split]].
  - intros ip Hip.
    assert (Hshape : exists v, ip = if String.eqb (trim (before_comma v)) "" then "unknown"
                                    else trim (before_comma v)).
    { unfold getIP in Hip. destruct hs as [h|h].
      - destruct (h !! "x-forwarded-for") as [v|]; [|discriminate].
        injection Hip as <-. exists v. reflexivity.
      - destruct (read_header (NodeHeaders h) "x-forwarded-for") as [found|]; [|discriminate].
        injection Hip as <-. exists (default "" found). reflexivity. }
    destruct Hshape as [v ->].
    destruct (String.eqb_spec (trim (before_comma v)) "") as [He|Hne].
    + split; [discriminate|]. split; [|split; reflexivity].
      vm_compute. intuition discriminate.
    + split; [assumption|]. split; [|apply trim_ends].
      intros Hin%trim_In. exact (before_comma_clean v Hin).
  - intros h -> Hget. unfold getIP, read_header.
    assert (Hread : match h !! "get" with
                    | Some g => if String.eqb g "" then Return (h !! "x-forwarded-for")
                                else Throw not_callable
                    | None => Return (h !! "x-forwarded-for")
                    end = Return (h !! "x-forwarded-for"))
      by (destruct Hget as [-> | ->]; reflexivity).
    rewrite Hread. eexists. split; [reflexivity|].
    intros ->. reflexivity.
  - intros h -> Hx. unfold getIP. rewrite Hx. eexists. reflexivity.
  - intros h g -> Hg Hne. unfold getIP, read_header. rewrite Hg.
    destruct (String.eqb_spec g ""); [contradiction | reflexivity].
Qed.

Lemma getIP_first_hop_witness :
  getIP from_app = Return "10.0.0.7" /\ getIP with_get_header = Throw not_callable.
Proof.
  split; [reflexivity|].
  apply (proj2 (proj2 (proj2 (getIP_first_hop with_get_header)))
           {[ "get" := "1"; "x-forwarded-for" := "10.0.0.7" ]} "1").
  - reflexivity.
  - reflexivity.
  - discriminate.
Defined.

End HttpFacts.

(** ** The proxy of the alerts feed: what it serves, and what the edge build
    never does *)

Module OrefFacts.

Import Http OrefFeed.

Section Handler.

Variable JSON_parses : string -> bool.

Lemma kept_clean text : OrefNode.clean JSON_parses (OrefNode.kept JSON_parses text) = true.
Proof.
  unfold OrefNode.kept, OrefNode.clean.
  destruct (Z.ltb_spec 10240 (Z.of_nat (js_length text))); [reflexivity|].
  destruct (String.eqb (trim text) "") eqn:Et; cbn [negb]; [reflexivity|].
  destruct (JSON_parses text) eqn:Ep; [|reflexivity].
  rewrite Et, Ep. destruct (Z.leb_spec (Z.of_nat (js_length text)) 10240); [|lia].
  apply orb_true_r.
Qed.

Lemma node_step e r cache :
  OrefNode.cache_clean JSON_parses cache ->
  OrefNode.cache_clean JSON_parses (cache_after (OrefNode.handler JSON_parses e r cache)) /\
  forall a,
    sent (OrefNode.handler JSON_parses e r cache) = Return a -> answer_status a = 200 ->
    exists body, answer_body a = Plain body /\ OrefNode.clean JSON_parses body = true.
Proof.
  intros Hc. unfold OrefNode.handler.
  destruct (negb _); cbn [cache_after sent]; [split; [exact Hc | intros a [= <-]; discriminate]|].
  destruct (getIP _) as [ip|]; cbn [cache_after sent]; [|split; [exact Hc | discriminate]].
  assert (Hrest :
    let o := match fresh e cache with
             | Some c =>
                 Outcome (Return (Answer 200 (<["X-Cache" := "HIT"]> OrefNode.base)
                                         (Plain (cached_body c)))) cache false
             | None =>
                 match fetch_text (upstream e) with
                 | Throw _ => Outcome (Return (Answer 200 OrefNode.base (Plain "{}"))) cache true
                 | Return text =>
                     Outcome (Return (Answer 200 (<["X-Cache" := "MISS"]> OrefNode.base)
                                (Plain (cached_body
                                          (Cached (OrefNode.kept JSON_parses text)
                                                  (now_store e + 15000))))))
                             (Some (Cached (OrefNode.kept JSON_parses text) (now_store e + 15000)))
                             true
                 end
             end in
    OrefNode.cache_clean JSON_parses (cache_after o) /\
    forall a, sent o = Return a -> answer_status a = 200 ->
      exists body, answer_body a = Plain body /\ OrefNode.clean JSON_parses body = true).
  { unfold fresh. destruct cache as [c|]; [destruct (_ <? _)|].
    - split; [exact Hc|]. intros a [= <-] _. exists (cached_body c). split; [reflexivity | exact Hc].
    - destruct (fetch_text (upstream e)) as [text|].
      + split; [apply kept_clean|]. intros a [= <-] _. eexists. split; [reflexivity|].
        apply kept_clean.
      + split; [exact Hc|]. intros a [= <-] _. exists "{}". split; reflexivity.
    - destruct (fetch_text (upstream e)) as [text|].
      + split; [apply kept_clean|]. intros a [= <-] _. eexists. split; [reflexivity|].
        apply kept_clean.
      + split; [exact I|]. intros a [= <-] _. exists "{}". split; reflexivity. }
  destruct (OrefNode.limited r) as [[|]|]; try exact Hrest.
  cbn [cache_after sent]. split; [exact Hc | intros a [= <-]; discriminate].
Qed.

(** X26.  The Node build of the proxy serves clean bodies only: starting
    with an empty cache, whatever the requests, the clocks and the feed,
    every answer of status 200 carries the text "{}" or a text of the feed
    of at most 10240 UTF-16 code units (its [length]) that is not blank and
    parses as JSON.
    While the cache is fresh the answer is the cached body, marked HIT, and
    the feed is not asked; a feed that fails or does not answer within 4 s
    gives "{}" with status 200 and leaves the cache as it was; a text that
    arrives is filtered, cached for 15 s and served, marked MISS.  A
    limiter that throws is ignored. *)
Theorem oref_node_serves_clean_bodies :
  (forall rs,
     Forall (fun o => forall a,
               sent o = Return a -> answer_status a = 200 ->
               exists body, answer_body a = Plain body /\
                            OrefNode.clean JSON_parses body = true)
            (OrefNode.serve JSON_parses rs None)) /\
  (forall e r cache ip,
     OrefNode.method r = "GET" -> getIP (NodeHeaders (OrefNode.headers r)) = Return ip ->
     OrefNode.limited r <> Return true ->
     (forall c, cache = Some c -> now_check e < cached_until c ->
        OrefNode.handler JSON_parses e r cache
        = Outcome (Return (Answer 200 (<["X-Cache" := "HIT"]> OrefNode.base)
                                  (Plain (cached_body c)))) cache false) /\
     (fresh e cache = None ->
        (forall x, fetch_text (upstream e) = Throw x ->
           OrefNode.handler JSON_parses e r cache
           = Outcome (Return (Answer 200 OrefNode.base (Plain "{}"))) cache true) /\
        (forall text, fetch_text (upstream e) = Return text ->
           OrefNode.handler JSON_parses e r cache
           = Outcome (Return (Answer 200 (<["X-Cache" := "MISS"]> OrefNode.base)
                                     (Plain (OrefNode.kept JSON_parses text))))
                     (Some (Cached (OrefNode.kept JSON_parses text) (now_store e + 15000)))
                     true))).
Proof.
  split.
  - assert (Hgen : forall rs cache,
              OrefNode.cache_clean JSON_parses cache ->
              Forall (fun o => forall a,
                        sent o = Return a -> answer_status a = 200 ->
                        exists body, answer_body a = Plain body /\
                                     OrefNode.clean JSON_parses body = true)
                     (OrefNode.serve JSON_parses rs cache)).
    { induction rs as [|[e r] rs IH]; intros cache Hc; simpl; [constructor|].
      destruct (node_step e r cache Hc) as [Hc' Hans].
      constructor; [exact Hans | apply IH, Hc']. }
    intros rs. apply Hgen. exact I.
  - intros e r cache ip Hm Hip Hlim. unfold OrefNode.handler. rewrite Hm, Hip.
    change (negb (String.eqb "GET" "GET")) with false. cbv iota.
    assert (Hgate : forall (A : Type) (x y : A),
              match OrefNode.limited r with Return true => x | _ => y end = y).
    { intros A x y. destruct (OrefNode.limited r) as [[|]|]; congruence. }
    rewrite Hgate. split.
    + intros c -> Hlt. unfold fresh. destruct (Z.ltb_spec (now_check e) (cached_until c)); [|lia].
      reflexivity.
    + intros ->. split.
      * intros x ->. reflexivity.
      * intros text ->. reflexivity.
Qed.

(** X27.  The edge build of the proxy never serves the feed.  A request
    that is not a GET is answered 405; a GET without [x-forwarded-for] makes
    the handler throw a [TypeError]; every other GET is answered 429,
    because the limiter is called without [await] and the promise it
    returns counts as true.  So no request is answered 200, the feed is
    never asked and the cache never set. *)
Theorem oref_edge_never_serves e r cache :
  cache_after (OrefEdge.handler JSON_parses e r cache) = cache /\
  asked_feed (OrefEdge.handler JSON_parses e r cache) = false /\
  (OrefEdge.method r <> "GET" ->
     exists a, sent (OrefEdge.handler JSON_parses e r cache) = Return a /\
               answer_status a = 405) /\
  (OrefEdge.method r = "GET" -> OrefEdge.headers r !! "x-forwarded-for" = None ->
     exists msg, sent (OrefEdge.handler JSON_parses e r cache) = Throw (Err "TypeError" msg)) /\
  (OrefEdge.method r = "GET" -> OrefEdge.headers r !! "x-forwarded-for" <> None ->
     exists a, sent (OrefEdge.handler JSON_parses e r cache) = Return a /\
               answer_status a = 429) /\
  (forall a, sent (OrefEdge.handler JSON_parses e r cache) = Return a ->
     answer_status a <> 200).
Proof.
  assert (Herr : forall st msg,
            exists a, OrefEdge.err_answer e st msg r = Return a /\ answer_status a = st).
  { intros st msg. unfold OrefEdge.err_answer, errResponse, getAllowedOrigin.
    destruct (String.eqb _ ""); [eexists; split; reflexivity|].
    cbn [read_header]. destruct (_ || _); eexists; split; reflexivity. }
  unfold OrefEdge.handler.
  destruct (String.eqb_spec (OrefEdge.method r) "GET") as [Hm|Hm]; cbn [negb].
  - unfold getIP. destruct (OrefEdge.headers r !! "x-forwarded-for") as [v|] eqn:Hx.
    + cbn [truthy OrefEdge.unawaited cache_after asked_feed sent].
      destruct (Herr 429 "too many requests") as (a & Ha & Hst).
      split; [reflexivity|]. split; [reflexivity|].
      split; [intros; contradiction|]. split; [intros; congruence|].
      split; [intros _ _; exists a; split; assumption|].
      intros a' Ha'. rewrite Ha in Ha'. injection Ha' as <-. lia.
    + cbn [cache_after asked_feed sent].
      split; [reflexivity|]. split; [reflexivity|].
      split; [intros; contradiction|].
      split; [intros _ _; eexists; reflexivity|].
      split; [intros; congruence|]. discriminate.
  - cbn [cache_after asked_feed sent].
    destruct (Herr 405 "method not allowed") as (a & Ha & Hst).
    split; [reflexivity|]. split; [reflexivity|].
    split; [intros _; exists a; split; assumption|].
    split; [intros; contradiction|]. split; [intros; contradiction|].
    intros a' Ha'. rewrite Ha in Ha'. injection Ha' as <-. lia.
Qed.

End Handler.

Lemma oref_node_serves_clean_bodies_witness :
  OrefNode.handler (fun _ => true) (OrefNode.at_ 20000 Quiet) OrefNode.poll
    (Some (Cached "[1]" 16020))
  = Outcome (Return (Answer 200 OrefNode.base (Plain "{}"))) (Some (Cached "[1]" 16020)) true /\
  OrefNode.handler (fun _ => true) (OrefNode.at_ 20000 (Text 120 OrefNode.hebrew_text)) OrefNode.poll None
  = Outcome (Return (Answer 200 (<["X-Cache" := "MISS"]> OrefNode.base)
                            (Plain (OrefNode.kept (fun _ => true) OrefNode.hebrew_text))))
            (Some (Cached (OrefNode.kept (fun _ => true) OrefNode.hebrew_text) (20020 + 15000)))
            true /\
  OrefNode.kept (fun _ => true) OrefNode.hebrew_text = OrefNode.hebrew_text.
Proof.
  split; [|split].
  - pose proof (proj2 (oref_node_serves_clean_bodies (fun _ => true))
                  (OrefNode.at_ 20000 Quiet) OrefNode.poll
                  (Some (Cached "[1]" 16020)) "10.0.0.7" eq_refl eq_refl ltac:(discriminate))
      as [_ Hmiss].
    destruct (Hmiss eq_refl) as [Hfail _].
    exact (Hfail Sources.AbortError eq_refl).
  - pose proof (proj2 (oref_node_serves_clean_bodies (fun _ => true))
                  (OrefNode.at_ 20000 (Text 120 OrefNode.hebrew_text)) OrefNode.poll
                  None "10.0.0.7" eq_refl eq_refl ltac:(discriminate))
      as [_ Hmiss].
    destruct (Hmiss eq_refl) as [_ Htext].
    exact (Htext OrefNode.hebrew_text eq_refl).
  - vm_compute. reflexivity.
Defined.

Lemma oref_edge_never_serves_witness :
  exists a,
    sent (OrefEdge.handler (fun _ => true) (OrefNode.at_ 1000 (Text 120 "[1]"))
            {| OrefEdge.method := "GET";
               OrefEdge.headers := {[ "x-forwarded-for" := "10.0.0.7" ]} |} None) = Return a /\
    answer_status a = 429.
Proof.
  apply (oref_edge_never_serves (fun _ => true) (OrefNode.at_ 1000 (Text 120 "[1]"))
           {| OrefEdge.method := "GET";
              OrefEdge.headers := {[ "x-forwarded-for" := "10.0.0.7" ]} |} None).
  - reflexivity.
  - discriminate.
Defined.

End OrefFacts.

(** ** The proxies: what reaches the provider, what reaches the client *)

Module ProxyFacts.

Import Http Proxy.

Section Extract.

Variable Number_of : value -> option Q.

Lemma flat_strOrNull v : flat (strOrNull v) = true.
Proof.
  destruct v; try reflexivity. simpl.
  destruct (Z.of_nat (js_length s) <? 64) eqn:E; [exact E | reflexivity].
Qed.

Lemma flat_numOrNull v : flat (numOrNull Number_of v) = true.
Proof. unfold numOrNull. destruct (Sources.numOrNull Number_of v); reflexivity. Qed.

Lemma flat_boolean v : flat (if is_boolean v then v else VNull) = true.
Proof. destruct v; reflexivity. Qed.

Lemma extractAggregates_flat raw key fields :
  extractAggregates Number_of raw key = Return (VObj fields) ->
  Forall (fun kv => flat (snd kv) = true) fields /\
  In (List.map fst fields)
     [["date"; "totalSales"; "cashSales"; "creditSales"; "deliverySales"; "otherSales";
       "transactionCount"; "vatIncluded"];
      ["date"; "totalSales"; "netSales"];
      ["date"; "cash"; "credit"; "other"];
      []].
Proof.
  unfold extractAggregates.
  destruct (String.eqb key "daily-summary");
    [|destruct (String.eqb key "sales"); [|destruct (String.eqb key "payments")]].
  all: try (destruct (nullish raw); [discriminate|]).
  all: intros [= <-]; split; [|simpl; tauto].
  all: repeat (apply List.Forall_cons;
               [cbn [snd];
                first [apply flat_strOrNull | apply flat_numOrNull | apply flat_boolean]|]).
  all: apply List.Forall_nil.
Qed.

Lemma extractShiftAggregates_flat raw key fields :
  extractShiftAggregates Number_of raw key = Return (VObj fields) ->
  Forall (fun kv => fst kv = "isOpen" \/ flat (snd kv) = true) fields /\
  In (List.map fst fields)
     [["date"; "totalHours"; "totalLaborCost"; "employeeCount"; "shiftsCount"];
      ["isOpen"; "openedAt"; "currentStaffCount"];
      []].
Proof.
  unfold extractShiftAggregates.
  destruct (_ || _); [|destruct (String.eqb key "shifts-current")].
  all: try (destruct (nullish raw); [discriminate|]).
  all: intros [= <-]; split; [|simpl; tauto].
  all: repeat (apply List.Forall_cons;
               [first [left; reflexivity
                      |right; cbn [snd]; first [apply flat_strOrNull | apply flat_numOrNull]]|]).
  all: apply List.Forall_nil.
Qed.

Lemma extract_is_object raw key v :
  extractAggregates Number_of raw key = Return v \/
  extractShiftAggregates Number_of raw key = Return v ->
  exists fields, v = VObj fields.
Proof.
  unfold extractAggregates, extractShiftAggregates. intros [H|H].
  - repeat case_match; simplify_eq; eexists; reflexivity.
  - repeat case_match; simplify_eq; eexists; reflexivity.
Qed.

Lemma access_throw_status d rd uid tid minRole x :
  Helpers.requireTenantAccess d rd uid tid minRole = Throw x ->
  status_or x 403 = 400 \/ status_or x 403 = 403 \/ status_or x 403 = 503.
Proof.
  unfold Helpers.requireTenantAccess, Helpers.unavailable.
  repeat case_match; intros; simplify_eq; simpl; tauto.
Qed.

(** What an answer of status 200 of [serve] is made of. *)
Lemma serve_200 paths minRole date_ok extract e r d a :
  rate_gate r = None ->
  sent (serve paths minRole date_ok extract e r d) = Return a -> status a = 200 ->
  exists raw key, extract raw key = Return (body a).
Proof.
  unfold serve. intros Hgate. rewrite Hgate.
  destruct (String.eqb (method r) "OPTIONS"); [intros [= <-]; discriminate|].
  destruct (negb _); [intros [= <-]; discriminate|].
  destruct (caller r) as [uid|]; [|intros [= <-]; discriminate].
  destruct (getIP _) as [ip|]; [|discriminate].
  destruct (String.eqb _ ""); [intros [= <-]; discriminate|].
  destruct (Helpers.requireTenantAccess _ _ _ _ _) as [role|x] eqn:Hacc.
  2:{ intros [= <-] H200. cbn [status] in H200.
      apply access_throw_status in Hacc. lia. }
  destruct (paths _) as [key|]; [|intros [= <-]; discriminate].
  destruct (negb _); [intros [= <-]; discriminate|].
  destruct (Sources.fetchWithTimeout _ _) as [up|]; [|intros [= <-]; discriminate].
  destruct (negb _); [intros [= <-]; discriminate|].
  destruct (Sources.json up false) as [raw|]; [|intros [= <-]; discriminate].
  destruct (extract raw key) as [agg|] eqn:Hx; [|intros [= <-]; discriminate].
  intros [= <-] _. exists raw, key. exact Hx.
Qed.

(** What a fetch of [serve] comes after, and what follows a failed one. *)
Lemma serve_fetched paths minRole date_ok extract e r d :
  fetched (serve paths minRole date_ok extract e r d) <> [] ->
  method r = "GET" /\ rate_gate r = None /\
  fetched (serve paths minRole date_ok extract e r d) = [default "" (q_path r)] /\
  paths (default "" (q_path r)) <> None /\
  date_ok (default "" (q_date r)) = true /\
  (exists uid role,
     caller r = Some uid /\
     Helpers.requireTenantAccess d (access_reads e) (VStr uid)
       (VStr (default "" (q_tenantId r))) (VStr minRole) = Return role) /\
  (Sources.fails (upstream e) 8000 = true ->
   exists msg,
     sent (serve paths minRole date_ok extract e r d)
     = Return (Answer 502 (cors e r) (error_body msg))).
Proof.
  unfold serve.
  destruct (String.eqb (method r) "OPTIONS"); [intros H; contradiction|].
  destruct (String.eqb_spec (method r) "GET") as [Hm|]; cbn [negb]; [|intros H; contradiction].
  destruct (caller r) as [uid|]; [|intros H; contradiction].
  destruct (getIP _) as [ip|]; [|intros H; contradiction].
  destruct (rate_gate r) as [[st msg]|]; [intros H; contradiction|].
  destruct (String.eqb _ ""); [intros H; contradiction|].
  destruct (Helpers.requireTenantAccess _ _ _ _ _) as [role|x] eqn:Hacc;
    [|intros H; contradiction].
  destruct (paths _) as [key|] eqn:Hp; [|intros H; contradiction].
  destruct (date_ok _) eqn:Hd; cbn [negb]; [|intros H; contradiction].
  intros _. split; [exact Hm|]. split; [reflexivity|].
  split.
  { repeat case_match; reflexivity. }
  split; [congruence|]. split; [reflexivity|]. split; [eauto|].
  intros Hfail. pose proof (BuilderFacts.fetchWithTimeout_fails _ _ Hfail) as Hf.
  destruct (Sources.fetchWithTimeout (upstream e) 8000) as [up|x].
  - destruct Hf as [-> _]. cbn [negb]. eexists. reflexivity.
  - eexists. reflexivity.
Qed.

Lemma cors_strict e r o :
  cors e r = Some o ->
  ALLOWED_ORIGIN e = Some o /\ headers r !! "origin" = Some o /\ o <> "" /\ o <> "null".
Proof.
  unfold cors.
  destruct (String.eqb_spec (default "" (headers r !! "origin")) ""); [discriminate|].
  destruct (String.eqb_spec (default "" (headers r !! "origin")) "null"); [discriminate|].
  destruct (String.eqb_spec (default "" (headers r !! "origin")) (default "" (ALLOWED_ORIGIN e)))
    as [Heq|]; [|discriminate].
  cbn [negb andb]. intros [= <-].
  destruct (headers r !! "origin") as [o|]; cbn [default from_option id] in *; [|congruence].
  destruct (ALLOWED_ORIGIN e) as [a|]; cbn [default from_option id] in *; [|congruence].
  subst a. repeat split; assumption.
Qed.

Lemma serve_origin paths minRole date_ok extract e r d a :
  sent (serve paths minRole date_ok extract e r d) = Return a ->
  allow_origin a = None \/ allow_origin a = cors e r.
Proof.
  unfold serve. repeat case_match; cbn [sent]; intros; simplify_eq; cbn [allow_origin];
    first [left; reflexivity | right; reflexivity].
Qed.

(** X28.  What the two proxies pass on from the provider is a fixed set of
    fields without structure.  Past the rate limiter, every answer of
    status 200 of the Beecomm proxy is an object whose keys are those of one
    of its three reports, or none, and whose values are [null], a boolean,
    a number or a string of fewer than 64 UTF-16 code units; so is every such
    answer of the Tabit proxy, with the keys of its two reports, but for
    the field [isOpen]: when the [is_open] of the provider is not a
    boolean, [isOpen] is whatever the provider put in its own [isOpen], of
    any shape. *)
Theorem proxies_forward_flat_aggregates e r d a :
  rate_gate r = None ->
  (sent (BeecommProxy.handler Number_of e r d) = Return a -> status a = 200 ->
     exists fields,
       body a = VObj fields /\
       Forall (fun kv => flat (snd kv) = true) fields /\
       In (List.map fst fields)
          [["date"; "totalSales"; "cashSales"; "creditSales"; "deliverySales"; "otherSales";
            "transactionCount"; "vatIncluded"];
           ["date"; "totalSales"; "netSales"];
           ["date"; "cash"; "credit"; "other"];
           []]) /\
  (sent (TabitProxy.handler Number_of e r d) = Return a -> status a = 200 ->
     exists fields,
       body a = VObj fields /\
       Forall (fun kv => fst kv = "isOpen" \/ flat (snd kv) = true) fields /\
       In (List.map fst fields)
          [["date"; "totalHours"; "totalLaborCost"; "employeeCount"; "shiftsCount"];
           ["isOpen"; "openedAt"; "currentStaffCount"];
           []]) /\
  (forall raw v,
     nullish raw = false -> is_boolean (get_prop raw "is_open") = false ->
     get_prop raw "isOpen" = v -> nullish v = false ->
     exists rest,
       extractShiftAggregates Number_of raw "shifts-current" = Return (VObj (("isOpen", v) :: rest))).
Proof.
  intros Hgate. split; [|split].
  - intros Hsent H200.
    destruct (serve_200 _ _ _ _ _ _ _ _ Hgate Hsent H200) as (raw & key & Hx).
    destruct (extract_is_object raw key (body a) (or_introl Hx)) as [fields Hf].
    exists fields. split; [exact Hf|]. rewrite Hf in Hx.
    apply (extractAggregates_flat raw key fields Hx).
  - intros Hsent H200.
    destruct (serve_200 _ _ _ _ _ _ _ _ Hgate Hsent H200) as (raw & key & Hx).
    destruct (extract_is_object raw key (body a) (or_intror Hx)) as [fields Hf].
    exists fields. split; [exact Hf|]. rewrite Hf in Hx.
    apply (extractShiftAggregates_flat raw key fields Hx).
  - intros raw v Hraw Hbool <- Hv. unfold extractShiftAggregates.
    change (String.eqb "shifts-current" "shifts-summary" || String.eqb "shifts-current" "labor-daily")
      with false.
    change (String.eqb "shifts-current" "shifts-current") with true.
    cbv iota. rewrite Hraw, Hbool. unfold coalesce at 1. rewrite Hv.
    eexists. reflexivity.
Qed.

(** X29.  Neither proxy asks its provider before the caller is let in: a
    fetch is made only for a GET, past the token check and the rate
    limiter, for a caller whom [requireTenantAccess] returned a role of the
    tenant of the query (at least manager for Beecomm, shift_manager for
    Tabit), and only for one of the three listed paths and a well-formed
    date; one fetch at most.  When the provider does not answer with a
    success status within 8 s the answer is 502 with a fixed message.  The
    [Access-Control-Allow-Origin] of an answer, when set, is the configured
    origin, equal to the [Origin] of the request. *)
Theorem proxies_fetch_after_access e r d :
  (fetched (BeecommProxy.handler Number_of e r d) <> [] ->
     method r = "GET" /\ rate_gate r = None /\
     fetched (BeecommProxy.handler Number_of e r d) = [default "" (q_path r)] /\
     BeecommProxy.ALLOWED_PATHS (default "" (q_path r)) <> None /\
     date_regex (default "" (q_date r)) = true /\
     (exists uid role,
        caller r = Some uid /\
        Helpers.requireTenantAccess d (access_reads e) (VStr uid)
          (VStr (default "" (q_tenantId r))) (VStr "manager") = Return role) /\
     (Sources.fails (upstream e) 8000 = true ->
      exists msg,
        sent (BeecommProxy.handler Number_of e r d)
        = Return (Answer 502 (cors e r) (error_body msg)))) /\
  (fetched (TabitProxy.handler Number_of e r d) <> [] ->
     method r = "GET" /\ rate_gate r = None /\
     fetched (TabitProxy.handler Number_of e r d) = [default "" (q_path r)] /\
     TabitProxy.ALLOWED_PATHS (default "" (q_path r)) <> None /\
     TabitProxy.date_ok (default "" (q_date r)) = true /\
     (exists uid role,
        caller r = Some uid /\
        Helpers.requireTenantAccess d (access_reads e) (VStr uid)
          (VStr (default "" (q_tenantId r))) (VStr "shift_manager") = Return role) /\
     (Sources.fails (upstream e) 8000 = true ->
      exists msg,
        sent (TabitProxy.handler Number_of e r d)
        = Return (Answer 502 (cors e r) (error_body msg)))) /\
  (forall a o,
     sent (BeecommProxy.handler Number_of e r d) = Return a \/
     sent (TabitProxy.handler Number_of e r d) = Return a ->
     allow_origin a = Some o ->
     ALLOWED_ORIGIN e = Some o /\ headers r !! "origin" = Some o /\ o <> "" /\ o <> "null").
Proof.
  split; [apply serve_fetched|]. split; [apply serve_fetched|].
  intros a o Hsent Ho. apply cors_strict.
  destruct Hsent as [Hsent|Hsent]; apply serve_origin in Hsent as [H|H]; congruence.
Qed.

End Extract.

Lemma proxies_forward_flat_aggregates_witness :
  exists rest,
    extractShiftAggregates Builder.numbers_only
      (VObj [("isOpen", VObj [("roster", VArr [VStr "dana"; VStr "noam"])])]) "shifts-current"
    = Return (VObj (("isOpen", VObj [("roster", VArr [VStr "dana"; VStr "noam"])]) :: rest)).
Proof.
  apply (proj2 (proj2 (proxies_forward_flat_aggregates Builder.numbers_only
                         (shop Sources.Silent) (ask "u1" "t1" "/v1/shifts/current" "")
                         Helpers.sample_db (Answer 200 None VNull) eq_refl))
           (VObj [("isOpen", VObj [("roster", VArr [VStr "dana"; VStr "noam"])])]));
    reflexivity.
Defined.

Lemma proxies_fetch_after_access_witness :
  exists msg,
    sent (BeecommProxy.handler Builder.numbers_only (shop (Sources.Responds 30 500 None))
            (ask "u1" "t1" "/v1/reports/sales" "2025-01-01") Helpers.sample_db)
    = Return (Answer 502 (Some "https://app.example.com") (error_body msg)).
Proof.
  apply (proj1 (proxies_fetch_after_access Builder.numbers_only
                  (shop (Sources.Responds 30 500 None))
                  (ask "u1" "t1" "/v1/reports/sales" "2025-01-01") Helpers.sample_db)).
  - vm_compute. discriminate.
  - reflexivity.
Defined.

End ProxyFacts.

(** ** The check agrees with what a build stored *)

Module CheckFacts.

Import Http Check.

Section Handler.

Variable Number_of : value -> option Q.
Variable TABIT_API_KEY : option string.

(** The figures of a document do not depend on the clock of the build. *)
Lemma build_figures nw t1 t2 tid date :
  match snd (Builder.buildDailyDoc Number_of TABIT_API_KEY nw t1 tid date),
        snd (Builder.buildDailyDoc Number_of TABIT_API_KEY nw t2 tid date) with
  | Return (_, a), Return (_, b) =>
      Builder.doc_revenue_total a = Builder.doc_revenue_total b /\
      Builder.doc_tickets a = Builder.doc_tickets b /\
      Builder.createdAt (Builder.meta a) = t1
  | Throw x, Throw y => x = y
  | _, _ => False
  end.
Proof.
  unfold Builder.buildDailyDoc.
  destruct (Sources.fetchBeecommDaily Number_of nw date) as [c0 [beecomm|x]]; [|reflexivity].
  destruct (Sources.fetchTabitHours _ _ _ _) as [c1 tabit].
  destruct (Sources.fetchWeather _ _ _) as [c2 weather].
  destruct (Sources.fetchOrefAlerts _ _) as [c3 oref].
  cbn [snd]. repeat split; reflexivity.
Qed.

(** X30.  The check reads and compares, and agrees with a build.  Past the
    validation and the access check: when the build fails, the answer is
    502 with the source and the reason of what was thrown; when no document
    is stored for the date, or its read fails, [match] is [null] and
    [stored] is false; and when the stored document is one that
    [buildDailyDoc] returned for that tenant and date while the providers
    answered as they do now, at whatever earlier time, [match] is true,
    [stored_at] is the time of that build and [stored] is true. *)
Theorem check_agrees_with_a_build e d uid tid date role :
  tid <> "" -> RTDB_FORBIDDEN tid = false -> date_regex date = true ->
  Helpers.requireTenantAccess d (access_reads e) (VStr uid) (VStr tid) (VStr "manager")
    = Return role ->
  (forall x,
     snd (Builder.buildDailyDoc Number_of TABIT_API_KEY (net e) (now e) tid date) = Throw x ->
     sent (handler Number_of TABIT_API_KEY e (check_request uid tid date) d)
     = Return (Refused 502 (upstream_failed x))) /\
  (forall path fresh,
     snd (Builder.buildDailyDoc Number_of TABIT_API_KEY (net e) (now e) tid date)
       = Return (path, fresh) ->
     (read_fault e <> None \/ daily (tenant_of d tid) !! date = None ->
        exists sum,
          sent (handler Number_of TABIT_API_KEY e (check_request uid tid date) d)
          = Return (Report tid date "main" fresh sum false) /\
          matches sum = None /\ stored_revenue sum = None /\ stored_at sum = None) /\
     (forall t0 path0 stored,
        read_fault e = None ->
        daily (tenant_of d tid) !! date = Some stored ->
        snd (Builder.buildDailyDoc Number_of TABIT_API_KEY (net e) t0 tid date)
          = Return (path0, stored) ->
        exists sum,
          sent (handler Number_of TABIT_API_KEY e (check_request uid tid date) d)
          = Return (Report tid date "main" fresh sum true) /\
          matches sum = Some true /\ stored_at sum = Some t0)).
Proof.
  intros Htid Hforb Hdate Hacc.
  assert (Hrun : handler Number_of TABIT_API_KEY e (check_request uid tid date) d
                 = let '(asked, built) :=
                     Builder.buildDailyDoc Number_of TABIT_API_KEY (net e) (now e) tid date in
                   match built with
                   | Throw x => Outcome (Return (Refused 502 (upstream_failed x))) asked
                   | Return (_, freshDoc) =>
                       let storedDoc :=
                         match read_fault e with
                         | Some _ => None
                         | None => daily (tenant_of d tid) !! date
                         end in
                       Outcome (Return (Report tid date BRANCH_ID freshDoc
                                          (compare freshDoc storedDoc)
                                          (match storedDoc with Some _ => true | None => false end)))
                               asked
                   end).
  { unfold handler, check_request, rate_gate.
    cbn -[RTDB_FORBIDDEN date_regex Helpers.requireTenantAccess Builder.buildDailyDoc
          tenant_of String.eqb getIP].
    change (String.eqb "GET" "GET") with true. cbn [negb].
    change (getIP (NodeHeaders {[ "x-forwarded-for" := "10.0.0.7" ]}))
      with (Return (A:=string) "10.0.0.7").
    cbv iota.
    destruct (String.eqb_spec tid ""); [contradiction|].
    rewrite Hforb, Hdate, Hacc. reflexivity. }
  rewrite Hrun.
  destruct (Builder.buildDailyDoc Number_of TABIT_API_KEY (net e) (now e) tid date)
    as [asked [[p doc]|x]] eqn:Hb; cbn [snd sent].
  - split; [discriminate|]. intros path fresh [= <- <-]. split.
    + intros Hnone.
      assert (match read_fault e with
              | Some _ => None
              | None => daily (tenant_of d tid) !! date
              end = None) as ->.
      { destruct Hnone as [Hf | ->]; destruct (read_fault e); congruence. }
      eexists. split; [reflexivity|]. repeat split.
    + intros t0 path0 stored -> -> H0.
      eexists. split; [reflexivity|]. cbn [compare matches stored_at option_map].
      pose proof (build_figures (net e) (now e) t0 tid date) as Hfig.
      rewrite Hb, H0 in Hfig. cbn [snd] in Hfig.
      pose proof (build_figures (net e) t0 t0 tid date) as Hat. rewrite H0 in Hat.
      destruct Hfig as (-> & -> & _). destruct Hat as (_ & _ & ->).
      split; [|reflexivity]. f_equal.
      apply andb_true_iff. split; apply Qeq_bool_iff; reflexivity.
  - split; [|discriminate]. intros y [= <-]. reflexivity.
Qed.

End Handler.

Lemma check_agrees_with_a_build_witness :
  exists fresh sum,
    sent (handler Builder.numbers_only None later (check_request "u1" "t1" "2025-01-01")
            Helpers.sample_db)
    = Return (Report "t1" "2025-01-01" "main" fresh sum false) /\
    matches sum = None.
Proof.
  destruct (snd (Builder.buildDailyDoc Builder.numbers_only None (net later) (now later)
                   "t1" "2025-01-01")) as [[path fresh]|x] eqn:Hb;
    [|vm_compute in Hb; discriminate].
  destruct (check_agrees_with_a_build Builder.numbers_only None later Helpers.sample_db
              "u1" "t1" "2025-01-01" "manager" ltac:(discriminate) eq_refl eq_refl eq_refl)
    as [_ H].
  destruct (H path fresh Hb) as [Hnone _].
  destruct Hnone as (sum & Hsent & Hm & _); [right; reflexivity|].
  exists fresh, sum. split; assumption.
Defined.

End CheckFacts.
